(** * Driving-event engine of the ITSON driving monitor

    A shallow embedding of the [DataProcessor] class in its two calibrated
    variants:

    - [FieldTested]: [src/data-processor.js] (v2.2, hybrid GPS + accelerometer);
    - [Calibrated]:  [src/unnamed/part_001]  (v2.1, GPS-centred filtering);

    together with [Utils.validateDataStructure] of [src/unnamed/part_000];
    and, around it, the session statistics of both variants, the helpers
    [formatDuration], [simpleHash], [sanitizeInput], [log] and [saveLog] of
    [Utils], the class [Storage], the recording path of [DrivingMonitorApp]
    ([recordDataPoint], [mergeWithLastRecord]) and [detectEventsForRow] of
    [src/export-manager.js].

    Modelling conventions.

    - A JavaScript number is an exact rational ([Q]).  Rounding, infinities
      and NaN are outside the model; in particular [x / 0] is [0] in [Q],
      so statements that depend on the value of a quotient carry the
      hypothesis that the divisor is not zero.  General statements are
      made on the quotients, sums and means that the code forms and on
      their comparisons with constants, not on identities such as
      [(k * t) / t = k] that binary64 arithmetic does not keep; the
      concrete runs are evaluated exactly.
    - An optional numeric property is an [option Q]; [None] is [undefined].
      JavaScript truthiness of such a property is [truthy]: present and
      different from zero.
    - Arrays are lists, oldest element first: [push] appends at the end,
      [shift] drops the head, [slice(-n)] keeps the last [n] elements.
    - [Date.now()] is the argument [now] of each entry point of the
      processor, which reads the clock once per synchronous call.
      [recordDataPoint] reads the clock itself, earlier, for the stamp of
      the record: [recordDataPoint_at] takes both readings.
    - The numeric properties of a sample are numbers or absent, and on
      such samples no statement raises.  [WideData] widens the three axes
      to BigInts, on which the [try] block of the field-tested
      [processDataPoint] raises a TypeError: [processDataPoint_try] is that
      function with its [catch] clause.
    - [Math.sqrt] and [Utils.calculateDistance] (haversine, trigonometric)
      are not rational functions: they are parameters of the model.
    - Logging and observer callbacks do not change the processor and are
      left out.
    - Whole numbers that the code handles as integers (seconds, hashes, the
      rounded risk score) are in [Z]; [Math.floor] of a quotient is [Z.div],
      the remainder [%] is [Z.rem], [ToInt32] is written out.
    - Local storage holds what was stored: serialisation to JSON and back is
      the identity, and a write does not fail.
    - A string is a sequence of code units below 256 ([string], or
      [list ascii] where the code works on its characters). *)

From Stdlib Require Import QArith Qabs Qminmax ZArith String List Sorted Bool Lia Lqa.
From Stdlib Require Import Qround Ascii DecimalString.
Import ListNotations.
Local Open Scope Q_scope.

(** ** JavaScript helpers *)

(** [a > b], [a < b], [a >= b], [a <= b] on numbers. *)
Definition Qgtb (a b : Q) : bool := negb (Qle_bool a b).
Definition Qltb (a b : Q) : bool := negb (Qle_bool b a).
Definition Qgeb (a b : Q) : bool := Qle_bool b a.
Definition Qleb (a b : Q) : bool := Qle_bool a b.

(** Truthiness of a number: [0] is falsy. *)
Definition truthyQ (q : Q) : bool := negb (Qeq_bool q 0).

(** Truthiness of an optional numeric property. *)
Definition truthy (o : option Q) : bool :=
  match o with
  | Some q => truthyQ q
  | None => false
  end.

(** [o !== undefined]. *)
Definition defined {A : Type} (o : option A) : bool :=
  match o with
  | Some _ => true
  | None => false
  end.

(** [o || d] where [d] is a number. *)
Definition orNum (o : option Q) (d : Q) : Q :=
  match o with
  | Some q => if truthyQ q then q else d
  | None => d
  end.

(** The value of a numeric property that the code has tested to be defined. *)
Definition num (o : option Q) : Q :=
  match o with
  | Some q => q
  | None => 0
  end.

(** [o || null]: a falsy value is replaced by [null]. *)
Definition orNull (o : option Q) : option Q :=
  if truthy o then o else None.

(** [arr.push(x)]. *)
Definition push {A : Type} (l : list A) (x : A) : list A := l ++ [x].

(** [arr.shift()] (the removed element is not used by the code). *)
Definition shift {A : Type} (l : list A) : list A := tl l.

(** [arr.push(x); if (arr.length > cap) arr.shift();] *)
Definition push_capped {A : Type} (cap : nat) (l : list A) (x : A) : list A :=
  let l' := push l x in
  if Nat.ltb cap (length l') then shift l' else l'.

(** [arr.slice(-n)]. *)
Definition slice_last {A : Type} (n : nat) (l : list A) : list A :=
  skipn (length l - n) l.

(** [arr[arr.length - 1]]. *)
Definition last_elem {A : Type} (l : list A) : option A :=
  nth_error l (length l - 1).

(** [arr.reduce((sum, a) => sum + f(a), 0)]. *)
Definition sum_by {A : Type} (f : A -> Q) (l : list A) : Q :=
  fold_left (fun sum a => sum + f a) l 0.

(** [arr.length] as a number. *)
Definition lengthQ {A : Type} (l : list A) : Q := inject_Z (Z.of_nat (length l)).

(** A stand-in for [Math.sqrt] used to run the model on concrete inputs:
    for [q = n/d] it returns [floor (sqrt (n*d)) / d], which is the exact
    root whenever [n*d] is a perfect square. *)
Definition Qsqrt (q : Q) : Q :=
  Z.sqrt (Qnum q * Zpos (Qden q)) # Qden q.

(** A stand-in for [Utils.calculateDistance] used to run the model on
    concrete inputs in which every compared pair of fixes is the same point:
    there the haversine distance is exactly [0]. *)
Definition same_point_distance (lat1 lon1 lat2 lon2 : Q) : Q := 0.

(** ** Data shared by the variants *)

(** A required property of the sample object, as [validateDataStructure]
    sees it. *)
Inductive Field (A : Type) : Type :=
| Missing : Field A              (* the key is not in the object *)
| WrongType : Field A            (* present, but [typeof] is not 'string' *)
| Present : A -> Field A.        (* a string *)
Arguments Missing {A}.
Arguments WrongType {A}.
Arguments Present {A} _.

(** The sample object.  A string [timestamp] is represented by the instant
    (epoch milliseconds) that [new Date(timestamp)] denotes. *)
Record RawData : Type := mkRaw {
  timestamp : Field Q;
  participante : Field string;
  lat : option Q;
  lon : option Q;
  velocidad : option Q;
  x : option Q;
  y : option Q;
  z : option Q
}.

(** [new Date(data.timestamp)] as a number, for a validated sample. *)
Definition instant (d : RawData) : Q :=
  match timestamp d with
  | Present t => t
  | _ => 0
  end.

(** An axis property as a caller may pass it to [processDataPoint]: absent,
    a number, or a BigInt.  A BigInt is truthy unless it is [0n] and is
    different from [undefined], like the number of the same value; but
    arithmetic between a BigInt and a number raises a TypeError. *)
Inductive Axis : Type :=
| no_axis
| number_axis (q : Q)
| bigint_axis (n : Z).

(** The sample object with such axes; the other properties are those of
    [RawData]. *)
Record WideData : Type := mkWide {
  w_timestamp : Field Q;
  w_participante : Field string;
  w_lat : option Q;
  w_lon : option Q;
  w_velocidad : option Q;
  w_x : Axis;
  w_y : Axis;
  w_z : Axis
}.

(** The value of an axis read as a number. *)
Definition axis_value (a : Axis) : option Q :=
  match a with
  | no_axis => None
  | number_axis q => Some q
  | bigint_axis n => Some (inject_Z n)
  end.

Definition is_bigint (a : Axis) : bool :=
  match a with
  | bigint_axis _ => true
  | _ => false
  end.

(** The sample with each axis read as a number: what the tests
    [!data.x] and [rawData.x !== undefined] see. *)
Definition plain (w : WideData) : RawData :=
  {| timestamp := w_timestamp w; participante := w_participante w;
     lat := w_lat w; lon := w_lon w; velocidad := w_velocidad w;
     x := axis_value (w_x w); y := axis_value (w_y w); z := axis_value (w_z w) |}.

(** A sample whose axes are numbers or absent. *)
Definition widen (d : RawData) : WideData :=
  let axis o := match o with Some q => number_axis q | None => no_axis end in
  {| w_timestamp := timestamp d; w_participante := participante d;
     w_lat := lat d; w_lon := lon d; w_velocidad := velocidad d;
     w_x := axis (x d); w_y := axis (y d); w_z := axis (z d) |}.

(** Some axis holds a BigInt. *)
Definition has_bigint (w : WideData) : bool :=
  is_bigint (w_x w) || is_bigint (w_y w) || is_bigint (w_z w).

(** What a statement inside a [try] block does: it completes with a value
    or raises an exception. *)
Inductive Outcome (A : Type) : Type :=
| Returned (a : A)
| Raised.
Arguments Returned {A} _.
Arguments Raised {A}.

Inductive EventType : Type :=
| harsh_acceleration_t
| harsh_braking_t
| aggressive_turn_t
| speeding_t.

Inductive Severity : Type := low | moderate | high | extreme.

Inductive Direction : Type := right | left.

Inductive DetectionMethod : Type := GPS_Accel | Accel_Only.

Record Vec3 : Type := mkVec3 { vx : Q; vy : Q; vz : Q }.

(** An emitted event.  [ev_direction] is set for turns, [ev_speed] and
    [ev_limit] as the variant sets them, [ev_method] by the field-tested
    variant only. *)
Record DrivingEvent : Type := mkEvent {
  ev_type : EventType;
  ev_severity : Severity;
  ev_value : Q;
  ev_direction : option Direction;
  ev_speed : option Q;
  ev_limit : option Q;
  ev_method : option DetectionMethod;
  ev_timestamp : Q;
  ev_location : option Q * option Q;
  ev_confidence : Q
}.

(** [this.eventCounters]. *)
Record EventCounters : Type := mkCounters {
  c_harsh_acceleration : nat;
  c_harsh_braking : nat;
  c_aggressive_turn : nat;
  c_speeding : nat
}.

Definition zeroCounters : EventCounters := mkCounters 0 0 0 0.

(** [this.eventCounters[event.type]++]. *)
Definition bump (c : EventCounters) (t : EventType) : EventCounters :=
  match t with
  | harsh_acceleration_t =>
      mkCounters (S (c_harsh_acceleration c)) (c_harsh_braking c) (c_aggressive_turn c) (c_speeding c)
  | harsh_braking_t =>
      mkCounters (c_harsh_acceleration c) (S (c_harsh_braking c)) (c_aggressive_turn c) (c_speeding c)
  | aggressive_turn_t =>
      mkCounters (c_harsh_acceleration c) (c_harsh_braking c) (S (c_aggressive_turn c)) (c_speeding c)
  | speeding_t =>
      mkCounters (c_harsh_acceleration c) (c_harsh_braking c) (c_aggressive_turn c) (S (c_speeding c))
  end.

(** [events.forEach(event => this.eventCounters[event.type]++)]. *)
Definition count_events (c : EventCounters) (evs : list DrivingEvent) : EventCounters :=
  fold_left (fun c e => bump c (ev_type e)) evs c.

(** [this.lastEventTime]: an object with at most the four event-type keys. *)
Record LastEventTime : Type := mkLast {
  l_harsh_acceleration : option Q;
  l_harsh_braking : option Q;
  l_aggressive_turn : option Q;
  l_speeding : option Q
}.

Definition noLast : LastEventTime := mkLast None None None None.

Definition last_of (l : LastEventTime) (t : EventType) : option Q :=
  match t with
  | harsh_acceleration_t => l_harsh_acceleration l
  | harsh_braking_t => l_harsh_braking l
  | aggressive_turn_t => l_aggressive_turn l
  | speeding_t => l_speeding l
  end.

Definition set_last (l : LastEventTime) (t : EventType) (now : Q) : LastEventTime :=
  match t with
  | harsh_acceleration_t => mkLast (Some now) (l_harsh_braking l) (l_aggressive_turn l) (l_speeding l)
  | harsh_braking_t => mkLast (l_harsh_acceleration l) (Some now) (l_aggressive_turn l) (l_speeding l)
  | aggressive_turn_t => mkLast (l_harsh_acceleration l) (l_harsh_braking l) (Some now) (l_speeding l)
  | speeding_t => mkLast (l_harsh_acceleration l) (l_harsh_braking l) (l_aggressive_turn l) (Some now)
  end.

(** [!this.lastEventTime[t] || now - this.lastEventTime[t] > gap]. *)
Definition may_fire (last : option Q) (now gap : Q) : bool :=
  match last with
  | Some t0 => negb (truthyQ t0) || Qgtb (now - t0) gap
  | None => true
  end.

(** [{ lat: ..., lon: ..., timestamp: Date.now() }]. *)
Record GPSPoint : Type := mkGPS { g_lat : Q; g_lon : Q; g_timestamp : Q }.

(** [calculateSpeedingSeverity], identical in both variants. *)
Definition calculateSpeedingSeverity (excess : Q) : Severity :=
  if Qgeb excess 40 then extreme
  else if Qgeb excess 30 then high
  else if Qgeb excess 20 then moderate
  else low.

(** [Utils.validateDataStructure]; [None] is an argument that is [null],
    [undefined] or not an object. *)
Definition validateDataStructure (data : option RawData) : bool :=
  match data with
  | None => false
  | Some d =>
      match timestamp d, participante d with
      | Missing, _ => false
      | _, Missing => false
      | WrongType, _ => false
      | Present _, WrongType => false
      | Present _, Present _ => true
      end
  end.

(** The guarded [events.push(...); this.lastEventTime[t] = now] that each
    detection block of both variants ends with. *)
Definition emit (acc : list DrivingEvent * LastEventTime) (now gap : Q)
  (e : DrivingEvent) : list DrivingEvent * LastEventTime :=
  if may_fire (last_of (snd acc) (ev_type e)) now gap
  then (push (fst acc) e, set_last (snd acc) (ev_type e) now)
  else acc.

(** A detection block: when its trigger holds (the block has an event to
    offer), the guarded emission; otherwise nothing. *)
Definition emit_opt (acc : list DrivingEvent * LastEventTime) (now gap : Q)
  (candidate : option DrivingEvent) : list DrivingEvent * LastEventTime :=
  match candidate with
  | Some e => emit acc now gap e
  | None => acc
  end.

(** Feeding a sequence of calls [(now, rawData)] to one processor whose
    entry point is [step]: the value returned by each call, in order, and
    the processor at the end. *)
Fixpoint run_with {S R : Type} (step : option RawData -> Q -> S -> option R * S)
  (st : S) (calls : list (Q * option RawData)) : list (option R) * S :=
  match calls with
  | [] => ([], st)
  | (now, rawData) :: rest =>
      let '(r, st1) := step rawData now st in
      let '(rs, st2) := run_with step st1 rest in
      (r :: rs, st2)
  end.

(** ** The field-tested variant: [src/data-processor.js] *)

Module FieldTested.

(** [this.thresholds]. *)
Record Thresholds : Type := mkThresholds {
  harsh_acceleration : Q;
  harsh_braking : Q;
  aggressive_turn : Q;
  speeding : Q;
  minimum_speed : Q;
  motion_threshold : Q;
  sustained_motion : Q;
  acceleration_noise : Q;
  gps_noise : Q;
  stability_time : Q
}.

Definition defaultThresholds : Thresholds :=
  mkThresholds 2 2 3 25 3 (3#2) 5 (1#2) 1 2000.

(** An entry of [this.accelerationHistory]. *)
Record AccelSample : Type := mkAccel {
  a_x : Q; a_y : Q; a_z : Q; a_magnitude : Q; a_timestamp : Q
}.

(** [this.baselineAcceleration] when it is not [null]. *)
Record Baseline : Type := mkBaseline {
  b_x : Q; b_y : Q; b_z : Q; b_magnitude : Q
}.

(** An entry of [this.motionHistory]. *)
Record MotionEntry : Type := mkMotion {
  moving : bool; variation : Q; m_timestamp : Q
}.

(** The object built by [enrichDataFieldTested]: the sample ([...rawData])
    and the derived properties. *)
Record Enriched : Type := mkEnriched {
  e_raw : RawData;
  acceleration_magnitude : option Q;
  filtered_acceleration : option Vec3;
  estimated_speed : option Q;
  longitudinal_acceleration : option Q;
  vehicle_moving : bool;
  movement_confidence : Q;
  gps_available : bool;
  detection_method : DetectionMethod
}.

(** The mutable properties of a [DataProcessor].  [gpsAvailable] holds the
    truthiness of [rawData.lat && rawData.lon]; [lastGPSPoint] and
    [wasMoving] are [undefined] until first assigned. *)
Record State : Type := mkState {
  thresholds : Thresholds;
  eventCounters : EventCounters;
  dataBuffer : list Enriched;
  accelerationHistory : list AccelSample;
  motionHistory : list MotionEntry;
  baselineAcceleration : option Baseline;
  lastEventTime : LastEventTime;
  isVehicleMoving : bool;
  movementConfidence : Q;
  gpsAvailable : bool;
  lastRecordTime : Q;
  recordInterval : Q;
  currentSpeedLimit : Q;
  lastGPSPoint : option GPSPoint;
  wasMoving : option bool
}.

Definition set_thresholds (st : State) (v : Thresholds) : State :=
  {| thresholds := v; eventCounters := eventCounters st; dataBuffer := dataBuffer st;
     accelerationHistory := accelerationHistory st; motionHistory := motionHistory st;
     baselineAcceleration := baselineAcceleration st; lastEventTime := lastEventTime st;
     isVehicleMoving := isVehicleMoving st; movementConfidence := movementConfidence st;
     gpsAvailable := gpsAvailable st; lastRecordTime := lastRecordTime st;
     recordInterval := recordInterval st; currentSpeedLimit := currentSpeedLimit st;
     lastGPSPoint := lastGPSPoint st; wasMoving := wasMoving st |}.

Definition set_eventCounters (st : State) (v : EventCounters) : State :=
  {| thresholds := thresholds st; eventCounters := v; dataBuffer := dataBuffer st;
     accelerationHistory := accelerationHistory st; motionHistory := motionHistory st;
     baselineAcceleration := baselineAcceleration st; lastEventTime := lastEventTime st;
     isVehicleMoving := isVehicleMoving st; movementConfidence := movementConfidence st;
     gpsAvailable := gpsAvailable st; lastRecordTime := lastRecordTime st;
     recordInterval := recordInterval st; currentSpeedLimit := currentSpeedLimit st;
     lastGPSPoint := lastGPSPoint st; wasMoving := wasMoving st |}.

Definition set_dataBuffer (st : State) (v : list Enriched) : State :=
  {| thresholds := thresholds st; eventCounters := eventCounters st; dataBuffer := v;
     accelerationHistory := accelerationHistory st; motionHistory := motionHistory st;
     baselineAcceleration := baselineAcceleration st; lastEventTime := lastEventTime st;
     isVehicleMoving := isVehicleMoving st; movementConfidence := movementConfidence st;
     gpsAvailable := gpsAvailable st; lastRecordTime := lastRecordTime st;
     recordInterval := recordInterval st; currentSpeedLimit := currentSpeedLimit st;
     lastGPSPoint := lastGPSPoint st; wasMoving := wasMoving st |}.

Definition set_accelerationHistory (st : State) (v : list AccelSample) : State :=
  {| thresholds := thresholds st; eventCounters := eventCounters st;
     dataBuffer := dataBuffer st; accelerationHistory := v;
     motionHistory := motionHistory st; baselineAcceleration := baselineAcceleration st;
     lastEventTime := lastEventTime st; isVehicleMoving := isVehicleMoving st;
     movementConfidence := movementConfidence st; gpsAvailable := gpsAvailable st;
     lastRecordTime := lastRecordTime st; recordInterval := recordInterval st;
     currentSpeedLimit := currentSpeedLimit st; lastGPSPoint := lastGPSPoint st;
     wasMoving := wasMoving st |}.

Definition set_motionHistory (st : State) (v : list MotionEntry) : State :=
  {| thresholds := thresholds st; eventCounters := eventCounters st;
     dataBuffer := dataBuffer st; accelerationHistory := accelerationHistory st;
     motionHistory := v; baselineAcceleration := baselineAcceleration st;
     lastEventTime := lastEventTime st; isVehicleMoving := isVehicleMoving st;
     movementConfidence := movementConfidence st; gpsAvailable := gpsAvailable st;
     lastRecordTime := lastRecordTime st; recordInterval := recordInterval st;
     currentSpeedLimit := currentSpeedLimit st; lastGPSPoint := lastGPSPoint st;
     wasMoving := wasMoving st |}.

Definition set_baselineAcceleration (st : State) (v : option Baseline) : State :=
  {| thresholds := thresholds st; eventCounters := eventCounters st;
     dataBuffer := dataBuffer st; accelerationHistory := accelerationHistory st;
     motionHistory := motionHistory st; baselineAcceleration := v;
     lastEventTime := lastEventTime st; isVehicleMoving := isVehicleMoving st;
     movementConfidence := movementConfidence st; gpsAvailable := gpsAvailable st;
     lastRecordTime := lastRecordTime st; recordInterval := recordInterval st;
     currentSpeedLimit := currentSpeedLimit st; lastGPSPoint := lastGPSPoint st;
     wasMoving := wasMoving st |}.

Definition set_lastEventTime (st : State) (v : LastEventTime) : State :=
  {| thresholds := thresholds st; eventCounters := eventCounters st;
     dataBuffer := dataBuffer st; accelerationHistory := accelerationHistory st;
     motionHistory := motionHistory st; baselineAcceleration := baselineAcceleration st;
     lastEventTime := v; isVehicleMoving := isVehicleMoving st;
     movementConfidence := movementConfidence st; gpsAvailable := gpsAvailable st;
     lastRecordTime := lastRecordTime st; recordInterval := recordInterval st;
     currentSpeedLimit := currentSpeedLimit st; lastGPSPoint := lastGPSPoint st;
     wasMoving := wasMoving st |}.

Definition set_isVehicleMoving (st : State) (v : bool) : State :=
  {| thresholds := thresholds st; eventCounters := eventCounters st;
     dataBuffer := dataBuffer st; accelerationHistory := accelerationHistory st;
     motionHistory := motionHistory st; baselineAcceleration := baselineAcceleration st;
     lastEventTime := lastEventTime st; isVehicleMoving := v;
     movementConfidence := movementConfidence st; gpsAvailable := gpsAvailable st;
     lastRecordTime := lastRecordTime st; recordInterval := recordInterval st;
     currentSpeedLimit := currentSpeedLimit st; lastGPSPoint := lastGPSPoint st;
     wasMoving := wasMoving st |}.

Definition set_movementConfidence (st : State) (v : Q) : State :=
  {| thresholds := thresholds st; eventCounters := eventCounters st;
     dataBuffer := dataBuffer st; accelerationHistory := accelerationHistory st;
     motionHistory := motionHistory st; baselineAcceleration := baselineAcceleration st;
     lastEventTime := lastEventTime st; isVehicleMoving := isVehicleMoving st;
     movementConfidence := v; gpsAvailable := gpsAvailable st;
     lastRecordTime := lastRecordTime st; recordInterval := recordInterval st;
     currentSpeedLimit := currentSpeedLimit st; lastGPSPoint := lastGPSPoint st;
     wasMoving := wasMoving st |}.

Definition set_gpsAvailable (st : State) (v : bool) : State :=
  {| thresholds := thresholds st; eventCounters := eventCounters st;
     dataBuffer := dataBuffer st; accelerationHistory := accelerationHistory st;
     motionHistory := motionHistory st; baselineAcceleration := baselineAcceleration st;
     lastEventTime := lastEventTime st; isVehicleMoving := isVehicleMoving st;
     movementConfidence := movementConfidence st; gpsAvailable := v;
     lastRecordTime := lastRecordTime st; recordInterval := recordInterval st;
     currentSpeedLimit := currentSpeedLimit st; lastGPSPoint := lastGPSPoint st;
     wasMoving := wasMoving st |}.

Definition set_lastRecordTime (st : State) (v : Q) : State :=
  {| thresholds := thresholds st; eventCounters := eventCounters st;
     dataBuffer := dataBuffer st; accelerationHistory := accelerationHistory st;
     motionHistory := motionHistory st; baselineAcceleration := baselineAcceleration st;
     lastEventTime := lastEventTime st; isVehicleMoving := isVehicleMoving st;
     movementConfidence := movementConfidence st; gpsAvailable := gpsAvailable st;
     lastRecordTime := v; recordInterval := recordInterval st;
     currentSpeedLimit := currentSpeedLimit st; lastGPSPoint := lastGPSPoint st;
     wasMoving := wasMoving st |}.

Definition set_lastGPSPoint (st : State) (v : option GPSPoint) : State :=
  {| thresholds := thresholds st; eventCounters := eventCounters st;
     dataBuffer := dataBuffer st; accelerationHistory := accelerationHistory st;
     motionHistory := motionHistory st; baselineAcceleration := baselineAcceleration st;
     lastEventTime := lastEventTime st; isVehicleMoving := isVehicleMoving st;
     movementConfidence := movementConfidence st; gpsAvailable := gpsAvailable st;
     lastRecordTime := lastRecordTime st; recordInterval := recordInterval st;
     currentSpeedLimit := currentSpeedLimit st; lastGPSPoint := v;
     wasMoving := wasMoving st |}.

Definition set_wasMoving (st : State) (v : option bool) : State :=
  {| thresholds := thresholds st; eventCounters := eventCounters st;
     dataBuffer := dataBuffer st; accelerationHistory := accelerationHistory st;
     motionHistory := motionHistory st; baselineAcceleration := baselineAcceleration st;
     lastEventTime := lastEventTime st; isVehicleMoving := isVehicleMoving st;
     movementConfidence := movementConfidence st; gpsAvailable := gpsAvailable st;
     lastRecordTime := lastRecordTime st; recordInterval := recordInterval st;
     currentSpeedLimit := currentSpeedLimit st; lastGPSPoint := lastGPSPoint st;
     wasMoving := v |}.

(** [new DataProcessor()]. *)
Definition new_DataProcessor : State :=
  {| thresholds := defaultThresholds; eventCounters := zeroCounters;
     dataBuffer := []; accelerationHistory := []; motionHistory := [];
     baselineAcceleration := None; lastEventTime := noLast;
     isVehicleMoving := false; movementConfidence := 0; gpsAvailable := false;
     lastRecordTime := 0; recordInterval := 1500; currentSpeedLimit := 60;
     lastGPSPoint := None; wasMoving := None |}.

(** [this.bufferSize]. *)
Definition bufferSize : nat := 8.

(** What [processDataPoint] returns when it is not [null]. *)
Record Result : Type := mkResult {
  processed : Enriched;
  events : list DrivingEvent;
  counters : EventCounters
}.

Section Primitives.

(** [Math.sqrt] and [Utils.calculateDistance]. *)
Variable Msqrt : Q -> Q.
Variable calculateDistance : Q -> Q -> Q -> Q -> Q.

(** [calculateAccelerationBaseline]. *)
Definition calculateAccelerationBaseline (st : State) : option Baseline :=
  if Nat.ltb (length (accelerationHistory st)) 5 then None
  else
    let recent := slice_last 5 (accelerationHistory st) in
    Some {| b_x := sum_by a_x recent / lengthQ recent;
            b_y := sum_by a_y recent / lengthQ recent;
            b_z := sum_by a_z recent / lengthQ recent;
            b_magnitude := sum_by a_magnitude recent / lengthQ recent |}.

(** [calculateAccelerationVariation]. *)
Definition calculateAccelerationVariation (st : State) (current : AccelSample) : Q :=
  match baselineAcceleration st with
  | None => 0
  | Some b =>
      let deltaX := Qabs (a_x current - b_x b) in
      let deltaY := Qabs (a_y current - b_y b) in
      let deltaZ := Qabs (a_z current - b_z b) in
      Msqrt (deltaX ^ 2 + deltaY ^ 2 + deltaZ ^ 2)
  end.

(** [detectMotionFromAccelerometer]: the returned flag and the updated
    processor. *)
Definition detectMotionFromAccelerometer (data : RawData) (now : Q) (st : State)
  : bool * State :=
  if negb (truthy (x data)) || negb (truthy (y data)) || negb (truthy (z data))
  then (false, st)
  else
    let currentAccel :=
      {| a_x := num (x data); a_y := num (y data); a_z := num (z data);
         a_magnitude := Msqrt (num (x data) ^ 2 + num (y data) ^ 2 + num (z data) ^ 2);
         a_timestamp := now |} in
    let st1 :=
      set_accelerationHistory st (push_capped 10 (accelerationHistory st) currentAccel) in
    let st2 :=
      if negb (defined (baselineAcceleration st1))
         && Nat.leb 5 (length (accelerationHistory st1))
      then set_baselineAcceleration st1 (calculateAccelerationBaseline st1)
      else st1 in
    if negb (defined (baselineAcceleration st2)) then (false, st2)
    else
      let variation := calculateAccelerationVariation st2 currentAccel in
      let isMoving := Qgtb variation (motion_threshold (thresholds st2)) in
      (isMoving,
       set_motionHistory st2
         (push_capped 20 (motionHistory st2)
            {| moving := isMoving; variation := variation; m_timestamp := now |})).

(** [hasSustainedMotion]. *)
Definition hasSustainedMotion (st : State) : bool :=
  if Nat.ltb (length (motionHistory st)) 5 then false
  else
    let recent := slice_last 5 (motionHistory st) in
    let movingCount := length (filter moving recent) in
    Nat.leb 3 movingCount.

(** [hasGPSMovement]. *)
Definition hasGPSMovement (data : RawData) (now : Q) (st : State) : bool * State :=
  match lastGPSPoint st with
  | Some p =>
      if negb (truthy (lat data)) || negb (truthy (lon data))
      then (false, st)
      else
        let distance :=
          calculateDistance (g_lat p) (g_lon p) (num (lat data)) (num (lon data)) in
        let timeDiff := (now - g_timestamp p) / 1000 in
        let calculatedSpeed :=
          if Qgtb timeDiff 0 then (distance / timeDiff) * (36 # 10) else 0 in
        (Qgtb calculatedSpeed (gps_noise (thresholds st)),
         set_lastGPSPoint st
           (Some {| g_lat := num (lat data); g_lon := num (lon data);
                    g_timestamp := now |}))
  | None =>
      (false,
       if truthy (lat data) && truthy (lon data)
       then set_lastGPSPoint st
              (Some {| g_lat := num (lat data); g_lon := num (lon data);
                       g_timestamp := now |})
       else st)
  end.

(** [if (flag) confidence += points]. *)
Definition add_if (flag : bool) (points confidence : Q) : Q :=
  if flag then confidence + points else confidence.

(** The evidence that [updateHybridMovementDetection] gathers before it
    fuses it: the three local flags, the result of [hasSustainedMotion] and
    the processor after the GPS and accelerometer histories are updated. *)
Record Evidence : Type := mkEvidence {
  speedCriteria : bool;
  gpsMotion : bool;
  accelMotion : bool;
  sustained : bool;
  after_evidence : State
}.

Definition gatherEvidence (rawData : RawData) (now : Q) (st : State) : Evidence :=
  let hasGPS := truthy (lat rawData) && truthy (lon rawData) in
  let st1 := set_gpsAvailable st hasGPS in
  let '(speedCriteria, (gpsMotion, st2)) :=
    if hasGPS
    then
      let speed := orNum (velocidad rawData) 0 in
      (Qgtb speed (minimum_speed (thresholds st1)), hasGPSMovement rawData now st1)
    else (false, (false, st1)) in
  let '(accelMotion, st3) := detectMotionFromAccelerometer rawData now st2 in
  {| speedCriteria := speedCriteria; gpsMotion := gpsMotion;
     accelMotion := accelMotion; sustained := hasSustainedMotion st3;
     after_evidence := st3 |}.

(** The sum built by the [confidence += ...] statements. *)
Definition fuseConfidence (gps : bool) (ev : Evidence) : Q :=
  if gps
  then add_if (accelMotion ev) 30 (add_if (gpsMotion ev) 30 (add_if (speedCriteria ev) 40 0))
  else add_if (sustained ev) 30 (add_if (accelMotion ev) 70 0).

(** [updateHybridMovementDetection]. *)
Definition updateHybridMovementDetection (rawData : RawData) (now : Q) (st : State)
  : State :=
  let ev := gatherEvidence rawData now st in
  let st3 := after_evidence ev in
  let confidence := fuseConfidence (gpsAvailable st3) ev in
  let st4 := set_movementConfidence st3 (Qmin confidence 100) in
  let threshold := if gpsAvailable st4 then 50 else 40 in
  let st5 := set_isVehicleMoving st4 (Qgtb (movementConfidence st4) threshold) in
  match wasMoving st5 with
  | Some w =>
      if Bool.eqb (isVehicleMoving st5) w then st5
      else set_wasMoving st5 (Some (isVehicleMoving st5))
  | None => set_wasMoving st5 (Some (isVehicleMoving st5))
  end.

(** [calculateFilteredAcceleration]. *)
Definition calculateFilteredAcceleration (st : State) (data : RawData) : Vec3 :=
  match baselineAcceleration st with
  | None => {| vx := num (x data); vy := num (y data); vz := num (z data) |}
  | Some b =>
      {| vx := num (x data) - b_x b;
         vy := num (y data) - b_y b;
         vz := num (z data) - b_z b |}
  end.

(** [estimateSpeedFromAccelerometer]. *)
Definition estimateSpeedFromAccelerometer (st : State) : Q :=
  if Nat.ltb (length (accelerationHistory st)) 3 then 0
  else
    let recent := slice_last 3 (accelerationHistory st) in
    let avgVariation :=
      sum_by (calculateAccelerationVariation st) recent / lengthQ recent in
    if Qgtb avgVariation 4 then 60
    else if Qgtb avgVariation 2 then 35
    else if Qgtb avgVariation 1 then 15
    else 5.

(** [calculateLongitudinalAcceleration]. *)
Definition calculateLongitudinalAcceleration (st : State) (data : Enriched) : Q :=
  match last_elem (dataBuffer st) with
  | None => 0
  | Some lastPoint =>
      let timeDelta := (instant (e_raw data) - instant (e_raw lastPoint)) / 1000 in
      if Qleb timeDelta 0 then 0
      else
        match velocidad (e_raw data), velocidad (e_raw lastPoint) with
        | Some v, Some lv => (v - lv) / timeDelta / (36 # 10)
        | _, _ =>
            match estimated_speed data, estimated_speed lastPoint with
            | Some s, Some ls => (s - ls) / timeDelta / (36 # 10)
            | _, _ => 0
            end
        end
  end.

(** [enrichDataFieldTested]; it reads the processor and does not change it. *)
Definition enrichDataFieldTested (rawData : RawData) (st : State) : Enriched :=
  let hasAxes := defined (x rawData) && defined (y rawData) && defined (z rawData) in
  let enriched1 :=
    {| e_raw := rawData;
       acceleration_magnitude :=
         if hasAxes
         then Some (Msqrt (num (x rawData) ^ 2 + num (y rawData) ^ 2 + num (z rawData) ^ 2))
         else None;
       filtered_acceleration :=
         if hasAxes then Some (calculateFilteredAcceleration st rawData) else None;
       estimated_speed :=
         if negb (truthy (velocidad rawData)) && isVehicleMoving st
         then Some (estimateSpeedFromAccelerometer st)
         else None;
       longitudinal_acceleration := None;
       vehicle_moving := false; movement_confidence := 0;
       gps_available := false; detection_method := Accel_Only |} in
  {| e_raw := rawData;
     acceleration_magnitude := acceleration_magnitude enriched1;
     filtered_acceleration := filtered_acceleration enriched1;
     estimated_speed := estimated_speed enriched1;
     longitudinal_acceleration :=
       if Nat.ltb 0 (length (dataBuffer st))
       then Some (calculateLongitudinalAcceleration st enriched1)
       else None;
     vehicle_moving := isVehicleMoving st;
     movement_confidence := movementConfidence st;
     gps_available := gpsAvailable st;
     detection_method := if gpsAvailable st then GPS_Accel else Accel_Only |}.

(** [calculateInstantLongitudinal]: [filteredAccel.y || 0]. *)
Definition calculateInstantLongitudinal (filteredAccel : Vec3) : Q :=
  orNum (Some (vy filteredAccel)) 0.

(** [calculateSeverity]. *)
Definition calculateSeverity (value threshold : Q) : Severity :=
  let ratio := value / threshold in
  if Qgeb ratio 2 then extreme
  else if Qgeb ratio (3 # 2) then high
  else if Qgeb ratio (12 # 10) then moderate
  else low.

(** [data.longitudinal_acceleration || this.calculateInstantLongitudinal(f)]. *)
Definition longitudinal_of (data : Enriched) (f : Vec3) : Q :=
  orNum (longitudinal_acceleration data) (calculateInstantLongitudinal f).

(** Block 1 of [detectEventsHybrid]: the trigger and the event literal. *)
Definition trigger_harsh_acceleration (th : Thresholds) (data : Enriched) : option DrivingEvent :=
  match filtered_acceleration data with
  | Some f =>
      let longitudinal := longitudinal_of data f in
      if Qgtb longitudinal (harsh_acceleration th)
      then Some
             {| ev_type := harsh_acceleration_t;
                ev_severity := calculateSeverity longitudinal (harsh_acceleration th);
                ev_value := longitudinal;
                ev_direction := None; ev_speed := None; ev_limit := None;
                ev_method := Some (detection_method data);
                ev_timestamp := instant (e_raw data);
                ev_location := (orNull (lat (e_raw data)), orNull (lon (e_raw data)));
                ev_confidence := movement_confidence data |}
      else None
  | None => None
  end.

(** Block 2 of [detectEventsHybrid]. *)
Definition trigger_harsh_braking (th : Thresholds) (data : Enriched) : option DrivingEvent :=
  match filtered_acceleration data with
  | Some f =>
      let longitudinal := longitudinal_of data f in
      if Qltb longitudinal (- harsh_braking th)
      then Some
             {| ev_type := harsh_braking_t;
                ev_severity := calculateSeverity (Qabs longitudinal) (harsh_braking th);
                ev_value := Qabs longitudinal;
                ev_direction := None; ev_speed := None; ev_limit := None;
                ev_method := Some (detection_method data);
                ev_timestamp := instant (e_raw data);
                ev_location := (orNull (lat (e_raw data)), orNull (lon (e_raw data)));
                ev_confidence := movement_confidence data |}
      else None
  | None => None
  end.

(** Block 3 of [detectEventsHybrid]. *)
Definition trigger_aggressive_turn (th : Thresholds) (data : Enriched) : option DrivingEvent :=
  match filtered_acceleration data with
  | Some f =>
      let lateral := Qabs (vx f) in
      if Qgtb lateral (aggressive_turn th)
      then Some
             {| ev_type := aggressive_turn_t;
                ev_severity := calculateSeverity lateral (aggressive_turn th);
                ev_value := lateral;
                ev_direction := Some (if Qgtb (vx f) 0 then right else left);
                ev_speed := None; ev_limit := None;
                ev_method := Some (detection_method data);
                ev_timestamp := instant (e_raw data);
                ev_location := (orNull (lat (e_raw data)), orNull (lon (e_raw data)));
                ev_confidence := movement_confidence data |}
      else None
  | None => None
  end.

(** Block 4 of [detectEventsHybrid]. *)
Definition trigger_speeding (th : Thresholds) (limit : Q) (data : Enriched)
  : option DrivingEvent :=
  if gps_available data && truthy (velocidad (e_raw data))
  then
    let excess := num (velocidad (e_raw data)) - limit in
    if Qgtb excess (speeding th)
    then Some
           {| ev_type := speeding_t;
              ev_severity := calculateSpeedingSeverity excess;
              ev_value := excess;
              ev_direction := None;
              ev_speed := velocidad (e_raw data); ev_limit := Some limit;
              ev_method := Some (detection_method data);
              ev_timestamp := instant (e_raw data);
              ev_location := (lat (e_raw data), lon (e_raw data));
              ev_confidence := movement_confidence data |}
    else None
  else None.

(** [detectEventsHybrid]: the returned array and the updated processor. *)
Definition detectEventsHybrid (data : Enriched) (now : Q) (st : State)
  : list DrivingEvent * State :=
  if negb (isVehicleMoving st) then ([], st)
  else
    let th := thresholds st in
    let acc0 := ([], lastEventTime st) in
    let gap := stability_time th in
    let acc1 := emit_opt acc0 now gap (trigger_harsh_acceleration th data) in
    let acc2 := emit_opt acc1 now gap (trigger_harsh_braking th data) in
    let acc3 := emit_opt acc2 now gap (trigger_aggressive_turn th data) in
    let acc4 :=
      emit_opt acc3 now (gap * 2) (trigger_speeding th (currentSpeedLimit st) data) in
    (fst acc4, set_lastEventTime st (snd acc4)).

(** [updateBuffer]. *)
Definition updateBuffer (data : Enriched) (st : State) : State :=
  set_dataBuffer st (push_capped bufferSize (dataBuffer st) data).

(** [processDataPoint] on a sample whose optional properties are numbers
    or absent: [None] is the [null] return.  No statement of the [try]
    block raises on such a sample (listeners are called inside a [try] of
    their own in [emitEvent]), so the [catch] clause is not reached;
    [processDataPoint_try] below is the function with its [catch] clause, on
    samples that make the block raise. *)
Definition processDataPoint (rawData : option RawData) (now : Q) (st : State)
  : option Result * State :=
  if Qltb (now - lastRecordTime st) (recordInterval st) then (None, st)
  else
    let st1 := set_lastRecordTime st now in
    if negb (validateDataStructure rawData) then (None, st1)
    else
      match rawData with
      | None => (None, st1)
      | Some d =>
          let st2 := updateHybridMovementDetection d now st1 in
          let processedData := enrichDataFieldTested d st2 in
          let '(evs, st3) := detectEventsHybrid processedData now st2 in
          let st4 := updateBuffer processedData st3 in
          let st5 := set_eventCounters st4 (count_events (eventCounters st4) evs) in
          (Some {| processed := processedData; events := evs;
                   counters := eventCounters st5 |},
           st5)
      end.

(** The processor when [updateHybridMovementDetection] enters
    [detectMotionFromAccelerometer]: [gpsAvailable] is assigned and, with a
    fix, [hasGPSMovement] has run. *)
Definition before_accelerometer (rawData : RawData) (now : Q) (st : State) : State :=
  let hasGPS := truthy (lat rawData) && truthy (lon rawData) in
  let st1 := set_gpsAvailable st hasGPS in
  if hasGPS then snd (hasGPSMovement rawData now st1) else st1.

(** [updateHybridMovementDetection] on a sample whose axes may be BigInts.
    [detectMotionFromAccelerometer] returns at once when an axis is falsy;
    otherwise it evaluates [data.x**2 + data.y**2 + data.z**2], which raises
    a TypeError as soon as one axis is a BigInt (the exponent is a number),
    before the acceleration history is touched. *)
Definition updateHybridMovementDetection_try (w : WideData) (now : Q) (st : State)
  : Outcome unit * State :=
  let d := plain w in
  if truthy (x d) && truthy (y d) && truthy (z d) && has_bigint w
  then (Raised, before_accelerometer d now st)
  else (Returned tt, updateHybridMovementDetection d now st).

(** [enrichDataFieldTested] on such a sample: when the three axes are
    defined it evaluates [rawData.x ** 2 + rawData.y ** 2 + rawData.z ** 2]
    first, which raises a TypeError on a BigInt axis; it does not write to
    the processor. *)
Definition enrichDataFieldTested_try (w : WideData) (st : State) : Outcome Enriched :=
  let d := plain w in
  if defined (x d) && defined (y d) && defined (z d) && has_bigint w
  then Raised
  else Returned (enrichDataFieldTested d st).

(** [processDataPoint] with its [try] and [catch]: an exception raised by a
    statement of the block leaves the processor as that statement found it
    and makes the call return [null].  A BigInt axis that raises nowhere is
    shown in the result by its value. *)
Definition processDataPoint_try (rawData : option WideData) (now : Q) (st : State)
  : option Result * State :=
  if Qltb (now - lastRecordTime st) (recordInterval st) then (None, st)
  else
    let st1 := set_lastRecordTime st now in
    if negb (validateDataStructure (option_map plain rawData)) then (None, st1)
    else
      match rawData with
      | None => (None, st1)
      | Some w =>
          match updateHybridMovementDetection_try w now st1 with
          | (Raised, st2) => (None, st2)
          | (Returned _, st2) =>
              match enrichDataFieldTested_try w st2 with
              | Raised => (None, st2)
              | Returned processedData =>
                  let '(evs, st3) := detectEventsHybrid processedData now st2 in
                  let st4 := updateBuffer processedData st3 in
                  let st5 :=
                    set_eventCounters st4 (count_events (eventCounters st4) evs) in
                  (Some {| processed := processedData; events := evs;
                           counters := eventCounters st5 |},
                   st5)
              end
          end
      end.

End Primitives.

(** [resetCounters]. *)
Definition resetCounters (st : State) : State :=
  {| thresholds := thresholds st; eventCounters := zeroCounters;
     dataBuffer := []; accelerationHistory := []; motionHistory := [];
     baselineAcceleration := None; lastEventTime := noLast;
     isVehicleMoving := false; movementConfidence := 0;
     gpsAvailable := gpsAvailable st;
     lastRecordTime := lastRecordTime st; recordInterval := recordInterval st;
     currentSpeedLimit := currentSpeedLimit st; lastGPSPoint := None;
     wasMoving := wasMoving st |}.

(** [setThresholds]: the merge [{ ...this.thresholds, ...newThresholds }]
    replaces the whole record field by field; the caller passes the merged
    value. *)
Definition setThresholds (merged : Thresholds) (st : State) : State :=
  set_thresholds st merged.

(** Feeding a sequence of calls [(now, rawData)] to one processor. *)
Definition run (Msqrt : Q -> Q) (calculateDistance : Q -> Q -> Q -> Q -> Q)
  : State -> list (Q * option RawData) -> list (option Result) * State :=
  run_with (processDataPoint Msqrt calculateDistance).

End FieldTested.

(** ** The calibrated variant: [src/unnamed/part_001] *)

Module Calibrated.

(** [this.thresholds]. *)
Record Thresholds : Type := mkThresholds {
  harsh_acceleration : Q;
  harsh_braking : Q;
  aggressive_turn : Q;
  speeding : Q;
  minimum_speed : Q;
  acceleration_noise : Q;
  gps_noise : Q;
  stability_time : Q
}.

Definition defaultThresholds : Thresholds :=
  mkThresholds (35 # 10) (35 # 10) (55 # 10) 20 5 1 2 3000.

Inductive DrivingContext : Type :=
| highway | urban_fast | urban | residential | stationary.

(** [this.speedLimits]. *)
Definition speedLimit_urban : Q := 60.
Definition speedLimit_highway : Q := 110.
Definition speedLimit_residential : Q := 40.
Definition speedLimit_default : Q := 60.

(** The object built by [enrichData] or [enrichBasicData]. *)
Record Enriched : Type := mkEnriched {
  e_raw : RawData;
  acceleration_magnitude : option Q;
  filtered_acceleration : option Vec3;
  filtered_speed : option Q;
  longitudinal_acceleration : option Q;
  driving_context : option DrivingContext;
  speed_limit : option Q;
  vehicle_moving : bool;
  movement_confidence : Q
}.

(** The mutable properties of a [DataProcessor]. *)
Record State : Type := mkState {
  thresholds : Thresholds;
  eventCounters : EventCounters;
  dataBuffer : list Enriched;
  lastGPSPoint : option GPSPoint;
  speedHistory : list Q;
  accelerationHistory : list Vec3;
  lastEventTime : LastEventTime;
  lastRecordTime : Q;
  recordInterval : Q;
  isVehicleMoving : bool;
  movementConfidence : Q;
  currentSpeedLimit : Q;
  wasMoving : option bool
}.

Definition set_thresholds (st : State) (v : Thresholds) : State :=
  {| thresholds := v; eventCounters := eventCounters st; dataBuffer := dataBuffer st;
     lastGPSPoint := lastGPSPoint st; speedHistory := speedHistory st;
     accelerationHistory := accelerationHistory st; lastEventTime := lastEventTime st;
     lastRecordTime := lastRecordTime st; recordInterval := recordInterval st;
     isVehicleMoving := isVehicleMoving st; movementConfidence := movementConfidence st;
     currentSpeedLimit := currentSpeedLimit st; wasMoving := wasMoving st |}.

Definition set_eventCounters (st : State) (v : EventCounters) : State :=
  {| thresholds := thresholds st; eventCounters := v; dataBuffer := dataBuffer st;
     lastGPSPoint := lastGPSPoint st; speedHistory := speedHistory st;
     accelerationHistory := accelerationHistory st; lastEventTime := lastEventTime st;
     lastRecordTime := lastRecordTime st; recordInterval := recordInterval st;
     isVehicleMoving := isVehicleMoving st; movementConfidence := movementConfidence st;
     currentSpeedLimit := currentSpeedLimit st; wasMoving := wasMoving st |}.

Definition set_dataBuffer (st : State) (v : list Enriched) : State :=
  {| thresholds := thresholds st; eventCounters := eventCounters st; dataBuffer := v;
     lastGPSPoint := lastGPSPoint st; speedHistory := speedHistory st;
     accelerationHistory := accelerationHistory st; lastEventTime := lastEventTime st;
     lastRecordTime := lastRecordTime st; recordInterval := recordInterval st;
     isVehicleMoving := isVehicleMoving st; movementConfidence := movementConfidence st;
     currentSpeedLimit := currentSpeedLimit st; wasMoving := wasMoving st |}.

Definition set_lastGPSPoint (st : State) (v : option GPSPoint) : State :=
  {| thresholds := thresholds st; eventCounters := eventCounters st;
     dataBuffer := dataBuffer st; lastGPSPoint := v; speedHistory := speedHistory st;
     accelerationHistory := accelerationHistory st; lastEventTime := lastEventTime st;
     lastRecordTime := lastRecordTime st; recordInterval := recordInterval st;
     isVehicleMoving := isVehicleMoving st; movementConfidence := movementConfidence st;
     currentSpeedLimit := currentSpeedLimit st; wasMoving := wasMoving st |}.

Definition set_speedHistory (st : State) (v : list Q) : State :=
  {| thresholds := thresholds st; eventCounters := eventCounters st;
     dataBuffer := dataBuffer st; lastGPSPoint := lastGPSPoint st; speedHistory := v;
     accelerationHistory := accelerationHistory st; lastEventTime := lastEventTime st;
     lastRecordTime := lastRecordTime st; recordInterval := recordInterval st;
     isVehicleMoving := isVehicleMoving st; movementConfidence := movementConfidence st;
     currentSpeedLimit := currentSpeedLimit st; wasMoving := wasMoving st |}.

Definition set_accelerationHistory (st : State) (v : list Vec3) : State :=
  {| thresholds := thresholds st; eventCounters := eventCounters st;
     dataBuffer := dataBuffer st; lastGPSPoint := lastGPSPoint st;
     speedHistory := speedHistory st; accelerationHistory := v;
     lastEventTime := lastEventTime st; lastRecordTime := lastRecordTime st;
     recordInterval := recordInterval st; isVehicleMoving := isVehicleMoving st;
     movementConfidence := movementConfidence st;
     currentSpeedLimit := currentSpeedLimit st; wasMoving := wasMoving st |}.

Definition set_lastEventTime (st : State) (v : LastEventTime) : State :=
  {| thresholds := thresholds st; eventCounters := eventCounters st;
     dataBuffer := dataBuffer st; lastGPSPoint := lastGPSPoint st;
     speedHistory := speedHistory st; accelerationHistory := accelerationHistory st;
     lastEventTime := v; lastRecordTime := lastRecordTime st;
     recordInterval := recordInterval st; isVehicleMoving := isVehicleMoving st;
     movementConfidence := movementConfidence st;
     currentSpeedLimit := currentSpeedLimit st; wasMoving := wasMoving st |}.

Definition set_lastRecordTime (st : State) (v : Q) : State :=
  {| thresholds := thresholds st; eventCounters := eventCounters st;
     dataBuffer := dataBuffer st; lastGPSPoint := lastGPSPoint st;
     speedHistory := speedHistory st; accelerationHistory := accelerationHistory st;
     lastEventTime := lastEventTime st; lastRecordTime := v;
     recordInterval := recordInterval st; isVehicleMoving := isVehicleMoving st;
     movementConfidence := movementConfidence st;
     currentSpeedLimit := currentSpeedLimit st; wasMoving := wasMoving st |}.

Definition set_isVehicleMoving (st : State) (v : bool) : State :=
  {| thresholds := thresholds st; eventCounters := eventCounters st;
     dataBuffer := dataBuffer st; lastGPSPoint := lastGPSPoint st;
     speedHistory := speedHistory st; accelerationHistory := accelerationHistory st;
     lastEventTime := lastEventTime st; lastRecordTime := lastRecordTime st;
     recordInterval := recordInterval st; isVehicleMoving := v;
     movementConfidence := movementConfidence st;
     currentSpeedLimit := currentSpeedLimit st; wasMoving := wasMoving st |}.

Definition set_movementConfidence (st : State) (v : Q) : State :=
  {| thresholds := thresholds st; eventCounters := eventCounters st;
     dataBuffer := dataBuffer st; lastGPSPoint := lastGPSPoint st;
     speedHistory := speedHistory st; accelerationHistory := accelerationHistory st;
     lastEventTime := lastEventTime st; lastRecordTime := lastRecordTime st;
     recordInterval := recordInterval st; isVehicleMoving := isVehicleMoving st;
     movementConfidence := v; currentSpeedLimit := currentSpeedLimit st;
     wasMoving := wasMoving st |}.

Definition set_currentSpeedLimit (st : State) (v : Q) : State :=
  {| thresholds := thresholds st; eventCounters := eventCounters st;
     dataBuffer := dataBuffer st; lastGPSPoint := lastGPSPoint st;
     speedHistory := speedHistory st; accelerationHistory := accelerationHistory st;
     lastEventTime := lastEventTime st; lastRecordTime := lastRecordTime st;
     recordInterval := recordInterval st; isVehicleMoving := isVehicleMoving st;
     movementConfidence := movementConfidence st; currentSpeedLimit := v;
     wasMoving := wasMoving st |}.

Definition set_wasMoving (st : State) (v : option bool) : State :=
  {| thresholds := thresholds st; eventCounters := eventCounters st;
     dataBuffer := dataBuffer st; lastGPSPoint := lastGPSPoint st;
     speedHistory := speedHistory st; accelerationHistory := accelerationHistory st;
     lastEventTime := lastEventTime st; lastRecordTime := lastRecordTime st;
     recordInterval := recordInterval st; isVehicleMoving := isVehicleMoving st;
     movementConfidence := movementConfidence st;
     currentSpeedLimit := currentSpeedLimit st; wasMoving := v |}.

(** [new DataProcessor()]. *)
Definition new_DataProcessor : State :=
  {| thresholds := defaultThresholds; eventCounters := zeroCounters;
     dataBuffer := []; lastGPSPoint := None; speedHistory := [];
     accelerationHistory := []; lastEventTime := noLast;
     lastRecordTime := 0; recordInterval := 2000;
     isVehicleMoving := false; movementConfidence := 0;
     currentSpeedLimit := speedLimit_default; wasMoving := None |}.

(** [this.bufferSize]. *)
Definition bufferSize : nat := 5.

(** What [processDataPoint] returns when it is not [null]. *)
Record Result : Type := mkResult {
  processed : Enriched;
  events : list DrivingEvent;
  counters : EventCounters
}.

Section Primitives.

(** [Math.sqrt] and [Utils.calculateDistance]. *)
Variable Msqrt : Q -> Q.
Variable calculateDistance : Q -> Q -> Q -> Q -> Q.

(** [hasSignificantAcceleration]. *)
Definition hasSignificantAcceleration (data : RawData) (st : State) : bool * State :=
  if negb (truthy (x data)) || negb (truthy (y data)) || negb (truthy (z data))
  then (false, st)
  else
    let entry := {| vx := num (x data); vy := num (y data); vz := num (z data) |} in
    match last_elem (accelerationHistory st) with
    | Some last =>
        let variation :=
          Msqrt ((num (x data) - vx last) ^ 2
                 + (num (y data) - vy last) ^ 2
                 + (num (z data) - vz last) ^ 2) in
        (Qgtb variation (acceleration_noise (thresholds st)),
         set_accelerationHistory st (push_capped 5 (accelerationHistory st) entry))
    | None =>
        (false, set_accelerationHistory st (push (accelerationHistory st) entry))
    end.

(** [hasGPSMovement]. *)
Definition hasGPSMovement (data : RawData) (now : Q) (st : State) : bool * State :=
  match lastGPSPoint st with
  | Some p =>
      if negb (truthy (lat data)) || negb (truthy (lon data))
      then (false, st)
      else
        let distance :=
          calculateDistance (g_lat p) (g_lon p) (num (lat data)) (num (lon data)) in
        let timeDiff := (now - g_timestamp p) / 1000 in
        let calculatedSpeed := (distance / timeDiff) * (36 # 10) in
        (Qgtb calculatedSpeed (gps_noise (thresholds st)),
         set_lastGPSPoint st
           (Some {| g_lat := num (lat data); g_lon := num (lon data);
                    g_timestamp := now |}))
  | None => (false, st)
  end.

(** [if (flag) confidence += points]. *)
Definition add_if (flag : bool) (points confidence : Q) : Q :=
  if flag then confidence + points else confidence.

(** [updateMovementDetection]. *)
Definition updateMovementDetection (rawData : RawData) (now : Q) (st : State) : State :=
  let speed := orNum (velocidad rawData) 0 in
  let hasAcceleration :=
    defined (x rawData) && defined (y rawData) && defined (z rawData) in
  let speedCriteria := Qgtb speed (minimum_speed (thresholds st)) in
  let '(accelerationVariation, st1) :=
    if hasAcceleration then hasSignificantAcceleration rawData st else (false, st) in
  let '(gpsMovement, st2) := hasGPSMovement rawData now st1 in
  let confidence :=
    add_if gpsMovement 30 (add_if accelerationVariation 30 (add_if speedCriteria 40 0)) in
  let st3 := set_movementConfidence st2 confidence in
  let st4 := set_isVehicleMoving st3 (Qgtb confidence 50) in
  match wasMoving st4 with
  | Some w =>
      if Bool.eqb (isVehicleMoving st4) w then st4
      else set_wasMoving st4 (Some (isVehicleMoving st4))
  | None => set_wasMoving st4 (Some (isVehicleMoving st4))
  end.

(** [enrichBasicData]. *)
Definition enrichBasicData (rawData : RawData) (st : State) : Enriched :=
  {| e_raw := rawData;
     acceleration_magnitude :=
       if defined (x rawData) && defined (y rawData) && defined (z rawData)
       then Some (Msqrt (num (x rawData) ^ 2 + num (y rawData) ^ 2 + num (z rawData) ^ 2))
       else None;
     filtered_acceleration := None; filtered_speed := None;
     longitudinal_acceleration := None; driving_context := None;
     speed_limit := None;
     vehicle_moving := isVehicleMoving st;
     movement_confidence := movementConfidence st |}.

(** [Math.abs(v) > noise ? v : 0]. *)
Definition denoise (noise v : Q) : Q :=
  if Qgtb (Qabs v) noise then v else 0.

(** [determineDrivingContextSinaloa], on [data.filtered_speed]. *)
Definition determineDrivingContextSinaloa (filtered : option Q) : DrivingContext :=
  let speed := orNum filtered 0 in
  if Qgtb speed 90 then highway
  else if Qgtb speed 50 then urban_fast
  else if Qgtb speed 20 then urban
  else if Qgtb speed 5 then residential
  else stationary.

(** [updateSpeedLimit]. *)
Definition updateSpeedLimit (context : DrivingContext) (st : State) : State :=
  match context with
  | highway => set_currentSpeedLimit st speedLimit_highway
  | urban_fast => set_currentSpeedLimit st 70
  | residential => set_currentSpeedLimit st speedLimit_residential
  | urban | stationary => set_currentSpeedLimit st speedLimit_urban
  end.

(** [enrichData]: the enriched object and the updated processor. *)
Definition enrichData (rawData : RawData) (st : State) : Enriched * State :=
  let hasAxes := defined (x rawData) && defined (y rawData) && defined (z rawData) in
  let noise := acceleration_noise (thresholds st) in
  let st1 :=
    match velocidad rawData with
    | Some v => set_speedHistory st (push_capped 5 (speedHistory st) v)
    | None => st
    end in
  let fspeed :=
    match velocidad rawData with
    | Some _ => Some (fold_left Qplus (speedHistory st1) 0 / lengthQ (speedHistory st1))
    | None => None
    end in
  let longitudinal :=
    match last_elem (dataBuffer st1), fspeed with
    | Some lastPoint, Some fs =>
        let timeDelta := (instant rawData - instant (e_raw lastPoint)) / 1000 in
        match filtered_speed lastPoint with
        | Some lfs =>
            if Qgtb timeDelta 0 then Some (((fs - lfs) / timeDelta) / (36 # 10)) else None
        | None => None
        end
    | _, _ => None
    end in
  let context := determineDrivingContextSinaloa fspeed in
  let st2 := updateSpeedLimit context st1 in
  ({| e_raw := rawData;
      acceleration_magnitude :=
        if hasAxes
        then Some (Msqrt (num (x rawData) ^ 2 + num (y rawData) ^ 2 + num (z rawData) ^ 2))
        else None;
      filtered_acceleration :=
        if hasAxes
        then Some {| vx := denoise noise (num (x rawData));
                     vy := denoise noise (num (y rawData));
                     vz := denoise noise (num (z rawData)) |}
        else None;
      filtered_speed := fspeed;
      longitudinal_acceleration := longitudinal;
      driving_context := Some context;
      speed_limit := Some (currentSpeedLimit st2);
      vehicle_moving := isVehicleMoving st2;
      movement_confidence := movementConfidence st2 |},
   st2).

(** [calculateSeverity]. *)
Definition calculateSeverity (value threshold : Q) : Severity :=
  let ratio := value / threshold in
  if Qgeb ratio (25 # 10) then extreme
  else if Qgeb ratio 2 then high
  else if Qgeb ratio (15 # 10) then moderate
  else low.

(** The event literal shared by the four blocks of
    [detectDrivingEventsFiltered]. *)
Definition mk_event (st : State) (data : Enriched) (t : EventType) (s : Severity)
  (value : Q) (dir : option Direction) (limit : option Q) : DrivingEvent :=
  {| ev_type := t; ev_severity := s; ev_value := value; ev_direction := dir;
     ev_speed := filtered_speed data; ev_limit := limit; ev_method := None;
     ev_timestamp := instant (e_raw data);
     ev_location := (lat (e_raw data), lon (e_raw data));
     ev_confidence := movementConfidence st |}.

(** Block 1 of [detectDrivingEventsFiltered]: the trigger and the event
    literal. *)
Definition trigger_harsh_acceleration (st : State) (data : Enriched) : option DrivingEvent :=
  let th := thresholds st in
  if truthy (longitudinal_acceleration data)
     && Qgtb (num (longitudinal_acceleration data)) (harsh_acceleration th)
  then Some
         (mk_event st data harsh_acceleration_t
            (calculateSeverity (num (longitudinal_acceleration data)) (harsh_acceleration th))
            (num (longitudinal_acceleration data)) None None)
  else None.

(** Block 2 of [detectDrivingEventsFiltered]. *)
Definition trigger_harsh_braking (st : State) (data : Enriched) : option DrivingEvent :=
  let th := thresholds st in
  if truthy (longitudinal_acceleration data)
     && Qltb (num (longitudinal_acceleration data)) (- harsh_braking th)
  then Some
         (mk_event st data harsh_braking_t
            (calculateSeverity (Qabs (num (longitudinal_acceleration data))) (harsh_braking th))
            (Qabs (num (longitudinal_acceleration data))) None None)
  else None.

(** [data.filtered_speed > bound]; the comparison is false when the
    property is [undefined]. *)
Definition speed_above (filtered : option Q) (bound : Q) : bool :=
  match filtered with
  | Some s => Qgtb s bound
  | None => false
  end.

(** Block 3 of [detectDrivingEventsFiltered]. *)
Definition trigger_aggressive_turn (st : State) (data : Enriched) : option DrivingEvent :=
  let th := thresholds st in
  match filtered_acceleration data with
  | Some f =>
      if speed_above (filtered_speed data) 15
      then
        let lateralG := Qabs (vx f) in
        if Qgtb lateralG (aggressive_turn th)
        then Some
               (mk_event st data aggressive_turn_t
                  (calculateSeverity lateralG (aggressive_turn th)) lateralG
                  (Some (if Qgtb (vx f) 0 then right else left)) None)
        else None
      else None
  | None => None
  end.

(** Block 4 of [detectDrivingEventsFiltered]. *)
Definition trigger_speeding (st : State) (data : Enriched) : option DrivingEvent :=
  let th := thresholds st in
  if truthy (filtered_speed data) && speed_above (filtered_speed data) 30
  then
    let excess := num (filtered_speed data) - currentSpeedLimit st in
    if Qgtb excess (speeding th)
    then Some
           (mk_event st data speeding_t (calculateSpeedingSeverity excess) excess
              None (Some (currentSpeedLimit st)))
    else None
  else None.

(** [detectDrivingEventsFiltered]: the returned array and the updated
    processor. *)
Definition detectDrivingEventsFiltered (data : Enriched) (now : Q) (st : State)
  : list DrivingEvent * State :=
  if negb (isVehicleMoving st)
     || Qltb (orNum (filtered_speed data) 0) (minimum_speed (thresholds st))
  then ([], st)
  else
    let gap := stability_time (thresholds st) in
    let acc0 := ([], lastEventTime st) in
    let acc1 := emit_opt acc0 now gap (trigger_harsh_acceleration st data) in
    let acc2 := emit_opt acc1 now gap (trigger_harsh_braking st data) in
    let acc3 := emit_opt acc2 now gap (trigger_aggressive_turn st data) in
    let acc4 := emit_opt acc3 now (gap * 3) (trigger_speeding st data) in
    (fst acc4, set_lastEventTime st (snd acc4)).

(** [updateBuffer]. *)
Definition updateBuffer (data : Enriched) (st : State) : State :=
  set_dataBuffer st (push_capped bufferSize (dataBuffer st) data).

(** [processDataPoint]: [None] is the [null] return. *)
Definition processDataPoint (rawData : option RawData) (now : Q) (st : State)
  : option Result * State :=
  if Qltb (now - lastRecordTime st) (recordInterval st) then (None, st)
  else
    let st1 := set_lastRecordTime st now in
    if negb (validateDataStructure rawData) then (None, st1)
    else
      match rawData with
      | None => (None, st1)
      | Some d =>
          let st2 := updateMovementDetection d now st1 in
          if negb (isVehicleMoving st2)
          then
            let basicData := enrichBasicData d st2 in
            let st3 := updateBuffer basicData st2 in
            (Some {| processed := basicData; events := [];
                     counters := eventCounters st3 |},
             st3)
          else
            let '(processedData, st3) := enrichData d st2 in
            let '(evs, st4) := detectDrivingEventsFiltered processedData now st3 in
            let st5 := updateBuffer processedData st4 in
            let st6 := set_eventCounters st5 (count_events (eventCounters st5) evs) in
            (Some {| processed := processedData; events := evs;
                     counters := eventCounters st6 |},
             st6)
      end.

End Primitives.

(** [resetCounters]. *)
Definition resetCounters (st : State) : State :=
  {| thresholds := thresholds st; eventCounters := zeroCounters;
     dataBuffer := []; lastGPSPoint := None; speedHistory := [];
     accelerationHistory := []; lastEventTime := noLast;
     lastRecordTime := lastRecordTime st; recordInterval := recordInterval st;
     isVehicleMoving := false; movementConfidence := 0;
     currentSpeedLimit := currentSpeedLimit st; wasMoving := wasMoving st |}.

(** Feeding a sequence of calls [(now, rawData)] to one processor. *)
Definition run (Msqrt : Q -> Q) (calculateDistance : Q -> Q -> Q -> Q -> Q)
  : State -> list (Q * option RawData) -> list (option Result) * State :=
  run_with (processDataPoint Msqrt calculateDistance).

End Calibrated.

(** ** Vocabulary of the properties *)

Definition EventType_eqb (a b : EventType) : bool :=
  match a, b with
  | harsh_acceleration_t, harsh_acceleration_t => true
  | harsh_braking_t, harsh_braking_t => true
  | aggressive_turn_t, aggressive_turn_t => true
  | speeding_t, speeding_t => true
  | _, _ => false
  end.

(** Some event of type [t] is in the array. *)
Definition has_type (t : EventType) (evs : list DrivingEvent) : bool :=
  existsb (fun e => EventType_eqb (ev_type e) t) evs.

(** What a detection block adds to the array, read against the
    [lastEventTime] object [L] that the call started with. *)
Definition offer (L : LastEventTime) (now gap : Q) (c : option DrivingEvent)
  : list DrivingEvent :=
  match c with
  | Some e => if may_fire (last_of L (ev_type e)) now gap then [e] else []
  | None => []
  end.

(** The entry of key [t] after a block that offers events of type [t]. *)
Definition stamp (L : LastEventTime) (now gap : Q) (c : option DrivingEvent)
  (t : EventType) : option Q :=
  match offer L now gap c with
  | [] => last_of L t
  | _ :: _ => Some now
  end.

(** The minimum clock distance between two events of one type, per
    variant: [stability_time], doubled for speeding in the field-tested
    variant and tripled in the calibrated one. *)
Definition FieldTested_gap (th : FieldTested.Thresholds) (t : EventType) : Q :=
  match t with
  | speeding_t => FieldTested.stability_time th * 2
  | _ => FieldTested.stability_time th
  end.

Definition Calibrated_gap (th : Calibrated.Thresholds) (t : EventType) : Q :=
  match t with
  | speeding_t => Calibrated.stability_time th * 3
  | _ => Calibrated.stability_time th
  end.

(** The threshold an event type is compared with. *)
Definition FieldTested_threshold (th : FieldTested.Thresholds) (t : EventType) : Q :=
  match t with
  | harsh_acceleration_t => FieldTested.harsh_acceleration th
  | harsh_braking_t => FieldTested.harsh_braking th
  | aggressive_turn_t => FieldTested.aggressive_turn th
  | speeding_t => FieldTested.speeding th
  end.

Definition Calibrated_threshold (th : Calibrated.Thresholds) (t : EventType) : Q :=
  match t with
  | harsh_acceleration_t => Calibrated.harsh_acceleration th
  | harsh_braking_t => Calibrated.harsh_braking th
  | aggressive_turn_t => Calibrated.aggressive_turn th
  | speeding_t => Calibrated.speeding th
  end.

(** The guard at the head of [detectDrivingEventsFiltered]. *)
Definition Calibrated_detecting (data : Calibrated.Enriched) (st : Calibrated.State) : bool :=
  negb (negb (Calibrated.isVehicleMoving st)
        || Qltb (orNum (Calibrated.filtered_speed data) 0)
             (Calibrated.minimum_speed (Calibrated.thresholds st))).

(** The clock readings of the calls that emitted, given which results
    count as emitting. *)
Fixpoint emission_times {R : Type} (emitting : option R -> bool)
  (calls : list (Q * option RawData)) (results : list (option R)) : list Q :=
  match calls, results with
  | (now, _) :: cs, r :: rs =>
      if emitting r
      then now :: emission_times emitting cs rs
      else emission_times emitting cs rs
  | _, _ => []
  end.

(** The call returned a result with an event of type [t]. *)
Definition FieldTested_emitted (t : EventType) (r : option FieldTested.Result) : bool :=
  match r with
  | Some res => has_type t (FieldTested.events res)
  | None => false
  end.

Definition Calibrated_emitted (t : EventType) (r : option Calibrated.Result) : bool :=
  match r with
  | Some res => has_type t (Calibrated.events res)
  | None => false
  end.

(** The clock of a sequence of calls: positive epoch milliseconds that never
    run backwards. *)
Definition clock_ok (calls : list (Q * option RawData)) : Prop :=
  Forall (fun c => 0 < fst c) calls /\ StronglySorted Qle (map fst calls).

(** The properties of the field-tested processor that movement detection
    leaves alone. *)
Definition FieldTested_untouched (st st' : FieldTested.State) : Prop :=
  FieldTested.thresholds st' = FieldTested.thresholds st /\
  FieldTested.eventCounters st' = FieldTested.eventCounters st /\
  FieldTested.dataBuffer st' = FieldTested.dataBuffer st /\
  FieldTested.lastEventTime st' = FieldTested.lastEventTime st /\
  FieldTested.lastRecordTime st' = FieldTested.lastRecordTime st /\
  FieldTested.recordInterval st' = FieldTested.recordInterval st /\
  FieldTested.currentSpeedLimit st' = FieldTested.currentSpeedLimit st.

(** A sample of a stationary stream: no GPS fix, no reported speed, and the
    accelerometer reading [(rx, ry, rz)]. *)
Definition stationary_sample (rx ry rz : Q) (d : RawData) : Prop :=
  lat d = None /\ lon d = None /\ velocidad d = None /\
  x d = Some rx /\ y d = Some ry /\ z d = Some rz.

(** Every call of the sequence carries a sample of the stationary stream. *)
Definition stationary_stream (rx ry rz : Q) (calls : list (Q * option RawData)) : Prop :=
  Forall (fun c => exists d, snd c = Some d /\ stationary_sample rx ry rz d) calls.

(** No call of the run returned an event. *)
Definition FieldTested_silent (results : list (option FieldTested.Result)) : Prop :=
  Forall (fun r => match r with
                   | Some res => FieldTested.events res = []
                   | None => True
                   end) results.

Definition Calibrated_silent (results : list (option Calibrated.Result)) : Prop :=
  Forall (fun r => match r with
                   | Some res => Calibrated.events res = []
                   | None => True
                   end) results.

(** A field-tested processor whose baseline is the reading [(rx, ry, rz)]
    and whose motion threshold is not negative: what holds all along a
    stationary stream with that reading. *)
Definition on_baseline (rx ry rz : Q) (st : FieldTested.State) : Prop :=
  (exists b, FieldTested.baselineAcceleration st = Some b /\
             FieldTested.b_x b == rx /\ FieldTested.b_y b == ry /\
             FieldTested.b_z b == rz) /\
  0 <= FieldTested.motion_threshold (FieldTested.thresholds st).

(** The points a piece of evidence adds to the confidence. *)
Definition points (flag : bool) (n : Q) : Q := if flag then n else 0.

(** A sample that [detectMotionFromAccelerometer] records in the
    acceleration history: the three axes are present and not zero
    ([!data.x || !data.y || !data.z] sends every other sample back).  Only
    these samples count towards the baseline. *)
Definition bearing (d : RawData) : bool :=
  truthy (x d) && truthy (y d) && truthy (z d).

(** The raw acceleration of a sample, and the raw acceleration minus a
    baseline. *)
Definition raw_acceleration (d : RawData) : Vec3 :=
  {| vx := num (x d); vy := num (y d); vz := num (z d) |}.

Definition minus_baseline (d : RawData) (b : FieldTested.Baseline) : Vec3 :=
  {| vx := num (x d) - FieldTested.b_x b;
     vy := num (y d) - FieldTested.b_y b;
     vz := num (z d) - FieldTested.b_z b |}.

(** The accepted accelerometer-bearing samples of a run with their results,
    numbered in order from [k + 1]. *)
Fixpoint numbered_bearing (k : nat) (calls : list (Q * option RawData))
  (results : list (option FieldTested.Result))
  : list (nat * RawData * FieldTested.Result) :=
  match calls, results with
  | (_, Some d) :: cs, Some r :: rs =>
      if bearing d
      then (S k, d, r) :: numbered_bearing (S k) cs rs
      else numbered_bearing k cs rs
  | _ :: cs, _ :: rs => numbered_bearing k cs rs
  | _, _ => []
  end.

(** A sample that carries the three accelerometer fields, whatever their
    values: the test of [enrichDataFieldTested], [rawData.x !== undefined]
    and so on. *)
Definition carries_axes (d : RawData) : bool :=
  defined (x d) && defined (y d) && defined (z d).

(** The accepted samples of a run that carry the three accelerometer
    fields, with their results; each is numbered with the count of recorded
    samples ([bearing]) accepted so far, itself included, starting from
    [k]. *)
Fixpoint numbered_carrying (k : nat) (calls : list (Q * option RawData))
  (results : list (option FieldTested.Result))
  : list (nat * RawData * FieldTested.Result) :=
  match calls, results with
  | (_, Some d) :: cs, Some r :: rs =>
      let k' := if bearing d then S k else k in
      if carries_axes d
      then (k', d, r) :: numbered_carrying k' cs rs
      else numbered_carrying k' cs rs
  | _ :: cs, _ :: rs => numbered_carrying k cs rs
  | _, _ => []
  end.

(** A sample on which the [try] block of the field-tested
    [processDataPoint] raises: the three axes are defined and one of them
    is a BigInt. *)
Definition raises_TypeError (w : option WideData) : bool :=
  match w with
  | Some w => carries_axes (plain w) && has_bigint w
  | None => false
  end.

(** The warm-up state of a session that has accepted [k]
    accelerometer-bearing samples. *)
Definition warming (k : nat) (st : FieldTested.State) : Prop :=
  ((k < 5)%nat ->
   FieldTested.baselineAcceleration st = None /\
   length (FieldTested.accelerationHistory st) = k) /\
  ((5 <= k)%nat -> FieldTested.baselineAcceleration st <> None).

(** A field-tested processor without the two properties that every call
    writes before it reads them: [gpsAvailable], assigned at the head of
    [updateHybridMovementDetection], and [wasMoving], compared only to
    decide whether to log. *)
Definition observable (st : FieldTested.State) : FieldTested.State :=
  FieldTested.set_wasMoving (FieldTested.set_gpsAvailable st false) None.

(** A newly constructed processor configured like [st] (thresholds, record
    interval, current speed limit). *)
Definition fresh_like (st : FieldTested.State) : FieldTested.State :=
  {| FieldTested.thresholds := FieldTested.thresholds st;
     FieldTested.eventCounters := zeroCounters;
     FieldTested.dataBuffer := []; FieldTested.accelerationHistory := [];
     FieldTested.motionHistory := []; FieldTested.baselineAcceleration := None;
     FieldTested.lastEventTime := noLast; FieldTested.isVehicleMoving := false;
     FieldTested.movementConfidence := 0; FieldTested.gpsAvailable := false;
     FieldTested.lastRecordTime := 0;
     FieldTested.recordInterval := FieldTested.recordInterval st;
     FieldTested.currentSpeedLimit := FieldTested.currentSpeedLimit st;
     FieldTested.lastGPSPoint := None; FieldTested.wasMoving := None |}.

(** A numeric property that is present and equal to zero. *)
Definition is_zero (o : option Q) : Prop := exists q, o = Some q /\ q == 0.

(** The sample with its reported speed removed. *)
Definition without_speed (d : RawData) : RawData :=
  {| timestamp := timestamp d; participante := participante d;
     lat := lat d; lon := lon d; velocidad := None;
     x := x d; y := y d; z := z d |}.

(** ** Concrete samples for the examples *)

(** A valid sample taken at clock time [t]: accelerometer only. *)
Definition accel_sample (t ax ay az : Q) : Q * option RawData :=
  (t, Some (mkRaw (Present t) (Present "P01"%string) None None None
              (Some ax) (Some ay) (Some az))).

(** A valid sample taken at clock time [t]: a GPS fix at a fixed point with
    reported speed [v], and the accelerometer. *)
Definition gps_sample (t v ax ay az : Q) : Q * option RawData :=
  (t, Some (mkRaw (Present t) (Present "P01"%string) (Some (27 # 1)) (Some (- (109 # 1)))
              (Some v) (Some ax) (Some ay) (Some az))).

(** A valid accelerometer-only sample taken at clock time [t] whose X axis
    is the BigInt [1n]. *)
Definition bigint_sample (t : Q) : option WideData :=
  Some (mkWide (Present t) (Present "P01"%string) None None None
          (bigint_axis 1) (number_axis 1) (number_axis (98 # 10))).

(** A sample without [participante], taken at clock time [t]. *)
Definition invalid_sample (t : Q) : Q * option RawData :=
  (t, Some (mkRaw (Present t) Missing None None None None None None)).

(** Five accelerometer-only samples at rest, 1.5 s apart from [t = 10000]:
    they establish the baseline [(1, 1, 9.8)]. *)
Definition warm_up : list (Q * option RawData) :=
  [accel_sample 10000 1 1 (98 # 10); accel_sample 11500 1 1 (98 # 10);
   accel_sample 13000 1 1 (98 # 10); accel_sample 14500 1 1 (98 # 10);
   accel_sample 16000 1 1 (98 # 10)].

(** Six accelerometer-only samples of a phone lying flat, 1.5 s apart from
    [t = 10000]: the reading is [(0, 0, 9.8)] throughout. *)
Definition lying_flat : list (Q * option RawData) :=
  [accel_sample 10000 0 0 (98 # 10); accel_sample 11500 0 0 (98 # 10);
   accel_sample 13000 0 0 (98 # 10); accel_sample 14500 0 0 (98 # 10);
   accel_sample 16000 0 0 (98 # 10); accel_sample 17500 0 0 (98 # 10)].

(** A new processor whose baseline has been set to the reading
    [(1, 1, 9.8)]. *)
Definition resting : FieldTested.State :=
  FieldTested.set_baselineAcceleration FieldTested.new_DataProcessor
    (Some {| FieldTested.b_x := 1; FieldTested.b_y := 1; FieldTested.b_z := 98 # 10;
             FieldTested.b_magnitude := 10 |}).

(** The events of the last call of a run ([[]] when it returned [null]). *)
Definition FieldTested_last_events (rs : list (option FieldTested.Result))
  : list DrivingEvent :=
  match last rs None with
  | Some r => FieldTested.events r
  | None => []
  end.

(** ** Session statistics: [src/unnamed/part_001] and [src/data-processor.js] *)

(** [Math.round]: the nearest integer, halves rounded up. *)
Definition Math_round (q : Q) : Z := Qfloor (q + (1 # 2)).

(** The number denoted by the string [Utils.formatNumber(num, 2)], that is
    [parseFloat(num).toFixed(2)], for a number that is not negative: the
    multiple of 1/100 nearest to [num], halves rounded up.  ([toFixed]
    rounds the binary64 nearest to [num], so that on an exact tie of the
    rational, such as 201/200, it may answer the lower multiple.) *)
Definition formatNumber2 (num : Q) : Q := inject_Z (Math_round (num * 100)) / 100.

Module Stats.

(** [calculateTotalTime], the same in both variants; [time_of] reads
    [new Date(d.timestamp)] of a record. *)
Definition calculateTotalTime {A : Type} (time_of : A -> Q) (data : list A) : Q :=
  if Nat.ltb (length data) 2 then 0
  else
    match nth_error data 0, last_elem data with
    | Some start, Some final => time_of final - time_of start
    | _, _ => 0
    end.

Section Distance.

Variable calculateDistance : Q -> Q -> Q -> Q -> Q.



End Distance.

(** [calculateAverageSpeed]. *)
Definition calculateAverageSpeed (data : list Calibrated.Enriched) : Q :=
  let speeds :=
    map (fun d => num (Calibrated.filtered_speed d))
      (filter (fun d => Calibrated.speed_above (Calibrated.filtered_speed d) 5) data) in
  if Nat.ltb 0 (length speeds)
  then fold_left Qplus speeds 0 / lengthQ speeds
  else 0.

(** [calculateMaxSpeed]; [Math.max(...speeds)] of a non-empty array. *)
Definition calculateMaxSpeed (data : list Calibrated.Enriched) : Q :=
  let speeds :=
    map (fun d => num (velocidad (Calibrated.e_raw d)))
      (filter (fun d => truthy (velocidad (Calibrated.e_raw d))) data) in
  match speeds with
  | [] => 0
  | s :: rest => fold_left Qmax rest s
  end.

(** [Object.values(this.eventCounters).reduce((a, b) => a + b, 0)]. *)
Definition total_events (c : EventCounters) : nat :=
  (c_harsh_acceleration c + c_harsh_braking c + c_aggressive_turn c + c_speeding c)%nat.

(** The object returned by [calculateEventsPerKm]; each formatted string is
    represented by the number it denotes. *)
Record EventsPerKm : Type := mkPerKm {
  harsh_acceleration_per_km : Q;
  harsh_braking_per_km : Q;
  aggressive_turns_per_km : Q;
  speeding_per_km : Q;
  total_events_per_km : Q
}.

Definition countQ (n : nat) : Q := inject_Z (Z.of_nat n).

(** [calculateEventsPerKm]; [None] is the empty object [{}]. *)
Definition calculateEventsPerKm (c : EventCounters) (totalDistanceMeters : Q)
  : option EventsPerKm :=
  let totalKm := totalDistanceMeters / 1000 in
  if Qeq_bool totalKm 0 then None
  else
    Some {| harsh_acceleration_per_km := formatNumber2 (countQ (c_harsh_acceleration c) / totalKm);
            harsh_braking_per_km := formatNumber2 (countQ (c_harsh_braking c) / totalKm);
            aggressive_turns_per_km := formatNumber2 (countQ (c_aggressive_turn c) / totalKm);
            speeding_per_km := formatNumber2 (countQ (c_speeding c) / totalKm);
            total_events_per_km := formatNumber2 (countQ (total_events c) / totalKm) |}.

Inductive RiskLevel : Type := risk_low | risk_moderate | risk_high.

(** The three texts of [getRiskDescription]. *)
Inductive RiskDescription : Type :=
| aggressive_pattern_detected
| some_events_detected
| safe_pattern.

(** [getRiskDescription]. *)
Definition getRiskDescription (risk : RiskLevel) : RiskDescription :=
  match risk with
  | risk_high => aggressive_pattern_detected
  | risk_moderate => some_events_detected
  | risk_low => safe_pattern
  end.

Record RiskAssessment : Type := mkRisk {
  level : RiskLevel;
  score : Z;
  description : RiskDescription
}.

(** [calculateRiskScore]; [parseFloat(eventsPerKm.total_events_per_km || 0)]
    is [0] for the empty object. *)
Definition calculateRiskScore (eventsPerKm : option EventsPerKm) (totalDistance : Q)
  : RiskAssessment :=
  let totalEventsPerKm :=
    match eventsPerKm with
    | Some o => total_events_per_km o
    | None => 0
    end in
  let '(risk, score) :=
    if Qgtb totalEventsPerKm 3
    then (risk_high, 70 + Qmin (totalEventsPerKm * 5) 30)
    else if Qgtb totalEventsPerKm 1
    then (risk_moderate, 30 + totalEventsPerKm * 20)
    else (risk_low, totalEventsPerKm * 30) in
  {| level := risk; score := Math_round score; description := getRiskDescription risk |}.

(** The [risk_assessment] entry of [generateSessionStats]. *)
Definition risk_assessment (c : EventCounters) (totalDistance : Q) : RiskAssessment :=
  calculateRiskScore (calculateEventsPerKm c totalDistance) totalDistance.

End Stats.



(** ** Utilities: [src/unnamed/part_000] *)

Module Utils.

(** [n.toString()] of an integer. *)
Definition toString (n : Z) : string := NilZero.string_of_int (Z.to_int n).

(** [n.toString().padStart(2, '0')]. *)
Definition pad2 (n : Z) : string :=
  let s := toString n in
  if Nat.ltb (String.length s) 2 then String.append "0" s else s.

(** The three locals of [formatDuration], for a whole number of seconds:
    [Math.floor] of a quotient is [Z.div], the remainder [%] has the sign of
    the dividend and is [Z.rem]. *)
Definition durationParts (seconds : Z) : Z * Z * Z :=
  let hours := (seconds / 3600)%Z in
  let minutes := (Z.rem seconds 3600 / 60)%Z in
  let secs := Z.rem seconds 60 in
  (hours, minutes, secs).

(** [formatDuration]. *)
Definition formatDuration (seconds : Z) : string :=
  let '(hours, minutes, secs) := durationParts seconds in
  String.append (pad2 hours)
    (String.append ":" (String.append (pad2 minutes) (String.append ":" (pad2 secs)))).

(** [ToInt32]: the signed 32-bit integer congruent to [z]. *)
Definition to_int32 (z : Z) : Z := ((z + 2 ^ 31) mod 2 ^ 32 - 2 ^ 31)%Z.

(** [str.charCodeAt(i)]. *)
Definition charCode (c : ascii) : Z := Z.of_nat (nat_of_ascii c).

(** The body of the loop of [simpleHash]:
    [hash = ((hash << 5) - hash) + char; hash = hash & hash]. *)
Definition hash_step (hash : Z) (c : ascii) : Z :=
  let hash1 := (to_int32 (Z.shiftl (to_int32 hash) 5) - hash + charCode c)%Z in
  Z.land (to_int32 hash1) (to_int32 hash1).

Fixpoint hash_loop (str : string) (hash : Z) : Z :=
  match str with
  | EmptyString => hash
  | String c rest => hash_loop rest (hash_step hash c)
  end.

(** What [simpleHash] returns: the number [0] for the empty string, and
    otherwise the base-36 numeral of a natural number, represented by that
    number. *)
Inductive HashResult : Type :=
| number_zero
| base36 (n : Z).

(** [simpleHash]. *)
Definition simpleHash (str : string) : HashResult :=
  if Nat.eqb (String.length str) 0 then number_zero
  else base36 (Z.abs (hash_loop str 0)).

(** The characters [String.prototype.trim] removes, among the code units
    below 256: tab, line feed, vertical tab, form feed, carriage return,
    space and no-break space. *)
Definition is_space (c : ascii) : bool :=
  let n := nat_of_ascii c in
  Nat.eqb n 9 || Nat.eqb n 10 || Nat.eqb n 11 || Nat.eqb n 12 || Nat.eqb n 13
  || Nat.eqb n 32 || Nat.eqb n 160.

Fixpoint trimStart (s : list ascii) : list ascii :=
  match s with
  | c :: rest => if is_space c then trimStart rest else s
  | [] => []
  end.

(** [s.trim()]. *)
Definition trim (s : list ascii) : list ascii :=
  rev (trimStart (rev (trimStart s))).

(** The characters matched by [/[<>]/]. *)
Definition is_angle (c : ascii) : bool :=
  Ascii.eqb c "<"%char || Ascii.eqb c ">"%char.

(** [sanitizeInput]; [None] is an argument that is not a string. *)
Definition sanitizeInput (input : option (list ascii)) : list ascii :=
  match input with
  | None => []
  | Some s => firstn 50 (filter (fun c => negb (is_angle c)) (trim s))
  end.




End Utils.

(** ** Local storage with a time to live: class [Storage] of [src/unnamed/part_000] *)

Module Storage.

Section Values.

(** The stored values; [JSON.parse (JSON.stringify v)] is taken to be [v]. *)
Variable V : Type.

(** The object [{ value, timestamp, ttl }] kept under a key. *)
Record Item : Type := mkItem {
  value : V;
  timestamp : Q;
  ttl : option Q
}.

(** [localStorage], restricted to the keys written by this class. *)
Definition LocalStorage : Type := string -> option Item.

Definition setItem (key : string) (item : Item) (store : LocalStorage) : LocalStorage :=
  fun k => if String.eqb k key then Some item else store k.


(** [Storage.set]. *)
Definition set (key : string) (v : V) (ttl_ms : option Q) (now : Q)
  (store : LocalStorage) : bool * LocalStorage :=
  (true, setItem key {| value := v; timestamp := now; ttl := ttl_ms |} store).


End Values.

End Storage.

(** ** Recording: class [DrivingMonitorApp] of [src/unnamed/part_000] *)

Module DrivingMonitorApp.

(** The argument of [recordDataPoint]: the object built by the
    [devicemotion] handler or by [onGPSUpdate] (the keys [accuracy] and
    [heading] are not read by the processor). *)
Inductive SensorData : Type :=
| motion (ax ay az : Q)
| gps (latitude longitude speed : Q).

(** The part of the application that recording reads and writes. *)
Record App : Type := mkApp {
  isRecording : bool;
  isPaused : bool;
  participantId : string;
  data : list FieldTested.Enriched;
  dataProcessor : FieldTested.State
}.

(** [baseRecord]: the keys the processor reads. *)
Definition baseRecord (sensorData : SensorData) (now : Q) (app : App) : RawData :=
  match sensorData with
  | motion ax ay az =>
      mkRaw (Present now) (Present (participantId app)) None None None
        (Some ax) (Some ay) (Some az)
  | gps latitude longitude speed =>
      mkRaw (Present now) (Present (participantId app))
        (Some latitude) (Some longitude) (Some speed) None None None
  end.

(** [mergeWithLastRecord]; the first argument is [newRecord.type]. *)
Definition mergeWithLastRecord (sensorData : SensorData) (newRecord : RawData)
  (lastRecord : option FieldTested.Enriched) : RawData :=
  match lastRecord with
  | None => newRecord
  | Some lastR =>
      let l := FieldTested.e_raw lastR in
      match sensorData with
      | motion _ _ _ =>
          if truthy (lat l)
          then mkRaw (timestamp newRecord) (participante newRecord)
                 (lat l) (lon l) (velocidad l)
                 (x newRecord) (y newRecord) (z newRecord)
          else newRecord
      | gps _ _ _ =>
          if defined (x l)
          then mkRaw (timestamp newRecord) (participante newRecord)
                 (lat newRecord) (lon newRecord) (velocidad newRecord)
                 (x l) (y l) (z l)
          else newRecord
      end
  end.

Section Primitives.

Variable Msqrt : Q -> Q.
Variable calculateDistance : Q -> Q -> Q -> Q -> Q.

(** [recordDataPoint] with its two clock readings told apart: [stamp] is the
    [new Date()] that [recordDataPoint] writes into the record, [now] the
    [Date.now()] that [processDataPoint] reads afterwards for its rate gate.
    The periodic [saveDataLocally] writes to local storage only. *)
Definition recordDataPoint_at (sensorData : SensorData) (stamp now : Q) (app : App)
  : App :=
  if negb (isRecording app) || isPaused app then app
  else
    let lastRecord := last_elem (data app) in
    let completeRecord :=
      mergeWithLastRecord sensorData (baseRecord sensorData stamp app) lastRecord in
    let '(result, dp) :=
      FieldTested.processDataPoint Msqrt calculateDistance (Some completeRecord) now
        (dataProcessor app) in
    match result with
    | Some r =>
        {| isRecording := isRecording app; isPaused := isPaused app;
           participantId := participantId app;
           data := push (data app) (FieldTested.processed r);
           dataProcessor := dp |}
    | None =>
        {| isRecording := isRecording app; isPaused := isPaused app;
           participantId := participantId app;
           data := data app;
           dataProcessor := dp |}
    end.

(** A sequence of sensor callbacks, each with the two clock readings of its
    call: the stamp, then the gate's reading. *)
Definition record_all_at (readings : list (Q * Q * SensorData)) (app : App) : App :=
  fold_left (fun a r => recordDataPoint_at (snd r) (fst (fst r)) (snd (fst r)) a)
    readings app.

(** [recordDataPoint] when both clock readings fall in the same millisecond;
    the periodic [saveDataLocally] writes to local storage only. *)
Definition recordDataPoint (sensorData : SensorData) (now : Q) (app : App) : App :=
  if negb (isRecording app) || isPaused app then app
  else
    let lastRecord := last_elem (data app) in
    let completeRecord :=
      mergeWithLastRecord sensorData (baseRecord sensorData now app) lastRecord in
    let '(result, dp) :=
      FieldTested.processDataPoint Msqrt calculateDistance (Some completeRecord) now
        (dataProcessor app) in
    match result with
    | Some r =>
        {| isRecording := isRecording app; isPaused := isPaused app;
           participantId := participantId app;
           data := push (data app) (FieldTested.processed r);
           dataProcessor := dp |}
    | None =>
        {| isRecording := isRecording app; isPaused := isPaused app;
           participantId := participantId app;
           data := data app;
           dataProcessor := dp |}
    end.

(** A sequence of sensor callbacks, each with the clock reading of its call. *)
Definition record_all (readings : list (Q * SensorData)) (app : App) : App :=
  fold_left (fun a r => recordDataPoint (snd r) (fst r) a) readings app.

End Primitives.

End DrivingMonitorApp.

(** ** Partial threshold updates: [setThresholds] of [src/data-processor.js] *)

(** The argument of [setThresholds]: an object with some of the keys of
    [this.thresholds]; [None] is an absent key. *)
Record ThresholdUpdate : Type := mkUpdate {
  u_harsh_acceleration : option Q;
  u_harsh_braking : option Q;
  u_aggressive_turn : option Q;
  u_speeding : option Q;
  u_minimum_speed : option Q;
  u_motion_threshold : option Q;
  u_sustained_motion : option Q;
  u_acceleration_noise : option Q;
  u_gps_noise : option Q;
  u_stability_time : option Q
}.

(** [b.k] if the key is present, else [a.k]. *)
Definition over {A : Type} (a : A) (b : option A) : A :=
  match b with
  | Some v => v
  | None => a
  end.

(** [{ ...this.thresholds, ...newThresholds }]. *)
Definition spread_thresholds (th : FieldTested.Thresholds) (u : ThresholdUpdate)
  : FieldTested.Thresholds :=
  FieldTested.mkThresholds
    (over (FieldTested.harsh_acceleration th) (u_harsh_acceleration u))
    (over (FieldTested.harsh_braking th) (u_harsh_braking u))
    (over (FieldTested.aggressive_turn th) (u_aggressive_turn u))
    (over (FieldTested.speeding th) (u_speeding u))
    (over (FieldTested.minimum_speed th) (u_minimum_speed u))
    (over (FieldTested.motion_threshold th) (u_motion_threshold u))
    (over (FieldTested.sustained_motion th) (u_sustained_motion u))
    (over (FieldTested.acceleration_noise th) (u_acceleration_noise u))
    (over (FieldTested.gps_noise th) (u_gps_noise u))
    (over (FieldTested.stability_time th) (u_stability_time u)).

(** [setThresholds(newThresholds)]. *)
Definition setThresholds_with (u : ThresholdUpdate) (st : FieldTested.State)
  : FieldTested.State :=
  FieldTested.setThresholds (spread_thresholds (FieldTested.thresholds st) u) st.

(** The update of [setupDataProcessor]. *)
Definition experiment_thresholds : ThresholdUpdate :=
  {| u_harsh_acceleration := Some (25 # 10); u_harsh_braking := Some (25 # 10);
     u_aggressive_turn := Some 4; u_speeding := Some 15;
     u_minimum_speed := None; u_motion_threshold := None; u_sustained_motion := None;
     u_acceleration_noise := None; u_gps_noise := None; u_stability_time := None |}.

(** Two updates in a row, as one update. *)
Definition then_update (u1 u2 : ThresholdUpdate) : ThresholdUpdate :=
  {| u_harsh_acceleration := over (u_harsh_acceleration u1) (option_map Some (u_harsh_acceleration u2));
     u_harsh_braking := over (u_harsh_braking u1) (option_map Some (u_harsh_braking u2));
     u_aggressive_turn := over (u_aggressive_turn u1) (option_map Some (u_aggressive_turn u2));
     u_speeding := over (u_speeding u1) (option_map Some (u_speeding u2));
     u_minimum_speed := over (u_minimum_speed u1) (option_map Some (u_minimum_speed u2));
     u_motion_threshold := over (u_motion_threshold u1) (option_map Some (u_motion_threshold u2));
     u_sustained_motion := over (u_sustained_motion u1) (option_map Some (u_sustained_motion u2));
     u_acceleration_noise :=
       over (u_acceleration_noise u1) (option_map Some (u_acceleration_noise u2));
     u_gps_noise := over (u_gps_noise u1) (option_map Some (u_gps_noise u2));
     u_stability_time := over (u_stability_time u1) (option_map Some (u_stability_time u2)) |}.

(** ** CSV export: [src/export-manager.js] *)

Module ExportManager.

(** The properties of a row that [detectEventsForRow] reads. *)
Record Row : Type := mkRow {
  r_longitudinal_acceleration : option Q;
  r_x : option Q;
  r_speed_limit : option Q;
  r_velocidad : option Q
}.

(** The object [detectEventsForRow] returns. *)
Record RowEvents : Type := mkRowEvents {
  row_harsh_acceleration : bool;
  row_harsh_braking : bool;
  row_aggressive_turn : bool;
  row_speeding : bool
}.

(** [detectEventsForRow]; its arguments [allData] and [index] are not used. *)
Definition detectEventsForRow (row : Row) : RowEvents :=
  let la := r_longitudinal_acceleration row in
  let speedLimit := orNum (r_speed_limit row) 50 in
  {| row_harsh_acceleration := truthy la && Qgtb (num la) (25 # 10);
     row_harsh_braking := truthy la && Qltb (num la) (- (25 # 10));
     row_aggressive_turn := truthy (r_x row) && Qgtb (Qabs (num (r_x row))) 4;
     row_speeding :=
       truthy (r_velocidad row) && Qgtb (num (r_velocidad row)) (speedLimit + 15) |}.

End ExportManager.

(** A record stored by the field-tested processor, as a row of the export:
    [enrichDataFieldTested] sets no [speed_limit]. *)
Definition export_row (r : FieldTested.Enriched) : ExportManager.Row :=
  {| ExportManager.r_longitudinal_acceleration := FieldTested.longitudinal_acceleration r;
     ExportManager.r_x := x (FieldTested.e_raw r);
     ExportManager.r_speed_limit := None;
     ExportManager.r_velocidad := velocidad (FieldTested.e_raw r) |}.

(** ** Vocabulary of the further properties *)

(** The three sliding arrays of a field-tested processor are within their
    capacities. *)
Definition within_capacity (st : FieldTested.State) : Prop :=
  (length (FieldTested.dataBuffer st) <= FieldTested.bufferSize)%nat /\
  (length (FieldTested.accelerationHistory st) <= 10)%nat /\
  (length (FieldTested.motionHistory st) <= 20)%nat.

(** The entry of an event type in the counters. *)
Definition counter_of (c : EventCounters) (t : EventType) : nat :=
  match t with
  | harsh_acceleration_t => c_harsh_acceleration c
  | harsh_braking_t => c_harsh_braking c
  | aggressive_turn_t => c_aggressive_turn c
  | speeding_t => c_speeding c
  end.

(** The ordinal of a severity. *)
Definition severity_rank (s : Severity) : nat :=
  match s with
  | low => 0
  | moderate => 1
  | high => 2
  | extreme => 3
  end.

(** The events a call handed back: those of its result, none when it
    returned [null]. *)
Definition FieldTested_call_events (r : option FieldTested.Result) : list DrivingEvent :=
  match r with
  | Some res => FieldTested.events res
  | None => []
  end.

Definition Calibrated_call_events (r : option Calibrated.Result) : list DrivingEvent :=
  match r with
  | Some res => Calibrated.events res
  | None => []
  end.

(** The event types of an array in which each block pushed at most once. *)
Definition pushed_types (b1 b2 b3 b4 : bool) : list EventType :=
  (if b1 then [harsh_acceleration_t] else []) ++
  (if b2 then [harsh_braking_t] else []) ++
  (if b3 then [aggressive_turn_t] else []) ++
  (if b4 then [speeding_t] else []).

(** The field-tested processor after the five samples of [warm_up], and two
    calls made 1.5 s later while the phone is pushed backwards: one without
    and one with a GPS fix reporting 100 km/h. *)
Definition warmed_up : FieldTested.State :=
  snd (FieldTested.run Qsqrt same_point_distance FieldTested.new_DataProcessor warm_up).

Definition braking_call : Q * option RawData := accel_sample 17500 1 (- (2 # 1)) (98 # 10).

Definition speeding_call : Q * option RawData :=
  gps_sample 17500 100 1 (- (2 # 1)) (98 # 10).

(** The two decimal digits of a number below 100. *)
Definition digit_char (d : Z) : ascii := ascii_of_nat (48 + Z.to_nat d).

Definition two_digits (n : Z) : string :=
  String (digit_char (n / 10)) (String (digit_char (n mod 10)) EmptyString).

(** The polynomial in 31 whose coefficients are the character codes of a
    string, continued from [h]. *)
Fixpoint poly31 (str : string) (h : Z) : Z :=
  match str with
  | EmptyString => h
  | String c rest => poly31 rest (31 * h + Utils.charCode c)%Z
  end.

(** An input that [sanitizeInput] has nothing to do on: at most 50
    characters, no angle bracket, no white space at either end. *)
Definition already_clean (s : list ascii) : Prop :=
  (length s <= 50)%nat /\
  Forall (fun c => Utils.is_angle c = false) s /\
  (forall c, hd_error s = Some c -> Utils.is_space c = false) /\
  (forall c, hd_error (rev s) = Some c -> Utils.is_space c = false).




(** The stored records are at least [gap] apart, each from the next. *)
Definition spaced_records (gap : Q) (records : list FieldTested.Enriched) : Prop :=
  forall i a b,
    nth_error records i = Some a -> nth_error records (S i) = Some b ->
    instant (FieldTested.e_raw a) + gap <= instant (FieldTested.e_raw b).

(** A reading of the accelerometer. *)
Definition is_motion (s : DrivingMonitorApp.SensorData) : bool :=
  match s with
  | DrivingMonitorApp.motion _ _ _ => true
  | DrivingMonitorApp.gps _ _ _ => false
  end.

(** A session that has just started for participant [P01], and a GPS fix
    followed by accelerometer readings. *)
Definition fresh_session : DrivingMonitorApp.App :=
  {| DrivingMonitorApp.isRecording := true; DrivingMonitorApp.isPaused := false;
     DrivingMonitorApp.participantId := "P01";
     DrivingMonitorApp.data := [];
     DrivingMonitorApp.dataProcessor :=
       FieldTested.resetCounters FieldTested.new_DataProcessor |}.

Definition fix_then_motion : list (Q * DrivingMonitorApp.SensorData) :=
  [(10000, DrivingMonitorApp.gps 27 (- (109 # 1)) 50);
   (10200, DrivingMonitorApp.motion 1 1 (98 # 10));
   (11600, DrivingMonitorApp.motion 1 1 (98 # 10));
   (13200, DrivingMonitorApp.motion 1 2 (98 # 10))].

(** Two readings whose gate clocks are one record interval apart, the
    second stamped two milliseconds before its gate reads the clock. *)
Definition late_gate : list (Q * Q * DrivingMonitorApp.SensorData) :=
  [(10000, 10000, DrivingMonitorApp.gps 27 (- (109 # 1)) 50);
   (11498, 11500, DrivingMonitorApp.motion 1 1 (98 # 10))].

(** Every call reads the gate's clock after the stamp and at most [delay]
    later. *)
Definition timely (delay : Q) (readings : list (Q * Q * DrivingMonitorApp.SensorData))
  : Prop :=
  Forall (fun r => fst (fst r) <= snd (fst r) /\ snd (fst r) <= fst (fst r) + delay)
    readings.

(** The session after the GPS fix of [fix_then_motion], and the record that
    fix leaves in it. *)
Definition session_with_fix : DrivingMonitorApp.App :=
  DrivingMonitorApp.record_all Qsqrt same_point_distance (firstn 1 fix_then_motion)
    fresh_session.

Definition stored_fix : FieldTested.Enriched :=
  let rec :=
    DrivingMonitorApp.baseRecord (DrivingMonitorApp.gps 27 (- (109 # 1)) 50) 10000
      fresh_session in
  FieldTested.enrichDataFieldTested Qsqrt rec
    (FieldTested.updateHybridMovementDetection Qsqrt same_point_distance rec 10000
       (FieldTested.set_lastRecordTime
          (DrivingMonitorApp.dataProcessor fresh_session) 10000)).

(** The record carries the position and speed [(a, b, v)]. *)
Definition carries_fix (a b v : option Q) (r : FieldTested.Enriched) : Prop :=
  lat (FieldTested.e_raw r) = a /\ lon (FieldTested.e_raw r) = b /\
  velocidad (FieldTested.e_raw r) = v.

(** * Properties *)

(** ** Comparisons and truthiness *)

Lemma Qgtb_true (a b : Q) : Qgtb a b = true <-> b < a.
Proof.
  unfold Qgtb. rewrite negb_true_iff, <- not_true_iff_false, Qle_bool_iff.
  split; intro H; [apply Qnot_le_lt | apply Qlt_not_le]; exact H.
Qed.

Lemma Qgtb_false (a b : Q) : Qgtb a b = false <-> a <= b.
Proof.
  unfold Qgtb. rewrite negb_false_iff. apply Qle_bool_iff.
Qed.

Lemma Qltb_true (a b : Q) : Qltb a b = true <-> a < b.
Proof. unfold Qltb. apply (Qgtb_true b a). Qed.

Lemma Qltb_false (a b : Q) : Qltb a b = false <-> b <= a.
Proof. unfold Qltb. apply (Qgtb_false b a). Qed.

Lemma Qgeb_true (a b : Q) : Qgeb a b = true <-> b <= a.
Proof. unfold Qgeb. apply Qle_bool_iff. Qed.

Lemma Qgeb_false (a b : Q) : Qgeb a b = false <-> a < b.
Proof.
  unfold Qgeb. rewrite <- not_true_iff_false, Qle_bool_iff.
  split; intro H; [apply Qnot_le_lt | apply Qlt_not_le]; exact H.
Qed.

Lemma Qleb_true (a b : Q) : Qleb a b = true <-> a <= b.
Proof. unfold Qleb. apply Qle_bool_iff. Qed.

Lemma truthyQ_true (q : Q) : truthyQ q = true <-> ~ q == 0.
Proof.
  unfold truthyQ. rewrite negb_true_iff, <- not_true_iff_false, Qeq_bool_iff.
  reflexivity.
Qed.

Lemma truthyQ_false (q : Q) : truthyQ q = false <-> q == 0.
Proof.
  unfold truthyQ. rewrite negb_false_iff. apply Qeq_bool_iff.
Qed.

Lemma truthy_zero (q : Q) : q == 0 -> truthy (Some q) = false.
Proof. intro H. simpl. apply truthyQ_false, H. Qed.

Lemma orNum_zero (q : Q) : q == 0 -> orNum (Some q) 0 = 0.
Proof. intro H. unfold orNum. rewrite (proj2 (truthyQ_false q) H). reflexivity. Qed.

(** Case analysis on a boolean comparison, keeping the order fact. *)
Ltac case_cmp c :=
  let E := fresh "E" in
  destruct c eqn:E;
  [ first [ apply Qgtb_true in E | apply Qltb_true in E
          | apply Qgeb_true in E | apply Qleb_true in E ]
  | first [ apply Qgtb_false in E | apply Qltb_false in E
          | apply Qgeb_false in E ] ].

(** ** Severity *)

Lemma ratio_of_multiple (k t : Q) : ~ t == 0 -> (k * t) / t == k.
Proof. intro Ht. field. exact Ht. Qed.

Lemma Calibrated_severity_cases (v t : Q) :
  let r := v / t in
  (Calibrated.calculateSeverity v t = extreme <-> 25 # 10 <= r) /\
  (Calibrated.calculateSeverity v t = high <-> 2 <= r /\ r < 25 # 10) /\
  (Calibrated.calculateSeverity v t = moderate <-> 15 # 10 <= r /\ r < 2) /\
  (Calibrated.calculateSeverity v t = low <-> r < 15 # 10).
Proof.
  unfold Calibrated.calculateSeverity. cbv zeta.
  case_cmp (Qgeb (v / t) (25 # 10));
    [| case_cmp (Qgeb (v / t) 2);
       [| case_cmp (Qgeb (v / t) (15 # 10)) ] ];
    repeat split; intros; try discriminate; try reflexivity; try lra.
Qed.

Lemma FieldTested_severity_cases (v t : Q) :
  let r := v / t in
  (FieldTested.calculateSeverity v t = extreme <-> 2 <= r) /\
  (FieldTested.calculateSeverity v t = high <-> 15 # 10 <= r /\ r < 2) /\
  (FieldTested.calculateSeverity v t = moderate <-> 12 # 10 <= r /\ r < 15 # 10) /\
  (FieldTested.calculateSeverity v t = low <-> r < 12 # 10).
Proof.
  unfold FieldTested.calculateSeverity. cbv zeta.
  case_cmp (Qgeb (v / t) 2);
    [| case_cmp (Qgeb (v / t) (3 # 2));
       [| case_cmp (Qgeb (v / t) (12 # 10)) ] ];
    repeat split; intros; try discriminate; try reflexivity; try lra.
Qed.

(** ** The four detection blocks as one list *)

Lemma EventType_eqb_eq (a b : EventType) : EventType_eqb a b = true <-> a = b.
Proof. destruct a, b; simpl; split; intro H; try reflexivity; discriminate. Qed.

Lemma has_type_In (t : EventType) (evs : list DrivingEvent) :
  has_type t evs = true <-> exists e, In e evs /\ ev_type e = t.
Proof.
  unfold has_type. rewrite existsb_exists.
  split; intros [e [Hin He]]; exists e; split; try exact Hin;
    apply EventType_eqb_eq; exact He.
Qed.

Lemma In_offer (L : LastEventTime) (now gap : Q) (c : option DrivingEvent)
  (e : DrivingEvent) :
  In e (offer L now gap c) <->
  c = Some e /\ may_fire (last_of L (ev_type e)) now gap = true.
Proof.
  unfold offer. destruct c as [e0|].
  - destruct (may_fire (last_of L (ev_type e0)) now gap) eqn:F; simpl.
    + split.
      * intros [<- | []]. split; [reflexivity | exact F].
      * intros [[= ->] _]. left. reflexivity.
    + split; [intros [] | intros [[= ->] F']]. congruence.
  - simpl. split; [intros [] | intros [[=] _]].
Qed.

(** Four blocks whose events have the four distinct types do not see each
    other's updates of [lastEventTime]. *)
Lemma four_blocks (L : LastEventTime) (now g1 g2 g3 g4 : Q)
  (c1 c2 c3 c4 : option DrivingEvent) :
  (forall e, c1 = Some e -> ev_type e = harsh_acceleration_t) ->
  (forall e, c2 = Some e -> ev_type e = harsh_braking_t) ->
  (forall e, c3 = Some e -> ev_type e = aggressive_turn_t) ->
  (forall e, c4 = Some e -> ev_type e = speeding_t) ->
  emit_opt (emit_opt (emit_opt (emit_opt ([], L) now g1 c1) now g2 c2) now g3 c3) now g4 c4
  = (offer L now g1 c1 ++ offer L now g2 c2 ++ offer L now g3 c3 ++ offer L now g4 c4,
     mkLast (stamp L now g1 c1 harsh_acceleration_t)
            (stamp L now g2 c2 harsh_braking_t)
            (stamp L now g3 c3 aggressive_turn_t)
            (stamp L now g4 c4 speeding_t)).
Proof.
  intros H1 H2 H3 H4. destruct L as [la lb lt ls].
  unfold stamp, offer, emit_opt, emit, push.
  destruct c1 as [e1|]; [rewrite (H1 e1 eq_refl) | ];
  (destruct c2 as [e2|]; [rewrite (H2 e2 eq_refl) | ]);
  (destruct c3 as [e3|]; [rewrite (H3 e3 eq_refl) | ]);
  (destruct c4 as [e4|]; [rewrite (H4 e4 eq_refl) | ]);
  repeat (cbn [fst snd last_of set_last l_harsh_acceleration l_harsh_braking
                 l_aggressive_turn l_speeding app];
          match goal with
          | |- context [may_fire ?l now ?g] => is_var l; destruct (may_fire l now g)
          end);
  reflexivity.
Qed.

(** ** The detectors, block by block *)

Lemma FieldTested_trigger_harsh_acceleration (th : FieldTested.Thresholds)
  (data : FieldTested.Enriched) (e : DrivingEvent) :
  FieldTested.trigger_harsh_acceleration th data = Some e ->
  ev_type e = harsh_acceleration_t /\
  ev_severity e = FieldTested.calculateSeverity (ev_value e) (FieldTested.harsh_acceleration th) /\
  FieldTested.harsh_acceleration th < ev_value e.
Proof.
  unfold FieldTested.trigger_harsh_acceleration.
  destruct (FieldTested.filtered_acceleration data) as [f|]; [| discriminate].
  cbv zeta. case_cmp (Qgtb (FieldTested.longitudinal_of data f) (FieldTested.harsh_acceleration th));
    [| discriminate].
  intros [= <-]. simpl. auto.
Qed.

Lemma FieldTested_trigger_harsh_braking (th : FieldTested.Thresholds)
  (data : FieldTested.Enriched) (e : DrivingEvent) :
  FieldTested.trigger_harsh_braking th data = Some e ->
  ev_type e = harsh_braking_t /\
  ev_severity e = FieldTested.calculateSeverity (ev_value e) (FieldTested.harsh_braking th).
Proof.
  unfold FieldTested.trigger_harsh_braking.
  destruct (FieldTested.filtered_acceleration data) as [f|]; [| discriminate].
  cbv zeta.
  destruct (Qltb (FieldTested.longitudinal_of data f) (- FieldTested.harsh_braking th));
    [| discriminate].
  intros [= <-]. simpl. auto.
Qed.

Lemma FieldTested_trigger_aggressive_turn (th : FieldTested.Thresholds)
  (data : FieldTested.Enriched) (e : DrivingEvent) :
  FieldTested.trigger_aggressive_turn th data = Some e <->
  exists f,
    FieldTested.filtered_acceleration data = Some f /\
    FieldTested.aggressive_turn th < Qabs (vx f) /\
    e = {| ev_type := aggressive_turn_t;
           ev_severity :=
             FieldTested.calculateSeverity (Qabs (vx f)) (FieldTested.aggressive_turn th);
           ev_value := Qabs (vx f);
           ev_direction := Some (if Qgtb (vx f) 0 then right else left);
           ev_speed := None; ev_limit := None;
           ev_method := Some (FieldTested.detection_method data);
           ev_timestamp := instant (FieldTested.e_raw data);
           ev_location :=
             (orNull (lat (FieldTested.e_raw data)), orNull (lon (FieldTested.e_raw data)));
           ev_confidence := FieldTested.movement_confidence data |}.
Proof.
  unfold FieldTested.trigger_aggressive_turn.
  destruct (FieldTested.filtered_acceleration data) as [f|].
  - cbv zeta. case_cmp (Qgtb (Qabs (vx f)) (FieldTested.aggressive_turn th)).
    + split.
      * intros [= <-]. exists f. auto.
      * intros [f' [[= <-] [_ ->]]]. reflexivity.
    + split; [discriminate |].
      intros [f' [[= <-] [Hlt _]]]. lra.
  - split; [discriminate | intros [f' [[=] _]]].
Qed.

Lemma FieldTested_trigger_speeding (th : FieldTested.Thresholds) (limit : Q)
  (data : FieldTested.Enriched) (e : DrivingEvent) :
  FieldTested.trigger_speeding th limit data = Some e ->
  ev_type e = speeding_t /\
  FieldTested.gps_available data = true /\
  truthy (velocidad (FieldTested.e_raw data)) = true.
Proof.
  unfold FieldTested.trigger_speeding.
  destruct (FieldTested.gps_available data); [| discriminate].
  destruct (truthy (velocidad (FieldTested.e_raw data))); [| discriminate].
  cbv zeta. simpl andb. cbv iota.
  destruct (Qgtb _ _); [| discriminate].
  intros [= <-]. simpl. auto.
Qed.

(** [detectEventsHybrid] while the vehicle is moving: the offers of the four
    blocks, each read against the [lastEventTime] the call started with. *)
Lemma FieldTested_detect_moving (data : FieldTested.Enriched) (now : Q)
  (st : FieldTested.State) :
  FieldTested.isVehicleMoving st = true ->
  let th := FieldTested.thresholds st in
  let L := FieldTested.lastEventTime st in
  let g := FieldTested.stability_time th in
  let c1 := FieldTested.trigger_harsh_acceleration th data in
  let c2 := FieldTested.trigger_harsh_braking th data in
  let c3 := FieldTested.trigger_aggressive_turn th data in
  let c4 := FieldTested.trigger_speeding th (FieldTested.currentSpeedLimit st) data in
  FieldTested.detectEventsHybrid data now st
  = (offer L now g c1 ++ offer L now g c2 ++ offer L now g c3 ++ offer L now (g * 2) c4,
     FieldTested.set_lastEventTime st
       (mkLast (stamp L now g c1 harsh_acceleration_t)
               (stamp L now g c2 harsh_braking_t)
               (stamp L now g c3 aggressive_turn_t)
               (stamp L now (g * 2) c4 speeding_t))).
Proof.
  intros Hm. cbv zeta. unfold FieldTested.detectEventsHybrid.
  rewrite Hm. cbv zeta. simpl negb. cbv iota.
  rewrite four_blocks.
  - reflexivity.
  - intros e He. apply FieldTested_trigger_harsh_acceleration in He. tauto.
  - intros e He. apply FieldTested_trigger_harsh_braking in He. tauto.
  - intros e He. apply FieldTested_trigger_aggressive_turn in He.
    destruct He as [f [_ [_ ->]]]. reflexivity.
  - intros e He. apply FieldTested_trigger_speeding in He. tauto.
Qed.

Lemma FieldTested_detect_still (data : FieldTested.Enriched) (now : Q)
  (st : FieldTested.State) :
  FieldTested.isVehicleMoving st = false ->
  FieldTested.detectEventsHybrid data now st = ([], st).
Proof.
  intros Hm. unfold FieldTested.detectEventsHybrid. rewrite Hm. reflexivity.
Qed.

(** Where an event of [detectEventsHybrid] comes from. *)
Lemma FieldTested_detect_In (data : FieldTested.Enriched) (now : Q)
  (st : FieldTested.State) (e : DrivingEvent) :
  In e (fst (FieldTested.detectEventsHybrid data now st)) ->
  FieldTested.isVehicleMoving st = true /\
  may_fire (last_of (FieldTested.lastEventTime st) (ev_type e)) now
    (FieldTested_gap (FieldTested.thresholds st) (ev_type e)) = true /\
  (FieldTested.trigger_harsh_acceleration (FieldTested.thresholds st) data = Some e \/
   FieldTested.trigger_harsh_braking (FieldTested.thresholds st) data = Some e \/
   FieldTested.trigger_aggressive_turn (FieldTested.thresholds st) data = Some e \/
   FieldTested.trigger_speeding (FieldTested.thresholds st)
     (FieldTested.currentSpeedLimit st) data = Some e).
Proof.
  destruct (FieldTested.isVehicleMoving st) eqn:Hm.
  - rewrite (FieldTested_detect_moving data now st Hm). cbv zeta. simpl fst.
    rewrite !in_app_iff, !In_offer.
    intros [[Hc Hf] | [[Hc Hf] | [[Hc Hf] | [Hc Hf]]]]; split; try reflexivity.
    + pose proof (FieldTested_trigger_harsh_acceleration _ _ _ Hc) as [Ht _].
      rewrite Ht in *. simpl. tauto.
    + pose proof (FieldTested_trigger_harsh_braking _ _ _ Hc) as [Ht _].
      rewrite Ht in *. simpl. tauto.
    + pose proof (proj1 (FieldTested_trigger_aggressive_turn _ _ _) Hc) as [f [_ [_ He]]].
      assert (Ht : ev_type e = aggressive_turn_t) by (rewrite He; reflexivity).
      rewrite Ht in *. simpl. tauto.
    + pose proof (FieldTested_trigger_speeding _ _ _ _ Hc) as [Ht _].
      rewrite Ht in *. simpl. tauto.
  - rewrite (FieldTested_detect_still data now st Hm). intros [].
Qed.

Lemma Calibrated_trigger_harsh_acceleration (st : Calibrated.State)
  (data : Calibrated.Enriched) (e : DrivingEvent) :
  Calibrated.trigger_harsh_acceleration st data = Some e ->
  ev_type e = harsh_acceleration_t /\
  ev_severity e =
    Calibrated.calculateSeverity (ev_value e)
      (Calibrated.harsh_acceleration (Calibrated.thresholds st)) /\
  truthy (Calibrated.longitudinal_acceleration data) = true.
Proof.
  unfold Calibrated.trigger_harsh_acceleration. cbv zeta.
  destruct (truthy (Calibrated.longitudinal_acceleration data)); [| discriminate].
  destruct (Qgtb _ _); [| discriminate].
  intros [= <-]. simpl. auto.
Qed.

Lemma Calibrated_trigger_harsh_braking (st : Calibrated.State)
  (data : Calibrated.Enriched) (e : DrivingEvent) :
  Calibrated.trigger_harsh_braking st data = Some e ->
  ev_type e = harsh_braking_t /\
  ev_severity e =
    Calibrated.calculateSeverity (ev_value e)
      (Calibrated.harsh_braking (Calibrated.thresholds st)) /\
  truthy (Calibrated.longitudinal_acceleration data) = true.
Proof.
  unfold Calibrated.trigger_harsh_braking. cbv zeta.
  destruct (truthy (Calibrated.longitudinal_acceleration data)); [| discriminate].
  destruct (Qltb _ _); [| discriminate].
  intros [= <-]. simpl. auto.
Qed.

Lemma Calibrated_trigger_aggressive_turn (st : Calibrated.State)
  (data : Calibrated.Enriched) (e : DrivingEvent) :
  Calibrated.trigger_aggressive_turn st data = Some e ->
  ev_type e = aggressive_turn_t /\
  ev_severity e =
    Calibrated.calculateSeverity (ev_value e)
      (Calibrated.aggressive_turn (Calibrated.thresholds st)) /\
  (exists s, Calibrated.filtered_speed data = Some s /\ 15 < s) /\
  Calibrated.aggressive_turn (Calibrated.thresholds st) < ev_value e.
Proof.
  unfold Calibrated.trigger_aggressive_turn. cbv zeta.
  destruct (Calibrated.filtered_acceleration data) as [f|]; [| discriminate].
  unfold Calibrated.speed_above.
  destruct (Calibrated.filtered_speed data) as [s|]; [| discriminate].
  case_cmp (Qgtb s 15); [| discriminate].
  case_cmp (Qgtb (Qabs (vx f)) (Calibrated.aggressive_turn (Calibrated.thresholds st)));
    [| discriminate].
  intros [= <-]. simpl. repeat split; try assumption.
  exists s. split; [reflexivity | assumption].
Qed.

Lemma Calibrated_trigger_speeding (st : Calibrated.State)
  (data : Calibrated.Enriched) (e : DrivingEvent) :
  Calibrated.trigger_speeding st data = Some e ->
  ev_type e = speeding_t /\
  truthy (Calibrated.filtered_speed data) = true.
Proof.
  unfold Calibrated.trigger_speeding. cbv zeta.
  destruct (truthy (Calibrated.filtered_speed data)); [| discriminate].
  destruct (Calibrated.speed_above _ _); [| discriminate].
  simpl andb. cbv iota.
  destruct (Qgtb _ _); [| discriminate].
  intros [= <-]. simpl. auto.
Qed.

Lemma Calibrated_detect_on (data : Calibrated.Enriched) (now : Q)
  (st : Calibrated.State) :
  Calibrated_detecting data st = true ->
  let L := Calibrated.lastEventTime st in
  let g := Calibrated.stability_time (Calibrated.thresholds st) in
  let c1 := Calibrated.trigger_harsh_acceleration st data in
  let c2 := Calibrated.trigger_harsh_braking st data in
  let c3 := Calibrated.trigger_aggressive_turn st data in
  let c4 := Calibrated.trigger_speeding st data in
  Calibrated.detectDrivingEventsFiltered data now st
  = (offer L now g c1 ++ offer L now g c2 ++ offer L now g c3 ++ offer L now (g * 3) c4,
     Calibrated.set_lastEventTime st
       (mkLast (stamp L now g c1 harsh_acceleration_t)
               (stamp L now g c2 harsh_braking_t)
               (stamp L now g c3 aggressive_turn_t)
               (stamp L now (g * 3) c4 speeding_t))).
Proof.
  unfold Calibrated_detecting. intros Hd. apply negb_true_iff in Hd.
  cbv zeta. unfold Calibrated.detectDrivingEventsFiltered.
  rewrite Hd. cbv zeta.
  rewrite four_blocks.
  - reflexivity.
  - intros e He. apply Calibrated_trigger_harsh_acceleration in He. tauto.
  - intros e He. apply Calibrated_trigger_harsh_braking in He. tauto.
  - intros e He. apply Calibrated_trigger_aggressive_turn in He. tauto.
  - intros e He. apply Calibrated_trigger_speeding in He. tauto.
Qed.

Lemma Calibrated_detect_off (data : Calibrated.Enriched) (now : Q)
  (st : Calibrated.State) :
  Calibrated_detecting data st = false ->
  Calibrated.detectDrivingEventsFiltered data now st = ([], st).
Proof.
  unfold Calibrated_detecting. intros Hd. apply negb_false_iff in Hd.
  unfold Calibrated.detectDrivingEventsFiltered. rewrite Hd. reflexivity.
Qed.

Lemma Calibrated_detect_In (data : Calibrated.Enriched) (now : Q)
  (st : Calibrated.State) (e : DrivingEvent) :
  In e (fst (Calibrated.detectDrivingEventsFiltered data now st)) ->
  Calibrated.isVehicleMoving st = true /\
  may_fire (last_of (Calibrated.lastEventTime st) (ev_type e)) now
    (Calibrated_gap (Calibrated.thresholds st) (ev_type e)) = true /\
  (Calibrated.trigger_harsh_acceleration st data = Some e \/
   Calibrated.trigger_harsh_braking st data = Some e \/
   Calibrated.trigger_aggressive_turn st data = Some e \/
   Calibrated.trigger_speeding st data = Some e).
Proof.
  destruct (Calibrated_detecting data st) eqn:Hd.
  - rewrite (Calibrated_detect_on data now st Hd). cbv zeta. simpl fst.
    assert (Hm : Calibrated.isVehicleMoving st = true).
    { unfold Calibrated_detecting in Hd.
      destruct (Calibrated.isVehicleMoving st); [reflexivity | discriminate]. }
    rewrite !in_app_iff, !In_offer.
    intros [[Hc Hf] | [[Hc Hf] | [[Hc Hf] | [Hc Hf]]]]; split; try exact Hm.
    + pose proof (Calibrated_trigger_harsh_acceleration _ _ _ Hc) as [Ht _].
      rewrite Ht in *. simpl. tauto.
    + pose proof (Calibrated_trigger_harsh_braking _ _ _ Hc) as [Ht _].
      rewrite Ht in *. simpl. tauto.
    + pose proof (Calibrated_trigger_aggressive_turn _ _ _ Hc) as [Ht _].
      rewrite Ht in *. simpl. tauto.
    + pose proof (Calibrated_trigger_speeding _ _ _ Hc) as [Ht _].
      rewrite Ht in *. simpl. tauto.
  - rewrite (Calibrated_detect_off data now st Hd). intros [].
Qed.

(** ** C1: severity by ratio *)

Lemma FieldTested_event_severity (st : FieldTested.State) (data : FieldTested.Enriched)
  (now : Q) (e : DrivingEvent) :
  In e (fst (FieldTested.detectEventsHybrid data now st)) ->
  ev_type e <> speeding_t ->
  ev_severity e =
    FieldTested.calculateSeverity (ev_value e)
      (FieldTested_threshold (FieldTested.thresholds st) (ev_type e)).
Proof.
  intros Hin Hns. apply FieldTested_detect_In in Hin.
  destruct Hin as [_ [_ [Hc | [Hc | [Hc | Hc]]]]].
  - apply FieldTested_trigger_harsh_acceleration in Hc.
    destruct Hc as [Ht [Hs _]]. rewrite Ht. exact Hs.
  - apply FieldTested_trigger_harsh_braking in Hc.
    destruct Hc as [Ht Hs]. rewrite Ht. exact Hs.
  - apply FieldTested_trigger_aggressive_turn in Hc.
    destruct Hc as [f [_ [_ ->]]]. reflexivity.
  - apply FieldTested_trigger_speeding in Hc. destruct Hc as [Ht _]. contradiction.
Qed.

Lemma Calibrated_event_severity (st : Calibrated.State) (data : Calibrated.Enriched)
  (now : Q) (e : DrivingEvent) :
  In e (fst (Calibrated.detectDrivingEventsFiltered data now st)) ->
  ev_type e <> speeding_t ->
  ev_severity e =
    Calibrated.calculateSeverity (ev_value e)
      (Calibrated_threshold (Calibrated.thresholds st) (ev_type e)).
Proof.
  intros Hin Hns. apply Calibrated_detect_In in Hin.
  destruct Hin as [_ [_ [Hc | [Hc | [Hc | Hc]]]]].
  - apply Calibrated_trigger_harsh_acceleration in Hc.
    destruct Hc as [Ht [Hs _]]. rewrite Ht. exact Hs.
  - apply Calibrated_trigger_harsh_braking in Hc.
    destruct Hc as [Ht [Hs _]]. rewrite Ht. exact Hs.
  - apply Calibrated_trigger_aggressive_turn in Hc.
    destruct Hc as [Ht [Hs _]]. rewrite Ht. exact Hs.
  - apply Calibrated_trigger_speeding in Hc. destruct Hc as [Ht _]. contradiction.
Qed.

(** C1, as stated, fails on [src/data-processor.js]: with the default
    threshold 2.0 m/s², a harsh acceleration of exactly twice the threshold
    is classified 'extreme', not 'high'.  The run is five samples at rest and
    a sixth whose filtered Y component is 4.0. *)
Lemma C1_field_tested_twice_threshold_is_extreme :
  let t := FieldTested.harsh_acceleration FieldTested.defaultThresholds in
  0 < t /\
  FieldTested.calculateSeverity (2 * t) t = extreme /\
  FieldTested.calculateSeverity (2 * t) t <> high /\
  exists e,
    FieldTested_last_events
      (fst (FieldTested.run Qsqrt same_point_distance FieldTested.new_DataProcessor
              (warm_up ++ [accel_sample 17500 1 5 (98 # 10)]))) = [e] /\
    ev_type e = harsh_acceleration_t /\
    ev_value e == 2 * t /\
    ev_severity e = extreme.
Proof.
  cbv zeta. split; [reflexivity |]. split; [reflexivity |].
  split; [discriminate |].
  eexists. split; [vm_compute; reflexivity |].
  split; [reflexivity |]. split; reflexivity.
Qed.

(** C1, amended.  The severity of an emitted harsh_acceleration,
    harsh_braking or aggressive_turn event is a function of the ratio that
    [calculateSeverity] computes, the event's value divided by the threshold
    of its type, with breakpoints that depend on the variant: 2.5 / 2.0 / 1.5
    in the calibrated variant and 2.0 / 1.5 / 1.2 in the field-tested one.
    For a threshold different from zero, a computed ratio of exactly 2 is
    'high' in the calibrated variant and 'extreme' in the field-tested one; a
    computed ratio of exactly 2.5 is 'extreme' in both.  Nothing is said of a
    value formed as a multiple of the threshold: the statement is on the
    quotient the code forms, whatever the division returns. *)
Theorem C1_severity_by_ratio (v t : Q) (Ht : ~ t == 0) :
  let r := v / t in
  ((Calibrated.calculateSeverity v t = extreme <-> 25 # 10 <= r) /\
   (Calibrated.calculateSeverity v t = high <-> 2 <= r /\ r < 25 # 10) /\
   (Calibrated.calculateSeverity v t = moderate <-> 15 # 10 <= r /\ r < 2) /\
   (Calibrated.calculateSeverity v t = low <-> r < 15 # 10)) /\
  ((FieldTested.calculateSeverity v t = extreme <-> 2 <= r) /\
   (FieldTested.calculateSeverity v t = high <-> 15 # 10 <= r /\ r < 2) /\
   (FieldTested.calculateSeverity v t = moderate <-> 12 # 10 <= r /\ r < 15 # 10) /\
   (FieldTested.calculateSeverity v t = low <-> r < 12 # 10)) /\
  (r == 2 ->
   Calibrated.calculateSeverity v t = high /\
   FieldTested.calculateSeverity v t = extreme) /\
  (r == 25 # 10 ->
   Calibrated.calculateSeverity v t = extreme /\
   FieldTested.calculateSeverity v t = extreme) /\
  (forall st data now e,
      In e (fst (Calibrated.detectDrivingEventsFiltered data now st)) ->
      ev_type e <> speeding_t ->
      ev_severity e =
        Calibrated.calculateSeverity (ev_value e)
          (Calibrated_threshold (Calibrated.thresholds st) (ev_type e))) /\
  (forall st data now e,
      In e (fst (FieldTested.detectEventsHybrid data now st)) ->
      ev_type e <> speeding_t ->
      ev_severity e =
        FieldTested.calculateSeverity (ev_value e)
          (FieldTested_threshold (FieldTested.thresholds st) (ev_type e))).
Proof.
  cbv zeta.
  pose proof (Calibrated_severity_cases v t) as C.
  pose proof (FieldTested_severity_cases v t) as F.
  cbv zeta in C, F.
  split; [exact C |]. split; [exact F |].
  destruct C as [C1 [C2 _]]. destruct F as [F1 _].
  split; [| split; [| split] ].
  - intro R. split; [apply C2 | apply F1]; rewrite R; try split; lra.
  - intro R. split; [apply C1 | apply F1]; rewrite R; lra.
  - intros st data now e. apply Calibrated_event_severity.
  - intros st data now e. apply FieldTested_event_severity.
Qed.

Lemma C1_severity_by_ratio_witness :
  ~ 2 == 0 /\
  Calibrated.calculateSeverity 4 2 = high /\
  FieldTested.calculateSeverity 4 2 = extreme.
Proof.
  assert (H : ~ 2 == 0) by (intro E; discriminate E).
  assert (R : 4 / 2 == 2) by reflexivity.
  split; [exact H |].
  pose proof (C1_severity_by_ratio 4 2 H) as T. cbv zeta in T.
  destruct T as [_ [_ [T _]]].
  exact (T R).
Defined.

(** ** What a call of [processDataPoint] does *)

(** The field-tested [processDataPoint] returns a result exactly through its
    last branch. *)
Lemma FieldTested_process_some (Msqrt : Q -> Q) (dist : Q -> Q -> Q -> Q -> Q)
  (raw : option RawData) (now : Q) (st st' : FieldTested.State)
  (r : FieldTested.Result) :
  FieldTested.processDataPoint Msqrt dist raw now st = (Some r, st') ->
  exists d,
    raw = Some d /\
    validateDataStructure raw = true /\
    Qltb (now - FieldTested.lastRecordTime st) (FieldTested.recordInterval st) = false /\
    let st2 :=
      FieldTested.updateHybridMovementDetection Msqrt dist d now
        (FieldTested.set_lastRecordTime st now) in
    let data := FieldTested.enrichDataFieldTested Msqrt d st2 in
    let out := FieldTested.detectEventsHybrid data now st2 in
    FieldTested.processed r = data /\
    FieldTested.events r = fst out /\
    st' = FieldTested.set_eventCounters (FieldTested.updateBuffer data (snd out))
            (count_events (FieldTested.eventCounters (snd out)) (fst out)) /\
    FieldTested.counters r = FieldTested.eventCounters st'.
Proof.
  unfold FieldTested.processDataPoint.
  destruct (Qltb _ _) eqn:G; [discriminate |].
  destruct (validateDataStructure raw) eqn:V; [| discriminate].
  destruct raw as [d|]; [| discriminate].
  simpl negb. cbv iota zeta.
  destruct (FieldTested.detectEventsHybrid _ now _) as [evs st3] eqn:D.
  intros [= <- <-]. exists d. cbv zeta. rewrite D. simpl. repeat split; reflexivity.
Qed.

Lemma FieldTested_process_none (Msqrt : Q -> Q) (dist : Q -> Q -> Q -> Q -> Q)
  (raw : option RawData) (now : Q) (st : FieldTested.State) :
  fst (FieldTested.processDataPoint Msqrt dist raw now st) = None <->
  now - FieldTested.lastRecordTime st < FieldTested.recordInterval st \/
  validateDataStructure raw = false.
Proof.
  unfold FieldTested.processDataPoint.
  case_cmp (Qltb (now - FieldTested.lastRecordTime st) (FieldTested.recordInterval st)).
  - simpl. split; auto.
  - destruct (validateDataStructure raw) eqn:V.
    + destruct raw as [d|]; [| discriminate V].
      simpl negb. cbv iota zeta.
      destruct (FieldTested.detectEventsHybrid _ now _) as [evs st3].
      simpl. split; [discriminate |].
      intros [H | H]; [lra | discriminate].
    + simpl. split; auto.
Qed.

(** The state after a call that returned [null]. *)
Lemma FieldTested_process_null_state (Msqrt : Q -> Q) (dist : Q -> Q -> Q -> Q -> Q)
  (raw : option RawData) (now : Q) (st : FieldTested.State) :
  fst (FieldTested.processDataPoint Msqrt dist raw now st) = None ->
  snd (FieldTested.processDataPoint Msqrt dist raw now st) = st \/
  snd (FieldTested.processDataPoint Msqrt dist raw now st)
  = FieldTested.set_lastRecordTime st now.
Proof.
  unfold FieldTested.processDataPoint.
  destruct (Qltb _ _); [left; reflexivity |].
  destruct (validateDataStructure raw) eqn:V; [| right; reflexivity].
  destruct raw as [d|]; [| discriminate V].
  simpl negb. cbv iota zeta.
  destruct (FieldTested.detectEventsHybrid _ now _) as [evs st3].
  simpl. discriminate.
Qed.

(** The calibrated [processDataPoint] returns a result through one of its
    two last branches. *)
Lemma Calibrated_process_some (Msqrt : Q -> Q) (dist : Q -> Q -> Q -> Q -> Q)
  (raw : option RawData) (now : Q) (st st' : Calibrated.State)
  (r : Calibrated.Result) :
  Calibrated.processDataPoint Msqrt dist raw now st = (Some r, st') ->
  exists d,
    raw = Some d /\
    validateDataStructure raw = true /\
    Qltb (now - Calibrated.lastRecordTime st) (Calibrated.recordInterval st) = false /\
    let st2 :=
      Calibrated.updateMovementDetection Msqrt dist d now
        (Calibrated.set_lastRecordTime st now) in
    (Calibrated.isVehicleMoving st2 = false /\
     Calibrated.processed r = Calibrated.enrichBasicData Msqrt d st2 /\
     Calibrated.events r = [] /\
     st' = Calibrated.updateBuffer (Calibrated.processed r) st2)
    \/
    (Calibrated.isVehicleMoving st2 = true /\
     let en := Calibrated.enrichData Msqrt d st2 in
     let out := Calibrated.detectDrivingEventsFiltered (fst en) now (snd en) in
     Calibrated.processed r = fst en /\
     Calibrated.events r = fst out /\
     st' = Calibrated.set_eventCounters (Calibrated.updateBuffer (fst en) (snd out))
             (count_events (Calibrated.eventCounters (snd out)) (fst out))).
Proof.
  unfold Calibrated.processDataPoint.
  destruct (Qltb _ _) eqn:G; [discriminate |].
  destruct (validateDataStructure raw) eqn:V; [| discriminate].
  destruct raw as [d|]; [| discriminate].
  simpl negb. cbv iota zeta.
  destruct (Calibrated.isVehicleMoving _) eqn:M; simpl negb; cbv iota.
  - destruct (Calibrated.enrichData Msqrt d _) as [en st3] eqn:E.
    destruct (Calibrated.detectDrivingEventsFiltered en now st3) as [evs st4] eqn:D.
    intros [= <- <-]. exists d.
    split; [reflexivity |]. split; [reflexivity |]. split; [reflexivity |].
    cbv zeta. right. split; [exact M |]. rewrite E. simpl. rewrite D. simpl.
    repeat split; reflexivity.
  - intros [= <- <-]. exists d.
    split; [reflexivity |]. split; [reflexivity |]. split; [reflexivity |].
    cbv zeta. left. split; [exact M |]. simpl. repeat split; reflexivity.
Qed.

Lemma Calibrated_process_none (Msqrt : Q -> Q) (dist : Q -> Q -> Q -> Q -> Q)
  (raw : option RawData) (now : Q) (st : Calibrated.State) :
  fst (Calibrated.processDataPoint Msqrt dist raw now st) = None <->
  now - Calibrated.lastRecordTime st < Calibrated.recordInterval st \/
  validateDataStructure raw = false.
Proof.
  unfold Calibrated.processDataPoint.
  case_cmp (Qltb (now - Calibrated.lastRecordTime st) (Calibrated.recordInterval st)).
  - simpl. split; auto.
  - destruct (validateDataStructure raw) eqn:V.
    + destruct raw as [d|]; [| discriminate V].
      simpl negb. cbv iota zeta.
      destruct (Calibrated.isVehicleMoving _); simpl negb; cbv iota.
      * destruct (Calibrated.enrichData Msqrt d _) as [en st3].
        destruct (Calibrated.detectDrivingEventsFiltered en now st3) as [evs st4].
        simpl. split; [discriminate |]. intros [H | H]; [lra | discriminate].
      * simpl. split; [discriminate |]. intros [H | H]; [lra | discriminate].
    + simpl. split; auto.
Qed.

(** ** C2: the speed gate of aggressive turns *)

Lemma FieldTested_turn_iff (data : FieldTested.Enriched) (now : Q)
  (st : FieldTested.State) :
  (exists e, In e (fst (FieldTested.detectEventsHybrid data now st)) /\
             ev_type e = aggressive_turn_t)
  <->
  (FieldTested.isVehicleMoving st = true /\
   exists f, FieldTested.filtered_acceleration data = Some f /\
             FieldTested.aggressive_turn (FieldTested.thresholds st) < Qabs (vx f) /\
             may_fire (l_aggressive_turn (FieldTested.lastEventTime st)) now
               (FieldTested.stability_time (FieldTested.thresholds st)) = true).
Proof.
  split.
  - intros [e [Hin Ht]]. apply FieldTested_detect_In in Hin.
    destruct Hin as [Hm [Hf Hc]]. split; [exact Hm |].
    rewrite Ht in Hf. simpl in Hf.
    destruct Hc as [Hc | [Hc | [Hc | Hc]]].
    + apply FieldTested_trigger_harsh_acceleration in Hc. destruct Hc as [Ht' _].
      congruence.
    + apply FieldTested_trigger_harsh_braking in Hc. destruct Hc as [Ht' _].
      congruence.
    + apply FieldTested_trigger_aggressive_turn in Hc.
      destruct Hc as [f [Hfa [Hlt _]]]. exists f. auto.
    + apply FieldTested_trigger_speeding in Hc. destruct Hc as [Ht' _]. congruence.
  - intros [Hm [f [Hfa [Hlt Hf]]]].
    pose proof (FieldTested_trigger_aggressive_turn (FieldTested.thresholds st) data) as T.
    eexists. split.
    + rewrite (FieldTested_detect_moving data now st Hm). cbv zeta. simpl fst.
      rewrite !in_app_iff. right. right. left. apply In_offer. split.
      * apply T. exists f. split; [exact Hfa |]. split; [exact Hlt | reflexivity].
      * simpl. exact Hf.
    + reflexivity.
Qed.

Lemma Calibrated_turn_gate (Msqrt : Q -> Q) (dist : Q -> Q -> Q -> Q -> Q)
  (raw : option RawData) (now : Q) (st st' : Calibrated.State)
  (r : Calibrated.Result) (e : DrivingEvent) :
  Calibrated.processDataPoint Msqrt dist raw now st = (Some r, st') ->
  In e (Calibrated.events r) ->
  ev_type e = aggressive_turn_t ->
  exists s, Calibrated.filtered_speed (Calibrated.processed r) = Some s /\ 15 < s.
Proof.
  intros HP Hin Ht. apply Calibrated_process_some in HP.
  destruct HP as [d [_ [_ [_ [[_ [_ [Hev _]]] | [_ H]]]]]].
  - rewrite Hev in Hin. destruct Hin.
  - cbv zeta in H. destruct H as [Hp [Hev _]].
    rewrite Hev in Hin. rewrite Hp. apply Calibrated_detect_In in Hin.
    destruct Hin as [_ [_ [Hc | [Hc | [Hc | Hc]]]]].
    + apply Calibrated_trigger_harsh_acceleration in Hc. destruct Hc as [Ht' _].
      congruence.
    + apply Calibrated_trigger_harsh_braking in Hc. destruct Hc as [Ht' _].
      congruence.
    + apply Calibrated_trigger_aggressive_turn in Hc. tauto.
    + apply Calibrated_trigger_speeding in Hc. destruct Hc as [Ht' _]. congruence.
Qed.

(** C2, as stated, fails on [src/data-processor.js]: after five samples at
    rest, a sample with a GPS fix, a reported speed of 10 km/h and a filtered
    X component of 5.0 (turn threshold 3.0) produces an aggressive_turn. *)
Lemma C2_field_tested_turn_at_low_speed :
  exists r e,
    last (fst (FieldTested.run Qsqrt same_point_distance FieldTested.new_DataProcessor
                 (warm_up ++ [gps_sample 17500 10 6 1 (98 # 10)]))) None = Some r /\
    FieldTested.events r = [e] /\
    ev_type e = aggressive_turn_t /\
    velocidad (FieldTested.e_raw (FieldTested.processed r)) = Some 10 /\
    FieldTested.estimated_speed (FieldTested.processed r) = None /\
    10 <= 15.
Proof.
  eexists. eexists.
  split; [vm_compute; reflexivity |].
  split; [reflexivity |].
  split; [reflexivity |].
  split; [reflexivity |].
  split; [reflexivity | discriminate].
Qed.

(** C2, amended.  In the calibrated variant an aggressive_turn event is
    emitted only for a sample whose filtered speed (the mean of the last up
    to five reported speeds) exceeds 15 km/h.  The field-tested variant has
    no speed gate: it emits an aggressive_turn exactly when the vehicle is
    moving, the absolute filtered X acceleration exceeds the turn threshold
    and the debounce test passes. *)
Theorem C2_turn_speed_gate :
  (forall Msqrt dist raw now st st' r e,
      Calibrated.processDataPoint Msqrt dist raw now st = (Some r, st') ->
      In e (Calibrated.events r) ->
      ev_type e = aggressive_turn_t ->
      exists s, Calibrated.filtered_speed (Calibrated.processed r) = Some s /\ 15 < s) /\
  (forall data now st,
      (exists e, In e (fst (FieldTested.detectEventsHybrid data now st)) /\
                 ev_type e = aggressive_turn_t)
      <->
      (FieldTested.isVehicleMoving st = true /\
       exists f, FieldTested.filtered_acceleration data = Some f /\
                 FieldTested.aggressive_turn (FieldTested.thresholds st) < Qabs (vx f) /\
                 may_fire (l_aggressive_turn (FieldTested.lastEventTime st)) now
                   (FieldTested.stability_time (FieldTested.thresholds st)) = true)).
Proof.
  split.
  - exact Calibrated_turn_gate.
  - exact FieldTested_turn_iff.
Qed.

Lemma C2_turn_speed_gate_witness :
  let st :=
    snd (Calibrated.run Qsqrt same_point_distance Calibrated.new_DataProcessor
           [gps_sample 10000 40 1 1 (98 # 10)]) in
  let out :=
    Calibrated.processDataPoint Qsqrt same_point_distance
      (snd (gps_sample 12000 40 7 1 (98 # 10))) 12000 st in
  exists r e,
    fst out = Some r /\ In e (Calibrated.events r) /\ ev_type e = aggressive_turn_t /\
    exists s, Calibrated.filtered_speed (Calibrated.processed r) = Some s /\ 15 < s.
Proof.
  cbv zeta. eexists. eexists.
  split; [vm_compute; reflexivity |].
  split; [left; reflexivity |].
  split; [reflexivity |].
  eapply (proj1 C2_turn_speed_gate Qsqrt same_point_distance
            (snd (gps_sample 12000 40 7 1 (98 # 10))) 12000
            (snd (Calibrated.run Qsqrt same_point_distance Calibrated.new_DataProcessor
                    [gps_sample 10000 40 1 1 (98 # 10)]))).
  - vm_compute. reflexivity.
  - left. reflexivity.
  - reflexivity.
Defined.

(** ** C3: debouncing *)

Lemma may_fire_spaced (t0 now gap : Q) :
  0 < t0 -> may_fire (Some t0) now gap = true -> gap < now - t0.
Proof.
  intros Hpos. unfold may_fire.
  assert (T : truthyQ t0 = true) by (apply truthyQ_true; lra).
  rewrite T. simpl. apply Qgtb_true.
Qed.

Lemma may_fire_suppressed (t0 now gap : Q) :
  0 < t0 -> now - t0 <= gap -> may_fire (Some t0) now gap = false.
Proof.
  intros Hpos Hle. unfold may_fire.
  assert (T : truthyQ t0 = true) by (apply truthyQ_true; lra).
  rewrite T. simpl. apply Qgtb_false. exact Hle.
Qed.

(** The four offers of one call, type by type: an event of type [t] is in
    the array only if the debounce test of [t] passed, and then the entry of
    [t] is the clock of this call; otherwise the entry of [t] is untouched. *)
Lemma four_offers (L : LastEventTime) (now g1 g2 g3 g4 : Q)
  (c1 c2 c3 c4 : option DrivingEvent) (t : EventType) :
  (forall e, c1 = Some e -> ev_type e = harsh_acceleration_t) ->
  (forall e, c2 = Some e -> ev_type e = harsh_braking_t) ->
  (forall e, c3 = Some e -> ev_type e = aggressive_turn_t) ->
  (forall e, c4 = Some e -> ev_type e = speeding_t) ->
  let evs := offer L now g1 c1 ++ offer L now g2 c2 ++ offer L now g3 c3 ++ offer L now g4 c4 in
  let L' := mkLast (stamp L now g1 c1 harsh_acceleration_t)
                   (stamp L now g2 c2 harsh_braking_t)
                   (stamp L now g3 c3 aggressive_turn_t)
                   (stamp L now g4 c4 speeding_t) in
  let g := match t with
           | harsh_acceleration_t => g1
           | harsh_braking_t => g2
           | aggressive_turn_t => g3
           | speeding_t => g4
           end in
  (has_type t evs = true ->
   may_fire (last_of L t) now g = true /\ last_of L' t = Some now) /\
  (has_type t evs = false -> last_of L' t = last_of L t).
Proof.
  intros H1 H2 H3 H4. cbv zeta. unfold stamp, offer, has_type.
  destruct c1 as [e1|]; [specialize (H1 e1 eq_refl); rewrite H1 | clear H1];
  (destruct c2 as [e2|]; [specialize (H2 e2 eq_refl); rewrite H2 | clear H2]);
  (destruct c3 as [e3|]; [specialize (H3 e3 eq_refl); rewrite H3 | clear H3]);
  (destruct c4 as [e4|]; [specialize (H4 e4 eq_refl); rewrite H4 | clear H4]);
  destruct L as [la lb lt ls]; destruct t;
  cbn [last_of l_harsh_acceleration l_harsh_braking l_aggressive_turn l_speeding];
  repeat match goal with
         | |- context [may_fire ?l now ?g] =>
             let F := fresh "F" in destruct (may_fire l now g) eqn:F
         end;
  cbn [app existsb orb]; rewrite ?H1, ?H2, ?H3, ?H4;
  cbn [EventType_eqb orb last_of l_harsh_acceleration l_harsh_braking
         l_aggressive_turn l_speeding];
  split; intros; try discriminate; auto.
Qed.

(** Splitting every conditional in sight. *)
Ltac split_ifs :=
  repeat match goal with
         | |- context [if ?c then _ else _] => destruct c
         | |- context [match ?o with Some _ => _ | None => _ end] => destruct o
         end.

Lemma FieldTested_hasGPSMovement_untouched (dist : Q -> Q -> Q -> Q -> Q)
  (d : RawData) (now : Q) (st : FieldTested.State) :
  FieldTested_untouched st (snd (FieldTested.hasGPSMovement dist d now st)).
Proof.
  unfold FieldTested.hasGPSMovement, FieldTested_untouched.
  split_ifs; simpl; repeat split; reflexivity.
Qed.

Lemma FieldTested_detectMotion_untouched (Msqrt : Q -> Q)
  (d : RawData) (now : Q) (st : FieldTested.State) :
  FieldTested_untouched st (snd (FieldTested.detectMotionFromAccelerometer Msqrt d now st)).
Proof.
  unfold FieldTested.detectMotionFromAccelerometer, FieldTested_untouched.
  cbv zeta.
  destruct (negb (truthy (x d)) || negb (truthy (y d)) || negb (truthy (z d)));
    [simpl; repeat split; reflexivity |].
  match goal with
  | |- context [if ?c then FieldTested.set_baselineAcceleration _ _ else _] =>
      destruct c
  end;
  match goal with
  | |- context [if ?c then (false, _) else _] => destruct c
  end; simpl; repeat split; reflexivity.
Qed.

Lemma FieldTested_untouched_trans (a b c : FieldTested.State) :
  FieldTested_untouched a b -> FieldTested_untouched b c -> FieldTested_untouched a c.
Proof.
  unfold FieldTested_untouched.
  intros [A1 [A2 [A3 [A4 [A5 [A6 A7]]]]]] [B1 [B2 [B3 [B4 [B5 [B6 B7]]]]]].
  repeat split; congruence.
Qed.

Lemma FieldTested_gatherEvidence_untouched (Msqrt : Q -> Q)
  (dist : Q -> Q -> Q -> Q -> Q) (d : RawData) (now : Q) (st : FieldTested.State) :
  FieldTested_untouched st
    (FieldTested.after_evidence (FieldTested.gatherEvidence Msqrt dist d now st)).
Proof.
  unfold FieldTested.gatherEvidence. cbv zeta.
  set (st1 := FieldTested.set_gpsAvailable st _).
  assert (H1 : FieldTested_untouched st st1)
    by (unfold FieldTested_untouched; simpl; repeat split; reflexivity).
  destruct (truthy (lat d) && truthy (lon d)).
  - pose proof (FieldTested_hasGPSMovement_untouched dist d now st1) as H2.
    destruct (FieldTested.hasGPSMovement dist d now st1) as [g st2]. simpl in H2.
    pose proof (FieldTested_detectMotion_untouched Msqrt d now st2) as H3.
    destruct (FieldTested.detectMotionFromAccelerometer Msqrt d now st2) as [a st3].
    simpl in *. eauto using FieldTested_untouched_trans.
  - pose proof (FieldTested_detectMotion_untouched Msqrt d now st1) as H3.
    destruct (FieldTested.detectMotionFromAccelerometer Msqrt d now st1) as [a st3].
    simpl in *. eauto using FieldTested_untouched_trans.
Qed.

Lemma FieldTested_update_untouched (Msqrt : Q -> Q)
  (dist : Q -> Q -> Q -> Q -> Q) (d : RawData) (now : Q) (st : FieldTested.State) :
  FieldTested_untouched st
    (FieldTested.updateHybridMovementDetection Msqrt dist d now st).
Proof.
  unfold FieldTested.updateHybridMovementDetection. cbv zeta.
  pose proof (FieldTested_gatherEvidence_untouched Msqrt dist d now st) as H.
  set (ev := FieldTested.gatherEvidence Msqrt dist d now st) in *.
  set (st3 := FieldTested.after_evidence ev) in *.
  eapply FieldTested_untouched_trans; [exact H |].
  unfold FieldTested_untouched.
  split_ifs; simpl; repeat split; reflexivity.
Qed.

Lemma FieldTested_detect_step (data : FieldTested.Enriched) (now : Q)
  (st : FieldTested.State) (t : EventType) :
  let out := FieldTested.detectEventsHybrid data now st in
  FieldTested.thresholds (snd out) = FieldTested.thresholds st /\
  (has_type t (fst out) = true ->
   may_fire (last_of (FieldTested.lastEventTime st) t) now
     (FieldTested_gap (FieldTested.thresholds st) t) = true /\
   last_of (FieldTested.lastEventTime (snd out)) t = Some now) /\
  (has_type t (fst out) = false ->
   last_of (FieldTested.lastEventTime (snd out)) t
   = last_of (FieldTested.lastEventTime st) t).
Proof.
  cbv zeta. destruct (FieldTested.isVehicleMoving st) eqn:Hm.
  - rewrite (FieldTested_detect_moving data now st Hm). cbv zeta.
    cbn [fst snd FieldTested.set_lastEventTime FieldTested.thresholds
           FieldTested.lastEventTime].
    split; [reflexivity |].
    set (th := FieldTested.thresholds st).
    pose proof (four_offers (FieldTested.lastEventTime st) now
                  (FieldTested.stability_time th) (FieldTested.stability_time th)
                  (FieldTested.stability_time th) (FieldTested.stability_time th * 2)
                  (FieldTested.trigger_harsh_acceleration th data)
                  (FieldTested.trigger_harsh_braking th data)
                  (FieldTested.trigger_aggressive_turn th data)
                  (FieldTested.trigger_speeding th (FieldTested.currentSpeedLimit st) data)
                  t) as F.
    cbv zeta in F.
    assert (G : match t with
                | harsh_acceleration_t | harsh_braking_t | aggressive_turn_t =>
                    FieldTested.stability_time th
                | speeding_t => FieldTested.stability_time th * 2
                end = FieldTested_gap th t) by (destruct t; reflexivity).
    rewrite G in F. apply F.
    + intros e He. apply FieldTested_trigger_harsh_acceleration in He. tauto.
    + intros e He. apply FieldTested_trigger_harsh_braking in He. tauto.
    + intros e He. apply FieldTested_trigger_aggressive_turn in He.
      destruct He as [f [_ [_ ->]]]. reflexivity.
    + intros e He. apply FieldTested_trigger_speeding in He. tauto.
  - rewrite (FieldTested_detect_still data now st Hm). simpl.
    split; [reflexivity |]. split; [discriminate | reflexivity].
Qed.

Lemma FieldTested_process_step (Msqrt : Q -> Q) (dist : Q -> Q -> Q -> Q -> Q)
  (raw : option RawData) (now : Q) (st : FieldTested.State) (t : EventType) :
  let P := FieldTested.processDataPoint Msqrt dist raw now st in
  FieldTested.thresholds (snd P) = FieldTested.thresholds st /\
  (FieldTested_emitted t (fst P) = true ->
   may_fire (last_of (FieldTested.lastEventTime st) t) now
     (FieldTested_gap (FieldTested.thresholds st) t) = true /\
   last_of (FieldTested.lastEventTime (snd P)) t = Some now) /\
  (FieldTested_emitted t (fst P) = false ->
   last_of (FieldTested.lastEventTime (snd P)) t
   = last_of (FieldTested.lastEventTime st) t).
Proof.
  cbv zeta.
  destruct (FieldTested.processDataPoint Msqrt dist raw now st) as [res st'] eqn:HP.
  destruct res as [r|].
  - apply FieldTested_process_some in HP.
    destruct HP as [d [_ [_ [_ H]]]]. cbv zeta in H.
    destruct H as [Hp [He [Hs _]]].
    set (st1 := FieldTested.set_lastRecordTime st now) in *.
    pose proof (FieldTested_update_untouched Msqrt dist d now st1) as U.
    set (st2 := FieldTested.updateHybridMovementDetection Msqrt dist d now st1) in *.
    destruct U as [U1 [_ [_ [U4 _]]]].
    pose proof (FieldTested_detect_step
                  (FieldTested.enrichDataFieldTested Msqrt d st2) now st2 t) as D.
    cbv zeta in D. rewrite U1, U4 in D.
    simpl fst. simpl snd. unfold FieldTested_emitted. rewrite He, Hs.
    exact D.
  - pose proof (FieldTested_process_null_state Msqrt dist raw now st) as N.
    rewrite HP in N. simpl in N. specialize (N eq_refl).
    simpl. destruct N as [-> | ->]; simpl;
      (split; [reflexivity |]; split; [discriminate | reflexivity]).
Qed.

Lemma Calibrated_update_untouched (Msqrt : Q -> Q)
  (dist : Q -> Q -> Q -> Q -> Q) (d : RawData) (now : Q) (st : Calibrated.State) :
  let st' := Calibrated.updateMovementDetection Msqrt dist d now st in
  Calibrated.thresholds st' = Calibrated.thresholds st /\
  Calibrated.lastEventTime st' = Calibrated.lastEventTime st.
Proof.
  cbv zeta.
  unfold Calibrated.updateMovementDetection, Calibrated.hasSignificantAcceleration,
    Calibrated.hasGPSMovement.
  cbv zeta. split_ifs; simpl; split; reflexivity.
Qed.

Lemma Calibrated_enrich_untouched (Msqrt : Q -> Q) (d : RawData) (st : Calibrated.State) :
  let st' := snd (Calibrated.enrichData Msqrt d st) in
  Calibrated.thresholds st' = Calibrated.thresholds st /\
  Calibrated.lastEventTime st' = Calibrated.lastEventTime st.
Proof.
  cbv zeta. unfold Calibrated.enrichData, Calibrated.updateSpeedLimit. cbv zeta.
  cbn [snd].
  destruct (Calibrated.determineDrivingContextSinaloa _);
    destruct (velocidad d); simpl; split; reflexivity.
Qed.

Lemma Calibrated_detect_step (data : Calibrated.Enriched) (now : Q)
  (st : Calibrated.State) (t : EventType) :
  let out := Calibrated.detectDrivingEventsFiltered data now st in
  Calibrated.thresholds (snd out) = Calibrated.thresholds st /\
  (has_type t (fst out) = true ->
   may_fire (last_of (Calibrated.lastEventTime st) t) now
     (Calibrated_gap (Calibrated.thresholds st) t) = true /\
   last_of (Calibrated.lastEventTime (snd out)) t = Some now) /\
  (has_type t (fst out) = false ->
   last_of (Calibrated.lastEventTime (snd out)) t
   = last_of (Calibrated.lastEventTime st) t).
Proof.
  cbv zeta. destruct (Calibrated_detecting data st) eqn:Hd.
  - rewrite (Calibrated_detect_on data now st Hd). cbv zeta.
    cbn [fst snd Calibrated.set_lastEventTime Calibrated.thresholds
           Calibrated.lastEventTime].
    split; [reflexivity |].
    set (g := Calibrated.stability_time (Calibrated.thresholds st)).
    pose proof (four_offers (Calibrated.lastEventTime st) now g g g (g * 3)
                  (Calibrated.trigger_harsh_acceleration st data)
                  (Calibrated.trigger_harsh_braking st data)
                  (Calibrated.trigger_aggressive_turn st data)
                  (Calibrated.trigger_speeding st data)
                  t) as F.
    cbv zeta in F.
    assert (G : match t with
                | harsh_acceleration_t | harsh_braking_t | aggressive_turn_t => g
                | speeding_t => g * 3
                end = Calibrated_gap (Calibrated.thresholds st) t)
      by (destruct t; reflexivity).
    rewrite G in F. apply F.
    + intros e He. apply Calibrated_trigger_harsh_acceleration in He. tauto.
    + intros e He. apply Calibrated_trigger_harsh_braking in He. tauto.
    + intros e He. apply Calibrated_trigger_aggressive_turn in He. tauto.
    + intros e He. apply Calibrated_trigger_speeding in He. tauto.
  - rewrite (Calibrated_detect_off data now st Hd). simpl.
    split; [reflexivity |]. split; [discriminate | reflexivity].
Qed.

Lemma Calibrated_process_null_state (Msqrt : Q -> Q) (dist : Q -> Q -> Q -> Q -> Q)
  (raw : option RawData) (now : Q) (st : Calibrated.State) :
  fst (Calibrated.processDataPoint Msqrt dist raw now st) = None ->
  snd (Calibrated.processDataPoint Msqrt dist raw now st) = st \/
  snd (Calibrated.processDataPoint Msqrt dist raw now st)
  = Calibrated.set_lastRecordTime st now.
Proof.
  unfold Calibrated.processDataPoint.
  destruct (Qltb _ _); [left; reflexivity |].
  destruct (validateDataStructure raw) eqn:V; [| right; reflexivity].
  destruct raw as [d|]; [| discriminate V].
  simpl negb. cbv iota zeta.
  destruct (Calibrated.isVehicleMoving _); simpl negb; cbv iota.
  - destruct (Calibrated.enrichData Msqrt d _) as [en st3].
    destruct (Calibrated.detectDrivingEventsFiltered en now st3) as [evs st4].
    simpl. discriminate.
  - simpl. discriminate.
Qed.

Lemma Calibrated_process_step (Msqrt : Q -> Q) (dist : Q -> Q -> Q -> Q -> Q)
  (raw : option RawData) (now : Q) (st : Calibrated.State) (t : EventType) :
  let P := Calibrated.processDataPoint Msqrt dist raw now st in
  Calibrated.thresholds (snd P) = Calibrated.thresholds st /\
  (Calibrated_emitted t (fst P) = true ->
   may_fire (last_of (Calibrated.lastEventTime st) t) now
     (Calibrated_gap (Calibrated.thresholds st) t) = true /\
   last_of (Calibrated.lastEventTime (snd P)) t = Some now) /\
  (Calibrated_emitted t (fst P) = false ->
   last_of (Calibrated.lastEventTime (snd P)) t
   = last_of (Calibrated.lastEventTime st) t).
Proof.
  cbv zeta.
  destruct (Calibrated.processDataPoint Msqrt dist raw now st) as [res st'] eqn:HP.
  destruct res as [r|].
  - apply Calibrated_process_some in HP.
    destruct HP as [d [_ [_ [_ H]]]]. cbv zeta in H.
    set (st1 := Calibrated.set_lastRecordTime st now) in *.
    pose proof (Calibrated_update_untouched Msqrt dist d now st1) as U.
    cbv zeta in U.
    set (st2 := Calibrated.updateMovementDetection Msqrt dist d now st1) in *.
    destruct U as [U1 U4]. simpl in U1, U4.
    simpl fst. simpl snd. unfold Calibrated_emitted.
    destruct H as [[_ [_ [He Hs]]] | [_ [_ [He Hs]]]].
    + rewrite He, Hs. simpl. rewrite U1, U4.
      split; [reflexivity |]. split; [discriminate | reflexivity].
    + pose proof (Calibrated_enrich_untouched Msqrt d st2) as E. cbv zeta in E.
      destruct E as [E1 E4].
      pose proof (Calibrated_detect_step
                    (fst (Calibrated.enrichData Msqrt d st2)) now
                    (snd (Calibrated.enrichData Msqrt d st2)) t) as D.
      cbv zeta in D. rewrite E1, E4, U1, U4 in D.
      rewrite He, Hs. exact D.
  - pose proof (Calibrated_process_null_state Msqrt dist raw now st) as N.
    rewrite HP in N. simpl in N. specialize (N eq_refl).
    simpl. destruct N as [-> | ->]; simpl;
      (split; [reflexivity |]; split; [discriminate | reflexivity]).
Qed.

(** *** Runs *)

Lemma run_with_cons {S R : Type} (step : option RawData -> Q -> S -> option R * S)
  (st : S) (now : Q) (raw : option RawData) (rest : list (Q * option RawData)) :
  run_with step st ((now, raw) :: rest)
  = (fst (step raw now st) :: fst (run_with step (snd (step raw now st)) rest),
     snd (run_with step (snd (step raw now st)) rest)).
Proof.
  simpl. destruct (step raw now st) as [r st1]. simpl.
  destruct (run_with step st1 rest) as [rs st2]. reflexivity.
Qed.

(** *** Spacing of the emissions of one event type over a run *)

Section Spacing.

Context {S R : Type}.
Variable step : option RawData -> Q -> S -> option R * S.
Variable emitting : option R -> bool.
Variable last_time : S -> option Q.
Variable gap_of : S -> Q.

Hypothesis step_gap :
  forall raw now st, gap_of (snd (step raw now st)) = gap_of st.
Hypothesis step_fire :
  forall raw now st,
    emitting (fst (step raw now st)) = true ->
    may_fire (last_time st) now (gap_of st) = true /\
    last_time (snd (step raw now st)) = Some now.
Hypothesis step_quiet :
  forall raw now st,
    emitting (fst (step raw now st)) = false ->
    last_time (snd (step raw now st)) = last_time st.

Lemma spaced_after (calls : list (Q * option RawData)) :
  forall (st : S) (t0 : Q),
    last_time st = Some t0 ->
    0 < t0 ->
    Forall (fun c => t0 <= fst c) calls ->
    StronglySorted Qle (map fst calls) ->
    Forall (fun a => gap_of st < a - t0)
      (emission_times emitting calls (fst (run_with step st calls))).
Proof.
  induction calls as [| [now raw] rest IH]; intros st t0 Hl Hpos Hge Hs.
  - constructor.
  - rewrite run_with_cons. cbn [fst emission_times].
    inversion Hge as [| c l Hnow Hrest]; subst. simpl in Hnow.
    simpl in Hs. apply StronglySorted_inv in Hs. destruct Hs as [Hs Hall].
    destruct (emitting (fst (step raw now st))) eqn:E.
    + destruct (step_fire raw now st E) as [Hf Hl'].
      rewrite Hl in Hf. apply (may_fire_spaced t0 now _ Hpos) in Hf.
      constructor; [exact Hf |].
      assert (Hpos' : 0 < now) by lra.
      assert (Hge' : Forall (fun c => now <= fst c) rest).
      { rewrite Forall_map in Hall. exact Hall. }
      specialize (IH _ now Hl' Hpos' Hge' Hs). rewrite step_gap in IH.
      eapply Forall_impl; [| exact IH]. intros a Ha. simpl in Ha. lra.
    + rewrite <- (step_gap raw now st).
      apply IH; try assumption.
      rewrite step_quiet; assumption.
Qed.

Lemma spaced (calls : list (Q * option RawData)) :
  forall st : S,
    clock_ok calls ->
    ForallOrdPairs (fun a b => gap_of st < b - a)
      (emission_times emitting calls (fst (run_with step st calls))).
Proof.
  unfold clock_ok.
  induction calls as [| [now raw] rest IH]; intros st [Hpos Hs].
  - constructor.
  - rewrite run_with_cons. cbn [fst emission_times].
    inversion Hpos as [| c l Hnow Hrest]; subst. simpl in Hnow.
    simpl in Hs. apply StronglySorted_inv in Hs. destruct Hs as [Hs Hall].
    assert (Htail :
      ForallOrdPairs (fun a b => gap_of st < b - a)
        (emission_times emitting rest
           (fst (run_with step (snd (step raw now st)) rest)))).
    { rewrite <- (step_gap raw now st). apply IH. split; assumption. }
    destruct (emitting (fst (step raw now st))) eqn:E.
    + destruct (step_fire raw now st E) as [_ Hl'].
      constructor; [| exact Htail].
      rewrite <- (step_gap raw now st).
      apply (spaced_after rest _ now Hl' Hnow); [| exact Hs].
      rewrite Forall_map in Hall. exact Hall.
    + exact Htail.
Qed.

End Spacing.

Lemma FieldTested_spacing (Msqrt : Q -> Q) (dist : Q -> Q -> Q -> Q -> Q)
  (st : FieldTested.State) (calls : list (Q * option RawData)) (t : EventType) :
  clock_ok calls ->
  ForallOrdPairs (fun a b => FieldTested_gap (FieldTested.thresholds st) t < b - a)
    (emission_times (FieldTested_emitted t) calls
       (fst (FieldTested.run Msqrt dist st calls))).
Proof.
  unfold FieldTested.run.
  apply (spaced (FieldTested.processDataPoint Msqrt dist) (FieldTested_emitted t)
           (fun s => last_of (FieldTested.lastEventTime s) t)
           (fun s => FieldTested_gap (FieldTested.thresholds s) t)).
  - intros raw now s.
    destruct (FieldTested_process_step Msqrt dist raw now s t) as [H _].
    rewrite H. reflexivity.
  - intros raw now s. apply (FieldTested_process_step Msqrt dist raw now s t).
  - intros raw now s. apply (FieldTested_process_step Msqrt dist raw now s t).
Qed.

Lemma Calibrated_spacing (Msqrt : Q -> Q) (dist : Q -> Q -> Q -> Q -> Q)
  (st : Calibrated.State) (calls : list (Q * option RawData)) (t : EventType) :
  clock_ok calls ->
  ForallOrdPairs (fun a b => Calibrated_gap (Calibrated.thresholds st) t < b - a)
    (emission_times (Calibrated_emitted t) calls
       (fst (Calibrated.run Msqrt dist st calls))).
Proof.
  unfold Calibrated.run.
  apply (spaced (Calibrated.processDataPoint Msqrt dist) (Calibrated_emitted t)
           (fun s => last_of (Calibrated.lastEventTime s) t)
           (fun s => Calibrated_gap (Calibrated.thresholds s) t)).
  - intros raw now s.
    destruct (Calibrated_process_step Msqrt dist raw now s t) as [H _].
    rewrite H. reflexivity.
  - intros raw now s. apply (Calibrated_process_step Msqrt dist raw now s t).
  - intros raw now s. apply (Calibrated_process_step Msqrt dist raw now s t).
Qed.

(** Two consecutive detector calls: after an event of type [t], a call
    within the gap of [t] emits none. *)
Lemma FieldTested_detect_twice (data1 data2 : FieldTested.Enriched) (now1 now2 : Q)
  (st : FieldTested.State) (t : EventType) :
  0 < now1 ->
  has_type t (fst (FieldTested.detectEventsHybrid data1 now1 st)) = true ->
  now2 - now1 <= FieldTested_gap (FieldTested.thresholds st) t ->
  has_type t
    (fst (FieldTested.detectEventsHybrid data2 now2
            (snd (FieldTested.detectEventsHybrid data1 now1 st)))) = false.
Proof.
  intros Hpos H1 Hle.
  destruct (FieldTested_detect_step data1 now1 st t) as [Hth [Hfire _]].
  destruct (Hfire H1) as [_ Hl].
  set (st1 := snd (FieldTested.detectEventsHybrid data1 now1 st)) in *.
  destruct (FieldTested_detect_step data2 now2 st1 t) as [_ [Hfire2 _]].
  destruct (has_type t (fst (FieldTested.detectEventsHybrid data2 now2 st1)));
    [| reflexivity].
  destruct (Hfire2 eq_refl) as [Hf _].
  rewrite Hl, Hth in Hf.
  rewrite (may_fire_suppressed now1 now2 _ Hpos Hle) in Hf. discriminate.
Qed.

Lemma Calibrated_detect_twice (data1 data2 : Calibrated.Enriched) (now1 now2 : Q)
  (st : Calibrated.State) (t : EventType) :
  0 < now1 ->
  has_type t (fst (Calibrated.detectDrivingEventsFiltered data1 now1 st)) = true ->
  now2 - now1 <= Calibrated_gap (Calibrated.thresholds st) t ->
  has_type t
    (fst (Calibrated.detectDrivingEventsFiltered data2 now2
            (snd (Calibrated.detectDrivingEventsFiltered data1 now1 st)))) = false.
Proof.
  intros Hpos H1 Hle.
  destruct (Calibrated_detect_step data1 now1 st t) as [Hth [Hfire _]].
  destruct (Hfire H1) as [_ Hl].
  set (st1 := snd (Calibrated.detectDrivingEventsFiltered data1 now1 st)) in *.
  destruct (Calibrated_detect_step data2 now2 st1 t) as [_ [Hfire2 _]].
  destruct (has_type t (fst (Calibrated.detectDrivingEventsFiltered data2 now2 st1)));
    [| reflexivity].
  destruct (Hfire2 eq_refl) as [Hf _].
  rewrite Hl, Hth in Hf.
  rewrite (may_fire_suppressed now1 now2 _ Hpos Hle) in Hf. discriminate.
Qed.

(** C3, as stated, fails on [src/data-processor.js]: with the default
    [stability_time] of 2000 ms, two speeding events are emitted 4500 ms
    apart, which is within three times [stability_time]. *)
Lemma C3_field_tested_speeding_within_three_gaps :
  let calls :=
    warm_up ++ [gps_sample 17500 100 1 4 (98 # 10); gps_sample 19000 100 1 4 (98 # 10);
                gps_sample 20500 100 1 4 (98 # 10); gps_sample 22000 100 1 4 (98 # 10)] in
  emission_times (FieldTested_emitted speeding_t) calls
    (fst (FieldTested.run Qsqrt same_point_distance FieldTested.new_DataProcessor calls))
  = [17500; 22000] /\
  22000 - 17500 <= 3 * FieldTested.stability_time FieldTested.defaultThresholds.
Proof.
  cbv zeta. split; [vm_compute; reflexivity | discriminate].
Qed.

(** C3, amended.  Over any run with a positive clock that never runs
    backwards, two events of one type are emitted more than the gap of that
    type apart, and a detector call within the gap after an event of the
    type emits none.  The gap is [stability_time] for harsh_acceleration,
    harsh_braking and aggressive_turn; for speeding it is three times
    [stability_time] in the calibrated variant and twice [stability_time]
    in the field-tested one. *)
Theorem C3_debounce :
  (forall Msqrt dist st calls t,
      clock_ok calls ->
      ForallOrdPairs (fun a b => FieldTested_gap (FieldTested.thresholds st) t < b - a)
        (emission_times (FieldTested_emitted t) calls
           (fst (FieldTested.run Msqrt dist st calls)))) /\
  (forall Msqrt dist st calls t,
      clock_ok calls ->
      ForallOrdPairs (fun a b => Calibrated_gap (Calibrated.thresholds st) t < b - a)
        (emission_times (Calibrated_emitted t) calls
           (fst (Calibrated.run Msqrt dist st calls)))) /\
  (forall data1 data2 now1 now2 st t,
      0 < now1 ->
      has_type t (fst (FieldTested.detectEventsHybrid data1 now1 st)) = true ->
      now2 - now1 <= FieldTested_gap (FieldTested.thresholds st) t ->
      has_type t
        (fst (FieldTested.detectEventsHybrid data2 now2
                (snd (FieldTested.detectEventsHybrid data1 now1 st)))) = false) /\
  (forall data1 data2 now1 now2 st t,
      0 < now1 ->
      has_type t (fst (Calibrated.detectDrivingEventsFiltered data1 now1 st)) = true ->
      now2 - now1 <= Calibrated_gap (Calibrated.thresholds st) t ->
      has_type t
        (fst (Calibrated.detectDrivingEventsFiltered data2 now2
                (snd (Calibrated.detectDrivingEventsFiltered data1 now1 st)))) = false) /\
  (forall th,
      FieldTested_gap th harsh_acceleration_t = FieldTested.stability_time th /\
      FieldTested_gap th harsh_braking_t = FieldTested.stability_time th /\
      FieldTested_gap th aggressive_turn_t = FieldTested.stability_time th /\
      FieldTested_gap th speeding_t = FieldTested.stability_time th * 2) /\
  (forall th,
      Calibrated_gap th harsh_acceleration_t = Calibrated.stability_time th /\
      Calibrated_gap th harsh_braking_t = Calibrated.stability_time th /\
      Calibrated_gap th aggressive_turn_t = Calibrated.stability_time th /\
      Calibrated_gap th speeding_t = Calibrated.stability_time th * 3).
Proof.
  split; [exact FieldTested_spacing |].
  split; [exact Calibrated_spacing |].
  split; [exact FieldTested_detect_twice |].
  split; [exact Calibrated_detect_twice |].
  split; intros th; repeat split; reflexivity.
Qed.

Lemma C3_debounce_witness :
  let d := mkRaw (Present 17500) (Present "P01"%string) None None None
             (Some 1) (Some (- (2 # 1))) (Some (98 # 10)) in
  let st :=
    FieldTested.updateHybridMovementDetection Qsqrt same_point_distance d 17500
      (FieldTested.set_lastRecordTime
         (snd (FieldTested.run Qsqrt same_point_distance FieldTested.new_DataProcessor
                 warm_up)) 17500) in
  let data := FieldTested.enrichDataFieldTested Qsqrt d st in
  (0 < 17500 /\
   has_type harsh_braking_t (fst (FieldTested.detectEventsHybrid data 17500 st)) = true /\
   18000 - 17500 <= FieldTested_gap (FieldTested.thresholds st) harsh_braking_t /\
   has_type harsh_braking_t
     (fst (FieldTested.detectEventsHybrid data 18000
             (snd (FieldTested.detectEventsHybrid data 17500 st)))) = false) /\
  (clock_ok warm_up /\
   ForallOrdPairs
     (fun a b =>
        Calibrated_gap (Calibrated.thresholds Calibrated.new_DataProcessor) speeding_t
        < b - a)
     (emission_times (Calibrated_emitted speeding_t) warm_up
        (fst (Calibrated.run Qsqrt same_point_distance Calibrated.new_DataProcessor
                warm_up)))).
Proof.
  cbv zeta.
  assert (H0 : 0 < 17500) by reflexivity.
  assert (C : clock_ok warm_up).
  { unfold clock_ok, warm_up, accel_sample. split.
    - repeat constructor.
    - simpl. repeat constructor; discriminate. }
  split.
  - split; [exact H0 |].
    split; [vm_compute; reflexivity |].
    split; [vm_compute; discriminate |].
    apply (proj1 (proj2 (proj2 C3_debounce))).
    + exact H0.
    + vm_compute. reflexivity.
    + vm_compute. discriminate.
  - split; [exact C |].
    apply (proj1 (proj2 C3_debounce)). exact C.
Defined.

(** ** C4: no events while the vehicle is not moving *)

(** *** Arrays *)

Lemma Forall_skipn_keep {A : Type} (P : A -> Prop) (n : nat) (l : list A) :
  Forall P l -> Forall P (skipn n l).
Proof.
  revert l. induction n as [| n IH]; intros l H; [exact H |].
  destruct l as [| a l]; [constructor |].
  simpl. apply IH. inversion H; assumption.
Qed.

Lemma Forall_slice_last {A : Type} (P : A -> Prop) (n : nat) (l : list A) :
  Forall P l -> Forall P (slice_last n l).
Proof. apply Forall_skipn_keep. Qed.

Lemma Forall_push_capped {A : Type} (P : A -> Prop) (cap : nat) (l : list A) (a : A) :
  Forall P l -> P a -> Forall P (push_capped cap l a).
Proof.
  intros Hl Ha. unfold push_capped, push, shift. cbv zeta.
  assert (H : Forall P (l ++ [a])) by (apply Forall_app; split; [exact Hl | repeat constructor; exact Ha]).
  destruct (Nat.ltb cap (length (l ++ [a]))); [| exact H].
  destruct (l ++ [a]) as [| b l']; [constructor |].
  simpl. inversion H; assumption.
Qed.

Lemma length_slice_last {A : Type} (n : nat) (l : list A) :
  (n <= length l)%nat -> length (slice_last n l) = n.
Proof. intro H. unfold slice_last. rewrite length_skipn. lia. Qed.

Lemma lengthQ_cons {A : Type} (a : A) (l : list A) :
  lengthQ (a :: l) == lengthQ l + 1.
Proof.
  unfold lengthQ. simpl length. rewrite Nat2Z.inj_succ, <- Z.add_1_r.
  rewrite inject_Z_plus. reflexivity.
Qed.

Lemma lengthQ_pos {A : Type} (l : list A) : l <> [] -> 0 < lengthQ l.
Proof.
  destruct l as [| a l]; [congruence |]. intros _.
  unfold lengthQ, Qlt. simpl. lia.
Qed.


(** *** The invariant of a stationary stream (field-tested variant) *)

Section OnBaseline.

Variable Msqrt : Q -> Q.
Variable dist : Q -> Q -> Q -> Q -> Q.
Variables rx ry rz : Q.
Hypothesis Msqrt_zero : forall q, q == 0 -> Msqrt q == 0.

Lemma variation_at_baseline (st : FieldTested.State) (a : FieldTested.AccelSample) :
  (forall b, FieldTested.baselineAcceleration st = Some b ->
             FieldTested.b_x b == rx /\ FieldTested.b_y b == ry /\
             FieldTested.b_z b == rz) ->
  FieldTested.a_x a == rx -> FieldTested.a_y a == ry -> FieldTested.a_z a == rz ->
  FieldTested.calculateAccelerationVariation Msqrt st a == 0.
Proof.
  intros Hb Hx Hy Hz. unfold FieldTested.calculateAccelerationVariation.
  destruct (FieldTested.baselineAcceleration st) as [b|]; [| reflexivity].
  destruct (Hb b eq_refl) as [Bx [By Bz]]. cbv zeta.
  apply Msqrt_zero. rewrite Hx, Hy, Hz, Bx, By, Bz.
  setoid_replace (rx - rx) with 0 by ring.
  setoid_replace (ry - ry) with 0 by ring.
  setoid_replace (rz - rz) with 0 by ring.
  reflexivity.
Qed.

Lemma detectMotion_gps (d : RawData) (now : Q) (st : FieldTested.State) :
  FieldTested.gpsAvailable (snd (FieldTested.detectMotionFromAccelerometer Msqrt d now st))
  = FieldTested.gpsAvailable st.
Proof.
  unfold FieldTested.detectMotionFromAccelerometer. cbv zeta.
  destruct (negb (truthy (x d)) || negb (truthy (y d)) || negb (truthy (z d)));
    [reflexivity |].
  match goal with
  | |- context [if ?c then FieldTested.set_baselineAcceleration _ _ else _] =>
      destruct c
  end;
  match goal with
  | |- context [if ?c then (false, _) else _] => destruct c
  end; reflexivity.
Qed.

Lemma on_baseline_detectMotion (d : RawData) (now : Q) (st : FieldTested.State) :
  on_baseline rx ry rz st ->
  x d = Some rx -> y d = Some ry -> z d = Some rz ->
  let out := FieldTested.detectMotionFromAccelerometer Msqrt d now st in
  fst out = false /\ on_baseline rx ry rz (snd out).
Proof.
  intros [[b [Hb [Bx [By Bz]]]] Ht] Hx Hy Hz. cbv zeta.
  unfold FieldTested.detectMotionFromAccelerometer.
  destruct (negb (truthy (x d)) || negb (truthy (y d)) || negb (truthy (z d)));
    [simpl; split; [reflexivity | unfold on_baseline; eauto 10] |].
  cbv zeta. rewrite Hx, Hy, Hz. cbn [num].
  set (cur := {| FieldTested.a_x := rx |}).
  set (st1 := FieldTested.set_accelerationHistory st _).
  assert (Hb1 : FieldTested.baselineAcceleration st1 = Some b) by exact Hb.
  match goal with
  | |- context [if ?c then FieldTested.set_baselineAcceleration st1 ?v else st1] =>
      replace (if c then FieldTested.set_baselineAcceleration st1 v else st1) with st1
        by (rewrite Hb1; reflexivity)
  end.
  rewrite Hb1. cbn [defined negb].
  assert (V : FieldTested.calculateAccelerationVariation Msqrt st1 cur == 0).
  { apply variation_at_baseline; try reflexivity.
    intros b' Hb'. rewrite Hb1 in Hb'. injection Hb' as <-. auto. }
  assert (F : Qgtb (FieldTested.calculateAccelerationVariation Msqrt st1 cur)
                (FieldTested.motion_threshold (FieldTested.thresholds st1)) = false).
  { apply Qgtb_false. rewrite V. exact Ht. }
  rewrite F. cbn [fst snd]. split; [reflexivity |].
  unfold on_baseline. simpl. split; [exists b; auto | exact Ht].
Qed.

Lemma on_baseline_update (d : RawData) (now : Q) (st : FieldTested.State) :
  on_baseline rx ry rz st ->
  stationary_sample rx ry rz d ->
  let st' := FieldTested.updateHybridMovementDetection Msqrt dist d now st in
  FieldTested.isVehicleMoving st' = false /\ on_baseline rx ry rz st'.
Proof.
  intros Hr [Hlat [Hlon [_ [Hx [Hy Hz]]]]]. cbv zeta.
  unfold FieldTested.updateHybridMovementDetection, FieldTested.gatherEvidence.
  rewrite Hlat, Hlon. cbn [truthy andb]. cbv zeta iota.
  set (st1 := FieldTested.set_gpsAvailable st false).
  assert (Hr1 : on_baseline rx ry rz st1) by exact Hr.
  pose proof (on_baseline_detectMotion d now st1 Hr1 Hx Hy Hz) as D. cbv zeta in D.
  pose proof (detectMotion_gps d now st1) as G.
  destruct (FieldTested.detectMotionFromAccelerometer Msqrt d now st1) as [a st3].
  simpl in D, G. destruct D as [-> Hr3].
  cbn [FieldTested.after_evidence FieldTested.set_movementConfidence
         FieldTested.gpsAvailable].
  rewrite G. cbn [FieldTested.gpsAvailable st1].
  unfold FieldTested.fuseConfidence.
  cbn [FieldTested.accelMotion FieldTested.sustained].
  destruct (FieldTested.hasSustainedMotion st3);
  unfold FieldTested.add_if;
  (match goal with
   | |- context [match ?o with Some _ => _ | None => _ end] => destruct o
   end; [match goal with |- context [if ?c then _ else _] => destruct c end |]);
    (split; [reflexivity | exact Hr3]).
Qed.

Lemma on_baseline_process (d : RawData) (now : Q) (st : FieldTested.State) :
  on_baseline rx ry rz st ->
  stationary_sample rx ry rz d ->
  let P := FieldTested.processDataPoint Msqrt dist (Some d) now st in
  on_baseline rx ry rz (snd P) /\
  match fst P with
  | Some r =>
      FieldTested.events r = [] /\
      FieldTested.vehicle_moving (FieldTested.processed r) = false
  | None => True
  end.
Proof.
  intros Hr Hs. cbv zeta.
  destruct (FieldTested.processDataPoint Msqrt dist (Some d) now st) as [res st'] eqn:HP.
  destruct res as [r|].
  - apply FieldTested_process_some in HP.
    destruct HP as [d' [[= <-] [_ [_ H]]]]. cbv zeta in H.
    destruct H as [Hp [He [Hst _]]].
    assert (Hr1 : on_baseline rx ry rz (FieldTested.set_lastRecordTime st now)) by exact Hr.
    pose proof (on_baseline_update d now _ Hr1 Hs) as U. cbv zeta in U.
    destruct U as [Hm Hr2].
    rewrite (FieldTested_detect_still _ now _ Hm) in He, Hst.
    simpl in He, Hst. simpl. split; [rewrite Hst; exact Hr2 |].
    split; [exact He |]. rewrite Hp. exact Hm.
  - pose proof (FieldTested_process_null_state Msqrt dist (Some d) now st) as N.
    rewrite HP in N. simpl in N. specialize (N eq_refl).
    simpl. split; [| exact I]. destruct N as [-> | ->]; exact Hr.
Qed.

Lemma on_baseline_run (calls : list (Q * option RawData)) :
  forall st : FieldTested.State,
    on_baseline rx ry rz st ->
    stationary_stream rx ry rz calls ->
    FieldTested_silent (fst (FieldTested.run Msqrt dist st calls)).
Proof.
  unfold FieldTested.run, FieldTested_silent, stationary_stream.
  induction calls as [| [now raw] rest IH]; intros st Hr Hs.
  - constructor.
  - rewrite run_with_cons. simpl fst.
    inversion Hs as [| c l [d [Hd Hsd]] Hrest]; subst. simpl in Hd. subst raw.
    destruct (on_baseline_process d now st Hr Hsd) as [Hr' He].
    constructor; [| apply IH; assumption].
    destruct (fst (FieldTested.processDataPoint Msqrt dist (Some d) now st));
      [exact (proj1 He) | exact I].
Qed.

End OnBaseline.

(** *** Samples without a reported speed (calibrated variant) *)

Lemma Calibrated_enrich_no_speed (Msqrt : Q -> Q) (d : RawData) (st : Calibrated.State) :
  velocidad d = None ->
  Calibrated.filtered_speed (fst (Calibrated.enrichData Msqrt d st)) = None /\
  Calibrated.longitudinal_acceleration (fst (Calibrated.enrichData Msqrt d st)) = None.
Proof.
  intros Hv. unfold Calibrated.enrichData. rewrite Hv. cbv zeta. simpl.
  split; [reflexivity |].
  destruct (last_elem (Calibrated.dataBuffer st)); reflexivity.
Qed.

Lemma Calibrated_no_speed_no_event (Msqrt : Q -> Q) (dist : Q -> Q -> Q -> Q -> Q)
  (d : RawData) (now : Q) (st : Calibrated.State) :
  velocidad d = None ->
  match fst (Calibrated.processDataPoint Msqrt dist (Some d) now st) with
  | Some r => Calibrated.events r = []
  | None => True
  end.
Proof.
  intros Hv.
  destruct (Calibrated.processDataPoint Msqrt dist (Some d) now st) as [res st'] eqn:HP.
  destruct res as [r|]; [| exact I].
  apply Calibrated_process_some in HP.
  destruct HP as [d' [[= <-] [_ [_ H]]]]. cbv zeta in H. simpl.
  destruct H as [[_ [_ [He _]]] | [_ [_ [He _]]]]; [exact He |].
  set (st2 := Calibrated.updateMovementDetection Msqrt dist d now _) in *.
  destruct (Calibrated_enrich_no_speed Msqrt d st2 Hv) as [Hfs Hla].
  destruct (Calibrated.events r) as [| e evs]; [reflexivity |].
  exfalso.
  assert (Hin : In e (fst (Calibrated.detectDrivingEventsFiltered
                              (fst (Calibrated.enrichData Msqrt d st2)) now
                              (snd (Calibrated.enrichData Msqrt d st2)))))
    by (rewrite <- He; left; reflexivity).
  apply Calibrated_detect_In in Hin.
  destruct Hin as [_ [_ [Hc | [Hc | [Hc | Hc]]]]].
  - apply Calibrated_trigger_harsh_acceleration in Hc.
    destruct Hc as [_ [_ T]]. rewrite Hla in T. discriminate.
  - apply Calibrated_trigger_harsh_braking in Hc.
    destruct Hc as [_ [_ T]]. rewrite Hla in T. discriminate.
  - apply Calibrated_trigger_aggressive_turn in Hc.
    destruct Hc as [_ [_ [[s [T _]] _]]]. rewrite Hfs in T. discriminate.
  - apply Calibrated_trigger_speeding in Hc.
    destruct Hc as [_ T]. rewrite Hfs in T. discriminate.
Qed.

Lemma Calibrated_stationary_run (Msqrt : Q -> Q) (dist : Q -> Q -> Q -> Q -> Q)
  (rx ry rz : Q) (calls : list (Q * option RawData)) :
  forall st : Calibrated.State,
    stationary_stream rx ry rz calls ->
    Calibrated_silent (fst (Calibrated.run Msqrt dist st calls)).
Proof.
  unfold Calibrated.run, Calibrated_silent, stationary_stream.
  induction calls as [| [now raw] rest IH]; intros st Hs.
  - constructor.
  - rewrite run_with_cons. simpl fst.
    inversion Hs as [| c l [d [Hd Hsd]] Hrest]; subst. simpl in Hd. subst raw.
    constructor; [| apply IH; assumption].
    apply Calibrated_no_speed_no_event. apply Hsd.
Qed.

(** *** Not moving, no events *)

Lemma FieldTested_not_moving_no_event (Msqrt : Q -> Q) (dist : Q -> Q -> Q -> Q -> Q)
  (raw : option RawData) (now : Q) (st st' : FieldTested.State)
  (r : FieldTested.Result) :
  FieldTested.processDataPoint Msqrt dist raw now st = (Some r, st') ->
  FieldTested.vehicle_moving (FieldTested.processed r) = false ->
  FieldTested.events r = [].
Proof.
  intros HP Hm. apply FieldTested_process_some in HP.
  destruct HP as [d [_ [_ [_ H]]]]. cbv zeta in H.
  destruct H as [Hp [He _]]. rewrite Hp in Hm. simpl in Hm.
  rewrite (FieldTested_detect_still _ now _ Hm) in He. exact He.
Qed.

Lemma Calibrated_not_moving_no_event (Msqrt : Q -> Q) (dist : Q -> Q -> Q -> Q -> Q)
  (raw : option RawData) (now : Q) (st st' : Calibrated.State)
  (r : Calibrated.Result) :
  Calibrated.processDataPoint Msqrt dist raw now st = (Some r, st') ->
  Calibrated.vehicle_moving (Calibrated.processed r) = false ->
  Calibrated.events r = [].
Proof.
  intros HP Hm. apply Calibrated_process_some in HP.
  destruct HP as [d [_ [_ [_ H]]]]. cbv zeta in H.
  destruct H as [[_ [_ [He _]]] | [Hmov [Hp _]]]; [exact He |].
  cbv zeta in Hp. rewrite Hp in Hm.
  unfold Calibrated.enrichData, Calibrated.updateSpeedLimit in Hm. cbv zeta in Hm.
  simpl in Hm.
  destruct (Calibrated.determineDrivingContextSinaloa _) in Hm;
    destruct (velocidad d) in Hm; simpl in Hm; congruence.
Qed.

Lemma Qsqrt_zero (q : Q) : q == 0 -> Qsqrt q == 0.
Proof.
  unfold Qeq, Qsqrt. simpl. intros H.
  assert (E : Qnum q = 0%Z) by lia.
  rewrite E. simpl. reflexivity.
Qed.

Lemma warm_up_stationary : stationary_stream 1 1 (98 # 10) warm_up.
Proof.
  unfold stationary_stream, warm_up, accel_sample.
  repeat (constructor;
          [eexists; split; [reflexivity | repeat split; reflexivity] |]).
  constructor.
Qed.

(** C4, as stated, fails on [src/data-processor.js] for a negative
    [motion_threshold]: with [motion_threshold = -1] and
    [harsh_acceleration = -1], the fifth sample of a stream that constantly
    reads [(1, 1, 9.8)] without GPS establishes the baseline, has variation
    [0 > -1], is classified as moving and raises a harsh_acceleration of
    value [0]. *)
Lemma C4_stationary_stream_negative_threshold_emits :
  let th := FieldTested.mkThresholds (- (1 # 1)) 2 3 25 3 (- (1 # 1)) 5 (1 # 2) 1 2000 in
  let out :=
    FieldTested.run Qsqrt same_point_distance
      (FieldTested.setThresholds th FieldTested.new_DataProcessor) warm_up in
  stationary_stream 1 1 (98 # 10) warm_up /\
  (exists b, FieldTested.baselineAcceleration (snd out) = Some b /\
             FieldTested.b_x b == 1 /\ FieldTested.b_y b == 1 /\
             FieldTested.b_z b == 98 # 10) /\
  exists e, FieldTested_last_events (fst out) = [e] /\
            ev_type e = harsh_acceleration_t /\ ev_value e == 0.
Proof.
  cbv zeta. split; [exact warm_up_stationary |]. split.
  - eexists. split; [vm_compute; reflexivity |]. repeat split; reflexivity.
  - eexists. split; [vm_compute; reflexivity |]. split; reflexivity.
Qed.

(** C4, amended.  In both variants a sample processed while the vehicle is
    classified as not moving yields no event, whatever the thresholds.  In
    the calibrated variant a stationary stream (constant accelerometer
    reading, no GPS fix, no reported speed) never yields an event, whatever
    the thresholds.  In the field-tested variant a stationary stream whose
    constant reading equals the baseline of the processor never yields an
    event, whatever else the processor holds, provided [motion_threshold]
    is not negative (and the square root of zero is zero). *)
Theorem C4_no_events_unless_moving :
  (forall Msqrt dist raw now st st' r,
      FieldTested.processDataPoint Msqrt dist raw now st = (Some r, st') ->
      FieldTested.vehicle_moving (FieldTested.processed r) = false ->
      FieldTested.events r = []) /\
  (forall data now st,
      FieldTested.isVehicleMoving st = false ->
      fst (FieldTested.detectEventsHybrid data now st) = []) /\
  (forall Msqrt dist raw now st st' r,
      Calibrated.processDataPoint Msqrt dist raw now st = (Some r, st') ->
      Calibrated.vehicle_moving (Calibrated.processed r) = false ->
      Calibrated.events r = []) /\
  (forall (Msqrt : Q -> Q) dist rx ry rz st calls,
      (forall q, q == 0 -> Msqrt q == 0) ->
      (exists b, FieldTested.baselineAcceleration st = Some b /\
                 FieldTested.b_x b == rx /\ FieldTested.b_y b == ry /\
                 FieldTested.b_z b == rz) ->
      0 <= FieldTested.motion_threshold (FieldTested.thresholds st) ->
      stationary_stream rx ry rz calls ->
      FieldTested_silent (fst (FieldTested.run Msqrt dist st calls))) /\
  (forall Msqrt dist rx ry rz st calls,
      stationary_stream rx ry rz calls ->
      Calibrated_silent (fst (Calibrated.run Msqrt dist st calls))).
Proof.
  split; [exact FieldTested_not_moving_no_event |].
  split.
  { intros data now st Hm. rewrite (FieldTested_detect_still data now st Hm).
    reflexivity. }
  split; [exact Calibrated_not_moving_no_event |].
  split.
  - intros Msqrt dist rx ry rz st calls Hsqrt Hb Hth Hs.
    apply (on_baseline_run Msqrt dist rx ry rz Hsqrt); [| exact Hs].
    split; [exact Hb | exact Hth].
  - intros Msqrt dist rx ry rz st calls.
    apply Calibrated_stationary_run.
Qed.

Lemma C4_no_events_unless_moving_witness :
  (forall q, q == 0 -> Qsqrt q == 0) /\
  (exists b, FieldTested.baselineAcceleration resting = Some b /\
             FieldTested.b_x b == 1 /\ FieldTested.b_y b == 1 /\
             FieldTested.b_z b == 98 # 10) /\
  0 <= FieldTested.motion_threshold (FieldTested.thresholds resting) /\
  stationary_stream 1 1 (98 # 10) warm_up /\
  FieldTested_silent
    (fst (FieldTested.run Qsqrt same_point_distance resting warm_up)).
Proof.
  assert (H0 : exists b, FieldTested.baselineAcceleration resting = Some b /\
                         FieldTested.b_x b == 1 /\ FieldTested.b_y b == 1 /\
                         FieldTested.b_z b == 98 # 10).
  { eexists. split; [reflexivity |]. repeat split; reflexivity. }
  assert (H1 : 0 <= FieldTested.motion_threshold (FieldTested.thresholds resting))
    by (simpl; discriminate).
  split; [exact Qsqrt_zero |].
  split; [exact H0 |].
  split; [exact H1 |].
  split; [exact warm_up_stationary |].
  apply (proj1 (proj2 (proj2 (proj2 C4_no_events_unless_moving)))
           Qsqrt same_point_distance 1 1 (98 # 10)).
  - exact Qsqrt_zero.
  - exact H0.
  - exact H1.
  - exact warm_up_stationary.
Defined.

(** ** C5: confidence fusion *)

Lemma FieldTested_hasGPSMovement_gps (dist : Q -> Q -> Q -> Q -> Q)
  (d : RawData) (now : Q) (st : FieldTested.State) :
  FieldTested.gpsAvailable (snd (FieldTested.hasGPSMovement dist d now st))
  = FieldTested.gpsAvailable st.
Proof.
  unfold FieldTested.hasGPSMovement. split_ifs; reflexivity.
Qed.

Lemma FieldTested_gatherEvidence_gps (Msqrt : Q -> Q) (dist : Q -> Q -> Q -> Q -> Q)
  (d : RawData) (now : Q) (st : FieldTested.State) :
  let ev := FieldTested.gatherEvidence Msqrt dist d now st in
  FieldTested.gpsAvailable (FieldTested.after_evidence ev)
  = truthy (lat d) && truthy (lon d) /\
  FieldTested.sustained ev = FieldTested.hasSustainedMotion (FieldTested.after_evidence ev) /\
  (truthy (lat d) && truthy (lon d) = true ->
   FieldTested.speedCriteria ev
   = Qgtb (orNum (velocidad d) 0) (FieldTested.minimum_speed (FieldTested.thresholds st))) /\
  (truthy (lat d) && truthy (lon d) = false ->
   FieldTested.speedCriteria ev = false /\ FieldTested.gpsMotion ev = false).
Proof.
  cbv zeta. unfold FieldTested.gatherEvidence. cbv zeta.
  destruct (truthy (lat d) && truthy (lon d)).
  - pose proof (FieldTested_hasGPSMovement_gps dist d now
                  (FieldTested.set_gpsAvailable st true)) as G.
    destruct (FieldTested.hasGPSMovement dist d now _) as [g st2]. simpl in G.
    pose proof (detectMotion_gps Msqrt d now st2) as A.
    destruct (FieldTested.detectMotionFromAccelerometer Msqrt d now st2) as [a st3].
    simpl in *. rewrite A, G.
    split; [reflexivity |]. split; [reflexivity |].
    split; [reflexivity | discriminate].
  - pose proof (detectMotion_gps Msqrt d now (FieldTested.set_gpsAvailable st false)) as A.
    destruct (FieldTested.detectMotionFromAccelerometer Msqrt d now _) as [a st3].
    simpl in *. rewrite A.
    split; [reflexivity |]. split; [reflexivity |].
    split; [discriminate | auto].
Qed.

(** The processor after [updateHybridMovementDetection], field by field. *)
Lemma FieldTested_update_fields (Msqrt : Q -> Q) (dist : Q -> Q -> Q -> Q -> Q)
  (d : RawData) (now : Q) (st : FieldTested.State) :
  let ev := FieldTested.gatherEvidence Msqrt dist d now st in
  let st3 := FieldTested.after_evidence ev in
  let st' := FieldTested.updateHybridMovementDetection Msqrt dist d now st in
  let c := Qmin (FieldTested.fuseConfidence (FieldTested.gpsAvailable st3) ev) 100 in
  FieldTested.movementConfidence st' = c /\
  FieldTested.isVehicleMoving st'
  = Qgtb c (if FieldTested.gpsAvailable st3 then 50 else 40) /\
  FieldTested.gpsAvailable st' = FieldTested.gpsAvailable st3 /\
  FieldTested.baselineAcceleration st' = FieldTested.baselineAcceleration st3 /\
  FieldTested.accelerationHistory st' = FieldTested.accelerationHistory st3 /\
  FieldTested.motionHistory st' = FieldTested.motionHistory st3 /\
  FieldTested.lastGPSPoint st' = FieldTested.lastGPSPoint st3.
Proof.
  cbv zeta. unfold FieldTested.updateHybridMovementDetection. cbv zeta.
  match goal with
  | |- context [match FieldTested.wasMoving ?s with Some _ => _ | None => _ end] =>
      destruct (FieldTested.wasMoving s) as [w|]
  end;
  [match goal with
   | |- context [if Bool.eqb ?a ?b then _ else _] => destruct (Bool.eqb a b)
   end |];
  simpl; repeat split; reflexivity.
Qed.

(** C5.  After [updateHybridMovementDetection] the confidence is the sum of
    the points of the evidence, capped at 100: with a GPS fix, 40 for the
    speed test, 30 for GPS displacement and 30 for the accelerometer flag;
    without one, 70 for the accelerometer flag and 30 for sustained motion.
    It lies in [0, 100], and the vehicle is moving exactly when it exceeds
    50 (GPS fix) or 40 (no fix).  The enriched sample of an accepted call
    carries these values. *)
Theorem C5_confidence_fusion (Msqrt : Q -> Q) (dist : Q -> Q -> Q -> Q -> Q)
  (d : RawData) (now : Q) (st : FieldTested.State) :
  let gps := truthy (lat d) && truthy (lon d) in
  let ev := FieldTested.gatherEvidence Msqrt dist d now st in
  let st' := FieldTested.updateHybridMovementDetection Msqrt dist d now st in
  let total :=
    if gps
    then points (FieldTested.speedCriteria ev) 40
         + points (FieldTested.gpsMotion ev) 30
         + points (FieldTested.accelMotion ev) 30
    else points (FieldTested.accelMotion ev) 70
         + points (FieldTested.sustained ev) 30 in
  FieldTested.gpsAvailable st' = gps /\
  FieldTested.movementConfidence st' == Qmin total 100 /\
  (0 <= FieldTested.movementConfidence st' /\ FieldTested.movementConfidence st' <= 100) /\
  (FieldTested.isVehicleMoving st' = true <->
   (if gps then 50 else 40) < FieldTested.movementConfidence st') /\
  (gps = true ->
   FieldTested.speedCriteria ev
   = Qgtb (orNum (velocidad d) 0) (FieldTested.minimum_speed (FieldTested.thresholds st))) /\
  FieldTested.sustained ev = FieldTested.hasSustainedMotion (FieldTested.after_evidence ev) /\
  (forall st0 r st2,
      st = FieldTested.set_lastRecordTime st0 now ->
      FieldTested.processDataPoint Msqrt dist (Some d) now st0 = (Some r, st2) ->
      FieldTested.movement_confidence (FieldTested.processed r)
      = FieldTested.movementConfidence st' /\
      FieldTested.vehicle_moving (FieldTested.processed r)
      = FieldTested.isVehicleMoving st' /\
      FieldTested.movementConfidence st2 = FieldTested.movementConfidence st' /\
      FieldTested.isVehicleMoving st2 = FieldTested.isVehicleMoving st').
Proof.
  cbv zeta.
  destruct (FieldTested_update_fields Msqrt dist d now st) as [Hc [Hm [Hg _]]].
  destruct (FieldTested_gatherEvidence_gps Msqrt dist d now st) as [Gg [Gs [Gp _]]].
  rewrite Hg, Hc, Hm, Gg.
  split; [reflexivity |].
  assert (Hcases :
    forall gps s g a u : bool,
      let total := if gps then points s 40 + points g 30 + points a 30
                   else points a 70 + points u 30 in
      let conf := if gps
                  then FieldTested.add_if a 30
                         (FieldTested.add_if g 30 (FieldTested.add_if s 40 0))
                  else FieldTested.add_if u 30 (FieldTested.add_if a 70 0) in
      Qmin conf 100 == Qmin total 100 /\
      (0 <= Qmin conf 100 /\ Qmin conf 100 <= 100) /\
      (Qgtb (Qmin conf 100) (if gps then 50 else 40) = true <->
       (if gps then 50 else 40) < Qmin conf 100)).
  { intros gps s g a u. cbv zeta. rewrite Qgtb_true.
    split; [| split; [| reflexivity]];
      destruct gps, s, g, a, u; vm_compute; try reflexivity;
      split; discriminate. }
  unfold FieldTested.fuseConfidence.
  destruct (Hcases (truthy (lat d) && truthy (lon d))
              (FieldTested.speedCriteria (FieldTested.gatherEvidence Msqrt dist d now st))
              (FieldTested.gpsMotion (FieldTested.gatherEvidence Msqrt dist d now st))
              (FieldTested.accelMotion (FieldTested.gatherEvidence Msqrt dist d now st))
              (FieldTested.sustained (FieldTested.gatherEvidence Msqrt dist d now st)))
    as [C1 [C2 C3]].
  split; [exact C1 |]. split; [exact C2 |]. split; [exact C3 |].
  split; [exact Gp |]. split; [exact Gs |].
  intros st0 r st2 -> HP.
  apply FieldTested_process_some in HP.
  destruct HP as [d' [[= <-] [_ [_ H]]]]. cbv zeta in H.
  destruct H as [Hp [_ [Hs _]]].
  rewrite Hp, Hs.
  set (st2' := FieldTested.updateHybridMovementDetection Msqrt dist d now _) in *.
  assert (Hkeep :
    FieldTested.movementConfidence
      (snd (FieldTested.detectEventsHybrid
              (FieldTested.enrichDataFieldTested Msqrt d st2') now st2'))
    = FieldTested.movementConfidence st2' /\
    FieldTested.isVehicleMoving
      (snd (FieldTested.detectEventsHybrid
              (FieldTested.enrichDataFieldTested Msqrt d st2') now st2'))
    = FieldTested.isVehicleMoving st2').
  { unfold FieldTested.detectEventsHybrid.
    destruct (negb (FieldTested.isVehicleMoving st2')); simpl; split; reflexivity. }
  destruct Hkeep as [K1 K2].
  simpl. rewrite K1, K2, Hc, Hm, Gg. repeat split; reflexivity.
Qed.

Lemma C5_confidence_fusion_witness :
  let st0 :=
    snd (FieldTested.run Qsqrt same_point_distance FieldTested.new_DataProcessor warm_up) in
  let d := mkRaw (Present 17500) (Present "P01"%string) (Some (27 # 1)) (Some (- (109 # 1)))
             (Some 10) (Some 6) (Some 1) (Some (98 # 10)) in
  let st' :=
    FieldTested.updateHybridMovementDetection Qsqrt same_point_distance d 17500
      (FieldTested.set_lastRecordTime st0 17500) in
  exists r st2,
    FieldTested.processDataPoint Qsqrt same_point_distance (Some d) 17500 st0
    = (Some r, st2) /\
    FieldTested.movement_confidence (FieldTested.processed r)
    = FieldTested.movementConfidence st' /\
    FieldTested.movementConfidence st' == 70 /\
    FieldTested.vehicle_moving (FieldTested.processed r) = true.
Proof.
  cbv zeta.
  set (st0 := snd (FieldTested.run Qsqrt same_point_distance
                     FieldTested.new_DataProcessor warm_up)).
  set (d := mkRaw (Present 17500) (Present "P01"%string) (Some (27 # 1))
              (Some (- (109 # 1))) (Some 10) (Some 6) (Some 1) (Some (98 # 10))).
  destruct (FieldTested.processDataPoint Qsqrt same_point_distance (Some d) 17500 st0)
    as [res st2] eqn:HP.
  destruct res as [r|]; [| vm_compute in HP; discriminate HP].
  exists r, st2. split; [reflexivity |].
  destruct (C5_confidence_fusion Qsqrt same_point_distance d 17500
              (FieldTested.set_lastRecordTime st0 17500))
    as [_ [_ [_ [_ [_ [_ W]]]]]].
  destruct (W st0 r st2 eq_refl HP) as [W1 [W2 _]].
  split; [exact W1 |]. split; [vm_compute; reflexivity |].
  rewrite W2. vm_compute. reflexivity.
Defined.

(** ** C6: when [processDataPoint] returns [null] *)

Lemma validateDataStructure_true (raw : option RawData) :
  validateDataStructure raw = true <->
  exists d t p, raw = Some d /\ timestamp d = Present t /\ participante d = Present p.
Proof.
  unfold validateDataStructure. destruct raw as [d|].
  - destruct (timestamp d) as [| | t] eqn:T; destruct (participante d) as [| | p] eqn:P;
      split; try discriminate;
      try (intros [d' [t' [p' [[= <-] [H1 H2]]]]]; congruence).
    intros _. exists d, t, p. auto.
  - split; [discriminate | intros [d [t [p [H _]]]]; discriminate].
Qed.

Lemma FieldTested_detect_clock (data : FieldTested.Enriched) (now : Q)
  (st : FieldTested.State) :
  let st' := snd (FieldTested.detectEventsHybrid data now st) in
  FieldTested.lastRecordTime st' = FieldTested.lastRecordTime st /\
  FieldTested.recordInterval st' = FieldTested.recordInterval st.
Proof.
  cbv zeta. unfold FieldTested.detectEventsHybrid.
  destruct (negb (FieldTested.isVehicleMoving st)); simpl; split; reflexivity.
Qed.

(** The rate-gate clock after a call: the clock of this call if it passed
    the gate (whether or not the sample was then found valid), otherwise
    unchanged. *)
Lemma FieldTested_gate_clock (Msqrt : Q -> Q) (dist : Q -> Q -> Q -> Q -> Q)
  (raw : option RawData) (now : Q) (st : FieldTested.State) :
  let st' := snd (FieldTested.processDataPoint Msqrt dist raw now st) in
  FieldTested.recordInterval st' = FieldTested.recordInterval st /\
  (now - FieldTested.lastRecordTime st < FieldTested.recordInterval st -> st' = st) /\
  (FieldTested.recordInterval st <= now - FieldTested.lastRecordTime st ->
   FieldTested.lastRecordTime st' = now).
Proof.
  cbv zeta.
  destruct (FieldTested.processDataPoint Msqrt dist raw now st) as [res st'] eqn:HP.
  simpl snd. destruct res as [r|].
  - pose proof HP as HP'. apply FieldTested_process_some in HP.
    destruct HP as [d [_ [_ [G H]]]]. cbv zeta in H.
    destruct H as [_ [_ [Hs _]]]. apply Qltb_false in G.
    set (st1 := FieldTested.set_lastRecordTime st now) in *.
    destruct (FieldTested_update_untouched Msqrt dist d now st1)
      as [_ [_ [_ [_ [U5 [U6 _]]]]]].
    set (st2 := FieldTested.updateHybridMovementDetection Msqrt dist d now st1) in *.
    destruct (FieldTested_detect_clock (FieldTested.enrichDataFieldTested Msqrt d st2)
                now st2) as [D5 D6].
    rewrite Hs. simpl. rewrite D5, D6, U5, U6. simpl.
    split; [reflexivity |]. split; [intros; lra | reflexivity].
  - assert (N : fst (FieldTested.processDataPoint Msqrt dist raw now st) = None)
      by (rewrite HP; reflexivity).
    unfold FieldTested.processDataPoint in HP.
    case_cmp (Qltb (now - FieldTested.lastRecordTime st) (FieldTested.recordInterval st)).
    + injection HP as <-. split; [reflexivity |]. split; [reflexivity | intros; lra].
    + destruct (validateDataStructure raw) eqn:V.
      * exfalso. apply FieldTested_process_none in N. destruct N as [N | N]; [lra | congruence].
      * simpl in HP. injection HP as <-. simpl.
        split; [reflexivity |]. split; [intros; lra | reflexivity].
Qed.

(** C6, as stated, fails on [src/data-processor.js] when the sample before
    was invalid: the invalid sample is not accepted but has already moved
    the rate gate, so a valid sample 500 ms later returns [null] although no
    sample was accepted before it.  Fed alone, the same sample is
    processed. *)
Lemma C6_valid_sample_dropped_after_invalid_one :
  let bad := invalid_sample 10000 in
  let good := accel_sample 10500 1 1 (98 # 10) in
  validateDataStructure (snd bad) = false /\
  validateDataStructure (snd good) = true /\
  fst (FieldTested.run Qsqrt same_point_distance FieldTested.new_DataProcessor [bad; good])
  = [None; None] /\
  exists r,
    fst (FieldTested.run Qsqrt same_point_distance FieldTested.new_DataProcessor [good])
    = [Some r].
Proof.
  cbv zeta. split; [reflexivity |]. split; [reflexivity |].
  split; [vm_compute; reflexivity |].
  eexists. vm_compute. reflexivity.
Qed.

Lemma plain_widen (d : RawData) : plain (widen d) = d.
Proof. destruct d as [t p la lo v [ax|] [ay|] [az|]]; reflexivity. Qed.

Lemma has_bigint_widen (d : RawData) : has_bigint (widen d) = false.
Proof. destruct d as [t p la lo v [ax|] [ay|] [az|]]; reflexivity. Qed.

(** Without a BigInt on three defined axes nothing raises, and the call is
    the call on the sample read as numbers. *)
Lemma FieldTested_try_plain (Msqrt : Q -> Q) (dist : Q -> Q -> Q -> Q -> Q)
  (raw : option WideData) (now : Q) (st : FieldTested.State) :
  raises_TypeError raw = false ->
  FieldTested.processDataPoint_try Msqrt dist raw now st
  = FieldTested.processDataPoint Msqrt dist (option_map plain raw) now st.
Proof.
  intros Hr. unfold FieldTested.processDataPoint_try, FieldTested.processDataPoint.
  destruct (Qltb (now - FieldTested.lastRecordTime st) (FieldTested.recordInterval st));
    [reflexivity |].
  cbv zeta.
  destruct (negb (validateDataStructure (option_map plain raw))); [reflexivity |].
  destruct raw as [w|]; [| reflexivity].
  cbn [option_map]. unfold raises_TypeError, carries_axes in Hr.
  assert (E1 : truthy (x (plain w)) && truthy (y (plain w)) && truthy (z (plain w))
               && has_bigint w = false).
  { destruct (has_bigint w); [| apply andb_false_r].
    rewrite andb_true_r in Hr. rewrite andb_true_r.
    destruct (x (plain w)); [| reflexivity].
    destruct (y (plain w)); [| cbn [truthy]; rewrite andb_false_r; reflexivity].
    destruct (z (plain w)); [discriminate Hr | cbn [truthy]; apply andb_false_r]. }
  unfold FieldTested.updateHybridMovementDetection_try,
    FieldTested.enrichDataFieldTested_try. cbv zeta.
  rewrite E1, Hr. reflexivity.
Qed.

Lemma FieldTested_before_accelerometer_clock (dist : Q -> Q -> Q -> Q -> Q)
  (d : RawData) (now : Q) (st : FieldTested.State) :
  FieldTested.lastRecordTime (FieldTested.before_accelerometer dist d now st)
  = FieldTested.lastRecordTime st /\
  FieldTested.recordInterval (FieldTested.before_accelerometer dist d now st)
  = FieldTested.recordInterval st.
Proof.
  unfold FieldTested.before_accelerometer, FieldTested.hasGPSMovement. cbv zeta.
  split_ifs; simpl; split; reflexivity.
Qed.

(** With a BigInt on three defined axes a call that passes the gate with a
    valid sample raises, and the exception is caught. *)
Lemma FieldTested_try_raises (Msqrt : Q -> Q) (dist : Q -> Q -> Q -> Q -> Q)
  (raw : option WideData) (now : Q) (st : FieldTested.State) :
  raises_TypeError raw = true ->
  let P := FieldTested.processDataPoint_try Msqrt dist raw now st in
  fst P = None /\
  FieldTested.recordInterval (snd P) = FieldTested.recordInterval st /\
  (now - FieldTested.lastRecordTime st < FieldTested.recordInterval st -> snd P = st) /\
  (FieldTested.recordInterval st <= now - FieldTested.lastRecordTime st ->
   FieldTested.lastRecordTime (snd P) = now).
Proof.
  intros Hr. cbv zeta. unfold FieldTested.processDataPoint_try.
  case_cmp (Qltb (now - FieldTested.lastRecordTime st) (FieldTested.recordInterval st)).
  - simpl. repeat split; auto. intros Hge. lra.
  - cbv zeta.
    destruct (negb (validateDataStructure (option_map plain raw))).
    + simpl. repeat split; auto. intros Hlt. lra.
    + destruct raw as [w|]; [| discriminate Hr].
      unfold raises_TypeError, carries_axes in Hr.
      unfold FieldTested.updateHybridMovementDetection_try,
        FieldTested.enrichDataFieldTested_try. cbv zeta.
      destruct (truthy (x (plain w)) && truthy (y (plain w)) && truthy (z (plain w))
                && has_bigint w).
      * destruct (FieldTested_before_accelerometer_clock dist (plain w) now
                    (FieldTested.set_lastRecordTime st now)) as [B1 B2].
        cbn [fst snd]. rewrite B1, B2. simpl.
        repeat split; auto. intros Hlt. lra.
      * rewrite Hr.
        destruct (FieldTested_update_untouched Msqrt dist (plain w) now
                    (FieldTested.set_lastRecordTime st now))
          as [_ [_ [_ [_ [U1 [U2 _]]]]]].
        cbn [fst snd]. rewrite U1, U2. simpl.
        repeat split; auto. intros Hlt. lra.
Qed.

(** C6, amended.  [processDataPoint] returns [null], and lets no exception
    out, exactly in three cases: the sample is rate-gated -- it arrives
    sooner than [recordInterval] after the last call that passed the rate
    gate, whether or not that call's sample was then found valid --; or it
    is structurally invalid (not an object, or [timestamp] or
    [participante] missing or not a string); or a statement of the [try]
    block raises and the [catch] clause answers [null], which on samples
    whose axes are numbers, BigInts or absent happens exactly when the three
    axes are defined and one of them is a BigInt.  Every other call returns
    the enriched sample, the emitted events and the counters.  A call that
    passes the gate moves it even when it then returns [null]: a call 500 ms
    later returns [null] when [recordInterval] is 1500 ms.  On samples whose
    axes are numbers or absent nothing raises, in the calibrated variant
    too, where [null] then means gated or invalid. *)
Theorem C6_null_exactly_when_gated_or_invalid (Msqrt : Q -> Q)
  (dist : Q -> Q -> Q -> Q -> Q) (raw : option WideData) (now : Q)
  (st : FieldTested.State) :
  let P := FieldTested.processDataPoint_try Msqrt dist raw now st in
  let seen := option_map plain raw in
  (fst P = None <->
   now - FieldTested.lastRecordTime st < FieldTested.recordInterval st \/
   validateDataStructure seen = false \/
   raises_TypeError raw = true) /\
  (validateDataStructure seen = true <->
   exists d t p, seen = Some d /\ timestamp d = Present t /\ participante d = Present p) /\
  FieldTested.recordInterval (snd P) = FieldTested.recordInterval st /\
  (now - FieldTested.lastRecordTime st < FieldTested.recordInterval st -> snd P = st) /\
  (FieldTested.recordInterval st <= now - FieldTested.lastRecordTime st ->
   FieldTested.lastRecordTime (snd P) = now) /\
  (forall r, fst P = Some r ->
     exists d,
       seen = Some d /\
       let st2 := FieldTested.updateHybridMovementDetection Msqrt dist d now
                    (FieldTested.set_lastRecordTime st now) in
       FieldTested.processed r = FieldTested.enrichDataFieldTested Msqrt d st2 /\
       FieldTested.events r
       = fst (FieldTested.detectEventsHybrid (FieldTested.processed r) now st2) /\
       FieldTested.counters r = FieldTested.eventCounters (snd P)) /\
  (forall raw2,
     FieldTested.recordInterval st = 1500 ->
     FieldTested.recordInterval st <= now - FieldTested.lastRecordTime st ->
     fst (FieldTested.processDataPoint_try Msqrt dist raw2 (now + 500) (snd P)) = None) /\
  (forall numeric,
     FieldTested.processDataPoint_try Msqrt dist (option_map widen numeric) now st
     = FieldTested.processDataPoint Msqrt dist numeric now st) /\
  (forall numeric cst,
     fst (Calibrated.processDataPoint Msqrt dist numeric now cst) = None <->
     now - Calibrated.lastRecordTime cst < Calibrated.recordInterval cst \/
     validateDataStructure numeric = false).
Proof.
  cbv zeta.
  assert (Gate : forall raw2 now2 s,
            now2 - FieldTested.lastRecordTime s < FieldTested.recordInterval s ->
            fst (FieldTested.processDataPoint_try Msqrt dist raw2 now2 s) = None).
  { intros raw2 now2 s Hlt. unfold FieldTested.processDataPoint_try.
    apply Qltb_true in Hlt. rewrite Hlt. reflexivity. }
  assert (Clock :
            FieldTested.recordInterval
              (snd (FieldTested.processDataPoint_try Msqrt dist raw now st))
            = FieldTested.recordInterval st /\
            (now - FieldTested.lastRecordTime st < FieldTested.recordInterval st ->
             snd (FieldTested.processDataPoint_try Msqrt dist raw now st) = st) /\
            (FieldTested.recordInterval st <= now - FieldTested.lastRecordTime st ->
             FieldTested.lastRecordTime
               (snd (FieldTested.processDataPoint_try Msqrt dist raw now st)) = now)).
  { destruct (raises_TypeError raw) eqn:Hr.
    - destruct (FieldTested_try_raises Msqrt dist raw now st Hr) as [_ H]. exact H.
    - rewrite (FieldTested_try_plain Msqrt dist raw now st Hr).
      apply FieldTested_gate_clock. }
  destruct Clock as [G1 [G2 G3]].
  split.
  { destruct (raises_TypeError raw) eqn:Hr.
    - destruct (FieldTested_try_raises Msqrt dist raw now st Hr) as [H _].
      split; [intros _; right; right; reflexivity | intros _; exact H].
    - rewrite (FieldTested_try_plain Msqrt dist raw now st Hr).
      rewrite FieldTested_process_none.
      split; [intros [H | H]; auto | intros [H | [H | H]]; auto; discriminate H]. }
  split; [apply validateDataStructure_true |].
  split; [exact G1 |]. split; [exact G2 |]. split; [exact G3 |].
  split.
  { intros r Hr0.
    destruct (raises_TypeError raw) eqn:Hr.
    - destruct (FieldTested_try_raises Msqrt dist raw now st Hr) as [H _].
      rewrite H in Hr0. discriminate Hr0.
    - rewrite (FieldTested_try_plain Msqrt dist raw now st Hr) in Hr0 |- *.
      destruct (FieldTested.processDataPoint Msqrt dist (option_map plain raw) now st)
        as [res st'] eqn:HP.
      simpl in Hr0. subst res. apply FieldTested_process_some in HP.
      destruct HP as [d [Hd [_ [_ H]]]]. cbv zeta in H.
      destruct H as [Hp [He [_ Hc]]].
      exists d. split; [exact Hd |]. cbv zeta. rewrite Hp.
      split; [reflexivity |]. split; [exact He | exact Hc]. }
  split.
  { intros raw2 Hi Hpass. apply Gate. rewrite G1, (G3 Hpass), Hi. lra. }
  split.
  { intros numeric.
    rewrite FieldTested_try_plain.
    - destruct numeric as [d|]; [| reflexivity].
      cbn [option_map]. rewrite plain_widen. reflexivity.
    - destruct numeric as [d|]; [| reflexivity].
      cbn [option_map raises_TypeError]. rewrite has_bigint_widen.
      apply andb_false_r. }
  intros numeric cst. apply Calibrated_process_none.
Qed.

Lemma C6_null_exactly_when_gated_or_invalid_witness :
  let st := FieldTested.new_DataProcessor in
  FieldTested.recordInterval st = 1500 /\
  FieldTested.recordInterval st <= 10000 - FieldTested.lastRecordTime st /\
  validateDataStructure (option_map plain (bigint_sample 10000)) = true /\
  raises_TypeError (bigint_sample 10000) = true /\
  fst (FieldTested.processDataPoint_try Qsqrt same_point_distance
         (bigint_sample 10000) 10000 st) = None /\
  fst (FieldTested.processDataPoint_try Qsqrt same_point_distance
         (option_map widen (snd (accel_sample 10500 1 1 (98 # 10)))) (10000 + 500)
         (snd (FieldTested.processDataPoint_try Qsqrt same_point_distance
                 (bigint_sample 10000) 10000 st)))
  = None.
Proof.
  cbv zeta.
  assert (H1 : FieldTested.recordInterval FieldTested.new_DataProcessor = 1500)
    by reflexivity.
  assert (H2 : FieldTested.recordInterval FieldTested.new_DataProcessor
               <= 10000 - FieldTested.lastRecordTime FieldTested.new_DataProcessor)
    by (vm_compute; discriminate).
  assert (H3 : raises_TypeError (bigint_sample 10000) = true) by reflexivity.
  split; [exact H1 |]. split; [exact H2 |]. split; [reflexivity |]. split; [exact H3 |].
  pose proof (C6_null_exactly_when_gated_or_invalid Qsqrt same_point_distance
                (bigint_sample 10000) 10000 FieldTested.new_DataProcessor) as T.
  cbv zeta in T. destruct T as [N [_ [_ [_ [_ [_ [W _]]]]]]].
  split.
  - apply N. right. right. exact H3.
  - exact (W (option_map widen (snd (accel_sample 10500 1 1 (98 # 10)))) H1 H2).
Defined.

(** ** C7 and C10: warm-up and persistence of the baseline *)

Lemma bearing_guard (d : RawData) :
  negb (truthy (x d)) || negb (truthy (y d)) || negb (truthy (z d)) = negb (bearing d).
Proof.
  unfold bearing. destruct (truthy (x d)), (truthy (y d)), (truthy (z d)); reflexivity.
Qed.

Lemma length_push_capped {A : Type} (cap : nat) (l : list A) (a : A) :
  (length l < cap)%nat -> length (push_capped cap l a) = S (length l).
Proof.
  intros H. unfold push_capped, push. cbv zeta.
  rewrite last_length.
  destruct (Nat.ltb cap (S (length l))) eqn:E.
  - apply Nat.ltb_lt in E. lia.
  - apply last_length.
Qed.

(** What [detectMotionFromAccelerometer] does to the history and the
    baseline. *)
Lemma FieldTested_detectMotion_warmup (Msqrt : Q -> Q) (d : RawData) (now : Q)
  (st : FieldTested.State) :
  let st' := snd (FieldTested.detectMotionFromAccelerometer Msqrt d now st) in
  (bearing d = false -> st' = st) /\
  (forall b, FieldTested.baselineAcceleration st = Some b ->
             FieldTested.baselineAcceleration st' = Some b) /\
  (bearing d = true ->
   FieldTested.baselineAcceleration st = None ->
   (length (FieldTested.accelerationHistory st) < 4)%nat ->
   FieldTested.baselineAcceleration st' = None /\
   length (FieldTested.accelerationHistory st') = S (length (FieldTested.accelerationHistory st))) /\
  (bearing d = true ->
   FieldTested.baselineAcceleration st = None ->
   length (FieldTested.accelerationHistory st) = 4%nat ->
   FieldTested.baselineAcceleration st' <> None).
Proof.
  cbv zeta. unfold FieldTested.detectMotionFromAccelerometer.
  rewrite bearing_guard. destruct (bearing d).
  - change (negb true) with false. cbv iota zeta.
    set (cur := {| FieldTested.a_x := num (x d) |}).
    set (st1 := FieldTested.set_accelerationHistory st _).
    match goal with
    | |- context [if ?c then FieldTested.set_baselineAcceleration st1 ?v else st1] =>
        set (st2 := if c then FieldTested.set_baselineAcceleration st1 v else st1)
    end.
    assert (L1 : (length (FieldTested.accelerationHistory st) < 10)%nat ->
                 length (FieldTested.accelerationHistory st1)
                 = S (length (FieldTested.accelerationHistory st))).
    { intros H. simpl. apply length_push_capped. exact H. }
    assert (H2 :
      FieldTested.accelerationHistory st2 = FieldTested.accelerationHistory st1 /\
      (forall b, FieldTested.baselineAcceleration st = Some b ->
                 FieldTested.baselineAcceleration st2 = Some b) /\
      (FieldTested.baselineAcceleration st = None ->
       (length (FieldTested.accelerationHistory st) < 4)%nat ->
       FieldTested.baselineAcceleration st2 = None) /\
      (FieldTested.baselineAcceleration st = None ->
       length (FieldTested.accelerationHistory st) = 4%nat ->
       FieldTested.baselineAcceleration st2 <> None)).
    { subst st2.
      change (FieldTested.baselineAcceleration st1)
        with (FieldTested.baselineAcceleration st).
      destruct (FieldTested.baselineAcceleration st) as [b0|] eqn:B0.
      - simpl. split; [reflexivity |]. split; [intros b Hb; congruence |].
        split; discriminate.
      - change (negb (defined None)) with true. rewrite andb_true_l.
        destruct (Nat.leb 5 (length (FieldTested.accelerationHistory st1))) eqn:E.
        + apply Nat.leb_le in E. simpl.
          split; [reflexivity |]. split; [discriminate |].
          split; [intros _ Hlt; rewrite L1 in E; lia |].
          intros _ _. unfold FieldTested.calculateAccelerationBaseline.
          rewrite (proj2 (Nat.ltb_ge _ 5)) by exact E. discriminate.
        + apply Nat.leb_gt in E. simpl.
          split; [reflexivity |]. split; [discriminate |].
          split; [intros _ _; exact B0 |].
          intros _ Heq. rewrite L1 in E; lia. }
    destruct H2 as [H2h [H2a [H2b H2c]]].
    split; [discriminate |].
    destruct (negb (defined (FieldTested.baselineAcceleration st2)));
      cbn [snd FieldTested.set_motionHistory FieldTested.baselineAcceleration
             FieldTested.accelerationHistory];
      rewrite H2h;
      (split; [exact H2a |]; split;
       [intros _ Hn Hlt; split; [apply H2b; assumption | apply L1; lia]
       | intros _ Hn Heq; apply H2c; assumption]).
  - simpl. split; [reflexivity |]. split; [auto |]. split; discriminate.
Qed.

Lemma FieldTested_hasGPSMovement_accel (dist : Q -> Q -> Q -> Q -> Q)
  (d : RawData) (now : Q) (st : FieldTested.State) :
  let st' := snd (FieldTested.hasGPSMovement dist d now st) in
  FieldTested.baselineAcceleration st' = FieldTested.baselineAcceleration st /\
  FieldTested.accelerationHistory st' = FieldTested.accelerationHistory st.
Proof.
  cbv zeta. unfold FieldTested.hasGPSMovement. split_ifs; simpl; split; reflexivity.
Qed.

(** The accelerometer step of [gatherEvidence] starts from a processor with
    the history and baseline the call started with. *)
Lemma FieldTested_gatherEvidence_accel (Msqrt : Q -> Q) (dist : Q -> Q -> Q -> Q -> Q)
  (d : RawData) (now : Q) (st : FieldTested.State) :
  exists st2,
    FieldTested.after_evidence (FieldTested.gatherEvidence Msqrt dist d now st)
    = snd (FieldTested.detectMotionFromAccelerometer Msqrt d now st2) /\
    FieldTested.baselineAcceleration st2 = FieldTested.baselineAcceleration st /\
    FieldTested.accelerationHistory st2 = FieldTested.accelerationHistory st.
Proof.
  unfold FieldTested.gatherEvidence. cbv zeta.
  destruct (truthy (lat d) && truthy (lon d)).
  - pose proof (FieldTested_hasGPSMovement_accel dist d now
                  (FieldTested.set_gpsAvailable st true)) as G. cbv zeta in G.
    destruct (FieldTested.hasGPSMovement dist d now _) as [g st2]. simpl in G.
    exists st2.
    destruct (FieldTested.detectMotionFromAccelerometer Msqrt d now st2) as [a st3].
    simpl. split; [reflexivity | exact G].
  - exists (FieldTested.set_gpsAvailable st false).
    destruct (FieldTested.detectMotionFromAccelerometer Msqrt d now _) as [a st3].
    simpl. split; [reflexivity |]. split; reflexivity.
Qed.

Lemma FieldTested_update_warmup (Msqrt : Q -> Q) (dist : Q -> Q -> Q -> Q -> Q)
  (d : RawData) (now : Q) (st : FieldTested.State) :
  let st' := FieldTested.updateHybridMovementDetection Msqrt dist d now st in
  (bearing d = false ->
   FieldTested.baselineAcceleration st' = FieldTested.baselineAcceleration st /\
   FieldTested.accelerationHistory st' = FieldTested.accelerationHistory st) /\
  (forall b, FieldTested.baselineAcceleration st = Some b ->
             FieldTested.baselineAcceleration st' = Some b) /\
  (bearing d = true ->
   FieldTested.baselineAcceleration st = None ->
   (length (FieldTested.accelerationHistory st) < 4)%nat ->
   FieldTested.baselineAcceleration st' = None /\
   length (FieldTested.accelerationHistory st') = S (length (FieldTested.accelerationHistory st))) /\
  (bearing d = true ->
   FieldTested.baselineAcceleration st = None ->
   length (FieldTested.accelerationHistory st) = 4%nat ->
   FieldTested.baselineAcceleration st' <> None).
Proof.
  cbv zeta.
  destruct (FieldTested_update_fields Msqrt dist d now st) as [_ [_ [_ [Ub [Uh _]]]]].
  destruct (FieldTested_gatherEvidence_accel Msqrt dist d now st) as [st2 [E [B2 H2]]].
  rewrite Ub, Uh, E.
  destruct (FieldTested_detectMotion_warmup Msqrt d now st2) as [W1 [W2 [W3 W4]]].
  rewrite B2, H2 in *.
  split.
  - intros Hb. rewrite (W1 Hb). split; assumption.
  - split; [exact W2 |]. split; [exact W3 | exact W4].
Qed.

(** The same facts for a whole call of [processDataPoint], with the
    filtered acceleration of the enriched sample. *)
Lemma FieldTested_process_warmup (Msqrt : Q -> Q) (dist : Q -> Q -> Q -> Q -> Q)
  (raw : option RawData) (now : Q) (st : FieldTested.State) :
  let P := FieldTested.processDataPoint Msqrt dist raw now st in
  (forall b, FieldTested.baselineAcceleration st = Some b ->
             FieldTested.baselineAcceleration (snd P) = Some b) /\
  match fst P, raw with
  | Some r, Some d =>
      (bearing d = true ->
       FieldTested.filtered_acceleration (FieldTested.processed r)
       = Some match FieldTested.baselineAcceleration (snd P) with
              | Some b => minus_baseline d b
              | None => raw_acceleration d
              end) /\
      (bearing d = false ->
       FieldTested.baselineAcceleration (snd P) = FieldTested.baselineAcceleration st /\
       FieldTested.accelerationHistory (snd P) = FieldTested.accelerationHistory st) /\
      (bearing d = true ->
       FieldTested.baselineAcceleration st = None ->
       (length (FieldTested.accelerationHistory st) < 4)%nat ->
       FieldTested.baselineAcceleration (snd P) = None /\
       length (FieldTested.accelerationHistory (snd P))
       = S (length (FieldTested.accelerationHistory st))) /\
      (bearing d = true ->
       FieldTested.baselineAcceleration st = None ->
       length (FieldTested.accelerationHistory st) = 4%nat ->
       FieldTested.baselineAcceleration (snd P) <> None)
  | Some r, None => False
  | None, _ =>
      FieldTested.baselineAcceleration (snd P) = FieldTested.baselineAcceleration st /\
      FieldTested.accelerationHistory (snd P) = FieldTested.accelerationHistory st
  end.
Proof.
  cbv zeta.
  destruct (FieldTested.processDataPoint Msqrt dist raw now st) as [res st'] eqn:HP.
  simpl fst. simpl snd. destruct res as [r|].
  - apply FieldTested_process_some in HP.
    destruct HP as [d [-> [_ [_ H]]]]. cbv zeta in H.
    destruct H as [Hp [_ [Hs _]]].
    set (st1 := FieldTested.set_lastRecordTime st now) in *.
    destruct (FieldTested_update_warmup Msqrt dist d now st1) as [W1 [W2 [W3 W4]]].
    set (st2 := FieldTested.updateHybridMovementDetection Msqrt dist d now st1) in *.
    assert (K : FieldTested.baselineAcceleration st' = FieldTested.baselineAcceleration st2 /\
                FieldTested.accelerationHistory st' = FieldTested.accelerationHistory st2).
    { rewrite Hs. unfold FieldTested.detectEventsHybrid.
      destruct (negb (FieldTested.isVehicleMoving st2)); simpl; split; reflexivity. }
    destruct K as [Kb Kh]. rewrite Kb, Kh.
    change (FieldTested.baselineAcceleration st1)
      with (FieldTested.baselineAcceleration st) in *.
    change (FieldTested.accelerationHistory st1)
      with (FieldTested.accelerationHistory st) in *.
    split; [exact W2 |].
    split; [| split; [exact W1 | split; [exact W3 | exact W4]]].
    intros Hb. rewrite Hp. unfold FieldTested.enrichDataFieldTested. cbv zeta.
    cbn [FieldTested.filtered_acceleration].
    unfold bearing in Hb.
    destruct (x d) as [dx|]; [| discriminate Hb].
    destruct (y d) as [dy|]; [| simpl in Hb; rewrite andb_false_r in Hb; discriminate Hb].
    destruct (z d) as [dz|]; [| simpl in Hb; rewrite andb_false_r in Hb; discriminate Hb].
    cbn [defined andb]. unfold FieldTested.calculateFilteredAcceleration.
    destruct (FieldTested.baselineAcceleration st2); reflexivity.
  - pose proof (FieldTested_process_null_state Msqrt dist raw now st) as N.
    rewrite HP in N. simpl in N. specialize (N eq_refl).
    destruct N as [-> | ->]; simpl; (split; [auto |]);
      destruct raw; split; reflexivity.
Qed.

Lemma FieldTested_baseline_kept_by_run (Msqrt : Q -> Q) (dist : Q -> Q -> Q -> Q -> Q)
  (calls : list (Q * option RawData)) :
  forall (st : FieldTested.State) (b : FieldTested.Baseline),
    FieldTested.baselineAcceleration st = Some b ->
    FieldTested.baselineAcceleration (snd (FieldTested.run Msqrt dist st calls)) = Some b.
Proof.
  unfold FieldTested.run.
  induction calls as [| [now raw] rest IH]; intros st b Hb.
  - exact Hb.
  - rewrite run_with_cons. simpl snd. apply IH.
    apply (FieldTested_process_warmup Msqrt dist raw now st). exact Hb.
Qed.

Lemma warming_run (Msqrt : Q -> Q) (dist : Q -> Q -> Q -> Q -> Q)
  (calls : list (Q * option RawData)) :
  forall (st : FieldTested.State) (k : nat),
    warming k st ->
    let out := FieldTested.run Msqrt dist st calls in
    Forall (fun '(j, d, r) =>
              ((j <= 4)%nat ->
               FieldTested.filtered_acceleration (FieldTested.processed r)
               = Some (raw_acceleration d)) /\
              ((5 <= j)%nat ->
               exists b,
                 FieldTested.baselineAcceleration (snd out) = Some b /\
                 FieldTested.filtered_acceleration (FieldTested.processed r)
                 = Some (minus_baseline d b)))
      (numbered_bearing k calls (fst out)).
Proof.
  induction calls as [| [now raw] rest IH]; intros st k Hw; cbv zeta.
  - constructor.
  - unfold FieldTested.run. rewrite run_with_cons. cbn [fst snd].
    fold (FieldTested.run Msqrt dist).
    pose proof (FieldTested_process_warmup Msqrt dist raw now st) as W. cbv zeta in W.
    destruct W as [Wkeep W].
    destruct (FieldTested.processDataPoint Msqrt dist raw now st) as [res st1] eqn:HP.
    cbn [fst snd] in *.
    destruct Hw as [Hlt Hge].
    destruct res as [r|].
    + destruct raw as [d|]; [| destruct W].
      destruct W as [Wf [Wn [Wa Wb]]].
      cbn [numbered_bearing].
      destruct (bearing d) eqn:Hb.
      * assert (Hw1 : warming (S k) st1).
        { unfold warming. split.
          - intros Hk. destruct (Hlt ltac:(lia)) as [Hn Hl].
            destruct (Wa eq_refl Hn ltac:(lia)) as [A1 A2].
            split; [exact A1 | rewrite A2, Hl; reflexivity].
          - intros Hk. destruct (Nat.eq_dec k 4) as [-> | Hne].
            + destruct (Hlt ltac:(lia)) as [Hn Hl]. apply Wb; auto.
            + assert (H5 : (5 <= k)%nat) by lia.
              specialize (Hge H5).
              destruct (FieldTested.baselineAcceleration st) as [b|] eqn:B; [| congruence].
              rewrite (Wkeep b eq_refl). discriminate. }
        constructor; [| apply (IH st1 (S k) Hw1)].
        split.
        -- intros Hk. destruct Hw1 as [Hlt1 _].
           destruct (Hlt1 ltac:(lia)) as [Hn _].
           rewrite (Wf eq_refl), Hn. reflexivity.
        -- intros Hk. destruct Hw1 as [_ Hge1]. specialize (Hge1 Hk).
           destruct (FieldTested.baselineAcceleration st1) as [b|] eqn:B; [| congruence].
           exists b. split.
           ++ apply FieldTested_baseline_kept_by_run. exact B.
           ++ rewrite (Wf eq_refl). reflexivity.
      * destruct (Wn eq_refl) as [Nb Nh].
        apply (IH st1 k). unfold warming. rewrite Nb, Nh. split; assumption.
    + assert (Hw1 : warming k st1).
      { destruct W as [Nb Nh]. unfold warming. rewrite Nb, Nh. split; assumption. }
      destruct raw as [d|]; cbn [numbered_bearing]; apply (IH st1 k Hw1).
Qed.

(** The filtered acceleration of an accepted sample that carries the three
    axes, recorded or not. *)
Lemma FieldTested_process_axes (Msqrt : Q -> Q) (dist : Q -> Q -> Q -> Q -> Q)
  (d : RawData) (now : Q) (st st' : FieldTested.State) (r : FieldTested.Result) :
  FieldTested.processDataPoint Msqrt dist (Some d) now st = (Some r, st') ->
  carries_axes d = true ->
  FieldTested.filtered_acceleration (FieldTested.processed r)
  = Some match FieldTested.baselineAcceleration st' with
         | Some b => minus_baseline d b
         | None => raw_acceleration d
         end.
Proof.
  intros HP Hc. apply FieldTested_process_some in HP.
  destruct HP as [d' [[= <-] [_ [_ H]]]]. cbv zeta in H.
  destruct H as [Hp [_ [Hs _]]].
  set (st2 := FieldTested.updateHybridMovementDetection Msqrt dist d now
                (FieldTested.set_lastRecordTime st now)) in *.
  assert (K : FieldTested.baselineAcceleration st' = FieldTested.baselineAcceleration st2).
  { rewrite Hs. unfold FieldTested.detectEventsHybrid.
    destruct (negb (FieldTested.isVehicleMoving st2)); reflexivity. }
  rewrite K, Hp. unfold FieldTested.enrichDataFieldTested. cbv zeta.
  cbn [FieldTested.filtered_acceleration].
  unfold carries_axes in Hc. rewrite Hc.
  unfold FieldTested.calculateFilteredAcceleration.
  destruct (FieldTested.baselineAcceleration st2); reflexivity.
Qed.

Lemma bearing_carries_axes (d : RawData) : bearing d = true -> carries_axes d = true.
Proof.
  unfold bearing, carries_axes.
  destruct (x d), (y d), (z d); simpl; try reflexivity;
    rewrite ?andb_false_r; intro H; discriminate H.
Qed.

Lemma carrying_run (Msqrt : Q -> Q) (dist : Q -> Q -> Q -> Q -> Q)
  (calls : list (Q * option RawData)) :
  forall (st : FieldTested.State) (k : nat),
    warming k st ->
    let out := FieldTested.run Msqrt dist st calls in
    Forall (fun '(j, d, r) =>
              ((j <= 4)%nat ->
               FieldTested.baselineAcceleration st = None /\
               FieldTested.filtered_acceleration (FieldTested.processed r)
               = Some (raw_acceleration d)) /\
              ((5 <= j)%nat ->
               exists b,
                 FieldTested.baselineAcceleration (snd out) = Some b /\
                 FieldTested.filtered_acceleration (FieldTested.processed r)
                 = Some (minus_baseline d b)))
      (numbered_carrying k calls (fst out)) /\
    ((forall c d, In c calls -> snd c = Some d -> bearing d = false) ->
     FieldTested.baselineAcceleration (snd out) = FieldTested.baselineAcceleration st /\
     FieldTested.accelerationHistory (snd out) = FieldTested.accelerationHistory st).
Proof.
  induction calls as [| [now raw] rest IH]; intros st k Hw; cbv zeta.
  - split; [constructor | intros _; split; reflexivity].
  - unfold FieldTested.run. rewrite run_with_cons. cbn [fst snd].
    fold (FieldTested.run Msqrt dist).
    pose proof (FieldTested_process_warmup Msqrt dist raw now st) as W. cbv zeta in W.
    destruct W as [Wkeep W].
    destruct (FieldTested.processDataPoint Msqrt dist raw now st) as [res st1] eqn:HP.
    cbn [fst snd] in *.
    assert (Hw1 : warming (match res, raw with
                           | Some _, Some d => if bearing d then S k else k
                           | _, _ => k
                           end) st1).
    { destruct Hw as [Hlt Hge]. destruct res as [r|].
      - destruct raw as [d|]; [| destruct W].
        destruct W as [_ [Wn [Wa Wb]]].
        destruct (bearing d) eqn:Hb.
        + unfold warming. split.
          * intros Hk. destruct (Hlt ltac:(lia)) as [Hn Hl].
            destruct (Wa eq_refl Hn ltac:(lia)) as [A1 A2].
            split; [exact A1 | rewrite A2, Hl; reflexivity].
          * intros Hk. destruct (Nat.eq_dec k 4) as [-> | Hne].
            -- destruct (Hlt ltac:(lia)) as [Hn Hl]. apply Wb; auto.
            -- assert (H5 : (5 <= k)%nat) by lia.
               specialize (Hge H5).
               destruct (FieldTested.baselineAcceleration st) as [b|] eqn:B; [| congruence].
               rewrite (Wkeep b eq_refl). discriminate.
        + destruct (Wn eq_refl) as [Nb Nh].
          unfold warming. rewrite Nb, Nh. split; assumption.
      - destruct W as [Nb Nh]. unfold warming. rewrite Nb, Nh.
        destruct raw; split; assumption. }
    assert (Hkeep : FieldTested.baselineAcceleration st1 = None ->
                    FieldTested.baselineAcceleration st = None).
    { intros Hn. destruct (FieldTested.baselineAcceleration st) as [b|] eqn:B;
        [| reflexivity].
      rewrite (Wkeep b eq_refl) in Hn. discriminate Hn. }
    split.
    + destruct res as [r|].
      * destruct raw as [d|]; [| destruct W].
        cbn [numbered_carrying]. cbv zeta.
        set (k' := if bearing d then S k else k) in *.
        destruct (IH st1 k' Hw1) as [IH1 _]. cbv zeta in IH1.
        assert (Tail : Forall (fun '(j, d0, r0) =>
                  ((j <= 4)%nat ->
                   FieldTested.baselineAcceleration st = None /\
                   FieldTested.filtered_acceleration (FieldTested.processed r0)
                   = Some (raw_acceleration d0)) /\
                  ((5 <= j)%nat ->
                   exists b,
                     FieldTested.baselineAcceleration
                       (snd (FieldTested.run Msqrt dist st1 rest)) = Some b /\
                     FieldTested.filtered_acceleration (FieldTested.processed r0)
                     = Some (minus_baseline d0 b)))
                  (numbered_carrying k' rest (fst (FieldTested.run Msqrt dist st1 rest)))).
        { eapply Forall_impl; [| exact IH1]. intros [[j d0] r0] [A B].
          split; [| exact B]. intros Hj. destruct (A Hj) as [A1 A2].
          split; [apply Hkeep; exact A1 | exact A2]. }
        destruct (carries_axes d) eqn:Hc; [| exact Tail].
        constructor; [| exact Tail].
        pose proof (FieldTested_process_axes Msqrt dist d now st st1 r HP Hc) as F.
        split.
        -- intros Hk. destruct Hw1 as [Hlt1 _].
           destruct (Hlt1 ltac:(lia)) as [Hn _].
           split; [apply Hkeep; exact Hn |]. rewrite F, Hn. reflexivity.
        -- intros Hk. destruct Hw1 as [_ Hge1]. specialize (Hge1 Hk).
           destruct (FieldTested.baselineAcceleration st1) as [b|] eqn:B; [| congruence].
           exists b. split.
           ++ apply FieldTested_baseline_kept_by_run. exact B.
           ++ exact F.
      * destruct (IH st1 k) as [IH1 _].
        { destruct raw; exact Hw1. }
        cbv zeta in IH1.
        assert (Tail : Forall (fun '(j, d0, r0) =>
                  ((j <= 4)%nat ->
                   FieldTested.baselineAcceleration st = None /\
                   FieldTested.filtered_acceleration (FieldTested.processed r0)
                   = Some (raw_acceleration d0)) /\
                  ((5 <= j)%nat ->
                   exists b,
                     FieldTested.baselineAcceleration
                       (snd (FieldTested.run Msqrt dist st1 rest)) = Some b /\
                     FieldTested.filtered_acceleration (FieldTested.processed r0)
                     = Some (minus_baseline d0 b)))
                  (numbered_carrying k rest (fst (FieldTested.run Msqrt dist st1 rest)))).
        { eapply Forall_impl; [| exact IH1]. intros [[j d0] r0] [A B].
          split; [| exact B]. intros Hj. destruct (A Hj) as [A1 A2].
          split; [apply Hkeep; exact A1 | exact A2]. }
        destruct raw; cbn [numbered_carrying]; exact Tail.
    + intros Hnb.
      assert (Hrest : forall c d, In c rest -> snd c = Some d -> bearing d = false)
        by (intros c d Hin; apply Hnb; right; exact Hin).
      assert (Step : FieldTested.baselineAcceleration st1 = FieldTested.baselineAcceleration st /\
                     FieldTested.accelerationHistory st1 = FieldTested.accelerationHistory st).
      { destruct res as [r|].
        - destruct raw as [d|]; [| destruct W].
          destruct W as [_ [Wn _]]. apply Wn.
          apply (Hnb (now, Some d) d); [left; reflexivity | reflexivity].
        - destruct raw; exact W. }
      destruct Step as [S1 S2].
      match type of Hw1 with warming ?kk _ => destruct (IH st1 kk Hw1) as [_ IH2] end.
      cbv zeta in IH2. destruct (IH2 Hrest) as [I1 I2].
      rewrite I1, I2. split; assumption.
Qed.

(** C7, amended.  Count, from the start of a session (any processor just
    reset, or newly constructed), the accepted samples whose three axes are
    all present and different from zero: only these enter the acceleration
    history.  The enriched sample of each of the first four of them carries
    the raw acceleration unchanged; from the fifth on the baseline is
    defined and the enriched sample carries the raw acceleration minus that
    baseline, component by component.  The same holds of every accepted
    sample that carries the three axes, counted or not, with the count
    reached when it arrives: raw while the count is at most four, raw minus
    the baseline from five on.  A stream in which no sample has three
    non-zero axes is never counted: it leaves the baseline undefined and the
    acceleration history empty. *)
Theorem C7_warm_up (Msqrt : Q -> Q) (dist : Q -> Q -> Q -> Q -> Q)
  (st0 : FieldTested.State) (calls : list (Q * option RawData)) :
  let out := FieldTested.run Msqrt dist (FieldTested.resetCounters st0) calls in
  Forall (fun '(j, d, r) =>
            ((j <= 4)%nat ->
             FieldTested.filtered_acceleration (FieldTested.processed r)
             = Some (raw_acceleration d)) /\
            ((5 <= j)%nat ->
             exists b,
               FieldTested.baselineAcceleration (snd out) = Some b /\
               FieldTested.filtered_acceleration (FieldTested.processed r)
               = Some (minus_baseline d b)))
    (numbered_bearing 0 calls (fst out)) /\
  Forall (fun '(j, d, r) =>
            ((j <= 4)%nat ->
             FieldTested.filtered_acceleration (FieldTested.processed r)
             = Some (raw_acceleration d)) /\
            ((5 <= j)%nat ->
             exists b,
               FieldTested.baselineAcceleration (snd out) = Some b /\
               FieldTested.filtered_acceleration (FieldTested.processed r)
               = Some (minus_baseline d b)))
    (numbered_carrying 0 calls (fst out)) /\
  ((forall c d, In c calls -> snd c = Some d -> bearing d = false) ->
   FieldTested.baselineAcceleration (snd out) = None /\
   FieldTested.accelerationHistory (snd out) = []).
Proof.
  cbv zeta.
  assert (Hw : warming 0 (FieldTested.resetCounters st0))
    by (unfold warming; simpl; split; [auto | lia]).
  split; [apply warming_run; exact Hw |].
  destruct (carrying_run Msqrt dist calls (FieldTested.resetCounters st0) 0%nat Hw)
    as [C1 C2]. cbv zeta in C1.
  split; [| exact C2].
  eapply Forall_impl; [| exact C1]. intros [[j d] r] [A B].
  split; [| exact B]. intros Hj. exact (proj2 (A Hj)).
Qed.

Lemma C7_warm_up_witness :
  let calls := warm_up ++ [accel_sample 17500 6 1 (98 # 10)] in
  let out :=
    FieldTested.run Qsqrt same_point_distance
      (FieldTested.resetCounters FieldTested.new_DataProcessor) calls in
  map (fun e => fst (fst e)) (numbered_bearing 0 calls (fst out))
  = [1; 2; 3; 4; 5; 6]%nat /\
  Forall (fun '(j, d, r) =>
            ((j <= 4)%nat ->
             FieldTested.filtered_acceleration (FieldTested.processed r)
             = Some (raw_acceleration d)) /\
            ((5 <= j)%nat ->
             exists b,
               FieldTested.baselineAcceleration (snd out) = Some b /\
               FieldTested.filtered_acceleration (FieldTested.processed r)
               = Some (minus_baseline d b)))
    (numbered_bearing 0 calls (fst out)).
Proof.
  cbv zeta. split; [vm_compute; reflexivity |].
  pose proof (C7_warm_up Qsqrt same_point_distance FieldTested.new_DataProcessor
                (warm_up ++ [accel_sample 17500 6 1 (98 # 10)])) as T.
  cbv zeta in T. destruct T as [T _]. exact T.
Defined.

(** C7, as stated, fails on [src/data-processor.js] when an axis reads zero.
    A phone lying flat reports [(0, 0, 9.8)]: each of the six samples carries
    the three accelerometer fields and is accepted, yet
    [detectMotionFromAccelerometer] drops every one of them before the
    history, so that from the fifth sample on the baseline is still
    undefined and the filtered acceleration is still the raw one. *)
Lemma C7_zero_axis_stream_never_gets_a_baseline :
  let out :=
    FieldTested.run Qsqrt same_point_distance
      (FieldTested.resetCounters FieldTested.new_DataProcessor) lying_flat in
  Forall (fun c => exists d, snd c = Some d /\ carries_axes d = true) lying_flat /\
  length (numbered_carrying 0 lying_flat (fst out)) = 6%nat /\
  Forall (fun '(j, d, r) =>
            FieldTested.filtered_acceleration (FieldTested.processed r)
            = Some {| vx := 0; vy := 0; vz := 98 # 10 |})
    (numbered_carrying 0 lying_flat (fst out)) /\
  FieldTested.baselineAcceleration (snd out) = None.
Proof.
  cbv zeta. split.
  - unfold lying_flat, accel_sample.
    repeat constructor; eexists; (split; [reflexivity | reflexivity]).
  - split; [vm_compute; reflexivity |].
    split; [| vm_compute; reflexivity].
    vm_compute. repeat constructor.
Qed.

Lemma FieldTested_filtered_with_baseline (Msqrt : Q -> Q) (dist : Q -> Q -> Q -> Q -> Q)
  (raw : option RawData) (now : Q) (st st' : FieldTested.State)
  (b : FieldTested.Baseline) (r : FieldTested.Result) (d : RawData) :
  FieldTested.baselineAcceleration st = Some b ->
  FieldTested.processDataPoint Msqrt dist raw now st = (Some r, st') ->
  raw = Some d ->
  defined (x d) && defined (y d) && defined (z d) = true ->
  FieldTested.filtered_acceleration (FieldTested.processed r) = Some (minus_baseline d b).
Proof.
  intros Hb HP -> Hax. apply FieldTested_process_some in HP.
  destruct HP as [d' [[= <-] [_ [_ H]]]]. cbv zeta in H.
  destruct H as [Hp _]. rewrite Hp.
  destruct (FieldTested_update_warmup Msqrt dist d now
              (FieldTested.set_lastRecordTime st now)) as [_ [W2 _]].
  specialize (W2 b Hb).
  unfold FieldTested.enrichDataFieldTested. cbv zeta.
  cbn [FieldTested.filtered_acceleration]. rewrite Hax.
  unfold FieldTested.calculateFilteredAcceleration. rewrite W2. reflexivity.
Qed.

(** C10.  Once the baseline is established it is never recomputed: every
    call and every run leave it as it is, every later enriched sample with
    the three axes carries the raw acceleration minus that baseline, the
    motion variation is measured against it, a threshold update does not
    touch it, and only a reset sets it back to undefined. *)
Theorem C10_baseline_never_recomputed (Msqrt : Q -> Q) (dist : Q -> Q -> Q -> Q -> Q)
  (st : FieldTested.State) (b : FieldTested.Baseline)
  (Hb : FieldTested.baselineAcceleration st = Some b) :
  (forall raw now,
      FieldTested.baselineAcceleration
        (snd (FieldTested.processDataPoint Msqrt dist raw now st)) = Some b) /\
  (forall calls,
      FieldTested.baselineAcceleration (snd (FieldTested.run Msqrt dist st calls))
      = Some b) /\
  (forall raw now r st' d,
      FieldTested.processDataPoint Msqrt dist raw now st = (Some r, st') ->
      raw = Some d ->
      defined (x d) && defined (y d) && defined (z d) = true ->
      FieldTested.filtered_acceleration (FieldTested.processed r)
      = Some (minus_baseline d b)) /\
  (forall a,
      FieldTested.calculateAccelerationVariation Msqrt st a
      = Msqrt (Qabs (FieldTested.a_x a - FieldTested.b_x b) ^ 2
               + Qabs (FieldTested.a_y a - FieldTested.b_y b) ^ 2
               + Qabs (FieldTested.a_z a - FieldTested.b_z b) ^ 2)) /\
  (forall th,
      FieldTested.baselineAcceleration (FieldTested.setThresholds th st) = Some b) /\
  FieldTested.baselineAcceleration (FieldTested.resetCounters st) = None.
Proof.
  split.
  { intros raw now. apply (FieldTested_process_warmup Msqrt dist raw now st). exact Hb. }
  split.
  { intros calls. apply FieldTested_baseline_kept_by_run. exact Hb. }
  split.
  { intros raw now r st' d HP Hr Hax.
    exact (FieldTested_filtered_with_baseline Msqrt dist raw now st st' b r d Hb HP Hr Hax). }
  split.
  { intros a. unfold FieldTested.calculateAccelerationVariation. rewrite Hb. reflexivity. }
  split; [intros th; exact Hb | reflexivity].
Qed.

Lemma C10_baseline_never_recomputed_witness :
  let st :=
    snd (FieldTested.run Qsqrt same_point_distance FieldTested.new_DataProcessor warm_up) in
  exists b',
    FieldTested.baselineAcceleration st = Some b' /\
    FieldTested.b_x b' == 1 /\ FieldTested.b_y b' == 1 /\ FieldTested.b_z b' == 98 # 10 /\
    FieldTested.baselineAcceleration
      (snd (FieldTested.run Qsqrt same_point_distance st
              [accel_sample 17500 6 1 (98 # 10); accel_sample 19000 1 7 (98 # 10)]))
    = Some b'.
Proof.
  cbv zeta.
  set (st := snd (FieldTested.run Qsqrt same_point_distance
                    FieldTested.new_DataProcessor warm_up)).
  destruct (FieldTested.baselineAcceleration st) as [b'|] eqn:B;
    [| vm_compute in B; discriminate B].
  exists b'. split; [reflexivity |].
  assert (V : Some b' = FieldTested.baselineAcceleration st) by (symmetry; exact B).
  vm_compute in V. injection V as ->.
  split; [reflexivity |]. split; [reflexivity |]. split; [reflexivity |].
  apply (proj1 (proj2 (C10_baseline_never_recomputed Qsqrt same_point_distance st _ B))).
Defined.

(** ** C8: reset *)

(** Normalising the setters and projections of a processor written out
    field by field. *)
Ltac ft_norm :=
  cbv beta iota zeta delta
    [FieldTested.set_thresholds FieldTested.set_eventCounters FieldTested.set_dataBuffer
     FieldTested.set_accelerationHistory FieldTested.set_motionHistory
     FieldTested.set_baselineAcceleration FieldTested.set_lastEventTime
     FieldTested.set_isVehicleMoving FieldTested.set_movementConfidence
     FieldTested.set_gpsAvailable FieldTested.set_lastRecordTime
     FieldTested.set_lastGPSPoint FieldTested.set_wasMoving
     FieldTested.thresholds FieldTested.eventCounters FieldTested.dataBuffer
     FieldTested.accelerationHistory FieldTested.motionHistory
     FieldTested.baselineAcceleration FieldTested.lastEventTime
     FieldTested.isVehicleMoving FieldTested.movementConfidence
     FieldTested.gpsAvailable FieldTested.lastRecordTime FieldTested.recordInterval
     FieldTested.currentSpeedLimit FieldTested.lastGPSPoint FieldTested.wasMoving
     FieldTested.calculateAccelerationBaseline FieldTested.calculateAccelerationVariation
     FieldTested.hasSustainedMotion FieldTested.updateBuffer
     FieldTested.after_evidence FieldTested.speedCriteria FieldTested.gpsMotion
     FieldTested.accelMotion FieldTested.sustained
     observable fst snd].

(** Two processors that differ at most in [gpsAvailable] and [wasMoving]
    are written with the same values everywhere else. *)
Ltac same_observable a b H :=
  destruct a, b; unfold observable in H; simpl in H; injection H as; subst.

Ltac innermost c :=
  lazymatch c with
  | context [if _ then _ else _] => fail
  | context [match _ with Some _ => _ | None => _ end] => fail
  | _ => idtac
  end.

Ltac split_all :=
  repeat match goal with
         | |- context [if ?c then _ else _] => innermost c; destruct c; ft_norm
         | |- context [match ?o with Some _ => _ | None => _ end] =>
             innermost o; destruct o; ft_norm
         end.

Lemma FieldTested_detectMotion_observable (Msqrt : Q -> Q)
  (d : RawData) (now : Q) (a b : FieldTested.State) :
  observable a = observable b ->
  fst (FieldTested.detectMotionFromAccelerometer Msqrt d now a)
  = fst (FieldTested.detectMotionFromAccelerometer Msqrt d now b) /\
  observable (snd (FieldTested.detectMotionFromAccelerometer Msqrt d now a))
  = observable (snd (FieldTested.detectMotionFromAccelerometer Msqrt d now b)) /\
  FieldTested.wasMoving (snd (FieldTested.detectMotionFromAccelerometer Msqrt d now a))
  = FieldTested.wasMoving a /\
  FieldTested.gpsAvailable (snd (FieldTested.detectMotionFromAccelerometer Msqrt d now a))
  = FieldTested.gpsAvailable a.
Proof.
  intros H. same_observable a b H.
  unfold FieldTested.detectMotionFromAccelerometer. ft_norm.
  split_all; repeat split; reflexivity.
Qed.

Lemma FieldTested_hasGPSMovement_observable (dist : Q -> Q -> Q -> Q -> Q)
  (d : RawData) (now : Q) (a b : FieldTested.State) :
  observable a = observable b ->
  fst (FieldTested.hasGPSMovement dist d now a)
  = fst (FieldTested.hasGPSMovement dist d now b) /\
  observable (snd (FieldTested.hasGPSMovement dist d now a))
  = observable (snd (FieldTested.hasGPSMovement dist d now b)) /\
  FieldTested.wasMoving (snd (FieldTested.hasGPSMovement dist d now a))
  = FieldTested.wasMoving a /\
  FieldTested.gpsAvailable (snd (FieldTested.hasGPSMovement dist d now a))
  = FieldTested.gpsAvailable a.
Proof.
  intros H. same_observable a b H.
  unfold FieldTested.hasGPSMovement. ft_norm.
  split_all; repeat split; reflexivity.
Qed.

Lemma observable_fields (a b : FieldTested.State) :
  observable a = observable b ->
  FieldTested.lastRecordTime a = FieldTested.lastRecordTime b /\
  FieldTested.recordInterval a = FieldTested.recordInterval b /\
  FieldTested.hasSustainedMotion a = FieldTested.hasSustainedMotion b /\
  (forall now, observable (FieldTested.set_lastRecordTime a now)
               = observable (FieldTested.set_lastRecordTime b now)) /\
  (forall g, observable (FieldTested.set_gpsAvailable a g)
             = observable (FieldTested.set_gpsAvailable b g)).
Proof.
  intros H. same_observable a b H. ft_norm. repeat split; reflexivity.
Qed.

Lemma observable_eq (a b : FieldTested.State) :
  observable a = observable b ->
  FieldTested.gpsAvailable a = FieldTested.gpsAvailable b ->
  FieldTested.wasMoving a = FieldTested.wasMoving b ->
  a = b.
Proof.
  intros H G W. same_observable a b H. simpl in G, W. subst. reflexivity.
Qed.

Lemma FieldTested_gatherEvidence_observable (Msqrt : Q -> Q)
  (dist : Q -> Q -> Q -> Q -> Q) (d : RawData) (now : Q) (a b : FieldTested.State) :
  observable a = observable b ->
  let ea := FieldTested.gatherEvidence Msqrt dist d now a in
  let eb := FieldTested.gatherEvidence Msqrt dist d now b in
  FieldTested.speedCriteria ea = FieldTested.speedCriteria eb /\
  FieldTested.gpsMotion ea = FieldTested.gpsMotion eb /\
  FieldTested.accelMotion ea = FieldTested.accelMotion eb /\
  FieldTested.sustained ea = FieldTested.sustained eb /\
  observable (FieldTested.after_evidence ea) = observable (FieldTested.after_evidence eb) /\
  FieldTested.gpsAvailable (FieldTested.after_evidence ea)
  = FieldTested.gpsAvailable (FieldTested.after_evidence eb).
Proof.
  intros H. cbv zeta. unfold FieldTested.gatherEvidence. cbv zeta.
  set (g := truthy (lat d) && truthy (lon d)).
  destruct (observable_fields a b H) as [_ [_ [_ [_ Hg]]]]. specialize (Hg g).
  assert (T : FieldTested.thresholds (FieldTested.set_gpsAvailable a g)
              = FieldTested.thresholds (FieldTested.set_gpsAvailable b g)).
  { same_observable a b H. reflexivity. }
  set (a1 := FieldTested.set_gpsAvailable a g) in *.
  set (b1 := FieldTested.set_gpsAvailable b g) in *.
  assert (G1 : FieldTested.gpsAvailable a1 = FieldTested.gpsAvailable b1) by reflexivity.
  destruct g.
  - destruct (FieldTested_hasGPSMovement_observable dist d now a1 b1 Hg)
      as [F1 [O1 [_ Ga]]].
    destruct (FieldTested_hasGPSMovement_observable dist d now b1 a1 (eq_sym Hg))
      as [_ [_ [_ Gb]]].
    destruct (FieldTested.hasGPSMovement dist d now a1) as [ga a2].
    destruct (FieldTested.hasGPSMovement dist d now b1) as [gb b2].
    simpl in F1, O1, Ga, Gb.
    destruct (FieldTested_detectMotion_observable Msqrt d now a2 b2 O1)
      as [F2 [O2 [_ Ga2]]].
    destruct (FieldTested_detectMotion_observable Msqrt d now b2 a2 (eq_sym O1))
      as [_ [_ [_ Gb2]]].
    destruct (FieldTested.detectMotionFromAccelerometer Msqrt d now a2) as [ma a3].
    destruct (FieldTested.detectMotionFromAccelerometer Msqrt d now b2) as [mb b3].
    simpl in *. rewrite T.
    destruct (observable_fields a3 b3 O2) as [_ [_ [S _]]].
    repeat split; congruence.
  - destruct (FieldTested_detectMotion_observable Msqrt d now a1 b1 Hg)
      as [F2 [O2 [_ Ga2]]].
    destruct (FieldTested_detectMotion_observable Msqrt d now b1 a1 (eq_sym Hg))
      as [_ [_ [_ Gb2]]].
    destruct (FieldTested.detectMotionFromAccelerometer Msqrt d now a1) as [ma a3].
    destruct (FieldTested.detectMotionFromAccelerometer Msqrt d now b1) as [mb b3].
    simpl in *.
    destruct (observable_fields a3 b3 O2) as [_ [_ [S _]]].
    repeat split; congruence.
Qed.

Lemma FieldTested_update_wasMoving (Msqrt : Q -> Q) (dist : Q -> Q -> Q -> Q -> Q)
  (d : RawData) (now : Q) (st : FieldTested.State) :
  let st' := FieldTested.updateHybridMovementDetection Msqrt dist d now st in
  FieldTested.wasMoving st' = Some (FieldTested.isVehicleMoving st').
Proof.
  cbv zeta. unfold FieldTested.updateHybridMovementDetection. cbv zeta.
  match goal with
  | |- context [match FieldTested.wasMoving ?s with Some _ => _ | None => _ end] =>
      destruct (FieldTested.wasMoving s) as [w|] eqn:W
  end; [| reflexivity].
  match goal with
  | |- context [if Bool.eqb ?m w then _ else _] => destruct (Bool.eqb m w) eqn:E
  end; [| reflexivity].
  apply eqb_prop in E. rewrite W. f_equal. symmetry. exact E.
Qed.

(** [updateHybridMovementDetection] does not depend on the [gpsAvailable]
    and [wasMoving] it starts with. *)
Lemma FieldTested_update_observable (Msqrt : Q -> Q) (dist : Q -> Q -> Q -> Q -> Q)
  (d : RawData) (now : Q) (a b : FieldTested.State) :
  observable a = observable b ->
  FieldTested.updateHybridMovementDetection Msqrt dist d now a
  = FieldTested.updateHybridMovementDetection Msqrt dist d now b.
Proof.
  intros H.
  destruct (FieldTested_gatherEvidence_observable Msqrt dist d now a b H)
    as [E1 [E2 [E3 [E4 [EO EG]]]]].
  destruct (FieldTested_update_fields Msqrt dist d now a) as [Ac [Am [Ag _]]].
  destruct (FieldTested_update_fields Msqrt dist d now b) as [Bc [Bm [Bg _]]].
  assert (O : observable (FieldTested.updateHybridMovementDetection Msqrt dist d now a)
              = observable (FieldTested.updateHybridMovementDetection Msqrt dist d now b)).
  { unfold FieldTested.updateHybridMovementDetection. cbv zeta.
    unfold FieldTested.fuseConfidence. rewrite E1, E2, E3, E4, EG.
    set (ea := FieldTested.gatherEvidence Msqrt dist d now a) in *.
    set (eb := FieldTested.gatherEvidence Msqrt dist d now b) in *.
    set (c := Qmin _ 100).
    destruct (FieldTested.after_evidence ea) as
        [t1 c1 d1 h1 m1 ba1 l1 v1 mc1 g1 r1 i1 s1 p1 w1].
    destruct (FieldTested.after_evidence eb) as
        [t2 c2 d2 h2 m2 ba2 l2 v2 mc2 g2 r2 i2 s2 p2 w2].
    unfold observable in EO. simpl in EO. injection EO as; subst.
    simpl in EG. subst.
    ft_norm.
    destruct w1 as [w1|]; destruct w2 as [w2|]; ft_norm;
      repeat match goal with
             | |- context [if Bool.eqb ?m ?w then _ else _] =>
                 destruct (Bool.eqb m w); ft_norm
             end; reflexivity. }
  apply observable_eq.
  - exact O.
  - rewrite Ag, Bg. exact EG.
  - rewrite (FieldTested_update_wasMoving Msqrt dist d now a),
      (FieldTested_update_wasMoving Msqrt dist d now b).
    f_equal.
    assert (M : forall s, FieldTested.isVehicleMoving s
                          = FieldTested.isVehicleMoving (observable s))
      by (intros s; reflexivity).
    rewrite (M (FieldTested.updateHybridMovementDetection Msqrt dist d now a)), O.
    reflexivity.
Qed.

(** A call that passes the rate gate behaves the same on two processors that
    agree, once the gate clock is set, on everything but [gpsAvailable] and
    [wasMoving]. *)
Lemma FieldTested_process_passed (Msqrt : Q -> Q) (dist : Q -> Q -> Q -> Q -> Q)
  (raw : option RawData) (now : Q) (a b : FieldTested.State) :
  Qltb (now - FieldTested.lastRecordTime a) (FieldTested.recordInterval a) = false ->
  Qltb (now - FieldTested.lastRecordTime b) (FieldTested.recordInterval b) = false ->
  observable (FieldTested.set_lastRecordTime a now)
  = observable (FieldTested.set_lastRecordTime b now) ->
  fst (FieldTested.processDataPoint Msqrt dist raw now a)
  = fst (FieldTested.processDataPoint Msqrt dist raw now b) /\
  observable (snd (FieldTested.processDataPoint Msqrt dist raw now a))
  = observable (snd (FieldTested.processDataPoint Msqrt dist raw now b)).
Proof.
  intros Ga Gb H. unfold FieldTested.processDataPoint. rewrite Ga, Gb.
  destruct (validateDataStructure raw).
  - destruct raw as [d|]; [| simpl; split; [reflexivity | exact H]].
    simpl negb. cbv iota zeta.
    rewrite (FieldTested_update_observable Msqrt dist d now _ _ H).
    split; reflexivity.
  - simpl. split; [reflexivity | exact H].
Qed.

Lemma FieldTested_process_observable (Msqrt : Q -> Q) (dist : Q -> Q -> Q -> Q -> Q)
  (raw : option RawData) (now : Q) (a b : FieldTested.State) :
  observable a = observable b ->
  fst (FieldTested.processDataPoint Msqrt dist raw now a)
  = fst (FieldTested.processDataPoint Msqrt dist raw now b) /\
  observable (snd (FieldTested.processDataPoint Msqrt dist raw now a))
  = observable (snd (FieldTested.processDataPoint Msqrt dist raw now b)).
Proof.
  intros H.
  destruct (observable_fields a b H) as [L [I [_ [S _]]]].
  destruct (Qltb (now - FieldTested.lastRecordTime a) (FieldTested.recordInterval a)) eqn:G.
  - unfold FieldTested.processDataPoint. rewrite <- L, <- I, G.
    simpl. split; [reflexivity | exact H].
  - apply FieldTested_process_passed; try assumption.
    + rewrite <- L, <- I. exact G.
    + apply S.
Qed.

Lemma FieldTested_run_observable (Msqrt : Q -> Q) (dist : Q -> Q -> Q -> Q -> Q)
  (calls : list (Q * option RawData)) :
  forall a b : FieldTested.State,
    observable a = observable b ->
    fst (FieldTested.run Msqrt dist a calls) = fst (FieldTested.run Msqrt dist b calls).
Proof.
  unfold FieldTested.run.
  induction calls as [| [now raw] rest IH]; intros a b H.
  - reflexivity.
  - rewrite !run_with_cons. simpl fst.
    destruct (FieldTested_process_observable Msqrt dist raw now a b H) as [F O].
    rewrite F, (IH _ _ O). reflexivity.
Qed.

(** C8, as stated, fails on [src/data-processor.js]: [resetCounters] keeps
    [lastRecordTime], so a valid sample 500 ms after the last accepted one is
    dropped after a reset, while a fresh session processes it. *)
Lemma C8_reset_keeps_the_rate_gate :
  let first := accel_sample 10000 1 1 (98 # 10) in
  let next := accel_sample 10500 1 1 (98 # 10) in
  let used :=
    snd (FieldTested.run Qsqrt same_point_distance FieldTested.new_DataProcessor [first]) in
  fst (FieldTested.run Qsqrt same_point_distance (FieldTested.resetCounters used) [next])
  = [None] /\
  (exists r,
     fst (FieldTested.run Qsqrt same_point_distance FieldTested.new_DataProcessor [next])
     = [Some r]) /\
  FieldTested.lastRecordTime (FieldTested.resetCounters used) == 10000.
Proof.
  cbv zeta. split; [vm_compute; reflexivity |]. split.
  - eexists. vm_compute. reflexivity.
  - vm_compute. reflexivity.
Qed.

(** C8, amended.  [resetCounters] is idempotent.  It clears the counters,
    the data buffer, the acceleration and motion histories, the baseline,
    the last GPS point, the last-event-time map, the moving flag and the
    confidence, and keeps the thresholds, the record interval, the speed
    limit, the rate-gate clock [lastRecordTime], [gpsAvailable] and
    [wasMoving].  Calls issued after a reset return what they would return
    on a newly constructed processor with the same configuration whose
    rate-gate clock is the one the reset kept; they return what a newly
    constructed processor would return whenever the first of them passes
    the rate gate on both. *)
Theorem C8_reset (st : FieldTested.State) :
  FieldTested.resetCounters (FieldTested.resetCounters st) = FieldTested.resetCounters st /\
  (FieldTested.eventCounters (FieldTested.resetCounters st) = zeroCounters /\
   FieldTested.dataBuffer (FieldTested.resetCounters st) = [] /\
   FieldTested.accelerationHistory (FieldTested.resetCounters st) = [] /\
   FieldTested.motionHistory (FieldTested.resetCounters st) = [] /\
   FieldTested.baselineAcceleration (FieldTested.resetCounters st) = None /\
   FieldTested.lastGPSPoint (FieldTested.resetCounters st) = None /\
   FieldTested.lastEventTime (FieldTested.resetCounters st) = noLast /\
   FieldTested.isVehicleMoving (FieldTested.resetCounters st) = false /\
   FieldTested.movementConfidence (FieldTested.resetCounters st) = 0) /\
  (FieldTested.thresholds (FieldTested.resetCounters st) = FieldTested.thresholds st /\
   FieldTested.recordInterval (FieldTested.resetCounters st) = FieldTested.recordInterval st /\
   FieldTested.currentSpeedLimit (FieldTested.resetCounters st)
   = FieldTested.currentSpeedLimit st /\
   FieldTested.lastRecordTime (FieldTested.resetCounters st) = FieldTested.lastRecordTime st /\
   FieldTested.gpsAvailable (FieldTested.resetCounters st) = FieldTested.gpsAvailable st /\
   FieldTested.wasMoving (FieldTested.resetCounters st) = FieldTested.wasMoving st) /\
  (forall Msqrt dist calls,
      fst (FieldTested.run Msqrt dist (FieldTested.resetCounters st) calls)
      = fst (FieldTested.run Msqrt dist
               (FieldTested.set_lastRecordTime (fresh_like st) (FieldTested.lastRecordTime st))
               calls)) /\
  (forall Msqrt dist now raw rest,
      FieldTested.recordInterval st <= now - FieldTested.lastRecordTime st ->
      FieldTested.recordInterval st <= now - 0 ->
      fst (FieldTested.run Msqrt dist (FieldTested.resetCounters st) ((now, raw) :: rest))
      = fst (FieldTested.run Msqrt dist (fresh_like st) ((now, raw) :: rest))) /\
  fresh_like FieldTested.new_DataProcessor = FieldTested.new_DataProcessor.
Proof.
  split; [reflexivity |].
  split; [repeat split; reflexivity |].
  split; [repeat split; reflexivity |].
  split; [| split; [| reflexivity]].
  - intros Msqrt dist calls. apply FieldTested_run_observable. reflexivity.
  - intros Msqrt dist now raw rest H1 H2.
    unfold FieldTested.run. rewrite !run_with_cons. simpl fst.
    destruct (FieldTested_process_passed Msqrt dist raw now
                (FieldTested.resetCounters st) (fresh_like st)) as [F O].
    + apply Qltb_false. exact H1.
    + apply Qltb_false. exact H2.
    + reflexivity.
    + rewrite F. f_equal.
      apply (FieldTested_run_observable Msqrt dist rest _ _ O).
Qed.

Lemma C8_reset_witness :
  let used :=
    snd (FieldTested.run Qsqrt same_point_distance FieldTested.new_DataProcessor warm_up) in
  let calls := [accel_sample 17500 6 1 (98 # 10); accel_sample 19000 1 1 (98 # 10)] in
  FieldTested.recordInterval used <= 17500 - FieldTested.lastRecordTime used /\
  FieldTested.recordInterval used <= 17500 - 0 /\
  fst (FieldTested.run Qsqrt same_point_distance (FieldTested.resetCounters used) calls)
  = fst (FieldTested.run Qsqrt same_point_distance (fresh_like used) calls).
Proof.
  cbv zeta.
  set (used := snd (FieldTested.run Qsqrt same_point_distance
                      FieldTested.new_DataProcessor warm_up)).
  assert (H1 : FieldTested.recordInterval used <= 17500 - FieldTested.lastRecordTime used)
    by (vm_compute; discriminate).
  assert (H2 : FieldTested.recordInterval used <= 17500 - 0)
    by (vm_compute; discriminate).
  split; [exact H1 |]. split; [exact H2 |].
  apply (proj1 (proj2 (proj2 (proj2 (proj2 (C8_reset used)))))); assumption.
Defined.

(** ** C9: zero readings are absent readings *)

Lemma is_zero_falsy (o : option Q) : is_zero o -> truthy o = false.
Proof. intros [q [-> Hq]]. apply truthy_zero. exact Hq. Qed.

Lemma FieldTested_zero_axis_no_motion (Msqrt : Q -> Q) (d : RawData) (now : Q)
  (st : FieldTested.State) :
  is_zero (x d) \/ is_zero (y d) \/ is_zero (z d) ->
  FieldTested.detectMotionFromAccelerometer Msqrt d now st = (false, st).
Proof.
  intros H. unfold FieldTested.detectMotionFromAccelerometer.
  assert (G : negb (truthy (x d)) || negb (truthy (y d)) || negb (truthy (z d)) = true).
  { destruct H as [H | [H | H]]; apply is_zero_falsy in H; rewrite H; simpl;
      rewrite ?orb_true_r; reflexivity. }
  rewrite G. reflexivity.
Qed.

Lemma FieldTested_zero_speed_update (Msqrt : Q -> Q) (dist : Q -> Q -> Q -> Q -> Q)
  (d : RawData) (now : Q) (st : FieldTested.State) :
  is_zero (velocidad d) ->
  FieldTested.updateHybridMovementDetection Msqrt dist d now st
  = FieldTested.updateHybridMovementDetection Msqrt dist (without_speed d) now st.
Proof.
  intros [q [Hv Hq]].
  unfold FieldTested.updateHybridMovementDetection, FieldTested.gatherEvidence.
  rewrite Hv, (orNum_zero q Hq). reflexivity.
Qed.

Lemma FieldTested_zero_speed_estimate (Msqrt : Q -> Q) (d : RawData)
  (st : FieldTested.State) :
  is_zero (velocidad d) ->
  FieldTested.estimated_speed (FieldTested.enrichDataFieldTested Msqrt d st)
  = FieldTested.estimated_speed (FieldTested.enrichDataFieldTested Msqrt (without_speed d) st)
  /\
  FieldTested.estimated_speed (FieldTested.enrichDataFieldTested Msqrt d st)
  = if FieldTested.isVehicleMoving st
    then Some (FieldTested.estimateSpeedFromAccelerometer Msqrt st)
    else None.
Proof.
  intros H. apply is_zero_falsy in H.
  unfold FieldTested.enrichDataFieldTested. cbv zeta.
  cbn [FieldTested.estimated_speed without_speed velocidad].
  rewrite H. simpl. split; reflexivity.
Qed.

Lemma FieldTested_zero_speed_no_speeding (Msqrt : Q -> Q) (dist : Q -> Q -> Q -> Q -> Q)
  (d : RawData) (now : Q) (st st' : FieldTested.State) (r : FieldTested.Result) :
  is_zero (velocidad d) ->
  FieldTested.processDataPoint Msqrt dist (Some d) now st = (Some r, st') ->
  has_type speeding_t (FieldTested.events r) = false.
Proof.
  intros H HP. apply is_zero_falsy in H.
  apply FieldTested_process_some in HP.
  destruct HP as [d' [[= <-] [_ [_ HH]]]]. cbv zeta in HH.
  destruct HH as [_ [He _]].
  destruct (has_type speeding_t (FieldTested.events r)) eqn:T; [| reflexivity].
  exfalso. apply has_type_In in T. destruct T as [e [Hin Ht]].
  rewrite He in Hin. apply FieldTested_detect_In in Hin.
  destruct Hin as [_ [_ [Hc | [Hc | [Hc | Hc]]]]].
  - apply FieldTested_trigger_harsh_acceleration in Hc. destruct Hc as [Ht' _]. congruence.
  - apply FieldTested_trigger_harsh_braking in Hc. destruct Hc as [Ht' _]. congruence.
  - apply FieldTested_trigger_aggressive_turn in Hc.
    destruct Hc as [f [_ [_ ->]]]. discriminate Ht.
  - apply FieldTested_trigger_speeding in Hc. destruct Hc as [_ [_ Hv]].
    simpl in Hv. congruence.
Qed.

(** C9.  A coordinate equal to zero makes GPS unavailable for the sample; an
    accelerometer axis equal to zero makes the accelerometer contribute no
    motion evidence and keeps the sample out of the acceleration history; a
    reported speed of zero leaves movement detection and the estimated
    speed as they are for a sample without a reported speed, and never
    yields a speeding event. *)
Theorem C9_zero_is_absent (Msqrt : Q -> Q) (dist : Q -> Q -> Q -> Q -> Q)
  (d : RawData) (now : Q) (st : FieldTested.State) :
  (is_zero (lat d) \/ is_zero (lon d) ->
   FieldTested.gpsAvailable (FieldTested.updateHybridMovementDetection Msqrt dist d now st)
   = false /\
   forall st0 r st2,
     st = FieldTested.set_lastRecordTime st0 now ->
     FieldTested.processDataPoint Msqrt dist (Some d) now st0 = (Some r, st2) ->
     FieldTested.gps_available (FieldTested.processed r) = false /\
     FieldTested.detection_method (FieldTested.processed r) = Accel_Only) /\
  (is_zero (x d) \/ is_zero (y d) \/ is_zero (z d) ->
   (forall s, FieldTested.detectMotionFromAccelerometer Msqrt d now s = (false, s)) /\
   FieldTested.accelMotion (FieldTested.gatherEvidence Msqrt dist d now st) = false /\
   FieldTested.accelerationHistory
     (FieldTested.updateHybridMovementDetection Msqrt dist d now st)
   = FieldTested.accelerationHistory st /\
   FieldTested.accelerationHistory
     (snd (FieldTested.processDataPoint Msqrt dist (Some d) now st))
   = FieldTested.accelerationHistory st) /\
  (is_zero (velocidad d) ->
   FieldTested.updateHybridMovementDetection Msqrt dist d now st
   = FieldTested.updateHybridMovementDetection Msqrt dist (without_speed d) now st /\
   FieldTested.estimated_speed (FieldTested.enrichDataFieldTested Msqrt d st)
   = FieldTested.estimated_speed
       (FieldTested.enrichDataFieldTested Msqrt (without_speed d) st) /\
   FieldTested.estimated_speed (FieldTested.enrichDataFieldTested Msqrt d st)
   = (if FieldTested.isVehicleMoving st
      then Some (FieldTested.estimateSpeedFromAccelerometer Msqrt st)
      else None) /\
   forall st' r,
     FieldTested.processDataPoint Msqrt dist (Some d) now st = (Some r, st') ->
     has_type speeding_t (FieldTested.events r) = false).
Proof.
  split; [| split].
  - intros Hz.
    assert (G : truthy (lat d) && truthy (lon d) = false).
    { destruct Hz as [H | H]; apply is_zero_falsy in H; rewrite H;
        [reflexivity | apply andb_false_r]. }
    destruct (FieldTested_update_fields Msqrt dist d now st) as [_ [_ [Ug _]]].
    destruct (FieldTested_gatherEvidence_gps Msqrt dist d now st) as [Gg _].
    assert (A : FieldTested.gpsAvailable
                  (FieldTested.updateHybridMovementDetection Msqrt dist d now st) = false)
      by (rewrite Ug, Gg; exact G).
    split; [exact A |].
    intros st0 r st2 -> HP. apply FieldTested_process_some in HP.
    destruct HP as [d' [[= <-] [_ [_ H]]]]. cbv zeta in H.
    destruct H as [Hp _]. rewrite Hp. simpl. rewrite A. split; reflexivity.
  - intros Hz.
    assert (D : forall s, FieldTested.detectMotionFromAccelerometer Msqrt d now s = (false, s))
      by (intros s; apply FieldTested_zero_axis_no_motion; exact Hz).
    assert (B : bearing d = false).
    { unfold bearing.
      destruct Hz as [H | [H | H]]; apply is_zero_falsy in H; rewrite H;
        rewrite ?andb_false_r; reflexivity. }
    split; [exact D |]. split.
    + unfold FieldTested.gatherEvidence. cbv zeta.
      destruct (truthy (lat d) && truthy (lon d)).
      * destruct (FieldTested.hasGPSMovement dist d now _) as [g s2].
        rewrite D. reflexivity.
      * rewrite D. reflexivity.
    + split.
      * apply (FieldTested_update_warmup Msqrt dist d now st). exact B.
      * pose proof (FieldTested_process_warmup Msqrt dist (Some d) now st) as W.
        cbv zeta in W. destruct W as [_ W].
        destruct (fst (FieldTested.processDataPoint Msqrt dist (Some d) now st)).
        -- destruct W as [_ [Wn _]]. apply (Wn B).
        -- apply W.
  - intros Hz.
    split; [apply FieldTested_zero_speed_update; exact Hz |].
    destruct (FieldTested_zero_speed_estimate Msqrt d st Hz) as [E1 E2].
    split; [exact E1 |]. split; [exact E2 |].
    intros st' r HP.
    exact (FieldTested_zero_speed_no_speeding Msqrt dist d now st st' r Hz HP).
Qed.

Lemma C9_zero_is_absent_witness :
  let d := mkRaw (Present 17500) (Present "P01"%string) (Some 0) (Some (- (109 # 1)))
             (Some 0) (Some 0) (Some 1) (Some (98 # 10)) in
  let st :=
    snd (FieldTested.run Qsqrt same_point_distance FieldTested.new_DataProcessor warm_up) in
  (is_zero (lat d) /\ is_zero (x d) /\ is_zero (velocidad d)) /\
  FieldTested.gpsAvailable
    (FieldTested.updateHybridMovementDetection Qsqrt same_point_distance d 17500 st) = false /\
  FieldTested.accelerationHistory
    (snd (FieldTested.processDataPoint Qsqrt same_point_distance (Some d) 17500 st))
  = FieldTested.accelerationHistory st /\
  FieldTested.estimated_speed (FieldTested.enrichDataFieldTested Qsqrt d st)
  = FieldTested.estimated_speed
      (FieldTested.enrichDataFieldTested Qsqrt (without_speed d) st).
Proof.
  cbv zeta.
  set (d := mkRaw (Present 17500) (Present "P01"%string) (Some 0) (Some (- (109 # 1)))
              (Some 0) (Some 0) (Some 1) (Some (98 # 10))).
  set (st := snd (FieldTested.run Qsqrt same_point_distance
                    FieldTested.new_DataProcessor warm_up)).
  assert (Z : forall o, o = Some 0 -> is_zero o)
    by (intros o ->; exists 0; split; reflexivity).
  assert (Z1 : is_zero (lat d)) by (apply Z; reflexivity).
  assert (Z2 : is_zero (x d)) by (apply Z; reflexivity).
  assert (Z3 : is_zero (velocidad d)) by (apply Z; reflexivity).
  split; [repeat split; assumption |].
  destruct (C9_zero_is_absent Qsqrt same_point_distance d 17500 st) as [W1 [W2 W3]].
  destruct (W1 (or_introl Z1)) as [G _].
  destruct (W2 (or_introl Z2)) as [_ [_ [_ A]]].
  destruct (W3 Z3) as [_ [E _]].
  split; [exact G |]. split; [exact A | exact E].
Defined.

(** * Further properties *)

(** ** Sliding arrays *)

Lemma length_push_capped_le {A : Type} (cap : nat) (l : list A) (a : A) :
  (length l <= cap)%nat -> (length (push_capped cap l a) <= cap)%nat.
Proof.
  intros H. unfold push_capped, push, shift. cbv zeta.
  destruct (Nat.ltb cap (length (l ++ [a]))) eqn:E.
  - rewrite length_tl, last_length. lia.
  - apply Nat.ltb_ge in E. exact E.
Qed.

Lemma last_elem_push_capped {A : Type} (cap : nat) (l : list A) (a : A) :
  (1 <= cap)%nat -> last_elem (push_capped cap l a) = Some a.
Proof.
  intros Hc. unfold push_capped, push, shift, last_elem. cbv zeta.
  destruct (Nat.ltb cap (length (l ++ [a]))) eqn:E.
  - apply Nat.ltb_lt in E. rewrite last_length in E.
    destruct l as [| b l]; [simpl in E; lia |].
    simpl tl. rewrite last_length.
    replace (S (length l) - 1)%nat with (length l) by lia.
    rewrite nth_error_app2 by lia. rewrite Nat.sub_diag. reflexivity.
  - rewrite last_length. replace (S (length l) - 1)%nat with (length l) by lia.
    rewrite nth_error_app2 by lia. rewrite Nat.sub_diag. reflexivity.
Qed.

Lemma FieldTested_detectMotion_capacity (Msqrt : Q -> Q) (d : RawData) (now : Q)
  (st : FieldTested.State) :
  let st' := snd (FieldTested.detectMotionFromAccelerometer Msqrt d now st) in
  FieldTested.dataBuffer st' = FieldTested.dataBuffer st /\
  ((length (FieldTested.accelerationHistory st) <= 10)%nat ->
   (length (FieldTested.accelerationHistory st') <= 10)%nat) /\
  ((length (FieldTested.motionHistory st) <= 20)%nat ->
   (length (FieldTested.motionHistory st') <= 20)%nat).
Proof.
  cbv zeta. destruct st.
  unfold FieldTested.detectMotionFromAccelerometer. ft_norm.
  split_all; cbn [fst snd]; ft_norm;
    (split; [reflexivity |]; split; intros H;
     try apply length_push_capped_le; exact H).
Qed.

Lemma FieldTested_hasGPSMovement_capacity (dist : Q -> Q -> Q -> Q -> Q)
  (d : RawData) (now : Q) (st : FieldTested.State) :
  let st' := snd (FieldTested.hasGPSMovement dist d now st) in
  FieldTested.dataBuffer st' = FieldTested.dataBuffer st /\
  FieldTested.accelerationHistory st' = FieldTested.accelerationHistory st /\
  FieldTested.motionHistory st' = FieldTested.motionHistory st.
Proof.
  cbv zeta. unfold FieldTested.hasGPSMovement.
  split_ifs; simpl; repeat split; reflexivity.
Qed.

Lemma FieldTested_update_capacity (Msqrt : Q -> Q) (dist : Q -> Q -> Q -> Q -> Q)
  (d : RawData) (now : Q) (st : FieldTested.State) :
  within_capacity st ->
  within_capacity (FieldTested.updateHybridMovementDetection Msqrt dist d now st).
Proof.
  intros [Hb [Ha Hm]]. unfold within_capacity.
  destruct (FieldTested_update_fields Msqrt dist d now st) as [_ [_ [_ [_ [Uh [Um _]]]]]].
  destruct (FieldTested_update_untouched Msqrt dist d now st) as [_ [_ [Ub _]]].
  rewrite Uh, Um, Ub.
  split; [exact Hb |].
  unfold FieldTested.gatherEvidence. cbv zeta.
  destruct (truthy (lat d) && truthy (lon d)).
  - pose proof (FieldTested_hasGPSMovement_capacity dist d now
                  (FieldTested.set_gpsAvailable st true)) as G. cbv zeta in G.
    destruct (FieldTested.hasGPSMovement dist d now _) as [g st2]. simpl in G.
    destruct G as [_ [G2 G3]].
    pose proof (FieldTested_detectMotion_capacity Msqrt d now st2) as D. cbv zeta in D.
    destruct (FieldTested.detectMotionFromAccelerometer Msqrt d now st2) as [a st3].
    simpl in *. destruct D as [_ [D2 D3]]. rewrite G2 in D2. rewrite G3 in D3. auto.
  - pose proof (FieldTested_detectMotion_capacity Msqrt d now
                  (FieldTested.set_gpsAvailable st false)) as D. cbv zeta in D.
    destruct (FieldTested.detectMotionFromAccelerometer Msqrt d now _) as [a st3].
    simpl in *. destruct D as [_ [D2 D3]]. auto.
Qed.

(** The processor after an accepted call, array by array. *)
Lemma FieldTested_process_arrays (Msqrt : Q -> Q) (dist : Q -> Q -> Q -> Q -> Q)
  (raw : option RawData) (now : Q) (st st' : FieldTested.State)
  (r : FieldTested.Result) :
  FieldTested.processDataPoint Msqrt dist raw now st = (Some r, st') ->
  exists d,
    raw = Some d /\
    let st2 := FieldTested.updateHybridMovementDetection Msqrt dist d now
                 (FieldTested.set_lastRecordTime st now) in
    FieldTested.dataBuffer st'
    = push_capped FieldTested.bufferSize (FieldTested.dataBuffer st) (FieldTested.processed r) /\
    FieldTested.accelerationHistory st' = FieldTested.accelerationHistory st2 /\
    FieldTested.motionHistory st' = FieldTested.motionHistory st2 /\
    FieldTested.lastGPSPoint st' = FieldTested.lastGPSPoint st2 /\
    FieldTested.currentSpeedLimit st' = FieldTested.currentSpeedLimit st /\
    FieldTested.eventCounters st'
    = count_events (FieldTested.eventCounters st) (FieldTested.events r).
Proof.
  intros HP. apply FieldTested_process_some in HP.
  destruct HP as [d [Hd [_ [_ H]]]]. cbv zeta in H.
  destruct H as [Hp [He [Hs _]]]. exists d. split; [exact Hd |]. cbv zeta.
  set (st1 := FieldTested.set_lastRecordTime st now) in *.
  destruct (FieldTested_update_untouched Msqrt dist d now st1)
    as [_ [U2 [U3 [_ [_ [_ U7]]]]]].
  set (st2 := FieldTested.updateHybridMovementDetection Msqrt dist d now st1) in *.
  rewrite Hp, He, Hs.
  unfold FieldTested.detectEventsHybrid.
  destruct (negb (FieldTested.isVehicleMoving st2)); simpl;
    rewrite U2, U3, U7; repeat split; reflexivity.
Qed.

Lemma FieldTested_process_capacity (Msqrt : Q -> Q) (dist : Q -> Q -> Q -> Q -> Q)
  (raw : option RawData) (now : Q) (st : FieldTested.State) :
  within_capacity st ->
  within_capacity (snd (FieldTested.processDataPoint Msqrt dist raw now st)).
Proof.
  intros Hc.
  destruct (FieldTested.processDataPoint Msqrt dist raw now st) as [res st'] eqn:HP.
  destruct res as [r|].
  - apply FieldTested_process_arrays in HP.
    destruct HP as [d [_ H]]. cbv zeta in H. destruct H as [Hb [Ha [Hm _]]].
    assert (H1 : within_capacity (FieldTested.set_lastRecordTime st now)) by exact Hc.
    apply (FieldTested_update_capacity Msqrt dist d now) in H1.
    destruct H1 as [_ [H2 H3]]. destruct Hc as [Hb0 _].
    unfold within_capacity. simpl. rewrite Hb, Ha, Hm.
    split; [apply length_push_capped_le; exact Hb0 | split; assumption].
  - pose proof (FieldTested_process_null_state Msqrt dist raw now st) as N.
    rewrite HP in N. simpl in N. specialize (N eq_refl).
    simpl. destruct N as [-> | ->]; exact Hc.
Qed.

(** X1.  The sliding arrays never outgrow their capacities: a processor
    whose data buffer, acceleration history and motion history hold at most
    8, 10 and 20 entries keeps these bounds through every call and run, and a
    reset processor is within them. *)
Theorem buffers_stay_within_capacity (Msqrt : Q -> Q) (dist : Q -> Q -> Q -> Q -> Q)
  (st : FieldTested.State) (calls : list (Q * option RawData)) :
  within_capacity st ->
  within_capacity (snd (FieldTested.run Msqrt dist st calls)) /\
  within_capacity (snd (FieldTested.run Msqrt dist (FieldTested.resetCounters st) calls)).
Proof.
  assert (G : forall cs s, within_capacity s ->
                within_capacity (snd (FieldTested.run Msqrt dist s cs))).
  { unfold FieldTested.run.
    induction cs as [| [now raw] rest IH]; intros s Hs; [exact Hs |].
    rewrite run_with_cons. simpl snd. apply IH.
    apply FieldTested_process_capacity. exact Hs. }
  intros H. split; [apply G; exact H |].
  apply G. unfold within_capacity, FieldTested.bufferSize. simpl. lia.
Qed.

Lemma buffers_stay_within_capacity_witness :
  within_capacity FieldTested.new_DataProcessor /\
  within_capacity
    (snd (FieldTested.run Qsqrt same_point_distance FieldTested.new_DataProcessor
            (warm_up ++ warm_up))).
Proof.
  assert (H : within_capacity FieldTested.new_DataProcessor)
    by (unfold within_capacity, FieldTested.bufferSize; simpl; lia).
  split; [exact H |].
  exact (proj1 (buffers_stay_within_capacity Qsqrt same_point_distance
                  FieldTested.new_DataProcessor (warm_up ++ warm_up) H)).
Defined.

(** ** The events of one call *)

Lemma four_offers_types (L : LastEventTime) (now g1 g2 g3 g4 : Q)
  (c1 c2 c3 c4 : option DrivingEvent) :
  (forall e, c1 = Some e -> ev_type e = harsh_acceleration_t) ->
  (forall e, c2 = Some e -> ev_type e = harsh_braking_t) ->
  (forall e, c3 = Some e -> ev_type e = aggressive_turn_t) ->
  (forall e, c4 = Some e -> ev_type e = speeding_t) ->
  exists b1 b2 b3 b4,
    map ev_type
      (offer L now g1 c1 ++ offer L now g2 c2 ++ offer L now g3 c3 ++ offer L now g4 c4)
    = pushed_types b1 b2 b3 b4.
Proof.
  intros H1 H2 H3 H4. unfold pushed_types.
  assert (O : forall g c t, (forall e, c = Some e -> ev_type e = t) ->
            exists b : bool, map ev_type (offer L now g c) = if b then [t] else []).
  { intros g c t H. unfold offer. destruct c as [e|].
    - destruct (may_fire _ now g).
      + exists true. simpl. rewrite (H e eq_refl). reflexivity.
      + exists false. reflexivity.
    - exists false. reflexivity. }
  destruct (O g1 c1 _ H1) as [b1 E1]. destruct (O g2 c2 _ H2) as [b2 E2].
  destruct (O g3 c3 _ H3) as [b3 E3]. destruct (O g4 c4 _ H4) as [b4 E4].
  exists b1, b2, b3, b4. rewrite !map_app, E1, E2, E3, E4. reflexivity.
Qed.

Lemma FieldTested_detect_types (data : FieldTested.Enriched) (now : Q)
  (st : FieldTested.State) :
  exists b1 b2 b3 b4,
    map ev_type (fst (FieldTested.detectEventsHybrid data now st))
    = pushed_types b1 b2 b3 b4.
Proof.
  destruct (FieldTested.isVehicleMoving st) eqn:M.
  - rewrite (FieldTested_detect_moving data now st M). cbv zeta. simpl fst.
    apply four_offers_types.
    + intros e He. apply FieldTested_trigger_harsh_acceleration in He. tauto.
    + intros e He. apply FieldTested_trigger_harsh_braking in He. tauto.
    + intros e He. apply FieldTested_trigger_aggressive_turn in He.
      destruct He as [f [_ [_ ->]]]. reflexivity.
    + intros e He. apply FieldTested_trigger_speeding in He. tauto.
  - rewrite (FieldTested_detect_still data now st M).
    exists false, false, false, false. reflexivity.
Qed.

Lemma Calibrated_detect_types (data : Calibrated.Enriched) (now : Q)
  (st : Calibrated.State) :
  exists b1 b2 b3 b4,
    map ev_type (fst (Calibrated.detectDrivingEventsFiltered data now st))
    = pushed_types b1 b2 b3 b4.
Proof.
  destruct (Calibrated_detecting data st) eqn:M.
  - rewrite (Calibrated_detect_on data now st M). cbv zeta. simpl fst.
    apply four_offers_types.
    + intros e He. apply Calibrated_trigger_harsh_acceleration in He. tauto.
    + intros e He. apply Calibrated_trigger_harsh_braking in He. tauto.
    + intros e He. apply Calibrated_trigger_aggressive_turn in He. tauto.
    + intros e He. apply Calibrated_trigger_speeding in He. tauto.
  - rewrite (Calibrated_detect_off data now st M).
    exists false, false, false, false. reflexivity.
Qed.

Lemma FieldTested_call_types (Msqrt : Q -> Q) (dist : Q -> Q -> Q -> Q -> Q)
  (raw : option RawData) (now : Q) (st : FieldTested.State) :
  exists b1 b2 b3 b4,
    map ev_type
      (FieldTested_call_events (fst (FieldTested.processDataPoint Msqrt dist raw now st)))
    = pushed_types b1 b2 b3 b4.
Proof.
  destruct (FieldTested.processDataPoint Msqrt dist raw now st) as [res st'] eqn:HP.
  destruct res as [r|]; simpl.
  - apply FieldTested_process_some in HP.
    destruct HP as [d [_ [_ [_ H]]]]. cbv zeta in H. destruct H as [_ [He _]].
    rewrite He. apply FieldTested_detect_types.
  - exists false, false, false, false. reflexivity.
Qed.

Lemma Calibrated_call_types (Msqrt : Q -> Q) (dist : Q -> Q -> Q -> Q -> Q)
  (raw : option RawData) (now : Q) (st : Calibrated.State) :
  exists b1 b2 b3 b4,
    map ev_type
      (Calibrated_call_events (fst (Calibrated.processDataPoint Msqrt dist raw now st)))
    = pushed_types b1 b2 b3 b4.
Proof.
  destruct (Calibrated.processDataPoint Msqrt dist raw now st) as [res st'] eqn:HP.
  destruct res as [r|]; simpl.
  - apply Calibrated_process_some in HP.
    destruct HP as [d [_ [_ [_ H]]]]. cbv zeta in H.
    destruct H as [[_ [_ [He _]]] | [_ [_ [He _]]]]; rewrite He.
    + exists false, false, false, false. reflexivity.
    + apply Calibrated_detect_types.
  - exists false, false, false, false. reflexivity.
Qed.

(** X2.  One call never reports two events of the same type: in both
    variants the types of the returned events are a sub-sequence of harsh
    acceleration, harsh braking, aggressive turn, speeding, in this order,
    so a call returns at most four events. *)
Theorem one_event_per_type_and_call (Msqrt : Q -> Q) (dist : Q -> Q -> Q -> Q -> Q)
  (raw : option RawData) (now : Q) :
  (forall st,
     let evs :=
       FieldTested_call_events (fst (FieldTested.processDataPoint Msqrt dist raw now st)) in
     (exists b1 b2 b3 b4, map ev_type evs = pushed_types b1 b2 b3 b4) /\
     NoDup (map ev_type evs) /\ (length evs <= 4)%nat) /\
  (forall st,
     let evs :=
       Calibrated_call_events (fst (Calibrated.processDataPoint Msqrt dist raw now st)) in
     (exists b1 b2 b3 b4, map ev_type evs = pushed_types b1 b2 b3 b4) /\
     NoDup (map ev_type evs) /\ (length evs <= 4)%nat).
Proof.
  assert (P : forall evs : list DrivingEvent,
            (exists b1 b2 b3 b4, map ev_type evs = pushed_types b1 b2 b3 b4) ->
            (exists b1 b2 b3 b4, map ev_type evs = pushed_types b1 b2 b3 b4) /\
            NoDup (map ev_type evs) /\ (length evs <= 4)%nat).
  { intros evs H. split; [exact H |].
    destruct H as [b1 [b2 [b3 [b4 H]]]].
    rewrite <- (length_map ev_type evs), H.
    destruct b1, b2, b3, b4; simpl;
      (split; [| lia]);
      repeat (constructor; [simpl; intuition discriminate |]); constructor. }
  split; intros st; cbv zeta; apply P;
    [apply FieldTested_call_types | apply Calibrated_call_types].
Qed.

(** ** Counters *)

Lemma counter_of_bump (c : EventCounters) (k t : EventType) :
  counter_of (bump c k) t
  = (counter_of c t + if EventType_eqb k t then 1 else 0)%nat.
Proof. destruct k, t; simpl; lia. Qed.

Lemma counter_of_count_events (evs : list DrivingEvent) (c : EventCounters)
  (t : EventType) :
  counter_of (count_events c evs) t
  = (counter_of c t
     + length (filter (fun k => EventType_eqb k t) (map ev_type evs)))%nat.
Proof.
  unfold count_events. revert c.
  induction evs as [| e rest IH]; intros c; simpl; [lia |].
  rewrite IH, counter_of_bump.
  destruct (EventType_eqb (ev_type e) t); simpl; lia.
Qed.

Lemma has_type_map (t : EventType) (evs : list DrivingEvent) :
  has_type t evs = existsb (fun k => EventType_eqb k t) (map ev_type evs).
Proof.
  unfold has_type. induction evs as [| e rest IH]; simpl; [reflexivity |].
  rewrite IH. reflexivity.
Qed.

Lemma counter_of_pushed (evs : list DrivingEvent) (c : EventCounters) (t : EventType) :
  (exists b1 b2 b3 b4, map ev_type evs = pushed_types b1 b2 b3 b4) ->
  counter_of (count_events c evs) t
  = (counter_of c t + if has_type t evs then 1 else 0)%nat.
Proof.
  intros [b1 [b2 [b3 [b4 H]]]].
  rewrite counter_of_count_events, has_type_map, H.
  destruct b1, b2, b3, b4, t; reflexivity.
Qed.

Lemma FieldTested_process_counter (Msqrt : Q -> Q) (dist : Q -> Q -> Q -> Q -> Q)
  (raw : option RawData) (now : Q) (st : FieldTested.State) (t : EventType) :
  let P := FieldTested.processDataPoint Msqrt dist raw now st in
  counter_of (FieldTested.eventCounters (snd P)) t
  = (counter_of (FieldTested.eventCounters st) t
     + if FieldTested_emitted t (fst P) then 1 else 0)%nat.
Proof.
  cbv zeta.
  pose proof (FieldTested_call_types Msqrt dist raw now st) as T.
  destruct (FieldTested.processDataPoint Msqrt dist raw now st) as [res st'] eqn:HP.
  destruct res as [r|]; simpl in *.
  - apply FieldTested_process_arrays in HP.
    destruct HP as [d [_ H]]. cbv zeta in H.
    destruct H as [_ [_ [_ [_ [_ Hc]]]]]. rewrite Hc.
    apply counter_of_pushed. exact T.
  - pose proof (FieldTested_process_null_state Msqrt dist raw now st) as N.
    rewrite HP in N. simpl in N. destruct (N eq_refl) as [-> | ->]; simpl; lia.
Qed.

(** X3.  The counters count emitting calls: after any run, the counter of
    each event type has grown by exactly the number of calls that returned
    an event of that type. *)
Theorem counters_count_emitting_calls (Msqrt : Q -> Q) (dist : Q -> Q -> Q -> Q -> Q)
  (calls : list (Q * option RawData)) (st : FieldTested.State) (t : EventType) :
  let R := FieldTested.run Msqrt dist st calls in
  counter_of (FieldTested.eventCounters (snd R)) t
  = (counter_of (FieldTested.eventCounters st) t
     + length (emission_times (FieldTested_emitted t) calls (fst R)))%nat.
Proof.
  cbv zeta. unfold FieldTested.run. revert st.
  induction calls as [| [now raw] rest IH]; intros st.
  - simpl. lia.
  - rewrite run_with_cons. simpl fst. simpl snd.
    rewrite IH.
    rewrite (FieldTested_process_counter Msqrt dist raw now st t).
    simpl emission_times.
    destruct (FieldTested_emitted t _); simpl; lia.
Qed.

(** ** What an event carries *)

Lemma FieldTested_trigger_longitudinal (th : FieldTested.Thresholds)
  (data : FieldTested.Enriched) :
  (forall e, FieldTested.trigger_harsh_acceleration th data = Some e ->
     exists f, FieldTested.filtered_acceleration data = Some f /\
               FieldTested.harsh_acceleration th < FieldTested.longitudinal_of data f) /\
  (forall e, FieldTested.trigger_harsh_braking th data = Some e ->
     exists f, FieldTested.filtered_acceleration data = Some f /\
               FieldTested.longitudinal_of data f < - FieldTested.harsh_braking th /\
               ev_value e = Qabs (FieldTested.longitudinal_of data f)).
Proof.
  unfold FieldTested.trigger_harsh_acceleration, FieldTested.trigger_harsh_braking.
  destruct (FieldTested.filtered_acceleration data) as [f|];
    [| split; intros e; discriminate].
  cbv zeta. split; intros e.
  - case_cmp (Qgtb (FieldTested.longitudinal_of data f) (FieldTested.harsh_acceleration th));
      [| discriminate].
    intros _. exists f. split; [reflexivity | exact E].
  - case_cmp (Qltb (FieldTested.longitudinal_of data f) (- FieldTested.harsh_braking th));
      [| discriminate].
    intros [= <-]. exists f. simpl. repeat split; try reflexivity. exact E.
Qed.

(** The fields every block of [detectEventsHybrid] fills alike, and the
    comparison that let the event through. *)
Lemma FieldTested_trigger_common (th : FieldTested.Thresholds) (limit : Q)
  (data : FieldTested.Enriched) (e : DrivingEvent) :
  FieldTested.trigger_harsh_acceleration th data = Some e \/
  FieldTested.trigger_harsh_braking th data = Some e \/
  FieldTested.trigger_aggressive_turn th data = Some e \/
  FieldTested.trigger_speeding th limit data = Some e ->
  ev_confidence e = FieldTested.movement_confidence data /\
  ev_timestamp e = instant (FieldTested.e_raw data) /\
  ev_method e = Some (FieldTested.detection_method data) /\
  FieldTested_threshold th (ev_type e) < ev_value e.
Proof.
  unfold FieldTested.trigger_harsh_acceleration, FieldTested.trigger_harsh_braking,
    FieldTested.trigger_aggressive_turn, FieldTested.trigger_speeding.
  cbv zeta. intros [H | [H | [H | H]]].
  - destruct (FieldTested.filtered_acceleration data) as [f|]; [| discriminate].
    case_cmp (Qgtb (FieldTested.longitudinal_of data f) (FieldTested.harsh_acceleration th));
      [| discriminate].
    injection H as <-. simpl. auto.
  - destruct (FieldTested.filtered_acceleration data) as [f|]; [| discriminate].
    case_cmp (Qltb (FieldTested.longitudinal_of data f) (- FieldTested.harsh_braking th));
      [| discriminate].
    injection H as <-. simpl. repeat split; try reflexivity.
    pose proof (Qle_Qabs (- FieldTested.longitudinal_of data f)) as A.
    rewrite Qabs_opp in A. lra.
  - destruct (FieldTested.filtered_acceleration data) as [f|]; [| discriminate].
    case_cmp (Qgtb (Qabs (vx f)) (FieldTested.aggressive_turn th)); [| discriminate].
    injection H as <-. simpl. auto.
  - destruct (FieldTested.gps_available data && truthy (velocidad (FieldTested.e_raw data)));
      [| discriminate].
    case_cmp (Qgtb (num (velocidad (FieldTested.e_raw data)) - limit) (FieldTested.speeding th));
      [| discriminate].
    injection H as <-. simpl. auto.
Qed.

(** Where an event of a call comes from. *)
Lemma FieldTested_call_event (Msqrt : Q -> Q) (dist : Q -> Q -> Q -> Q -> Q)
  (raw : option RawData) (now : Q) (st : FieldTested.State) (e : DrivingEvent) :
  In e (FieldTested_call_events (fst (FieldTested.processDataPoint Msqrt dist raw now st))) ->
  exists d r,
    raw = Some d /\
    fst (FieldTested.processDataPoint Msqrt dist raw now st) = Some r /\
    let st2 := FieldTested.updateHybridMovementDetection Msqrt dist d now
                 (FieldTested.set_lastRecordTime st now) in
    let data := FieldTested.enrichDataFieldTested Msqrt d st2 in
    let th := FieldTested.thresholds st in
    FieldTested.processed r = data /\
    FieldTested.isVehicleMoving st2 = true /\
    (FieldTested.trigger_harsh_acceleration th data = Some e \/
     FieldTested.trigger_harsh_braking th data = Some e \/
     FieldTested.trigger_aggressive_turn th data = Some e \/
     FieldTested.trigger_speeding th (FieldTested.currentSpeedLimit st) data = Some e).
Proof.
  destruct (FieldTested.processDataPoint Msqrt dist raw now st) as [res st'] eqn:HP.
  destruct res as [r|]; simpl; [| intros []].
  intros Hin. apply FieldTested_process_some in HP.
  destruct HP as [d [Hd [_ [_ H]]]]. cbv zeta in H. destruct H as [Hp [He _]].
  exists d, r. split; [exact Hd |]. split; [reflexivity |]. cbv zeta.
  rewrite He in Hin. apply FieldTested_detect_In in Hin.
  destruct (FieldTested_update_untouched Msqrt dist d now
              (FieldTested.set_lastRecordTime st now)) as [U1 [_ [_ [_ [_ [_ U7]]]]]].
  rewrite U1, U7 in Hin. simpl in Hin.
  destruct Hin as [Hm [_ Ht]]. auto.
Qed.

(** X4.  No call reports a harsh acceleration and a harsh braking together,
    as long as the two thresholds do not add up to a negative number: both
    blocks compare the same longitudinal acceleration, one with the
    acceleration threshold and one with minus the braking threshold. *)
Theorem acceleration_and_braking_exclude_each_other (Msqrt : Q -> Q)
  (dist : Q -> Q -> Q -> Q -> Q) (raw : option RawData) (now : Q)
  (st : FieldTested.State) :
  0 <= FieldTested.harsh_acceleration (FieldTested.thresholds st)
       + FieldTested.harsh_braking (FieldTested.thresholds st) ->
  let evs :=
    FieldTested_call_events (fst (FieldTested.processDataPoint Msqrt dist raw now st)) in
  has_type harsh_acceleration_t evs && has_type harsh_braking_t evs = false.
Proof.
  intros Hth. cbv zeta.
  destruct (has_type harsh_acceleration_t _) eqn:A; [| reflexivity].
  destruct (has_type harsh_braking_t _) eqn:B; [| reflexivity].
  exfalso.
  apply has_type_In in A. destruct A as [e1 [I1 T1]].
  apply has_type_In in B. destruct B as [e2 [I2 T2]].
  apply FieldTested_call_event in I1. destruct I1 as [d [r [Hd [_ H1]]]].
  apply FieldTested_call_event in I2. destruct I2 as [d' [r' [Hd' [_ H2]]]].
  rewrite Hd in Hd'. injection Hd' as <-. cbv zeta in H1, H2.
  destruct H1 as [_ [_ H1]]. destruct H2 as [_ [_ H2]].
  set (th := FieldTested.thresholds st) in *.
  set (data := FieldTested.enrichDataFieldTested Msqrt d _) in *.
  assert (C1 : FieldTested.trigger_harsh_acceleration th data = Some e1).
  { destruct H1 as [H | [H | [H | H]]]; [exact H | | |].
    - apply FieldTested_trigger_harsh_braking in H. destruct H as [H _]. congruence.
    - apply FieldTested_trigger_aggressive_turn in H. destruct H as [f [_ [_ H]]].
      rewrite H in T1. discriminate T1.
    - apply FieldTested_trigger_speeding in H. destruct H as [H _]. congruence. }
  assert (C2 : FieldTested.trigger_harsh_braking th data = Some e2).
  { destruct H2 as [H | [H | [H | H]]]; [| exact H | |].
    - apply FieldTested_trigger_harsh_acceleration in H. destruct H as [H _]. congruence.
    - apply FieldTested_trigger_aggressive_turn in H. destruct H as [f [_ [_ H]]].
      rewrite H in T2. discriminate T2.
    - apply FieldTested_trigger_speeding in H. destruct H as [H _]. congruence. }
  destruct (FieldTested_trigger_longitudinal th data) as [L1 L2].
  destruct (L1 e1 C1) as [f [F1 G1]]. destruct (L2 e2 C2) as [f' [F2 [G2 _]]].
  rewrite F1 in F2. injection F2 as <-. lra.
Qed.

Lemma acceleration_and_braking_exclude_each_other_witness :
  0 <= FieldTested.harsh_acceleration (FieldTested.thresholds warmed_up)
       + FieldTested.harsh_braking (FieldTested.thresholds warmed_up) /\
  has_type harsh_braking_t
    (FieldTested_call_events
       (fst (FieldTested.processDataPoint Qsqrt same_point_distance
               (snd braking_call) (fst braking_call) warmed_up))) = true /\
  has_type harsh_acceleration_t
    (FieldTested_call_events
       (fst (FieldTested.processDataPoint Qsqrt same_point_distance
               (snd braking_call) (fst braking_call) warmed_up)))
  && has_type harsh_braking_t
       (FieldTested_call_events
          (fst (FieldTested.processDataPoint Qsqrt same_point_distance
                  (snd braking_call) (fst braking_call) warmed_up))) = false.
Proof.
  assert (H : 0 <= FieldTested.harsh_acceleration (FieldTested.thresholds warmed_up)
                   + FieldTested.harsh_braking (FieldTested.thresholds warmed_up))
    by (vm_compute; discriminate).
  split; [exact H |].
  split; [vm_compute; reflexivity |].
  exact (acceleration_and_braking_exclude_each_other Qsqrt same_point_distance
           (snd braking_call) (fst braking_call) warmed_up H).
Defined.

Lemma FieldTested_moving_confidence (Msqrt : Q -> Q) (dist : Q -> Q -> Q -> Q -> Q)
  (d : RawData) (now : Q) (st : FieldTested.State) :
  let st' := FieldTested.updateHybridMovementDetection Msqrt dist d now st in
  FieldTested.gpsAvailable st' = truthy (lat d) && truthy (lon d) /\
  (FieldTested.isVehicleMoving st' = true ->
   FieldTested.movementConfidence st' == 60 \/
   FieldTested.movementConfidence st' == 70 \/
   FieldTested.movementConfidence st' == 100).
Proof.
  cbv zeta.
  destruct (FieldTested_update_fields Msqrt dist d now st) as [Uc [Um [Ug _]]].
  destruct (FieldTested_gatherEvidence_gps Msqrt dist d now st) as [Eg _].
  cbv zeta in Eg. rewrite Ug. split; [exact Eg |].
  rewrite Um, Uc. unfold FieldTested.fuseConfidence, FieldTested.add_if.
  set (ev := FieldTested.gatherEvidence Msqrt dist d now st).
  destruct (FieldTested.gpsAvailable (FieldTested.after_evidence ev));
    destruct (FieldTested.speedCriteria ev); destruct (FieldTested.gpsMotion ev);
    destruct (FieldTested.accelMotion ev); destruct (FieldTested.sustained ev);
    intros H; vm_compute in H; try discriminate H;
    solve [ left; vm_compute; reflexivity
          | right; left; vm_compute; reflexivity
          | right; right; vm_compute; reflexivity ].
Qed.

(** X5.  What every event of a call carries: the confidence of the call's
    enriched sample, which is 60, 70 or 100; a value strictly above the
    threshold of the event's type; and the timestamp of the sample. *)
Theorem events_carry_confidence_and_exceed_threshold (Msqrt : Q -> Q)
  (dist : Q -> Q -> Q -> Q -> Q) (raw : option RawData) (now : Q)
  (st : FieldTested.State) :
  let P := FieldTested.processDataPoint Msqrt dist raw now st in
  Forall
    (fun e =>
       (exists r, fst P = Some r /\
                  ev_confidence e = FieldTested.movement_confidence (FieldTested.processed r)) /\
       (ev_confidence e == 60 \/ ev_confidence e == 70 \/ ev_confidence e == 100) /\
       FieldTested_threshold (FieldTested.thresholds st) (ev_type e) < ev_value e /\
       (exists d, raw = Some d /\ ev_timestamp e = instant d))
    (FieldTested_call_events (fst P)).
Proof.
  cbv zeta. apply Forall_forall. intros e Hin.
  apply FieldTested_call_event in Hin.
  destruct Hin as [d [r [Hd [Hr H]]]]. cbv zeta in H. destruct H as [Hp [Hm Ht]].
  apply FieldTested_trigger_common in Ht. destruct Ht as [Tc [Tt [_ Tv]]].
  destruct (FieldTested_moving_confidence Msqrt dist d now
              (FieldTested.set_lastRecordTime st now)) as [_ Hc].
  specialize (Hc Hm).
  split; [exists r; split; [exact Hr | rewrite Hp; exact Tc] |].
  split; [rewrite Tc; exact Hc |].
  split; [exact Tv |].
  exists d. split; [exact Hd | exact Tt].
Qed.

Lemma FieldTested_trigger_speeding_fields (th : FieldTested.Thresholds) (limit : Q)
  (data : FieldTested.Enriched) (e : DrivingEvent) :
  FieldTested.trigger_speeding th limit data = Some e ->
  FieldTested.gps_available data = true /\
  exists v,
    velocidad (FieldTested.e_raw data) = Some v /\
    FieldTested.speeding th < v - limit /\
    ev_speed e = Some v /\ ev_limit e = Some limit /\
    ev_value e = v - limit /\
    ev_severity e = calculateSpeedingSeverity (v - limit).
Proof.
  unfold FieldTested.trigger_speeding.
  destruct (FieldTested.gps_available data); [| discriminate].
  destruct (velocidad (FieldTested.e_raw data)) as [v|] eqn:V; [| discriminate].
  destruct (truthy (Some v)); [| discriminate].
  cbv zeta. simpl andb. cbv iota. simpl num.
  case_cmp (Qgtb (v - limit) (FieldTested.speeding th)); [| discriminate].
  intros [= <-]. split; [reflexivity |]. exists v. simpl. repeat split; auto.
Qed.

(** X6.  Whatever the speeding threshold, a speeding event needs a GPS fix
    and a reported speed above the configured limit plus the threshold, and
    it carries that speed, the limit and their difference; when the
    threshold is at least 20 its severity, moreover, is never low. *)
Theorem speeding_events_need_gps_and_are_never_low (Msqrt : Q -> Q)
  (dist : Q -> Q -> Q -> Q -> Q) (raw : option RawData) (now : Q)
  (st : FieldTested.State) :
  Forall
    (fun e =>
       ev_type e = speeding_t ->
       (exists d v,
          raw = Some d /\ truthy (lat d) = true /\ truthy (lon d) = true /\
          velocidad d = Some v /\
          FieldTested.currentSpeedLimit st + FieldTested.speeding (FieldTested.thresholds st) < v /\
          ev_speed e = Some v /\
          ev_limit e = Some (FieldTested.currentSpeedLimit st) /\
          ev_value e = v - FieldTested.currentSpeedLimit st) /\
       (20 <= FieldTested.speeding (FieldTested.thresholds st) ->
        ev_severity e <> low))
    (FieldTested_call_events (fst (FieldTested.processDataPoint Msqrt dist raw now st))).
Proof.
  apply Forall_forall. intros e Hin Hty.
  apply FieldTested_call_event in Hin.
  destruct Hin as [d [r [Hd [_ H]]]]. cbv zeta in H. destruct H as [_ [_ Ht]].
  assert (S : FieldTested.trigger_speeding (FieldTested.thresholds st)
                (FieldTested.currentSpeedLimit st)
                (FieldTested.enrichDataFieldTested Msqrt d
                   (FieldTested.updateHybridMovementDetection Msqrt dist d now
                      (FieldTested.set_lastRecordTime st now))) = Some e).
  { destruct Ht as [H | [H | [H | H]]]; [| | | exact H].
    - apply FieldTested_trigger_harsh_acceleration in H. destruct H as [H _]. congruence.
    - apply FieldTested_trigger_harsh_braking in H. destruct H as [H _]. congruence.
    - apply FieldTested_trigger_aggressive_turn in H. destruct H as [f [_ [_ H]]].
      rewrite H in Hty. discriminate Hty. }
  apply FieldTested_trigger_speeding_fields in S.
  destruct S as [Sg [v [Sv [Sx [Ss [Sl [Sval Ssev]]]]]]].
  simpl in Sg, Sv.
  destruct (FieldTested_moving_confidence Msqrt dist d now
              (FieldTested.set_lastRecordTime st now)) as [Hg _].
  rewrite Hg in Sg. apply andb_true_iff in Sg. destruct Sg as [Glat Glon].
  split.
  - exists d, v. repeat split; try assumption. lra.
  - intro Hth. rewrite Ssev. unfold calculateSpeedingSeverity.
    case_cmp (Qgeb (v - FieldTested.currentSpeedLimit st) 40); [discriminate |].
    case_cmp (Qgeb (v - FieldTested.currentSpeedLimit st) 30); [discriminate |].
    case_cmp (Qgeb (v - FieldTested.currentSpeedLimit st) 20); [discriminate |].
    lra.
Qed.

Lemma speeding_events_need_gps_and_are_never_low_witness :
  has_type speeding_t
    (FieldTested_call_events
       (fst (FieldTested.processDataPoint Qsqrt same_point_distance
               (snd speeding_call) (fst speeding_call) warmed_up))) = true /\
  Forall
    (fun e =>
       ev_type e = speeding_t ->
       (exists d v,
          snd speeding_call = Some d /\ truthy (lat d) = true /\ truthy (lon d) = true /\
          velocidad d = Some v /\
          FieldTested.currentSpeedLimit warmed_up
          + FieldTested.speeding (FieldTested.thresholds warmed_up) < v /\
          ev_speed e = Some v /\
          ev_limit e = Some (FieldTested.currentSpeedLimit warmed_up) /\
          ev_value e = v - FieldTested.currentSpeedLimit warmed_up) /\
       (20 <= FieldTested.speeding (FieldTested.thresholds warmed_up) ->
        ev_severity e <> low))
    (FieldTested_call_events
       (fst (FieldTested.processDataPoint Qsqrt same_point_distance
               (snd speeding_call) (fst speeding_call) warmed_up))).
Proof.
  split; [vm_compute; reflexivity |].
  exact (speeding_events_need_gps_and_are_never_low Qsqrt same_point_distance
           (snd speeding_call) (fst speeding_call) warmed_up).
Defined.

(** ** Severity grows with the value *)

Lemma ratio_monotone (v1 v2 t : Q) : 0 < t -> v1 <= v2 -> v1 / t <= v2 / t.
Proof.
  intros Ht Hv. unfold Qdiv. apply Qmult_le_compat_r; [exact Hv |].
  apply Qlt_le_weak, Qinv_lt_0_compat. exact Ht.
Qed.

(** X7.  Severity never decreases when the value grows: for a positive
    threshold both variants of [calculateSeverity] are monotone in the value,
    [calculateSpeedingSeverity] is monotone in the excess, and the
    field-tested scale never grades a value lower than the calibrated one. *)
Theorem severity_is_monotone (v1 v2 t : Q) :
  0 < t -> v1 <= v2 ->
  (severity_rank (FieldTested.calculateSeverity v1 t)
   <= severity_rank (FieldTested.calculateSeverity v2 t))%nat /\
  (severity_rank (Calibrated.calculateSeverity v1 t)
   <= severity_rank (Calibrated.calculateSeverity v2 t))%nat /\
  (severity_rank (calculateSpeedingSeverity v1)
   <= severity_rank (calculateSpeedingSeverity v2))%nat /\
  (severity_rank (Calibrated.calculateSeverity v1 t)
   <= severity_rank (FieldTested.calculateSeverity v1 t))%nat.
Proof.
  intros Ht Hv. pose proof (ratio_monotone v1 v2 t Ht Hv) as Hr.
  unfold FieldTested.calculateSeverity, Calibrated.calculateSeverity,
    calculateSpeedingSeverity. cbv zeta.
  set (r1 := v1 / t) in *. set (r2 := v2 / t) in *.
  repeat split.
  - case_cmp (Qgeb r2 2); case_cmp (Qgeb r2 (3 # 2)); case_cmp (Qgeb r2 (12 # 10));
      case_cmp (Qgeb r1 2); case_cmp (Qgeb r1 (3 # 2)); case_cmp (Qgeb r1 (12 # 10));
      simpl; try lia; exfalso; lra.
  - case_cmp (Qgeb r2 (25 # 10)); case_cmp (Qgeb r2 2); case_cmp (Qgeb r2 (15 # 10));
      case_cmp (Qgeb r1 (25 # 10)); case_cmp (Qgeb r1 2); case_cmp (Qgeb r1 (15 # 10));
      simpl; try lia; exfalso; lra.
  - case_cmp (Qgeb v2 40); case_cmp (Qgeb v2 30); case_cmp (Qgeb v2 20);
      case_cmp (Qgeb v1 40); case_cmp (Qgeb v1 30); case_cmp (Qgeb v1 20);
      simpl; try lia; exfalso; lra.
  - case_cmp (Qgeb r1 (25 # 10)); case_cmp (Qgeb r1 2); case_cmp (Qgeb r1 (15 # 10));
      case_cmp (Qgeb r1 (3 # 2)); case_cmp (Qgeb r1 (12 # 10));
      simpl; try lia; exfalso; lra.
Qed.

Lemma severity_is_monotone_witness :
  0 < 2 /\ 3 <= 5 /\
  (severity_rank (FieldTested.calculateSeverity 3 2)
   <= severity_rank (FieldTested.calculateSeverity 5 2))%nat /\
  (severity_rank (Calibrated.calculateSeverity 3 2)
   <= severity_rank (FieldTested.calculateSeverity 3 2))%nat.
Proof.
  assert (H1 : 0 < 2) by reflexivity.
  assert (H2 : 3 <= 5) by (intro E; discriminate E).
  destruct (severity_is_monotone 3 5 2 H1 H2) as [A [_ [_ B]]].
  split; [exact H1 |]. split; [exact H2 |]. split; [exact A | exact B].
Defined.

(** ** Configuration *)

Lemma FieldTested_process_config (Msqrt : Q -> Q) (dist : Q -> Q -> Q -> Q -> Q)
  (raw : option RawData) (now : Q) (st : FieldTested.State) :
  let st' := snd (FieldTested.processDataPoint Msqrt dist raw now st) in
  FieldTested.thresholds st' = FieldTested.thresholds st /\
  FieldTested.recordInterval st' = FieldTested.recordInterval st /\
  FieldTested.currentSpeedLimit st' = FieldTested.currentSpeedLimit st.
Proof.
  cbv zeta.
  destruct (FieldTested_process_step Msqrt dist raw now st speeding_t) as [T _].
  destruct (FieldTested_gate_clock Msqrt dist raw now st) as [I _].
  cbv zeta in T, I. split; [exact T |]. split; [exact I |].
  destruct (FieldTested.processDataPoint Msqrt dist raw now st) as [res st'] eqn:HP.
  destruct res as [r|]; simpl.
  - apply FieldTested_process_arrays in HP.
    destruct HP as [d [_ H]]. cbv zeta in H. tauto.
  - pose proof (FieldTested_process_null_state Msqrt dist raw now st) as N.
    rewrite HP in N. simpl in N. destruct (N eq_refl) as [-> | ->]; reflexivity.
Qed.

(** X8.  Processing never reconfigures the processor: after any run, and
    after a reset followed by any run, the thresholds, the record interval
    and the speed limit are the ones the processor started with; the speed
    limit in particular is never derived from the data. *)
Theorem processing_keeps_the_configuration (Msqrt : Q -> Q)
  (dist : Q -> Q -> Q -> Q -> Q) (calls : list (Q * option RawData))
  (st : FieldTested.State) :
  let same (a b : FieldTested.State) :=
    FieldTested.thresholds b = FieldTested.thresholds a /\
    FieldTested.recordInterval b = FieldTested.recordInterval a /\
    FieldTested.currentSpeedLimit b = FieldTested.currentSpeedLimit a in
  same st (snd (FieldTested.run Msqrt dist st calls)) /\
  same st (snd (FieldTested.run Msqrt dist (FieldTested.resetCounters st) calls)).
Proof.
  cbv zeta.
  assert (G : forall cs s,
            FieldTested.thresholds (snd (FieldTested.run Msqrt dist s cs))
            = FieldTested.thresholds s /\
            FieldTested.recordInterval (snd (FieldTested.run Msqrt dist s cs))
            = FieldTested.recordInterval s /\
            FieldTested.currentSpeedLimit (snd (FieldTested.run Msqrt dist s cs))
            = FieldTested.currentSpeedLimit s).
  { unfold FieldTested.run.
    induction cs as [| [now raw] rest IH]; intros s; [simpl; auto |].
    rewrite run_with_cons. simpl snd.
    destruct (IH (snd (FieldTested.processDataPoint Msqrt dist raw now s))) as [A [B C]].
    destruct (FieldTested_process_config Msqrt dist raw now s) as [A' [B' C']].
    cbv zeta in A', B', C'. rewrite A, B, C. auto. }
  split; [apply G |].
  destruct (G calls (FieldTested.resetCounters st)) as [A [B C]].
  rewrite A, B, C. simpl. auto.
Qed.

(** ** The temporal longitudinal acceleration *)

Lemma length_push_capped_pos {A : Type} (cap : nat) (l : list A) (a : A) :
  (1 <= cap)%nat -> (0 < length (push_capped cap l a))%nat.
Proof.
  intros Hc. unfold push_capped, push, shift. cbv zeta.
  destruct (Nat.ltb cap (length (l ++ [a]))) eqn:E.
  - apply Nat.ltb_lt in E. rewrite length_tl. lia.
  - rewrite last_length. lia.
Qed.

(** X9.  The temporal longitudinal acceleration is taken between
    consecutive accepted samples: when two calls are accepted one after the
    other, the second enriched sample carries 0 if its timestamp is not
    later than the first one's, and otherwise, when both report a speed, the
    speed difference in km/h over the elapsed seconds, divided by 3.6. *)
Theorem temporal_acceleration_between_accepted_samples (Msqrt : Q -> Q)
  (dist : Q -> Q -> Q -> Q -> Q) (d1 d2 : RawData) (now1 now2 : Q)
  (st : FieldTested.State) :
  let P1 := FieldTested.processDataPoint Msqrt dist (Some d1) now1 st in
  let P2 := FieldTested.processDataPoint Msqrt dist (Some d2) now2 (snd P1) in
  fst P1 <> None -> fst P2 <> None ->
  exists r2,
    fst P2 = Some r2 /\
    (instant d2 <= instant d1 ->
     FieldTested.longitudinal_acceleration (FieldTested.processed r2) = Some 0) /\
    (forall v1 v2,
       instant d1 < instant d2 ->
       velocidad d1 = Some v1 -> velocidad d2 = Some v2 ->
       FieldTested.longitudinal_acceleration (FieldTested.processed r2)
       = Some ((v2 - v1) / ((instant d2 - instant d1) / 1000) / (36 # 10))).
Proof.
  cbv zeta. intros H1 H2.
  destruct (FieldTested.processDataPoint Msqrt dist (Some d1) now1 st)
    as [res1 st1] eqn:HP1.
  destruct res1 as [r1|]; [| exfalso; apply H1; reflexivity]. simpl snd in *.
  destruct (FieldTested.processDataPoint Msqrt dist (Some d2) now2 st1)
    as [res2 st2] eqn:HP2.
  destruct res2 as [r2|]; [| exfalso; apply H2; reflexivity].
  exists r2. split; [reflexivity |].
  pose proof HP1 as A1. apply FieldTested_process_arrays in A1.
  destruct A1 as [d [Hd A1]]. injection Hd as <-. cbv zeta in A1.
  destruct A1 as [Hb _].
  apply FieldTested_process_some in HP1.
  destruct HP1 as [d [Hd [_ [_ HP1]]]]. injection Hd as <-. cbv zeta in HP1.
  destruct HP1 as [Hp1 _].
  apply FieldTested_process_some in HP2.
  destruct HP2 as [d [Hd [_ [_ HP2]]]]. injection Hd as <-. cbv zeta in HP2.
  destruct HP2 as [Hp2 _].
  destruct (FieldTested_update_untouched Msqrt dist d2 now2
              (FieldTested.set_lastRecordTime st1 now2)) as [_ [_ [Ub _]]].
  simpl in Ub.
  set (s2 := FieldTested.updateHybridMovementDetection Msqrt dist d2 now2 _) in *.
  assert (L : last_elem (FieldTested.dataBuffer s2) = Some (FieldTested.processed r1)).
  { rewrite Ub, Hb. apply last_elem_push_capped. unfold FieldTested.bufferSize. lia. }
  assert (N : Nat.ltb 0 (length (FieldTested.dataBuffer s2)) = true).
  { apply Nat.ltb_lt. rewrite Ub, Hb. apply length_push_capped_pos.
    unfold FieldTested.bufferSize. lia. }
  assert (R1 : FieldTested.e_raw (FieldTested.processed r1) = d1)
    by (rewrite Hp1; reflexivity).
  rewrite Hp2. unfold FieldTested.enrichDataFieldTested. cbv zeta.
  cbn [FieldTested.longitudinal_acceleration]. rewrite N.
  unfold FieldTested.calculateLongitudinalAcceleration. rewrite L. cbv zeta.
  cbn [FieldTested.e_raw]. rewrite R1.
  split.
  - intros Hle.
    assert (E : Qleb ((instant d2 - instant d1) / 1000) 0 = true).
    { apply Qleb_true. unfold Qdiv.
      setoid_replace 0 with (0 * / 1000) by reflexivity.
      apply Qmult_le_compat_r; [lra | discriminate]. }
    rewrite E. reflexivity.
  - intros v1 v2 Hlt V1 V2.
    assert (E : Qleb ((instant d2 - instant d1) / 1000) 0 = false).
    { apply not_true_iff_false. intros E. apply Qleb_true in E.
      assert (0 < (instant d2 - instant d1) / 1000).
      { unfold Qdiv. apply Qmult_lt_0_compat; [lra | reflexivity]. }
      lra. }
    rewrite E, V1, V2. reflexivity.
Qed.

Lemma temporal_acceleration_between_accepted_samples_witness :
  let P1 := FieldTested.processDataPoint Qsqrt same_point_distance
              (snd (gps_sample 10000 50 1 1 (98 # 10))) 10000
              FieldTested.new_DataProcessor in
  let P2 := FieldTested.processDataPoint Qsqrt same_point_distance
              (snd (gps_sample 11500 68 1 1 (98 # 10))) 11500 (snd P1) in
  fst P1 <> None /\ fst P2 <> None /\
  exists r2,
    fst P2 = Some r2 /\
    FieldTested.longitudinal_acceleration (FieldTested.processed r2)
    = Some ((68 - 50) / ((11500 - 10000) / 1000) / (36 # 10)).
Proof.
  cbv zeta.
  assert (H1 : fst (FieldTested.processDataPoint Qsqrt same_point_distance
                      (snd (gps_sample 10000 50 1 1 (98 # 10))) 10000
                      FieldTested.new_DataProcessor) <> None)
    by (vm_compute; discriminate).
  assert (H2 : fst (FieldTested.processDataPoint Qsqrt same_point_distance
                      (snd (gps_sample 11500 68 1 1 (98 # 10))) 11500
                      (snd (FieldTested.processDataPoint Qsqrt same_point_distance
                              (snd (gps_sample 10000 50 1 1 (98 # 10))) 10000
                              FieldTested.new_DataProcessor))) <> None)
    by (vm_compute; discriminate).
  split; [exact H1 |]. split; [exact H2 |].
  destruct (temporal_acceleration_between_accepted_samples Qsqrt same_point_distance
              _ _ 10000 11500 FieldTested.new_DataProcessor H1 H2) as [r2 [E [_ W]]].
  exists r2. split; [exact E |].
  apply (W 50 68); reflexivity.
Defined.

(** ** When the vehicle counts as moving *)

(** X10.  What it takes to be moving.  With a GPS fix
    [updateHybridMovementDetection] sets [isVehicleMoving] exactly when at
    least two of the three criteria hold (reported speed above
    [minimum_speed], GPS displacement, accelerometer motion): no criterion
    suffices alone.  Without a fix it is set exactly when the accelerometer
    detects motion; sustained motion alone never suffices. *)
Theorem moving_needs_two_criteria_or_the_accelerometer (Msqrt : Q -> Q)
  (dist : Q -> Q -> Q -> Q -> Q) (d : RawData) (now : Q) (st : FieldTested.State) :
  let ev := FieldTested.gatherEvidence Msqrt dist d now st in
  let s := FieldTested.speedCriteria ev in
  let g := FieldTested.gpsMotion ev in
  let a := FieldTested.accelMotion ev in
  FieldTested.isVehicleMoving (FieldTested.updateHybridMovementDetection Msqrt dist d now st)
  = if truthy (lat d) && truthy (lon d)
    then (s && g) || (s && a) || (g && a)
    else a.
Proof.
  cbv zeta.
  destruct (FieldTested_update_fields Msqrt dist d now st) as [_ [Um _]].
  destruct (FieldTested_gatherEvidence_gps Msqrt dist d now st) as [Eg _].
  cbv zeta in Um, Eg. rewrite Um, Eg.
  unfold FieldTested.fuseConfidence, FieldTested.add_if.
  set (ev := FieldTested.gatherEvidence Msqrt dist d now st).
  destruct (truthy (lat d) && truthy (lon d));
    destruct (FieldTested.speedCriteria ev); destruct (FieldTested.gpsMotion ev);
    destruct (FieldTested.accelMotion ev); destruct (FieldTested.sustained ev);
    vm_compute; reflexivity.
Qed.

(** ** The calibrated variant never records a GPS point *)

Lemma Calibrated_update_no_gps_point (Msqrt : Q -> Q) (dist : Q -> Q -> Q -> Q -> Q)
  (d : RawData) (now : Q) (st : Calibrated.State) :
  Calibrated.lastGPSPoint st = None ->
  let st' := Calibrated.updateMovementDetection Msqrt dist d now st in
  Calibrated.lastGPSPoint st' = None /\
  (Calibrated.movementConfidence st' == 0 \/ Calibrated.movementConfidence st' == 30 \/
   Calibrated.movementConfidence st' == 40 \/ Calibrated.movementConfidence st' == 70) /\
  (Calibrated.isVehicleMoving st' = true ->
   Calibrated.movementConfidence st' == 70 /\
   Calibrated.minimum_speed (Calibrated.thresholds st) < orNum (velocidad d) 0 /\
   bearing d = true).
Proof.
  intros Hg. cbv zeta. destruct st. simpl in Hg. subst.
  unfold Calibrated.updateMovementDetection, Calibrated.hasSignificantAcceleration,
    Calibrated.hasGPSMovement, bearing. cbv zeta.
  cbn [Calibrated.thresholds Calibrated.accelerationHistory].
  case_cmp (Qgtb (orNum (velocidad d) 0) (Calibrated.minimum_speed thresholds));
    destruct (defined (x d) && defined (y d) && defined (z d));
    destruct (truthy (x d)); destruct (truthy (y d)); destruct (truthy (z d));
    cbn [negb orb andb];
    try destruct (last_elem accelerationHistory);
    try match goal with
        | |- context [Qgtb (Msqrt ?a) ?b] => destruct (Qgtb (Msqrt a) b)
        end;
    cbn [Calibrated.lastGPSPoint Calibrated.set_accelerationHistory
         Calibrated.add_if Calibrated.set_movementConfidence
         Calibrated.set_isVehicleMoving Calibrated.wasMoving
         Calibrated.isVehicleMoving Calibrated.movementConfidence];
    repeat match goal with
           | |- context [match ?w with Some _ => _ | None => _ end] => destruct w
           | |- context [if Bool.eqb ?a ?b then _ else _] => destruct (Bool.eqb a b)
           end;
    cbn [Calibrated.lastGPSPoint Calibrated.set_wasMoving
         Calibrated.isVehicleMoving Calibrated.movementConfidence];
    (split; [reflexivity |]);
    (split;
     [ first [ left; vm_compute; reflexivity
             | right; left; vm_compute; reflexivity
             | right; right; left; vm_compute; reflexivity
             | right; right; right; vm_compute; reflexivity ]
     | intros M; vm_compute in M; try discriminate M;
       (split; [vm_compute; reflexivity | split; [exact E | reflexivity]]) ]).
Qed.

Lemma Calibrated_enrich_frame (Msqrt : Q -> Q) (d : RawData) (st : Calibrated.State) :
  let en := Calibrated.enrichData Msqrt d st in
  Calibrated.lastGPSPoint (snd en) = Calibrated.lastGPSPoint st /\
  Calibrated.vehicle_moving (fst en) = Calibrated.isVehicleMoving st /\
  Calibrated.movement_confidence (fst en) = Calibrated.movementConfidence st /\
  Calibrated.e_raw (fst en) = d.
Proof.
  cbv zeta. unfold Calibrated.enrichData, Calibrated.updateSpeedLimit. cbv zeta.
  cbn [fst snd Calibrated.vehicle_moving Calibrated.movement_confidence Calibrated.e_raw].
  destruct (Calibrated.determineDrivingContextSinaloa _);
    destruct (velocidad d); simpl; repeat split; reflexivity.
Qed.

Lemma Calibrated_detect_frame (data : Calibrated.Enriched) (now : Q)
  (st : Calibrated.State) :
  Calibrated.lastGPSPoint (snd (Calibrated.detectDrivingEventsFiltered data now st))
  = Calibrated.lastGPSPoint st.
Proof.
  unfold Calibrated.detectDrivingEventsFiltered.
  destruct (negb (Calibrated.isVehicleMoving st) || _); reflexivity.
Qed.

Lemma Calibrated_process_no_gps_point (Msqrt : Q -> Q) (dist : Q -> Q -> Q -> Q -> Q)
  (raw : option RawData) (now : Q) (st : Calibrated.State) :
  Calibrated.lastGPSPoint st = None ->
  let P := Calibrated.processDataPoint Msqrt dist raw now st in
  Calibrated.lastGPSPoint (snd P) = None /\
  match fst P with
  | Some r =>
      let c := Calibrated.movement_confidence (Calibrated.processed r) in
      (c == 0 \/ c == 30 \/ c == 40 \/ c == 70) /\
      (Calibrated.vehicle_moving (Calibrated.processed r) = true ->
       c == 70 /\
       exists d, raw = Some d /\
                 Calibrated.minimum_speed (Calibrated.thresholds st) < orNum (velocidad d) 0 /\
                 bearing d = true)
  | None => True
  end.
Proof.
  intros Hg. cbv zeta.
  destruct (Calibrated.processDataPoint Msqrt dist raw now st) as [res st'] eqn:HP.
  destruct res as [r|]; simpl fst; simpl snd.
  - apply Calibrated_process_some in HP.
    destruct HP as [d [Hd [_ [_ H]]]]. cbv zeta in H.
    assert (Hg1 : Calibrated.lastGPSPoint (Calibrated.set_lastRecordTime st now) = None)
      by exact Hg.
    destruct (Calibrated_update_no_gps_point Msqrt dist d now _ Hg1) as [U1 [U2 U3]].
    simpl Calibrated.thresholds in U3.
    set (st2 := Calibrated.updateMovementDetection Msqrt dist d now _) in *.
    destruct H as [[Hm [Hp [_ Hs]]] | [Hm H]].
    + rewrite Hs, Hp. simpl. split; [exact U1 |]. split; [exact U2 |].
      intros M. destruct (U3 M) as [A [B C]]. split; [exact A |].
      exists d. auto.
    + cbv zeta in H. destruct H as [Hp [_ Hs]].
      destruct (Calibrated_enrich_frame Msqrt d st2) as [F1 [F2 [F3 _]]].
      cbv zeta in F1, F2, F3.
      rewrite Hs, Hp.
      unfold Calibrated.set_eventCounters, Calibrated.updateBuffer, Calibrated.set_dataBuffer.
      cbn [Calibrated.lastGPSPoint].
      rewrite Calibrated_detect_frame, F1, F2, F3.
      split; [exact U1 |]. split; [exact U2 |].
      intros M. destruct (U3 M) as [A [B C]]. split; [exact A |].
      exists d. auto.
  - pose proof (Calibrated_process_null_state Msqrt dist raw now st) as N.
    rewrite HP in N. simpl in N.
    destruct (N eq_refl) as [-> | ->]; split; auto.
Qed.

(** X11.  The calibrated variant never records a GPS point: a processor
    without one (as constructed, and as reset) has none after any run, so GPS
    displacement never adds its 30 points.  Every accepted sample then has
    confidence 0, 30, 40 or 70, and the vehicle counts as moving only with
    both a reported speed above [minimum_speed] and three non-zero
    accelerometer axes. *)
Theorem calibrated_never_records_a_gps_point (Msqrt : Q -> Q)
  (dist : Q -> Q -> Q -> Q -> Q) (calls : list (Q * option RawData))
  (st : Calibrated.State) :
  Calibrated.lastGPSPoint st = None ->
  let R := Calibrated.run Msqrt dist st calls in
  Calibrated.lastGPSPoint (snd R) = None /\
  Forall2
    (fun call r =>
       match r with
       | Some res =>
           let c := Calibrated.movement_confidence (Calibrated.processed res) in
           (c == 0 \/ c == 30 \/ c == 40 \/ c == 70) /\
           (Calibrated.vehicle_moving (Calibrated.processed res) = true ->
            c == 70 /\
            exists d, snd call = Some d /\
                      Calibrated.minimum_speed (Calibrated.thresholds st)
                      < orNum (velocidad d) 0 /\
                      bearing d = true)
       | None => True
       end)
    calls (fst R).
Proof.
  cbv zeta. unfold Calibrated.run. revert st.
  induction calls as [| [now raw] rest IH]; intros st Hg.
  - simpl. split; [exact Hg | constructor].
  - rewrite run_with_cons. simpl fst. simpl snd.
    destruct (Calibrated_process_no_gps_point Msqrt dist raw now st Hg) as [P1 P2].
    cbv zeta in P1, P2.
    destruct (Calibrated_process_step Msqrt dist raw now st speeding_t) as [T _].
    cbv zeta in T.
    destruct (IH _ P1) as [I1 I2]. rewrite T in I2.
    split; [exact I1 |]. constructor; [exact P2 | exact I2].
Qed.

Lemma calibrated_never_records_a_gps_point_witness :
  Calibrated.lastGPSPoint Calibrated.new_DataProcessor = None /\
  Calibrated.lastGPSPoint
    (snd (Calibrated.run Qsqrt same_point_distance Calibrated.new_DataProcessor
            [gps_sample 10000 50 1 1 (98 # 10); gps_sample 12000 60 1 4 (98 # 10)])) = None.
Proof.
  split; [reflexivity |].
  exact (proj1 (calibrated_never_records_a_gps_point Qsqrt same_point_distance
                  [gps_sample 10000 50 1 1 (98 # 10); gps_sample 12000 60 1 4 (98 # 10)]
                  Calibrated.new_DataProcessor eq_refl)).
Defined.

(** ** Speeding in the calibrated variant *)

(** The limit [enrichData] leaves in the processor is the one of the context
    of the filtered speed. *)
Lemma Calibrated_enrich_limit (Msqrt : Q -> Q) (d : RawData) (st : Calibrated.State) :
  let en := Calibrated.enrichData Msqrt d st in
  Calibrated.currentSpeedLimit (snd en)
  = match Calibrated.determineDrivingContextSinaloa (Calibrated.filtered_speed (fst en)) with
    | Calibrated.highway => 110
    | Calibrated.urban_fast => 70
    | Calibrated.residential => 40
    | _ => 60
    end.
Proof.
  cbv zeta. unfold Calibrated.enrichData, Calibrated.updateSpeedLimit. cbv zeta.
  cbn [fst snd Calibrated.filtered_speed].
  destruct (Calibrated.determineDrivingContextSinaloa _); reflexivity.
Qed.

Lemma Calibrated_speeding_highway (st : Calibrated.State) (data : Calibrated.Enriched)
  (e : DrivingEvent) :
  20 <= Calibrated.speeding (Calibrated.thresholds st) ->
  Calibrated.currentSpeedLimit st
  = match Calibrated.determineDrivingContextSinaloa (Calibrated.filtered_speed data) with
    | Calibrated.highway => 110
    | Calibrated.urban_fast => 70
    | Calibrated.residential => 40
    | _ => 60
    end ->
  Calibrated.trigger_speeding st data = Some e ->
  ev_limit e = Some 110 /\
  exists s, ev_speed e = Some s /\
            110 + Calibrated.speeding (Calibrated.thresholds st) < s /\
            ev_value e = s - 110.
Proof.
  intros Hth Hl. unfold Calibrated.trigger_speeding. cbv zeta. rewrite Hl. clear Hl.
  unfold Calibrated.determineDrivingContextSinaloa. cbv zeta.
  destruct (Calibrated.filtered_speed data) as [s|] eqn:F; [| discriminate].
  simpl truthy. simpl orNum. simpl num.
  destruct (truthyQ s); [| discriminate].
  destruct (Calibrated.speed_above (Some s) 30); [| discriminate].
  simpl andb. cbv iota.
  case_cmp (Qgtb s 90).
  - cbv iota.
    case_cmp (Qgtb (s - 110) (Calibrated.speeding (Calibrated.thresholds st)));
      [| discriminate].
    intros [= <-]. unfold Calibrated.mk_event. cbn [ev_limit ev_speed ev_value].
    split; [reflexivity |]. exists s.
    split; [exact F |]. split; [lra | reflexivity].
  - case_cmp (Qgtb s 50); [| case_cmp (Qgtb s 20); [| case_cmp (Qgtb s 5)]];
      cbv iota;
      match goal with
      | |- (if Qgtb ?a ?b then _ else _) = _ -> _ => case_cmp (Qgtb a b)
      end; try discriminate; exfalso; lra.
Qed.

(** X12.  With a speeding threshold of at least 20 the calibrated variant
    reports speeding only on the highway: the limit follows the context of
    the filtered speed (110 above 90 km/h, 70 above 50, 60 above 20, 40 above
    5), so an excess above the threshold is only reachable against the limit
    110; every speeding event has a filtered speed above 110 plus the
    threshold. *)
Theorem calibrated_speeding_only_on_the_highway (Msqrt : Q -> Q)
  (dist : Q -> Q -> Q -> Q -> Q) (raw : option RawData) (now : Q)
  (st : Calibrated.State) :
  20 <= Calibrated.speeding (Calibrated.thresholds st) ->
  Forall
    (fun e =>
       ev_type e = speeding_t ->
       ev_limit e = Some 110 /\
       exists s, ev_speed e = Some s /\
                 110 + Calibrated.speeding (Calibrated.thresholds st) < s /\
                 ev_value e = s - 110)
    (Calibrated_call_events (fst (Calibrated.processDataPoint Msqrt dist raw now st))).
Proof.
  intros Hth. apply Forall_forall. intros e Hin Hty.
  destruct (Calibrated.processDataPoint Msqrt dist raw now st) as [res st'] eqn:HP.
  destruct res as [r|]; simpl in Hin; [| contradiction].
  apply Calibrated_process_some in HP.
  destruct HP as [d [_ [_ [_ H]]]]. cbv zeta in H.
  destruct H as [[_ [_ [He _]]] | [_ H]]; [rewrite He in Hin; contradiction |].
  cbv zeta in H. destruct H as [_ [He _]]. rewrite He in Hin.
  apply Calibrated_detect_In in Hin. destruct Hin as [_ [_ Ht]].
  destruct (Calibrated_update_untouched Msqrt dist d now
              (Calibrated.set_lastRecordTime st now)) as [U _]. cbv zeta in U.
  set (st2 := Calibrated.updateMovementDetection Msqrt dist d now _) in *.
  destruct (Calibrated_enrich_untouched Msqrt d st2) as [N _]. cbv zeta in N.
  pose proof (Calibrated_enrich_limit Msqrt d st2) as L. cbv zeta in L.
  set (en := Calibrated.enrichData Msqrt d st2) in *.
  assert (T : Calibrated.thresholds (snd en) = Calibrated.thresholds st)
    by (rewrite N, U; reflexivity).
  assert (S : Calibrated.trigger_speeding (snd en) (fst en) = Some e).
  { destruct Ht as [H | [H | [H | H]]]; [| | | exact H].
    - apply Calibrated_trigger_harsh_acceleration in H. destruct H as [H _]. congruence.
    - apply Calibrated_trigger_harsh_braking in H. destruct H as [H _]. congruence.
    - apply Calibrated_trigger_aggressive_turn in H. destruct H as [H _]. congruence. }
  rewrite <- T. apply (Calibrated_speeding_highway (snd en) (fst en) e).
  - rewrite T. exact Hth.
  - exact L.
  - exact S.
Qed.

Lemma calibrated_speeding_only_on_the_highway_witness :
  let st := snd (Calibrated.processDataPoint Qsqrt same_point_distance
                   (snd (gps_sample 10000 140 1 1 (98 # 10))) 10000
                   Calibrated.new_DataProcessor) in
  let evs := Calibrated_call_events
               (fst (Calibrated.processDataPoint Qsqrt same_point_distance
                       (snd (gps_sample 12000 140 1 4 (98 # 10))) 12000 st)) in
  20 <= Calibrated.speeding (Calibrated.thresholds st) /\
  has_type speeding_t evs = true /\
  Forall
    (fun e =>
       ev_type e = speeding_t ->
       ev_limit e = Some 110 /\
       exists s, ev_speed e = Some s /\
                 110 + Calibrated.speeding (Calibrated.thresholds st) < s /\
                 ev_value e = s - 110)
    evs.
Proof.
  cbv zeta.
  assert (H : 20 <= Calibrated.speeding
                      (Calibrated.thresholds
                         (snd (Calibrated.processDataPoint Qsqrt same_point_distance
                                 (snd (gps_sample 10000 140 1 1 (98 # 10))) 10000
                                 Calibrated.new_DataProcessor))))
    by (vm_compute; discriminate).
  split; [exact H |].
  split; [vm_compute; reflexivity |].
  exact (calibrated_speeding_only_on_the_highway Qsqrt same_point_distance
           (snd (gps_sample 12000 140 1 4 (98 # 10))) 12000
           (snd (Calibrated.processDataPoint Qsqrt same_point_distance
                   (snd (gps_sample 10000 140 1 1 (98 # 10))) 10000
                   Calibrated.new_DataProcessor)) H).
Defined.

(** ** The filtered speed of the calibrated variant *)

Lemma fold_sum_between (lo hi : Q) (l : list Q) :
  Forall (fun s => lo <= s /\ s <= hi) l ->
  forall acc,
    acc + lengthQ l * lo <= fold_left Qplus l acc /\
    fold_left Qplus l acc <= acc + lengthQ l * hi.
Proof.
  induction 1 as [| a l [Ha1 Ha2] Hl IH]; intros acc.
  - change (lengthQ (@nil Q)) with 0. simpl fold_left. split; lra.
  - simpl fold_left. destruct (IH (acc + a)) as [I1 I2].
    pose proof (lengthQ_cons a l) as C.
    split.
    + eapply Qle_trans; [| exact I1]. rewrite C.
      setoid_replace ((lengthQ l + 1) * lo) with (lengthQ l * lo + lo) by ring.
      set (p := lengthQ l * lo). lra.
    + eapply Qle_trans; [exact I2 |]. rewrite C.
      setoid_replace ((lengthQ l + 1) * hi) with (lengthQ l * hi + hi) by ring.
      set (p := lengthQ l * hi). lra.
Qed.

Lemma mean_between (lo hi : Q) (l : list Q) :
  l <> [] ->
  Forall (fun s => lo <= s /\ s <= hi) l ->
  lo <= fold_left Qplus l 0 / lengthQ l /\ fold_left Qplus l 0 / lengthQ l <= hi.
Proof.
  intros Hne Hall. destruct (fold_sum_between lo hi l Hall 0) as [S1 S2].
  pose proof (lengthQ_pos l Hne) as Hp.
  set (n := lengthQ l) in *. set (s := fold_left Qplus l 0) in *.
  split.
  - apply Qle_shift_div_l; [exact Hp |]. lra.
  - apply Qle_shift_div_r; [exact Hp |]. lra.
Qed.

Lemma push_capped_not_nil {A : Type} (cap : nat) (l : list A) (a : A) :
  (1 <= cap)%nat -> push_capped cap l a <> [].
Proof.
  intros Hc E. pose proof (length_push_capped_pos cap l a Hc) as H.
  rewrite E in H. simpl in H. lia.
Qed.

Lemma fold_sum_nonneg (l : list Q) :
  Forall (fun s => 0 <= s) l -> forall acc, 0 <= acc -> 0 <= fold_left Qplus l acc.
Proof.
  induction 1 as [| a l Ha Hl IH]; intros acc Hacc; [exact Hacc |].
  simpl fold_left. apply IH. lra.
Qed.

Lemma Calibrated_updateSpeedLimit_speedHistory (c : Calibrated.DrivingContext)
  (s : Calibrated.State) :
  Calibrated.speedHistory (Calibrated.updateSpeedLimit c s) = Calibrated.speedHistory s.
Proof. destruct c; reflexivity. Qed.

(** X13.  The calibrated speed history keeps the latest five reported
    speeds.  A sample that reports a speed appends it, the oldest entry
    leaving once there are more than five, and gets a filtered speed: the
    sum of the kept speeds over their number, which is not negative when no
    kept speed is and is zero when they all are.  A sample without a speed
    leaves the history as it is and gets no filtered speed.  A history of at
    most five entries stays so. *)
Theorem speed_history_keeps_the_latest_five (Msqrt : Q -> Q) (d : RawData)
  (st : Calibrated.State) :
  let en := Calibrated.enrichData Msqrt d st in
  (forall v, velocidad d = Some v ->
     let kept := push_capped 5 (Calibrated.speedHistory st) v in
     Calibrated.speedHistory (snd en) = kept /\
     Calibrated.filtered_speed (fst en)
     = Some (fold_left Qplus kept 0 / lengthQ kept) /\
     (Forall (fun s => 0 <= s) kept ->
      0 <= fold_left Qplus kept 0 / lengthQ kept) /\
     (Forall (fun s => s == 0) kept ->
      fold_left Qplus kept 0 / lengthQ kept == 0)) /\
  (velocidad d = None ->
     Calibrated.speedHistory (snd en) = Calibrated.speedHistory st /\
     Calibrated.filtered_speed (fst en) = None) /\
  ((length (Calibrated.speedHistory st) <= 5)%nat ->
   (length (Calibrated.speedHistory (snd en)) <= 5)%nat).
Proof.
  cbv zeta. unfold Calibrated.enrichData. cbv zeta.
  cbn [fst snd Calibrated.filtered_speed].
  rewrite Calibrated_updateSpeedLimit_speedHistory.
  split; [| split].
  - intros v Hv. rewrite Hv.
    cbn [Calibrated.speedHistory Calibrated.set_speedHistory].
    split; [reflexivity |]. split; [reflexivity |].
    assert (Hne : push_capped 5 (Calibrated.speedHistory st) v <> [])
      by (apply push_capped_not_nil; lia).
    pose proof (lengthQ_pos _ Hne) as Hp.
    split.
    + intros Hall. apply Qle_shift_div_l; [exact Hp |].
      rewrite Qmult_0_l. apply fold_sum_nonneg; [exact Hall | lra].
    + intros Hall.
      assert (B : Forall (fun s => 0 <= s /\ s <= 0)
                    (push_capped 5 (Calibrated.speedHistory st) v)).
      { eapply Forall_impl; [| exact Hall]. intros a Ha. simpl in Ha.
        rewrite Ha. split; lra. }
      destruct (mean_between 0 0 _ Hne B) as [M1 M2].
      apply Qle_antisym; assumption.
  - intros Hv. rewrite Hv. split; reflexivity.
  - intros Hlen. destruct (velocidad d) as [v |]; [| exact Hlen].
    cbn [Calibrated.speedHistory Calibrated.set_speedHistory].
    apply length_push_capped_le. exact Hlen.
Qed.

Lemma speed_history_keeps_the_latest_five_witness :
  let d := mkRaw (Present 10000) (Present "P01"%string) None None (Some 60) None None None in
  let st := Calibrated.set_speedHistory Calibrated.new_DataProcessor [10; 20; 30; 40; 50] in
  Calibrated.speedHistory (snd (Calibrated.enrichData Qsqrt d st)) = [20; 30; 40; 50; 60] /\
  Calibrated.filtered_speed (fst (Calibrated.enrichData Qsqrt d st))
  = Some (fold_left Qplus [20; 30; 40; 50; 60] 0 / lengthQ [20; 30; 40; 50; 60]).
Proof.
  cbv zeta.
  pose proof (speed_history_keeps_the_latest_five Qsqrt
                (mkRaw (Present 10000) (Present "P01"%string)
                   None None (Some 60) None None None)
                (Calibrated.set_speedHistory Calibrated.new_DataProcessor
                   [10; 20; 30; 40; 50])) as T.
  cbv zeta in T. destruct T as [T _].
  destruct (T 60 eq_refl) as [T1 [T2 _]].
  split; [exact T1 | exact T2].
Defined.

(** ** Session statistics *)



(** *** Total time *)

Lemma sorted_bounds {A : Type} (time_of : A -> Q) (l : list A) (a z x : A) :
  StronglySorted Qle (map time_of l) ->
  nth_error l 0 = Some a -> last_elem l = Some z -> In x l ->
  time_of a <= time_of x /\ time_of x <= time_of z.
Proof.
  intros Hs Ha Hz Hx. split.
  - destruct l as [| b l]; [discriminate |]. injection Ha as <-.
    destruct Hx as [<- | Hx]; [lra |].
    simpl in Hs. apply StronglySorted_inv in Hs. destruct Hs as [_ Hall].
    rewrite Forall_forall in Hall. apply Hall. apply in_map. exact Hx.
  - unfold last_elem in Hz. revert Hz Hx Hs. clear Ha.
    induction l as [| b l IH]; intros Hz Hx Hs; [contradiction |].
    simpl in Hs. apply StronglySorted_inv in Hs. destruct Hs as [Hs Hall].
    destruct l as [| c l].
    + simpl in Hz. injection Hz as <-. destruct Hx as [<- | []]. lra.
    + assert (Hz' : nth_error (c :: l) (length (c :: l) - 1) = Some z).
      { simpl in Hz. simpl. rewrite Nat.sub_0_r. exact Hz. }
      destruct Hx as [<- | Hx].
      * rewrite Forall_forall in Hall. apply Hall. apply in_map.
        apply nth_error_In with (n := (length (c :: l) - 1)%nat). exact Hz'.
      * apply IH; assumption.
Qed.

Lemma sorted_filter {A : Type} (time_of : A -> Q) (f : A -> bool) (l : list A) :
  StronglySorted Qle (map time_of l) ->
  StronglySorted Qle (map time_of (filter f l)).
Proof.
  induction l as [| b l IH]; intros Hs; [constructor |].
  simpl in Hs. apply StronglySorted_inv in Hs. destruct Hs as [Hs Hall].
  simpl. destruct (f b); [| apply IH; exact Hs].
  simpl. constructor; [apply IH; exact Hs |].
  rewrite Forall_forall in *. intros t Ht. apply in_map_iff in Ht.
  destruct Ht as [x [<- Hx]]. apply filter_In in Hx. destruct Hx as [Hx _].
  apply Hall. apply in_map. exact Hx.
Qed.

Lemma total_time_ends {A : Type} (time_of : A -> Q) (l : list A) :
  (2 <= length l)%nat ->
  exists a z, nth_error l 0 = Some a /\ last_elem l = Some z /\
              In a l /\ In z l /\
              Stats.calculateTotalTime time_of l = time_of z - time_of a.
Proof.
  intros Hl. unfold Stats.calculateTotalTime.
  destruct (Nat.ltb (length l) 2) eqn:E; [apply Nat.ltb_lt in E; lia |].
  destruct (nth_error l 0) as [a|] eqn:Ea;
    [| apply nth_error_None in Ea; lia].
  destruct (last_elem l) as [z|] eqn:Ez;
    [| unfold last_elem in Ez; apply nth_error_None in Ez; lia].
  exists a, z. repeat split; try reflexivity.
  - apply nth_error_In with (n := 0%nat). exact Ea.
  - apply nth_error_In with (n := (length l - 1)%nat). exact Ez.
Qed.

(** X15.  On records in chronological order, the time spanned by any
    selection of the records (the moving ones, in [generateSessionStats]) is
    never negative and never exceeds the time spanned by all of them. *)
Theorem moving_time_is_within_total_time {A : Type} (time_of : A -> Q)
  (selected : A -> bool) (data : list A) :
  StronglySorted Qle (map time_of data) ->
  0 <= Stats.calculateTotalTime time_of (filter selected data) /\
  Stats.calculateTotalTime time_of (filter selected data)
  <= Stats.calculateTotalTime time_of data.
Proof.
  intros Hs.
  assert (P : forall l, StronglySorted Qle (map time_of l) ->
                        0 <= Stats.calculateTotalTime time_of l).
  { intros l Hl. destruct (Nat.ltb (length l) 2) eqn:E.
    - unfold Stats.calculateTotalTime. rewrite E. lra.
    - apply Nat.ltb_ge in E. destruct (total_time_ends time_of l E)
        as [a [z [Ha [Hz [_ [Iz ->]]]]]].
      destruct (sorted_bounds time_of l a z z Hl Ha Hz Iz). lra. }
  split; [apply P, sorted_filter, Hs |].
  destruct (Nat.ltb (length (filter selected data)) 2) eqn:E.
  - unfold Stats.calculateTotalTime at 1. rewrite E. apply P, Hs.
  - apply Nat.ltb_ge in E.
    assert (E' : (2 <= length data)%nat).
    { pose proof (filter_length_le selected data). lia. }
    destruct (total_time_ends time_of _ E) as [a [z [_ [_ [Ia [Iz ->]]]]]].
    destruct (total_time_ends time_of _ E') as [a' [z' [Ha' [Hz' [_ [_ ->]]]]]].
    apply filter_In in Ia. apply filter_In in Iz.
    destruct (sorted_bounds time_of data a' z' a Hs Ha' Hz' (proj1 Ia)).
    destruct (sorted_bounds time_of data a' z' z Hs Ha' Hz' (proj1 Iz)).
    lra.
Qed.

Lemma moving_time_is_within_total_time_witness :
  StronglySorted Qle (map (fun t : Q => t) [10000; 11500; 13000; 14500]) /\
  Stats.calculateTotalTime (fun t : Q => t)
    (filter (fun t => Qgtb t 11000 && Qltb t 14000) [10000; 11500; 13000; 14500])
  <= Stats.calculateTotalTime (fun t : Q => t) [10000; 11500; 13000; 14500].
Proof.
  assert (H : StronglySorted Qle (map (fun t : Q => t) [10000; 11500; 13000; 14500])).
  { simpl. repeat constructor; intro E; discriminate E. }
  split; [exact H |].
  exact (proj2 (moving_time_is_within_total_time (fun t : Q => t)
                  (fun t => Qgtb t 11000 && Qltb t 14000)
                  [10000; 11500; 13000; 14500] H)).
Defined.

(** *** Risk score *)

Lemma Math_round_between (lo hi : Z) (q : Q) :
  inject_Z lo <= q -> q <= inject_Z hi -> (lo <= Math_round q <= hi)%Z.
Proof.
  intros H1 H2. unfold Math_round. split.
  - rewrite <- (Qfloor_Z lo). apply Qfloor_resp_le. lra.
  - apply Z.lt_succ_r. rewrite Zlt_Qlt.
    pose proof (Qfloor_le (q + (1 # 2))) as F.
    unfold Z.succ. rewrite inject_Z_plus. change (inject_Z 1) with 1. lra.
Qed.

Lemma Math_round_nonneg (q : Q) : 0 <= q -> (0 <= Math_round q)%Z.
Proof.
  intros H. unfold Math_round. rewrite <- (Qfloor_Z 0).
  apply Qfloor_resp_le. change (inject_Z 0) with 0. lra.
Qed.

Lemma formatNumber2_nonneg (q : Q) : 0 <= q -> 0 <= formatNumber2 q.
Proof.
  intros H. unfold formatNumber2.
  assert (R : (0 <= Math_round (q * 100))%Z) by (apply Math_round_nonneg; lra).
  apply Qle_shift_div_l; [reflexivity |].
  rewrite Qmult_0_l. rewrite Zle_Qle in R. exact R.
Qed.

Lemma risk_score_range (o : option Stats.EventsPerKm) (d : Q) :
  let x := match o with Some p => Stats.total_events_per_km p | None => 0 end in
  let r := Stats.calculateRiskScore o d in
  (x <= 1 -> Stats.level r = Stats.risk_low /\ Stats.score r = Math_round (x * 30)) /\
  (1 < x -> x <= 3 ->
   Stats.level r = Stats.risk_moderate /\ Stats.score r = Math_round (30 + x * 20)) /\
  (3 < x ->
   Stats.level r = Stats.risk_high /\ Stats.score r = Math_round (70 + Qmin (x * 5) 30)).
Proof.
  cbv zeta. unfold Stats.calculateRiskScore. cbv zeta.
  set (x := match o with Some p => Stats.total_events_per_km p | None => 0 end).
  case_cmp (Qgtb x 3); [| case_cmp (Qgtb x 1)]; simpl;
    repeat split; intros; try reflexivity; exfalso; lra.
Qed.

(** X16.  The risk assessment of a session.  Without distance (no two GPS
    fixes apart) the level is low and the score 0, whatever the event
    counters hold.  For a distance that is not negative the score lies
    between 0 and 100.  And the score is not monotone in the events per km:
    it is 90 at exactly 3 events per km, the top of the moderate level, and
    below 90 for every value above 3 and below 3.9, where the level is
    high. *)
Theorem risk_score_bounded_but_not_monotone (c : EventCounters) (d : Q)
  (p : Stats.EventsPerKm) :
  (d == 0 ->
   Stats.level (Stats.risk_assessment c d) = Stats.risk_low /\
   Stats.score (Stats.risk_assessment c d) = 0%Z) /\
  (0 <= d -> (0 <= Stats.score (Stats.risk_assessment c d) <= 100)%Z) /\
  (Stats.total_events_per_km p == 3 ->
   Stats.level (Stats.calculateRiskScore (Some p) d) = Stats.risk_moderate /\
   Stats.score (Stats.calculateRiskScore (Some p) d) = 90%Z) /\
  (3 < Stats.total_events_per_km p -> Stats.total_events_per_km p < 39 # 10 ->
   Stats.level (Stats.calculateRiskScore (Some p) d) = Stats.risk_high /\
   (Stats.score (Stats.calculateRiskScore (Some p) d) < 90)%Z).
Proof.
  split; [| split; [| split]].
  - intros Hd. unfold Stats.risk_assessment, Stats.calculateEventsPerKm. cbv zeta.
    assert (E : Qeq_bool (d / 1000) 0 = true).
    { apply Qeq_bool_iff. rewrite Hd. reflexivity. }
    rewrite E. split; reflexivity.
  - intros Hd. unfold Stats.risk_assessment.
    set (o := Stats.calculateEventsPerKm c d).
    destruct (risk_score_range o d) as [R1 [R2 R3]]. cbv zeta in R1, R2, R3.
    assert (Hx : 0 <= match o with Some q => Stats.total_events_per_km q | None => 0 end).
    { subst o. unfold Stats.calculateEventsPerKm. cbv zeta.
      destruct (Qeq_bool (d / 1000) 0) eqn:E; [lra |].
      cbn [Stats.total_events_per_km]. apply formatNumber2_nonneg.
      apply Qle_shift_div_l.
      - apply Qeq_bool_neq in E.
        assert (0 <= d / 1000) by (apply Qle_shift_div_l; [reflexivity | lra]).
        lra.
      - rewrite Qmult_0_l. unfold Stats.countQ.
        rewrite <- (Zle_Qle 0). apply Nat2Z.is_nonneg. }
    set (x := match o with Some q => Stats.total_events_per_km q | None => 0 end) in *.
    destruct (Qlt_le_dec 3 x) as [H3 | H3].
    + destruct (R3 H3) as [_ ->].
      apply (Math_round_between 0 100).
      * change (inject_Z 0) with 0.
        pose proof (Q.le_min_l (x * 5) 30). pose proof (Q.min_spec (x * 5) 30) as M.
        destruct M as [[_ M] | [_ M]]; rewrite M; lra.
      * change (inject_Z 100) with 100. pose proof (Q.le_min_r (x * 5) 30). lra.
    + destruct (Qlt_le_dec 1 x) as [H1 | H1].
      * destruct (R2 H1 H3) as [_ ->]. apply (Math_round_between 0 100).
        -- change (inject_Z 0) with 0. lra.
        -- change (inject_Z 100) with 100. lra.
      * destruct (R1 H1) as [_ ->]. apply (Math_round_between 0 100).
        -- change (inject_Z 0) with 0. lra.
        -- change (inject_Z 100) with 100. lra.
  - intros H3. destruct (risk_score_range (Some p) d) as [_ [R2 _]]. cbv zeta in R2.
    destruct R2 as [L S]; [lra | lra |]. split; [exact L |]. rewrite S.
    unfold Math_round.
    assert (E : 30 + Stats.total_events_per_km p * 20 + (1 # 2) == 181 # 2)
      by (rewrite H3; reflexivity).
    rewrite (Qfloor_comp _ _ E). reflexivity.
  - intros H3 H4. destruct (risk_score_range (Some p) d) as [_ [_ R3]]. cbv zeta in R3.
    destruct (R3 H3) as [L S]. split; [exact L |]. rewrite S.
    assert (B : (85 <= Math_round (70 + Qmin (Stats.total_events_per_km p * 5) 30) <= 89)%Z).
    { pose proof (Q.min_spec (Stats.total_events_per_km p * 5) 30) as M.
      unfold Math_round. split.
      - rewrite <- (Qfloor_Z 85). apply Qfloor_resp_le. change (inject_Z 85) with 85.
        destruct M as [[_ M] | [_ M]]; rewrite M; lra.
      - apply Z.lt_succ_r. rewrite Zlt_Qlt.
        pose proof (Qfloor_le (70 + Qmin (Stats.total_events_per_km p * 5) 30 + (1 # 2))) as F.
        change (inject_Z (Z.succ 89)) with 90.
        pose proof (Q.le_min_l (Stats.total_events_per_km p * 5) 30). lra. }
    lia.
Qed.

Lemma risk_score_bounded_but_not_monotone_witness :
  (Stats.level (Stats.risk_assessment (mkCounters 4 3 2 1) 0) = Stats.risk_low /\
   Stats.score (Stats.risk_assessment (mkCounters 4 3 2 1) 0) = 0%Z) /\
  (0 <= Stats.score (Stats.risk_assessment (mkCounters 4 3 2 1) 2500) <= 100)%Z /\
  Stats.score (Stats.calculateRiskScore (Some (Stats.mkPerKm 1 1 1 0 3)) 2500) = 90%Z /\
  (Stats.score (Stats.calculateRiskScore (Some (Stats.mkPerKm 1 1 1 (1 # 2) (35 # 10))) 2500)
   < 90)%Z.
Proof.
  destruct (risk_score_bounded_but_not_monotone (mkCounters 4 3 2 1) 0
              (Stats.mkPerKm 1 1 1 0 3)) as [A _].
  destruct (risk_score_bounded_but_not_monotone (mkCounters 4 3 2 1) 2500
              (Stats.mkPerKm 1 1 1 0 3)) as [_ [B [C _]]].
  destruct (risk_score_bounded_but_not_monotone (mkCounters 4 3 2 1) 2500
              (Stats.mkPerKm 1 1 1 (1 # 2) (35 # 10))) as [_ [_ [_ D]]].
  assert (H0 : 0 == 0) by reflexivity.
  assert (H1 : 0 <= 2500) by (intro E; discriminate E).
  assert (H2 : Stats.total_events_per_km (Stats.mkPerKm 1 1 1 0 3) == 3) by reflexivity.
  assert (H3 : 3 < Stats.total_events_per_km (Stats.mkPerKm 1 1 1 (1 # 2) (35 # 10)))
    by reflexivity.
  assert (H4 : Stats.total_events_per_km (Stats.mkPerKm 1 1 1 (1 # 2) (35 # 10)) < 39 # 10)
    by reflexivity.
  destruct (C H2) as [_ C2]. destruct (D H3 H4) as [_ D2].
  split; [exact (A H0) |].
  split; [exact (B H1) |].
  split; [exact C2 | exact D2].
Defined.

(** *** Speed summaries *)

Lemma Qmax_cases (s a : Q) : Qmax s a = s \/ Qmax s a = a.
Proof. unfold Qmax, GenericMinMax.gmax. destruct (s ?= a); auto. Qed.

Lemma fold_max_spec (l : list Q) (s : Q) :
  (forall x, In x (s :: l) -> x <= fold_left Qmax l s) /\
  In (fold_left Qmax l s) (s :: l).
Proof.
  revert s. induction l as [| a l IH]; intros s.
  - simpl. split; [intros x [<- | []]; lra | left; reflexivity].
  - cbn [fold_left]. destruct (IH (Qmax s a)) as [I1 I2]. split.
    + intros x [<- | [<- | Hx]].
      * eapply Qle_trans; [apply Q.le_max_l | apply I1; left; reflexivity].
      * eapply Qle_trans; [apply Q.le_max_r | apply I1; left; reflexivity].
      * apply I1. right. exact Hx.
    + destruct I2 as [E | Hin].
      * rewrite <- E. destruct (Qmax_cases s a) as [-> | ->];
          [left | right; left]; reflexivity.
      * right. right. exact Hin.
Qed.

Lemma fold_sum_lower (lo : Q) (l : list Q) :
  Forall (fun s => lo <= s) l ->
  forall acc, acc + lengthQ l * lo <= fold_left Qplus l acc.
Proof.
  induction 1 as [| a l Ha Hl IH]; intros acc.
  - change (lengthQ (@nil Q)) with 0. simpl fold_left. lra.
  - simpl fold_left. eapply Qle_trans; [| apply IH].
    rewrite (lengthQ_cons a l).
    setoid_replace ((lengthQ l + 1) * lo) with (lengthQ l * lo + lo) by ring.
    set (p := lengthQ l * lo). lra.
Qed.

Lemma mean_above (lo : Q) (l : list Q) :
  l <> [] -> Forall (fun s => lo < s) l -> lo < fold_left Qplus l 0 / lengthQ l.
Proof.
  intros Hne Hall. pose proof (lengthQ_pos l Hne) as Hp.
  apply Qlt_shift_div_l; [exact Hp |].
  destruct l as [| a l]; [congruence |].
  inversion Hall as [| ? ? Ha Hl]; subst.
  simpl fold_left.
  assert (Hl' : Forall (fun s => lo <= s) l).
  { eapply Forall_impl; [| exact Hl]. intros s Hs. apply Qlt_le_weak, Hs. }
  pose proof (fold_sum_lower lo l Hl' (0 + a)) as S.
  rewrite (lengthQ_cons a l).
  setoid_replace (lo * (lengthQ l + 1)) with (lengthQ l * lo + lo) by ring.
  set (p := lengthQ l * lo) in *. lra.
Qed.

(** X17.  The speed summaries of a session.  [calculateMaxSpeed] is at least
    every reported speed that is not zero and is one of them, or 0 when no
    record reports one.  [calculateAverageSpeed] averages only filtered
    speeds above 5 km/h, so it is 0 or above 5. *)
Theorem speed_summaries (data : list Calibrated.Enriched) :
  let reports d := truthy (velocidad (Calibrated.e_raw d)) in
  let speed d := num (velocidad (Calibrated.e_raw d)) in
  Forall (fun d => speed d <= Stats.calculateMaxSpeed data) (filter reports data) /\
  ((exists d, In d data /\ reports d = true /\ Stats.calculateMaxSpeed data = speed d) \/
   (Forall (fun d => reports d = false) data /\ Stats.calculateMaxSpeed data = 0)) /\
  (Stats.calculateAverageSpeed data = 0 \/ 5 < Stats.calculateAverageSpeed data).
Proof.
  cbv zeta. split; [| split].
  - apply Forall_forall. intros d Hin. apply filter_In in Hin. destruct Hin as [Hin Hr].
    unfold Stats.calculateMaxSpeed. cbv zeta.
    assert (I : In (num (velocidad (Calibrated.e_raw d)))
                  (map (fun d => num (velocidad (Calibrated.e_raw d)))
                     (filter (fun d => truthy (velocidad (Calibrated.e_raw d))) data))).
    { apply (in_map (fun d => num (velocidad (Calibrated.e_raw d)))).
      apply filter_In. split; assumption. }
    destruct (map _ _) as [| s rest]; [contradiction |].
    apply (proj1 (fold_max_spec rest s)). exact I.
  - unfold Stats.calculateMaxSpeed. cbv zeta.
    destruct (map (fun d => num (velocidad (Calibrated.e_raw d)))
                (filter (fun d => truthy (velocidad (Calibrated.e_raw d))) data))
      as [| s rest] eqn:E.
    + right. split; [| reflexivity].
      apply Forall_forall. intros d Hin.
      destruct (truthy (velocidad (Calibrated.e_raw d))) eqn:T; [| reflexivity].
      assert (I : In d (filter (fun d => truthy (velocidad (Calibrated.e_raw d))) data))
        by (apply filter_In; split; assumption).
      apply (in_map (fun d => num (velocidad (Calibrated.e_raw d)))) in I.
      rewrite E in I. contradiction.
    + left. pose proof (proj2 (fold_max_spec rest s)) as I.
      rewrite <- E in I. apply in_map_iff in I. destruct I as [d [Hd Hin]].
      apply filter_In in Hin. destruct Hin as [Hin Hr].
      exists d. split; [exact Hin |]. split; [exact Hr |]. symmetry. exact Hd.
  - unfold Stats.calculateAverageSpeed. cbv zeta.
    set (l := map (fun d => num (Calibrated.filtered_speed d))
                (filter (fun d => Calibrated.speed_above (Calibrated.filtered_speed d) 5) data)).
    destruct (Nat.ltb 0 (length l)) eqn:E; [right | left; reflexivity].
    apply mean_above.
    + intros N. rewrite N in E. discriminate E.
    + subst l. apply Forall_forall. intros s Hs. apply in_map_iff in Hs.
      destruct Hs as [d [<- Hin]]. apply filter_In in Hin. destruct Hin as [_ Ha].
      unfold Calibrated.speed_above in Ha.
      destruct (Calibrated.filtered_speed d) as [v|]; [| discriminate].
      apply Qgtb_true in Ha. exact Ha.
Qed.

(** ** Durations *)

(** Linear arithmetic with quotients and remainders by constants. *)
Ltac div_lia := Z.to_euclidean_division_equations; lia.

Lemma pad2_two_digits (n : Z) : (0 <= n < 100)%Z -> Utils.pad2 n = two_digits n.
Proof.
  intros H. rewrite <- (Z2Nat.id n) by lia.
  assert (K : (Z.to_nat n < 100)%nat) by lia.
  generalize dependent (Z.to_nat n). clear H. intros k K.
  do 100 (destruct k as [| k]; [vm_compute; reflexivity |]).
  lia.
Qed.

Lemma digit_char_inj (a b : Z) :
  (0 <= a < 10)%Z -> (0 <= b < 10)%Z -> digit_char a = digit_char b -> a = b.
Proof.
  intros Ha Hb E. unfold digit_char in E.
  apply (f_equal nat_of_ascii) in E.
  rewrite !nat_ascii_embedding in E by lia. lia.
Qed.

Lemma two_digits_inj (a b : Z) :
  (0 <= a < 100)%Z -> (0 <= b < 100)%Z -> two_digits a = two_digits b -> a = b.
Proof.
  intros Ha Hb E. unfold two_digits in E. injection E as E1 E2.
  apply digit_char_inj in E1; [| div_lia | div_lia].
  apply digit_char_inj in E2; [| div_lia | div_lia].
  div_lia.
Qed.

Lemma durationParts_spec (s : Z) :
  (0 <= s < 360000)%Z ->
  let '(h, m, x) := Utils.durationParts s in
  (h * 3600 + m * 60 + x = s /\ 0 <= h < 100 /\ 0 <= m < 60 /\ 0 <= x < 60)%Z.
Proof.
  intros H. unfold Utils.durationParts. cbv zeta.
  rewrite !Z.rem_mod_nonneg by lia. div_lia.
Qed.

Lemma formatDuration_digits (s : Z) :
  (0 <= s < 360000)%Z ->
  let '(h, m, x) := Utils.durationParts s in
  Utils.formatDuration s
  = String.append (two_digits h)
      (String.append ":" (String.append (two_digits m) (String.append ":" (two_digits x)))).
Proof.
  intros H. pose proof (durationParts_spec s H) as P.
  unfold Utils.formatDuration.
  destruct (Utils.durationParts s) as [[h m] x].
  destruct P as [_ [Hh [Hm Hx]]].
  rewrite !pad2_two_digits by lia. reflexivity.
Qed.

(** X18.  [formatDuration] on a whole number of seconds below 100 hours: the
    hours, minutes and seconds it prints add up to the input, minutes and
    seconds stay below 60, the text has the eight characters of [HH:MM:SS],
    and two different durations never print the same text. *)
Theorem formatDuration_round_trip (s : Z) :
  (0 <= s < 360000)%Z ->
  (let '(h, m, x) := Utils.durationParts s in
   (h * 3600 + m * 60 + x = s /\ 0 <= h < 100 /\ 0 <= m < 60 /\ 0 <= x < 60)%Z /\
   Utils.formatDuration s
   = String.append (two_digits h)
       (String.append ":" (String.append (two_digits m) (String.append ":" (two_digits x))))) /\
  String.length (Utils.formatDuration s) = 8%nat /\
  (forall s', (0 <= s' < 360000)%Z ->
              Utils.formatDuration s' = Utils.formatDuration s -> s' = s).
Proof.
  intros H.
  pose proof (durationParts_spec s H) as P. pose proof (formatDuration_digits s H) as F.
  destruct (Utils.durationParts s) as [[h m] x] eqn:D.
  split; [split; assumption |].
  split; [rewrite F; reflexivity |].
  intros s' H' E.
  pose proof (durationParts_spec s' H') as P'.
  pose proof (formatDuration_digits s' H') as F'.
  destruct (Utils.durationParts s') as [[h' m'] x'].
  rewrite F, F' in E. unfold two_digits in E. simpl in E.
  injection E as E1 E2 E3 E4 E5 E6.
  destruct P as [P0 [Ph [Pm Px]]]. destruct P' as [P0' [Ph' [Pm' Px']]].
  assert (h' = h).
  { apply two_digits_inj; [lia | lia |]. unfold two_digits. rewrite E1, E2. reflexivity. }
  assert (m' = m).
  { apply two_digits_inj; [lia | lia |]. unfold two_digits. rewrite E3, E4. reflexivity. }
  assert (x' = x).
  { apply two_digits_inj; [lia | lia |]. unfold two_digits. rewrite E5, E6. reflexivity. }
  lia.
Qed.

Lemma formatDuration_round_trip_witness :
  (0 <= 3725 < 360000)%Z /\
  Utils.durationParts 3725 = (1, 2, 5)%Z /\
  Utils.formatDuration 3725 = "01:02:05"%string /\
  String.length (Utils.formatDuration 3725) = 8%nat.
Proof.
  assert (H : (0 <= 3725 < 360000)%Z) by lia.
  destruct (formatDuration_round_trip 3725 H) as [_ [L _]].
  split; [exact H |]. split; [reflexivity |]. split; [reflexivity | exact L].
Defined.

(** ** The integrity hash *)

Lemma to_int32_range (z : Z) : (- 2 ^ 31 <= Utils.to_int32 z < 2 ^ 31)%Z.
Proof.
  unfold Utils.to_int32.
  change (2 ^ 31)%Z with 2147483648%Z. change (2 ^ 32)%Z with 4294967296%Z.
  div_lia.
Qed.

Lemma to_int32_add (u v : Z) :
  Utils.to_int32 (Utils.to_int32 u + v) = Utils.to_int32 (u + v).
Proof.
  unfold Utils.to_int32.
  change (2 ^ 31)%Z with 2147483648%Z. change (2 ^ 32)%Z with 4294967296%Z.
  f_equal.
  replace ((u + 2147483648) mod 4294967296 - 2147483648 + v + 2147483648)%Z
    with ((u + 2147483648) mod 4294967296 + v)%Z by lia.
  replace (u + v + 2147483648)%Z with ((u + 2147483648) + v)%Z by lia.
  apply Zplus_mod_idemp_l.
Qed.

Lemma to_int32_mul (u k : Z) :
  Utils.to_int32 (Utils.to_int32 u * k) = Utils.to_int32 (u * k).
Proof.
  unfold Utils.to_int32.
  change (2 ^ 31)%Z with 2147483648%Z. change (2 ^ 32)%Z with 4294967296%Z.
  f_equal.
  set (m := 4294967296%Z).
  rewrite <- (Zplus_mod_idemp_l (((u + 2147483648) mod m - 2147483648) * k)).
  rewrite <- (Zplus_mod_idemp_l (u * k)).
  f_equal. f_equal.
  rewrite <- (Zmult_mod_idemp_l ((u + 2147483648) mod m - 2147483648)).
  rewrite <- (Zmult_mod_idemp_l u). f_equal. f_equal.
  rewrite <- Zminus_mod_idemp_l. rewrite Z.mod_mod by (subst m; lia).
  rewrite Zminus_mod_idemp_l. f_equal. lia.
Qed.

Lemma hash_step_poly (h : Z) (c : ascii) :
  Utils.hash_step (Utils.to_int32 h) c = Utils.to_int32 (31 * h + Utils.charCode c).
Proof.
  unfold Utils.hash_step. cbv zeta. rewrite Z.land_diag, Z.shiftl_mul_pow2 by lia.
  change (2 ^ 5)%Z with 32%Z.
  set (k := Utils.charCode c).
  assert (I : Utils.to_int32 (Utils.to_int32 h) = Utils.to_int32 h).
  { rewrite <- (Z.add_0_r (Utils.to_int32 h)) at 1. rewrite to_int32_add.
    f_equal. lia. }
  rewrite I.
  replace (Utils.to_int32 (Utils.to_int32 h * 32) - Utils.to_int32 h + k)%Z
    with (Utils.to_int32 (Utils.to_int32 h * 32) + (- Utils.to_int32 h + k))%Z by lia.
  rewrite to_int32_add.
  replace (Utils.to_int32 h * 32 + (- Utils.to_int32 h + k))%Z
    with (Utils.to_int32 h * 31 + k)%Z by lia.
  rewrite <- (to_int32_add (Utils.to_int32 h * 31) k).
  rewrite to_int32_mul, to_int32_add.
  f_equal. lia.
Qed.

Lemma hash_loop_cons (c : ascii) (rest : string) (x : Z) :
  Utils.hash_loop (String c rest) x = Utils.hash_loop rest (Utils.hash_step x c).
Proof. reflexivity. Qed.

Lemma poly31_cons (c : ascii) (rest : string) (h : Z) :
  poly31 (String c rest) h = poly31 rest (31 * h + Utils.charCode c).
Proof. reflexivity. Qed.

Lemma hash_loop_poly (str : string) (h : Z) :
  Utils.hash_loop str (Utils.to_int32 h) = Utils.to_int32 (poly31 str h).
Proof.
  revert h. induction str as [| c rest IH]; intros h; [reflexivity |].
  rewrite hash_loop_cons, poly31_cons, hash_step_poly. apply IH.
Qed.

(** X19.  [simpleHash] is the polynomial string hash in base 31 on signed
    32-bit integers: after the loop the hash is the signed 32-bit integer
    congruent to the polynomial in 31 whose coefficients are the character
    codes, first character in the highest power, whatever the length of the
    string; the number whose base-36 numeral is returned is its absolute
    value, at most [2^31]; and the empty string gives the number 0. *)
Theorem simpleHash_is_the_polynomial_hash (str : string) :
  Utils.hash_loop str 0 = Utils.to_int32 (poly31 str 0) /\
  (- 2 ^ 31 <= Utils.hash_loop str 0 < 2 ^ 31)%Z /\
  match Utils.simpleHash str with
  | Utils.number_zero => str = EmptyString
  | Utils.base36 n =>
      str <> EmptyString /\ n = Z.abs (Utils.to_int32 (poly31 str 0)) /\
      (0 <= n <= 2 ^ 31)%Z
  end.
Proof.
  assert (E : Utils.hash_loop str 0 = Utils.to_int32 (poly31 str 0)).
  { change 0%Z with (Utils.to_int32 0) at 1. apply hash_loop_poly. }
  split; [exact E |]. split; [rewrite E; apply to_int32_range |].
  unfold Utils.simpleHash. destruct str as [| c rest]; [reflexivity |].
  change (Nat.eqb (String.length (String c rest)) 0) with false. cbv iota.
  split; [discriminate |]. rewrite E. split; [reflexivity |].
  pose proof (to_int32_range (poly31 (String c rest) 0)) as R.
  change (2 ^ 31)%Z with 2147483648%Z in *. lia.
Qed.

(** ** Sanitised input *)

Lemma trimStart_fixed (s : list ascii) :
  (forall c, hd_error s = Some c -> Utils.is_space c = false) -> Utils.trimStart s = s.
Proof.
  destruct s as [| c rest]; [reflexivity |].
  intros H. simpl. rewrite (H c eq_refl). reflexivity.
Qed.

Lemma filter_fixed {A : Type} (f : A -> bool) (l : list A) :
  Forall (fun a => f a = true) l -> filter f l = l.
Proof.
  induction 1 as [| a l Ha Hl IH]; [reflexivity |].
  simpl. rewrite Ha, IH. reflexivity.
Qed.

Lemma In_firstn {A : Type} (n : nat) (l : list A) (a : A) :
  In a (firstn n l) -> In a l.
Proof.
  intros H. rewrite <- (firstn_skipn n l). apply in_or_app. left. exact H.
Qed.

(** X20.  [sanitizeInput] never returns more than 50 characters and never
    returns an angle bracket; an argument that is not a string gives the
    empty string; and a string of at most 50 characters without angle
    brackets and without white space at either end is returned unchanged. *)
Theorem sanitizeInput_bounds_and_fixed_points (input : option (list ascii)) :
  (length (Utils.sanitizeInput input) <= 50)%nat /\
  Forall (fun c => c <> "<"%char /\ c <> ">"%char) (Utils.sanitizeInput input) /\
  (input = None -> Utils.sanitizeInput input = []) /\
  (forall s, input = Some s -> already_clean s -> Utils.sanitizeInput input = s).
Proof.
  split; [| split; [| split]].
  - destruct input as [s|]; unfold Utils.sanitizeInput; [| simpl; lia].
    apply firstn_le_length.
  - destruct input as [s|]; unfold Utils.sanitizeInput; [| constructor].
    apply Forall_forall. intros c Hin.
    apply In_firstn in Hin. apply filter_In in Hin. destruct Hin as [_ Hc].
    unfold Utils.is_angle in Hc. apply negb_true_iff, orb_false_iff in Hc.
    destruct Hc as [H1 H2]. split; intros ->; [rewrite Ascii.eqb_refl in H1
                                              | rewrite Ascii.eqb_refl in H2];
      discriminate.
  - intros ->. reflexivity.
  - intros s -> [Hlen [Hang [Hhd Htl]]]. unfold Utils.sanitizeInput, Utils.trim.
    rewrite (trimStart_fixed s Hhd), (trimStart_fixed (rev s) Htl), rev_involutive.
    rewrite filter_fixed.
    + apply firstn_all2. exact Hlen.
    + eapply Forall_impl; [| exact Hang]. intros c Hc. simpl in Hc. rewrite Hc. reflexivity.
Qed.

Lemma sanitizeInput_bounds_and_fixed_points_witness :
  already_clean (list_ascii_of_string "P07") /\
  Utils.sanitizeInput (Some (list_ascii_of_string "P07")) = list_ascii_of_string "P07" /\
  Utils.sanitizeInput (Some (list_ascii_of_string "  <b>P07</b> "))
  = list_ascii_of_string "bP07/b".
Proof.
  assert (H : already_clean (list_ascii_of_string "P07")).
  { unfold already_clean. cbn [list_ascii_of_string length rev app hd_error].
    split; [lia |].
    split; [repeat constructor |].
    split; intros c [= <-]; reflexivity. }
  split; [exact H |].
  split; [| reflexivity].
  destruct (sanitizeInput_bounds_and_fixed_points (Some (list_ascii_of_string "P07")))
    as [_ [_ [_ F]]].
  exact (F _ eq_refl H).
Defined.

(** ** Stored logs *)






(** ** Local storage with a time to live *)




(** ** Recording *)

Lemma merge_keeps_identity (sd : DrivingMonitorApp.SensorData) (rec : RawData)
  (lastR : option FieldTested.Enriched) :
  timestamp (DrivingMonitorApp.mergeWithLastRecord sd rec lastR) = timestamp rec /\
  participante (DrivingMonitorApp.mergeWithLastRecord sd rec lastR) = participante rec.
Proof.
  unfold DrivingMonitorApp.mergeWithLastRecord.
  destruct lastR as [l|]; [| split; reflexivity].
  destruct sd; cbv zeta;
    match goal with |- context [if ?c then _ else _] => destruct c end;
    split; reflexivity.
Qed.

Lemma complete_record_valid (sd : DrivingMonitorApp.SensorData) (now : Q)
  (app : DrivingMonitorApp.App) (lastR : option FieldTested.Enriched) :
  let rec := DrivingMonitorApp.mergeWithLastRecord sd
               (DrivingMonitorApp.baseRecord sd now app) lastR in
  validateDataStructure (Some rec) = true /\ instant rec = now.
Proof.
  cbv zeta.
  destruct (merge_keeps_identity sd (DrivingMonitorApp.baseRecord sd now app) lastR)
    as [T P].
  unfold validateDataStructure, instant. rewrite T, P.
  destruct sd; split; reflexivity.
Qed.

(** What one [recordDataPoint] does while recording: nothing below the
    record interval, and otherwise one more stored record, stamped with the
    clock of the call. *)
Lemma recordDataPoint_step (Msqrt : Q -> Q) (dist : Q -> Q -> Q -> Q -> Q)
  (sd : DrivingMonitorApp.SensorData) (now : Q) (app : DrivingMonitorApp.App) :
  DrivingMonitorApp.isRecording app = true ->
  DrivingMonitorApp.isPaused app = false ->
  let dp := DrivingMonitorApp.dataProcessor app in
  let app' := DrivingMonitorApp.recordDataPoint Msqrt dist sd now app in
  let dp' := DrivingMonitorApp.dataProcessor app' in
  let rec := DrivingMonitorApp.mergeWithLastRecord sd
               (DrivingMonitorApp.baseRecord sd now app)
               (last_elem (DrivingMonitorApp.data app)) in
  DrivingMonitorApp.isRecording app' = true /\
  DrivingMonitorApp.isPaused app' = false /\
  FieldTested.recordInterval dp' = FieldTested.recordInterval dp /\
  (now - FieldTested.lastRecordTime dp < FieldTested.recordInterval dp ->
   DrivingMonitorApp.data app' = DrivingMonitorApp.data app /\
   FieldTested.lastRecordTime dp' = FieldTested.lastRecordTime dp) /\
  (FieldTested.recordInterval dp <= now - FieldTested.lastRecordTime dp ->
   FieldTested.lastRecordTime dp' = now /\
   exists r, DrivingMonitorApp.data app' = DrivingMonitorApp.data app ++ [r] /\
             FieldTested.e_raw r = rec).
Proof.
  intros Hr Hp. cbv zeta. unfold DrivingMonitorApp.recordDataPoint.
  rewrite Hr, Hp. cbn [negb orb]. cbv zeta.
  set (rec := DrivingMonitorApp.mergeWithLastRecord sd _ _).
  destruct (complete_record_valid sd now app (last_elem (DrivingMonitorApp.data app)))
    as [Hv Hi]. fold rec in Hv, Hi.
  pose proof (FieldTested_gate_clock Msqrt dist (Some rec) now
                (DrivingMonitorApp.dataProcessor app)) as G. cbv zeta in G.
  pose proof (FieldTested_process_none Msqrt dist (Some rec) now
                (DrivingMonitorApp.dataProcessor app)) as N.
  destruct (FieldTested.processDataPoint Msqrt dist (Some rec) now
              (DrivingMonitorApp.dataProcessor app)) as [res dp'] eqn:HP.
  cbn [fst snd] in G, N. destruct G as [G1 [G2 G3]].
  destruct res as [r|]; cbn [DrivingMonitorApp.isRecording DrivingMonitorApp.isPaused
                             DrivingMonitorApp.data DrivingMonitorApp.dataProcessor].
  - split; [reflexivity |]. split; [reflexivity |]. split; [exact G1 |]. split.
    + intros Hlt. exfalso.
      assert (C : Some r = None) by (apply N; left; exact Hlt). discriminate C.
    + intros Hge. split; [apply G3; exact Hge |]. exists (FieldTested.processed r).
      split; [reflexivity |].
      apply FieldTested_process_some in HP.
      destruct HP as [d [[= <-] [_ [_ H]]]]. cbv zeta in H. destruct H as [-> _].
      reflexivity.
  - split; [reflexivity |]. split; [reflexivity |]. split; [exact G1 |].
    destruct (proj1 N eq_refl) as [Hlt | Hinv]; [| rewrite Hv in Hinv; discriminate].
    rewrite (G2 Hlt). split; [intros _; split; reflexivity |]. intros Hge. lra.
Qed.

Lemma spaced_records_push (gap : Q) (l : list FieldTested.Enriched)
  (b : FieldTested.Enriched) :
  spaced_records gap l ->
  (forall a, last_elem l = Some a ->
             instant (FieldTested.e_raw a) + gap <= instant (FieldTested.e_raw b)) ->
  spaced_records gap (l ++ [b]).
Proof.
  intros Hs Hl i a c Ha Hc.
  destruct (Nat.lt_ge_cases (S i) (length l)) as [Hi | Hi].
  - rewrite nth_error_app1 in Ha by lia. rewrite nth_error_app1 in Hc by lia.
    exact (Hs i a c Ha Hc).
  - destruct (Nat.eq_dec (S i) (length l)) as [E | E].
    + rewrite nth_error_app1 in Ha by lia.
      rewrite nth_error_app2 in Hc by lia.
      replace (S i - length l)%nat with 0%nat in Hc by lia. injection Hc as <-.
      apply Hl. unfold last_elem. rewrite <- E. simpl. rewrite Nat.sub_0_r. exact Ha.
    + assert (N : nth_error (l ++ [b]) (S i) = None).
      { apply nth_error_None. rewrite length_app. simpl. lia. }
      rewrite N in Hc. discriminate.
Qed.

Lemma last_elem_app_one {A : Type} (l : list A) (a : A) : last_elem (l ++ [a]) = Some a.
Proof.
  unfold last_elem. rewrite length_app. simpl.
  replace (length l + 1 - 1)%nat with (length l) by lia.
  rewrite nth_error_app2 by lia. rewrite Nat.sub_diag. reflexivity.
Qed.

(** [recordDataPoint] is [recordDataPoint_at] with both clock readings in
    the same millisecond. *)
Lemma recordDataPoint_same_clock (Msqrt : Q -> Q) (dist : Q -> Q -> Q -> Q -> Q)
  (sd : DrivingMonitorApp.SensorData) (now : Q) (app : DrivingMonitorApp.App) :
  DrivingMonitorApp.recordDataPoint Msqrt dist sd now app
  = DrivingMonitorApp.recordDataPoint_at Msqrt dist sd now now app.
Proof. reflexivity. Qed.

(** What one [recordDataPoint_at] does while recording: nothing when the
    gate's clock is below the record interval, and otherwise one more stored
    record, stamped with the first clock reading. *)
Lemma recordDataPoint_at_step (Msqrt : Q -> Q) (dist : Q -> Q -> Q -> Q -> Q)
  (sd : DrivingMonitorApp.SensorData) (stamp now : Q) (app : DrivingMonitorApp.App) :
  DrivingMonitorApp.isRecording app = true ->
  DrivingMonitorApp.isPaused app = false ->
  let dp := DrivingMonitorApp.dataProcessor app in
  let app' := DrivingMonitorApp.recordDataPoint_at Msqrt dist sd stamp now app in
  let dp' := DrivingMonitorApp.dataProcessor app' in
  FieldTested.recordInterval dp' = FieldTested.recordInterval dp /\
  (now - FieldTested.lastRecordTime dp < FieldTested.recordInterval dp ->
   DrivingMonitorApp.data app' = DrivingMonitorApp.data app /\
   FieldTested.lastRecordTime dp' = FieldTested.lastRecordTime dp) /\
  (FieldTested.recordInterval dp <= now - FieldTested.lastRecordTime dp ->
   FieldTested.lastRecordTime dp' = now /\
   exists r, DrivingMonitorApp.data app' = DrivingMonitorApp.data app ++ [r] /\
             instant (FieldTested.e_raw r) = stamp).
Proof.
  intros Hr Hp. cbv zeta. unfold DrivingMonitorApp.recordDataPoint_at.
  rewrite Hr, Hp. cbn [negb orb]. cbv zeta.
  set (rec := DrivingMonitorApp.mergeWithLastRecord sd _ _).
  destruct (complete_record_valid sd stamp app (last_elem (DrivingMonitorApp.data app)))
    as [Hv Hi]. fold rec in Hv, Hi.
  pose proof (FieldTested_gate_clock Msqrt dist (Some rec) now
                (DrivingMonitorApp.dataProcessor app)) as G. cbv zeta in G.
  pose proof (FieldTested_process_none Msqrt dist (Some rec) now
                (DrivingMonitorApp.dataProcessor app)) as N.
  destruct (FieldTested.processDataPoint Msqrt dist (Some rec) now
              (DrivingMonitorApp.dataProcessor app)) as [res dp'] eqn:HP.
  cbn [fst snd] in G, N. destruct G as [G1 [G2 G3]].
  destruct res as [r|]; cbn [DrivingMonitorApp.isRecording DrivingMonitorApp.isPaused
                             DrivingMonitorApp.data DrivingMonitorApp.dataProcessor].
  - split; [exact G1 |]. split.
    + intros Hlt. exfalso.
      assert (C : Some r = None) by (apply N; left; exact Hlt). discriminate C.
    + intros Hge. split; [apply G3; exact Hge |]. exists (FieldTested.processed r).
      split; [reflexivity |].
      apply FieldTested_process_some in HP.
      destruct HP as [d [[= <-] [_ [_ H]]]]. cbv zeta in H. destruct H as [-> _].
      exact Hi.
  - split; [exact G1 |].
    destruct (proj1 N eq_refl) as [Hlt | Hinv]; [| rewrite Hv in Hinv; discriminate].
    rewrite (G2 Hlt). split; [intros _; split; reflexivity |]. intros Hge. lra.
Qed.

(** X23.  The application stores at most one record per record interval,
    up to the time a call takes.  A record is stamped with the clock that
    [recordDataPoint] reads, while the rate gate of [processDataPoint] reads
    the clock again, later.  Starting from an empty session, if in every
    call the second reading follows the first by at most [delay]
    milliseconds, then each stored record is stamped at least
    [recordInterval - delay] after the one before it, whatever the order and
    the kind of the readings; when both readings always agree that is the
    full record interval. *)
Theorem stored_records_are_spaced (Msqrt : Q -> Q) (dist : Q -> Q -> Q -> Q -> Q)
  (delay : Q) (readings : list (Q * Q * DrivingMonitorApp.SensorData))
  (app : DrivingMonitorApp.App) :
  DrivingMonitorApp.data app = [] ->
  timely delay readings ->
  spaced_records (FieldTested.recordInterval (DrivingMonitorApp.dataProcessor app) - delay)
    (DrivingMonitorApp.data (DrivingMonitorApp.record_all_at Msqrt dist readings app)).
Proof.
  intros H0 Ht.
  set (gap := FieldTested.recordInterval (DrivingMonitorApp.dataProcessor app)).
  assert (G : forall rs a,
            timely delay rs ->
            FieldTested.recordInterval (DrivingMonitorApp.dataProcessor a) = gap ->
            spaced_records (gap - delay) (DrivingMonitorApp.data a) ->
            (forall r, last_elem (DrivingMonitorApp.data a) = Some r ->
                       instant (FieldTested.e_raw r)
                       <= FieldTested.lastRecordTime (DrivingMonitorApp.dataProcessor a)) ->
            spaced_records (gap - delay)
              (DrivingMonitorApp.data (DrivingMonitorApp.record_all_at Msqrt dist rs a))).
  { unfold DrivingMonitorApp.record_all_at, timely.
    induction rs as [| [[stamp now] sd] rest IH]; intros a Hall Hg Hs Hl; [exact Hs |].
    inversion Hall as [| ? ? [Hc1 Hc2] Hrest]; subst. cbn [fst snd] in Hc1, Hc2.
    simpl fold_left.
    destruct (negb (DrivingMonitorApp.isRecording a) || DrivingMonitorApp.isPaused a) eqn:On.
    - unfold DrivingMonitorApp.recordDataPoint_at at 2. rewrite On. apply IH; assumption.
    - apply orb_false_iff in On. destruct On as [On1 On2]. apply negb_false_iff in On1.
      destruct (recordDataPoint_at_step Msqrt dist sd stamp now a On1 On2)
        as [S1 [S2 S3]]. cbv zeta in S1, S2, S3.
      destruct (Qlt_le_dec (now - FieldTested.lastRecordTime (DrivingMonitorApp.dataProcessor a))
                  (FieldTested.recordInterval (DrivingMonitorApp.dataProcessor a)))
        as [Hlt | Hge].
      + destruct (S2 Hlt) as [D L]. apply IH.
        * exact Hrest.
        * rewrite S1. exact Hg.
        * rewrite D. exact Hs.
        * rewrite D, L. exact Hl.
      + destruct (S3 Hge) as [L [r [D Ir]]].
        apply IH.
        * exact Hrest.
        * rewrite S1. exact Hg.
        * rewrite D. apply spaced_records_push; [exact Hs |].
          intros p Hp. specialize (Hl p Hp). rewrite Ir. rewrite Hg in Hge. lra.
        * rewrite D, L. intros p Hp. rewrite last_elem_app_one in Hp.
          injection Hp as <-. rewrite Ir. exact Hc1. }
  apply G.
  - exact Ht.
  - reflexivity.
  - rewrite H0. intros i a b Ha. destruct i; discriminate Ha.
  - rewrite H0. intros r Hr. discriminate Hr.
Qed.

Lemma stored_records_are_spaced_witness :
  DrivingMonitorApp.data fresh_session = [] /\
  timely 2 late_gate /\
  map (fun r => instant (FieldTested.e_raw r))
    (DrivingMonitorApp.data
       (DrivingMonitorApp.record_all_at Qsqrt same_point_distance late_gate
          fresh_session)) = [10000; 11498] /\
  spaced_records
    (FieldTested.recordInterval (DrivingMonitorApp.dataProcessor fresh_session) - 2)
    (DrivingMonitorApp.data
       (DrivingMonitorApp.record_all_at Qsqrt same_point_distance late_gate
          fresh_session)).
Proof.
  assert (H : timely 2 late_gate).
  { unfold timely, late_gate. repeat constructor; cbn [fst snd]; intro E; discriminate E. }
  split; [reflexivity |]. split; [exact H |]. split; [vm_compute; reflexivity |].
  exact (stored_records_are_spaced Qsqrt same_point_distance 2 late_gate
           fresh_session eq_refl H).
Defined.

(** X24.  Accelerometer readings repeat the last stored position.  Once the
    last stored record has a non-zero latitude, every record stored for a
    later accelerometer reading carries the latitude, longitude and speed of
    that record, for as long as no GPS reading arrives: the processor keeps
    seeing the old fix and the old speed. *)
Theorem motion_records_repeat_the_last_fix (Msqrt : Q -> Q)
  (dist : Q -> Q -> Q -> Q -> Q)
  (readings : list (Q * DrivingMonitorApp.SensorData)) (app : DrivingMonitorApp.App)
  (r0 : FieldTested.Enriched) :
  Forall (fun rd => is_motion (snd rd) = true) readings ->
  last_elem (DrivingMonitorApp.data app) = Some r0 ->
  truthy (lat (FieldTested.e_raw r0)) = true ->
  exists stored,
    DrivingMonitorApp.data (DrivingMonitorApp.record_all Msqrt dist readings app)
    = DrivingMonitorApp.data app ++ stored /\
    Forall (carries_fix (lat (FieldTested.e_raw r0)) (lon (FieldTested.e_raw r0))
              (velocidad (FieldTested.e_raw r0))) stored.
Proof.
  intros Hm Hl Ht.
  set (a := lat (FieldTested.e_raw r0)) in *.
  set (b := lon (FieldTested.e_raw r0)).
  set (v := velocidad (FieldTested.e_raw r0)).
  assert (C0 : carries_fix a b v r0) by (repeat split).
  clearbody a b v. revert app r0 Hl C0.
  unfold DrivingMonitorApp.record_all.
  induction Hm as [| [now sd] rest Hsd Hrest IH]; intros app r0 Hl C0.
  - exists []. rewrite app_nil_r. split; [reflexivity | constructor].
  - simpl fold_left. simpl in Hsd.
    destruct (negb (DrivingMonitorApp.isRecording app) || DrivingMonitorApp.isPaused app)
      eqn:On.
    + unfold DrivingMonitorApp.recordDataPoint at 2. rewrite On.
      apply (IH app r0); assumption.
    + apply orb_false_iff in On. destruct On as [On1 On2]. apply negb_false_iff in On1.
      destruct (recordDataPoint_step Msqrt dist sd now app On1 On2)
        as [_ [_ [_ [S2 S3]]]]. cbv zeta in S2, S3.
      destruct (Qlt_le_dec
                  (now - FieldTested.lastRecordTime (DrivingMonitorApp.dataProcessor app))
                  (FieldTested.recordInterval (DrivingMonitorApp.dataProcessor app)))
        as [Hlt | Hge].
      * destruct (S2 Hlt) as [D _].
        destruct (IH (DrivingMonitorApp.recordDataPoint Msqrt dist sd now app) r0)
          as [stored [E F]]; [rewrite D; exact Hl | exact C0 |].
        exists stored. rewrite E, D. split; [reflexivity | exact F].
      * destruct (S3 Hge) as [_ [r [D R]]].
        assert (Cr : carries_fix a b v r).
        { destruct C0 as [Ca [Cb Cv]]. unfold carries_fix. rewrite R, Hl.
          destruct sd as [ax ay az | la lo sp]; [| discriminate Hsd].
          unfold DrivingMonitorApp.mergeWithLastRecord. cbv zeta.
          rewrite Ca, Ht. cbn [lat lon velocidad]. rewrite Cb, Cv. repeat split. }
        destruct (IH (DrivingMonitorApp.recordDataPoint Msqrt dist sd now app) r)
          as [stored [E F]]; [rewrite D; apply last_elem_app_one | exact Cr |].
        exists (r :: stored). rewrite E, D, <- app_assoc.
        split; [reflexivity | constructor; assumption].
Qed.

Lemma motion_records_repeat_the_last_fix_witness :
  Forall (fun rd => is_motion (snd rd) = true) (skipn 1 fix_then_motion) /\
  last_elem (DrivingMonitorApp.data session_with_fix) = Some stored_fix /\
  truthy (lat (FieldTested.e_raw stored_fix)) = true /\
  exists stored,
    DrivingMonitorApp.data
      (DrivingMonitorApp.record_all Qsqrt same_point_distance (skipn 1 fix_then_motion)
         session_with_fix)
    = DrivingMonitorApp.data session_with_fix ++ stored /\
    Forall (carries_fix (lat (FieldTested.e_raw stored_fix))
              (lon (FieldTested.e_raw stored_fix))
              (velocidad (FieldTested.e_raw stored_fix))) stored.
Proof.
  assert (H1 : Forall (fun rd => is_motion (snd rd) = true) (skipn 1 fix_then_motion))
    by (repeat constructor).
  assert (H2 : last_elem (DrivingMonitorApp.data session_with_fix) = Some stored_fix)
    by (vm_compute; reflexivity).
  assert (H3 : truthy (lat (FieldTested.e_raw stored_fix)) = true) by reflexivity.
  split; [exact H1 |]. split; [exact H2 |]. split; [exact H3 |].
  exact (motion_records_repeat_the_last_fix Qsqrt same_point_distance
           (skipn 1 fix_then_motion) session_with_fix stored_fix H1 H2 H3).
Defined.

(** ** Partial threshold updates *)

(** X25.  [setThresholds] merges key by key: each of the ten threshold keys
    keeps its value when the update does not mention it and takes the new
    value when it does; two updates in a row amount to one update in which
    the later value of each key wins; the empty update changes nothing;
    nothing but the thresholds is touched; and the update of
    [setupDataProcessor] leaves a new processor with thresholds 2.5, 2.5, 4
    and 15 and every other threshold at its default. *)
Theorem setThresholds_merges_key_by_key (u1 u2 : ThresholdUpdate)
  (st : FieldTested.State) :
  setThresholds_with u2 (setThresholds_with u1 st)
  = setThresholds_with (then_update u1 u2) st /\
  setThresholds_with (mkUpdate None None None None None None None None None None) st = st /\
  FieldTested.set_thresholds (setThresholds_with u1 st) (FieldTested.thresholds st) = st /\
  (let th := FieldTested.thresholds st in
   let th' := FieldTested.thresholds (setThresholds_with u1 st) in
   FieldTested.harsh_acceleration th'
   = over (FieldTested.harsh_acceleration th) (u_harsh_acceleration u1) /\
   FieldTested.harsh_braking th'
   = over (FieldTested.harsh_braking th) (u_harsh_braking u1) /\
   FieldTested.aggressive_turn th'
   = over (FieldTested.aggressive_turn th) (u_aggressive_turn u1) /\
   FieldTested.speeding th' = over (FieldTested.speeding th) (u_speeding u1) /\
   FieldTested.minimum_speed th'
   = over (FieldTested.minimum_speed th) (u_minimum_speed u1) /\
   FieldTested.motion_threshold th'
   = over (FieldTested.motion_threshold th) (u_motion_threshold u1) /\
   FieldTested.sustained_motion th'
   = over (FieldTested.sustained_motion th) (u_sustained_motion u1) /\
   FieldTested.acceleration_noise th'
   = over (FieldTested.acceleration_noise th) (u_acceleration_noise u1) /\
   FieldTested.gps_noise th' = over (FieldTested.gps_noise th) (u_gps_noise u1) /\
   FieldTested.stability_time th'
   = over (FieldTested.stability_time th) (u_stability_time u1)) /\
  FieldTested.thresholds (setThresholds_with experiment_thresholds FieldTested.new_DataProcessor)
  = FieldTested.mkThresholds (25 # 10) (25 # 10) 4 15 3 (3 # 2) 5 (1 # 2) 1 2000.
Proof.
  destruct st as [th c b ah mh ba le mv mc ga lr ri sl lg wm].
  destruct th as [t1 t2 t3 t4 t5 t6 t7 t8 t9 t10].
  destruct u1 as [a1 a2 a3 a4 a5 a6 a7 a8 a9 a10].
  destruct u2 as [b1 b2 b3 b4 b5 b6 b7 b8 b9 b10].
  split; [| split; [| split; [| split]]]; try reflexivity;
    [| cbv zeta; repeat split; reflexivity].
  unfold setThresholds_with, FieldTested.setThresholds, FieldTested.set_thresholds,
    spread_thresholds, then_update.
  cbn [FieldTested.thresholds FieldTested.eventCounters FieldTested.dataBuffer
       FieldTested.accelerationHistory FieldTested.motionHistory
       FieldTested.baselineAcceleration FieldTested.lastEventTime
       FieldTested.isVehicleMoving FieldTested.movementConfidence
       FieldTested.gpsAvailable FieldTested.lastRecordTime FieldTested.recordInterval
       FieldTested.currentSpeedLimit FieldTested.lastGPSPoint FieldTested.wasMoving
       FieldTested.harsh_acceleration FieldTested.harsh_braking FieldTested.aggressive_turn
       FieldTested.speeding FieldTested.minimum_speed FieldTested.motion_threshold
       FieldTested.sustained_motion FieldTested.acceleration_noise FieldTested.gps_noise
       FieldTested.stability_time
       u_harsh_acceleration u_harsh_braking u_aggressive_turn u_speeding u_minimum_speed
       u_motion_threshold u_sustained_motion u_acceleration_noise u_gps_noise
       u_stability_time].
  do 2 f_equal;
    match goal with
    | |- over (over _ ?a) ?b = _ => destruct a, b; reflexivity
    end.
Qed.

(** ** Events of the export *)

(** X26.  The event columns of the CSV export against live detection.  A
    row is never flagged both as harsh acceleration and as harsh braking.
    And whenever the processor's speed limit plus its speeding threshold is
    at least 65, every accepted sample for which the processor reported a
    speeding event is flagged as speeding in its exported row: the export
    compares the reported speed with 50 + 15, as the stored records carry no
    speed limit. *)
Theorem export_flags_cover_live_speeding (Msqrt : Q -> Q)
  (dist : Q -> Q -> Q -> Q -> Q) (raw : option RawData) (now : Q)
  (st : FieldTested.State) (row : ExportManager.Row) :
  65 <= FieldTested.currentSpeedLimit st + FieldTested.speeding (FieldTested.thresholds st) ->
  ExportManager.row_harsh_acceleration (ExportManager.detectEventsForRow row)
  && ExportManager.row_harsh_braking (ExportManager.detectEventsForRow row) = false /\
  match fst (FieldTested.processDataPoint Msqrt dist raw now st) with
  | Some r =>
      has_type speeding_t (FieldTested.events r) = true ->
      ExportManager.row_speeding
        (ExportManager.detectEventsForRow (export_row (FieldTested.processed r))) = true
  | None => True
  end.
Proof.
  intros H65. split.
  - unfold ExportManager.detectEventsForRow. cbv zeta.
    cbn [ExportManager.row_harsh_acceleration ExportManager.row_harsh_braking].
    destruct (truthy (ExportManager.r_longitudinal_acceleration row)); [| reflexivity].
    cbn [andb].
    case_cmp (Qgtb (num (ExportManager.r_longitudinal_acceleration row)) (25 # 10));
      [| reflexivity].
    case_cmp (Qltb (num (ExportManager.r_longitudinal_acceleration row)) (- (25 # 10)));
      [| reflexivity].
    exfalso. lra.
  - destruct (fst (FieldTested.processDataPoint Msqrt dist raw now st)) as [r|] eqn:HP;
      [| exact I].
    intros Hs. apply has_type_In in Hs. destruct Hs as [e [Hin Hty]].
    assert (Hin' : In e (FieldTested_call_events
                           (fst (FieldTested.processDataPoint Msqrt dist raw now st))))
      by (rewrite HP; exact Hin).
    apply FieldTested_call_event in Hin'.
    destruct Hin' as [d [r' [_ [Hr H]]]]. rewrite HP in Hr. injection Hr as <-.
    cbv zeta in H. destruct H as [Hp [_ Ht]].
    assert (S : FieldTested.trigger_speeding (FieldTested.thresholds st)
                  (FieldTested.currentSpeedLimit st) (FieldTested.processed r) = Some e).
    { rewrite Hp. destruct Ht as [H | [H | [H | H]]]; [| | | exact H].
      - apply FieldTested_trigger_harsh_acceleration in H. destruct H as [H _]. congruence.
      - apply FieldTested_trigger_harsh_braking in H. destruct H as [H _]. congruence.
      - apply FieldTested_trigger_aggressive_turn in H. destruct H as [f [_ [_ H]]].
        rewrite H in Hty. discriminate Hty. }
    apply FieldTested_trigger_speeding_fields in S.
    destruct S as [_ [v [Sv [Sx _]]]].
    unfold ExportManager.detectEventsForRow, export_row. cbv zeta.
    cbn [ExportManager.row_speeding ExportManager.r_velocidad ExportManager.r_speed_limit
         orNum]. rewrite Sv. cbn [truthy num].
    apply andb_true_iff. split.
    + apply truthyQ_true. intros E. rewrite E in Sx. lra.
    + apply Qgtb_true. lra.
Qed.

Lemma export_flags_cover_live_speeding_witness :
  65 <= FieldTested.currentSpeedLimit warmed_up
        + FieldTested.speeding (FieldTested.thresholds warmed_up) /\
  has_type speeding_t
    (FieldTested_call_events
       (fst (FieldTested.processDataPoint Qsqrt same_point_distance
               (snd speeding_call) (fst speeding_call) warmed_up))) = true /\
  match fst (FieldTested.processDataPoint Qsqrt same_point_distance
               (snd speeding_call) (fst speeding_call) warmed_up) with
  | Some r =>
      has_type speeding_t (FieldTested.events r) = true ->
      ExportManager.row_speeding
        (ExportManager.detectEventsForRow (export_row (FieldTested.processed r))) = true
  | None => True
  end.
Proof.
  assert (H : 65 <= FieldTested.currentSpeedLimit warmed_up
                    + FieldTested.speeding (FieldTested.thresholds warmed_up))
    by (vm_compute; discriminate).
  split; [exact H |].
  split; [vm_compute; reflexivity |].
  pose proof (export_flags_cover_live_speeding Qsqrt same_point_distance
                (snd speeding_call) (fst speeding_call) warmed_up
                (ExportManager.mkRow None None None None) H) as T.
  destruct T as [_ T]. exact T.
Defined.

(** ** The first sample after a reset *)

Lemma first_sample_evidence (Msqrt : Q -> Q) (dist : Q -> Q -> Q -> Q -> Q)
  (d : RawData) (now : Q) (st : FieldTested.State) :
  let ev := FieldTested.gatherEvidence Msqrt dist d now
              (FieldTested.set_lastRecordTime (FieldTested.resetCounters st) now) in
  FieldTested.gpsMotion ev = false /\ FieldTested.accelMotion ev = false /\
  FieldTested.sustained ev = false.
Proof.
  cbv zeta. destruct st.
  unfold FieldTested.gatherEvidence, FieldTested.hasGPSMovement,
    FieldTested.detectMotionFromAccelerometer, FieldTested.resetCounters,
    FieldTested.hasSustainedMotion.
  ft_norm.
  destruct (truthy (lat d) && truthy (lon d));
    destruct (negb (truthy (x d)) || negb (truthy (y d)) || negb (truthy (z d)));
    cbn; repeat split; reflexivity.
Qed.

(** X27.  The first sample after a reset is never moving.  Whatever the
    sample reports, the call that follows [resetCounters] returns, if it
    returns at all, an enriched sample that is not moving, with confidence 0
    or 40, and no event: GPS displacement needs an earlier fix and
    accelerometer motion needs the baseline. *)
Theorem first_sample_after_reset_is_never_moving (Msqrt : Q -> Q)
  (dist : Q -> Q -> Q -> Q -> Q) (raw : option RawData) (now : Q)
  (st : FieldTested.State) :
  match fst (FieldTested.processDataPoint Msqrt dist raw now (FieldTested.resetCounters st))
  with
  | Some r =>
      FieldTested.vehicle_moving (FieldTested.processed r) = false /\
      (FieldTested.movement_confidence (FieldTested.processed r) == 0 \/
       FieldTested.movement_confidence (FieldTested.processed r) == 40) /\
      FieldTested.events r = []
  | None => True
  end.
Proof.
  destruct (FieldTested.processDataPoint Msqrt dist raw now (FieldTested.resetCounters st))
    as [res st'] eqn:HP.
  destruct res as [r|]; simpl fst; [| exact I].
  apply FieldTested_process_some in HP.
  destruct HP as [d [_ [_ [_ H]]]]. cbv zeta in H. destruct H as [Hp [He _]].
  destruct (FieldTested_update_fields Msqrt dist d now
              (FieldTested.set_lastRecordTime (FieldTested.resetCounters st) now))
    as [Uc [Um _]]. cbv zeta in Uc, Um.
  destruct (first_sample_evidence Msqrt dist d now st) as [E1 [E2 E3]]. cbv zeta in E1, E2, E3.
  set (st2 := FieldTested.updateHybridMovementDetection Msqrt dist d now _) in *.
  set (ev := FieldTested.gatherEvidence Msqrt dist d now _) in *.
  assert (C : (FieldTested.movementConfidence st2 == 0 \/
               FieldTested.movementConfidence st2 == 40) /\
              FieldTested.isVehicleMoving st2 = false).
  { rewrite Um, Uc. unfold FieldTested.fuseConfidence, FieldTested.add_if.
    rewrite E1, E2, E3.
    destruct (FieldTested.gpsAvailable (FieldTested.after_evidence ev));
      destruct (FieldTested.speedCriteria ev);
      (split; [first [left; vm_compute; reflexivity | right; vm_compute; reflexivity]
              | vm_compute; reflexivity]). }
  destruct C as [C1 C2].
  rewrite He, Hp. cbn [FieldTested.vehicle_moving FieldTested.movement_confidence
                        FieldTested.enrichDataFieldTested].
  split; [exact C2 |]. split; [exact C1 |].
  rewrite (FieldTested_detect_still _ now st2 C2). reflexivity.
Qed.
